(* ===== verification/_CoqProject ===== *)
-Q . S2P
Prelude.v
CString.v
Ports.v
Keyboard.v
Asm.v
Vga.v
VgaFormat.v
Fs.v
FsPath.v
FsOps.v
FsData.v
FsDelete.v
FsSpec.v
FsRemove.v
FsRun.v
FsClaims.v
Terminal.v
TermEdit.v
TermShell.v
TermSafe.v
TermClaims.v
TermPrints.v
Kernel.v
Session.v
Uefi.v
