(* ===== verification/Prelude.v ===== *)
(** * FoxOS: a verification development of the FoxOS kernel

    FoxOS is a small x86-64 kernel with a text screen, a polled PS/2 keyboard, an
    in-memory file system and a command line.  This library translates its C
    code into executable Rocq functions and proves what the parts promise to
    each other and to the user.

    ** The program

    [src/kernel.c] clears the screen, sets up the file system and the keyboard,
    prints a banner, starts the terminal and then calls [terminal_run] for ever.
    One call of [terminal_run] polls the keyboard ([src/keyboard.c]), which
    decodes scan codes read with the port instructions of [src/io.h], and handles
    at most one key: it edits the input line, redraws it with the text driver
    ([src/vga.c]), and on Enter executes the line as a command.  The commands on
    files call the file system ([src/fs.c]); what they have to say they print
    with [vga_printf].  [fs.c] also has the string routines everybody uses.
    Before the kernel runs, it is loaded by BIOS code ([src/boot.asm],
    [src/stage2.asm]) or by one of three UEFI applications ([uefi_loader.c],
    [foxos_uefi.c], [src/uefi_bootloader.c]; [src/uefitest.c] only prints).

    ** How the code is modelled

    A C function is a Rocq function of the same name.  Its result is an [outcome]:
    [Ok], or a [Fault] where C gives no meaning to the program (an index outside
    an array, a variadic argument that does not fit its conversion) or where the
    fuel of a loop is used up.  A theorem that says [= Ok ...] therefore includes
    memory safety and termination.  Static variables of a file are a record that
    the functions take and return; integers are [Z], reduced at the widths of the
    C types ([u8] ... [s64]) wherever the C code stores or converts them; an array
    is the list of its cells, and a string is an array with a NUL ([is_str]).

    - [Prelude]: outcomes, arrays, machine integers, the [for] loops of the code,
      literals, tactics, hint databases, shared lemmas.
    - [CString]: [strcpy], [strcmp], [strlen], [strcat], [strncpy], [strncmp] of
      [src/fs.c] and what they compute on strings.
    - [Ports]: [inb] ... [outl] of [src/io.h]: a log of port accesses; what the
      hardware answers is a parameter of type [io_env].
    - [Keyboard]: [src/keyboard.c]; [keyboard_read] with its three static
      variables ([kbd]) as a state machine on scan codes; a US keyboard, written
      down without the tables of the driver, and texts typed on it.
    - [Asm]: the instructions of the assembly block of the [exit] command in
      [src/terminal.c], the block itself ([exit_asm]) and a processor that runs it.
    - [Vga]: [src/vga.c] but the formatted output; the record [vga] is the 80x25
      page, the cursor, the colour and the port log.
    - [VgaFormat]: [vga_put_dec], [vga_put_hex], [vga_put_bin], [vga_printf].
    - [Fs]: all of the file system code of [src/fs.c]; the record [fs] is [files]
      and [file_count].  [FsPath]: the invariant of the table and path
      resolution.  [FsOps], [FsData], [FsDelete]: each operation on every branch.
      [FsSpec]: the abstract file system, a finite map from paths to nodes, and
      the refinement of creation and writing.  [FsRemove]: of deletion.
      [FsRun]: of sequences of operations from [fs_init] on.  [FsClaims]: the
      resulting properties of single operations.
    - [Terminal]: all of [src/terminal.c]; the record [machine] has the terminal's
      variables ([term]), the screen, the file system and the keyboard driver.
      [TermEdit]: the line editor against a zipper.  [TermShell]: arguments, paths
      and the recognition of commands.  [TermSafe], [TermClaims]: the commands.
      [TermPrints]: what the commands that only print leave alone.
    - [Kernel]: [_start] of [src/kernel.c] and its loop.  [Session]: the loop with
      a keyboard controller that delivers scan codes, against states made of the
      edited line, the current directory and the tree.
    - [Uefi]: the UEFI applications, as sequences of firmware calls.

    ** What the theorems show

    - Screen: no character drives the text driver outside the page, and its
      cursor always agrees with the cursor registers of the CRT controller;
      scrolling moves the rows; text appears where the cursor is; numbers in
      bases 10, 16 and 2 read back as the numbers printed; [vga_printf] prints
      what its format stands for.
    - Keyboard: a text typed on a US keyboard decodes to that text, however often
      the polling loop samples each scan code; [keyboard_wait] returns after the
      first poll that finds the controller ready, and never without one.
    - File system: the exact result of every operation on every branch, that the
      table stays a tree, that creations, writes, reads, listings and deletions
      are those of the abstract file system, one by one and in sequences.  A
      listing never overruns a buffer of at least one byte (and always one of
      size 0).
      Deletion is so only while no parent lies more than two slots behind the
      deleted entry; what happens otherwise is proved as well (the distance is
      halved) and shown by a run in which a file changes its directory.
    - Terminal: while the line fits its row, the buffer, the screen and the cursor
      follow the edited line; every command but [exit] is memory safe if the path
      it puts together has less than 512 characters, and writes out of bounds if
      not; [mkdir], [touch], [rm] implement the abstract operations at the path
      the argument stands for; [cd] and [ls] do what they say; [exit] waits for
      the controller, asks for the power to be switched off and never comes back.
    - Kernel: from any contents of the memory (only the current directory needs
      its initialiser) the boot reaches the prompt with an empty file tree; from
      there the loop follows the session that the decoded keys describe, from
      scan codes to the file tree, for sessions with lines of one row, all
      commands but [exit], paths that fit their buffers, no [touch] of a path
      that ends in a slash and no deletion with a far parent.
    - UEFI: [uefi_loader.c] releases what it acquires under every behaviour of the
      firmware; how the other loaders end.
    - Some theorems state where the code departs from what it means to do: paths
      without a slash, paths that end in one, commands recognised by their first
      letters, directory paths near the size of their buffer, lines of more than
      one row, a format that ends in a per cent sign, short reads at boot.

    ** Fuel and bounds

    A [for] loop with a constant bound runs that number of times and needs no
    fuel.  A loop over a string consumes the list.  The digit loops have fuel one
    more than the size of their buffer, so that an overrun would be a fault before
    the fuel ends; the theorems show that neither happens.  The loop of
    [fs_parse_path] has one turn per cell of the path, and every turn consumes at
    least one character.
    The polling loop of [keyboard_wait] has no bound in the code: its fuel is a
    parameter, and the theorems that need it to end assume that the hardware
    becomes ready within it.  The assembly block of [exit] has fuel for that number
    of polls, of three instructions each, and for the other instructions; that it
    never ends is proved for every number of steps.  The endless loop of the
    kernel is run for a given number of turns.

    ** What is not modelled

    The BIOS boot code ([src/boot.asm], [src/stage2.asm]) is assembly, and with
    the Makefile and the linker script has no counterpart here.  The BIOS
    interrupts of the [exit] command are events of the log with their registers;
    whether they come back and what they leave in the registers are parameters.
    Firmware, keyboard controller and display hardware are parameters.  The UEFI
    model has the calls in their order with their arguments, not the layout of
    the firmware's tables or the calling conventions of the declared function
    types.

    ** Open

    Lines longer than one row beyond the fault on the first row; the printed value of [%x] and [%b] for [int] arguments, whose
    upper half the calling convention leaves undefined; deletions with [fs_delete]
    and repeated deletions with far parents at the level of the tree. *)

From Stdlib Require Export ZArith Lia Ascii String.
From stdpp Require Export base tactics numbers option list decidable.

#[global] Open Scope Z_scope.

(** ** Outcomes

    C code either returns or meets a condition for which C gives no meaning.
    [Fault] makes that condition a value: an access outside an array, a loop
    that used up the fuel of its model, a variadic argument that was not
    passed or is not of the kind the conversion asks for. *)

Inductive fault :=
| OutOfBounds
| OutOfFuel
| BadVaArg.

Inductive outcome (A : Type) :=
| Ok (a : A)
| Fault (e : fault).
Arguments Ok {A} a.
Arguments Fault {A} e.

#[global] Instance fault_eq_dec : EqDecision fault.
Proof. solve_decision. Defined.

#[global] Instance outcome_eq_dec {A} `{EqDecision A} : EqDecision (outcome A).
Proof. solve_decision. Defined.

#[global] Instance outcome_ret : MRet outcome := λ A a, Ok a.
#[global] Instance outcome_bind : MBind outcome := λ A B f m,
  match m with
  | Ok a => f a
  | Fault e => Fault e
  end.
#[global] Instance outcome_fmap : FMap outcome := λ A B f m,
  match m with
  | Ok a => Ok (f a)
  | Fault e => Fault e
  end.

(** ** Arrays

    An array object is a list of its cells; an index outside it is a fault. *)

Definition arr_get {A} (l : list A) (i : Z) : outcome A :=
  if i <? 0 then Fault OutOfBounds
  else match l !! Z.to_nat i with
       | Some x => Ok x
       | None => Fault OutOfBounds
       end.

Definition arr_set {A} (l : list A) (i : Z) (x : A) : outcome (list A) :=
  if (0 <=? i) && (i <? Z.of_nat (length l))
  then Ok (<[Z.to_nat i := x]> l)
  else Fault OutOfBounds.

(** ** Machine integers *)

Definition u8 (z : Z) : Z := z mod 256.
Definition u16 (z : Z) : Z := z mod 65536.
Definition u32 (z : Z) : Z := z mod 4294967296.
Definition u64 (z : Z) : Z := z mod 18446744073709551616.
Definition s8 (z : Z) : Z := (z + 128) mod 256 - 128.
Definition s32 (z : Z) : Z := (z + 2147483648) mod 4294967296 - 2147483648.
Definition s64 (z : Z) : Z :=
  (z + 9223372036854775808) mod 18446744073709551616 - 9223372036854775808.

(** ** Loops

    [for_up n i body s] runs [body] at [i], [i+1], ..., [i+n-1];
    [for_range lo hi] is [for (i = lo; i < hi; i++)] with a bound the body
    does not change.  [for_break] is the same loop with a [break];
    [for_find] is the loop that stops at the first index meeting a condition. *)

Inductive ctl (S : Type) :=
| Continue (s : S)
| Break (s : S).
Arguments Continue {S} s.
Arguments Break {S} s.

Fixpoint for_up {S} (n : nat) (i : Z) (body : Z → S → outcome S) (s : S)
  : outcome S :=
  match n with
  | O => Ok s
  | S n' => s' ← body i s; for_up n' (i + 1) body s'
  end.

Definition for_range {S} (lo hi : Z) (body : Z → S → outcome S) (s : S) :=
  for_up (Z.to_nat (hi - lo)) lo body s.

Fixpoint for_break_up {S} (n : nat) (i : Z) (body : Z → S → outcome (ctl S))
    (s : S) : outcome S :=
  match n with
  | O => Ok s
  | S n' =>
      c ← body i s;
      match c with
      | Continue s' => for_break_up n' (i + 1) body s'
      | Break s' => Ok s'
      end
  end.

Definition for_break {S} (lo hi : Z) (body : Z → S → outcome (ctl S)) (s : S) :=
  for_break_up (Z.to_nat (hi - lo)) lo body s.

Fixpoint for_find_up (n : nat) (i : Z) (cond : Z → outcome bool)
  : outcome (option Z) :=
  match n with
  | O => Ok None
  | S n' =>
      b ← cond i;
      if (b : bool) then Ok (Some i) else for_find_up n' (i + 1) cond
  end.

Definition for_find (lo hi : Z) (cond : Z → outcome bool) : outcome (option Z) :=
  for_find_up (Z.to_nat (hi - lo)) lo cond.

(** ** Characters and string literals *)

Definition chr (a : ascii) : Z := Z.of_N (N_of_ascii a).

(** The characters of a literal, without the terminating NUL. *)
Fixpoint chars (s : string) : list Z :=
  match s with
  | EmptyString => []
  | String a s' => chr a :: chars s'
  end.

(** The array object of a literal: its characters and the NUL. *)
Definition lit (s : string) : list Z := chars s ++ [0].

Arguments chars s%_string_scope.
Arguments lit s%_string_scope.

(** ** Automation

    [foxos] collects the rewriting and resolution lemmas of the development;
    [zify_bool] turns the boolean tests of the code into arithmetic facts,
    [case_bool] splits on the test the goal is stuck on. *)

Create HintDb foxos.
Create Rewrite HintDb foxos_len.

Ltac zify_bool :=
  repeat match goal with
  | H : (_ && _)%bool = true |- _ => apply andb_true_iff in H; destruct H
  | H : (_ || _)%bool = false |- _ => apply orb_false_iff in H; destruct H
  | H : negb _ = true |- _ => apply negb_true_iff in H
  | H : negb _ = false |- _ => apply negb_false_iff in H
  | H : (_ <? _) = true |- _ => apply Z.ltb_lt in H
  | H : (_ <? _) = false |- _ => apply Z.ltb_ge in H
  | H : (_ <=? _) = true |- _ => apply Z.leb_le in H
  | H : (_ <=? _) = false |- _ => apply Z.leb_gt in H
  | H : (_ =? _) = true |- _ => apply Z.eqb_eq in H
  | H : (_ =? _) = false |- _ => apply Z.eqb_neq in H
  end.

Ltac case_bool :=
  match goal with
  | |- context [if ?b then _ else _] => destruct b eqn:?; zify_bool
  end.

(** ** Lemmas on outcomes *)

Lemma bind_Ok_inv {A B} (m : outcome A) (f : A → outcome B) b :
  (m ≫= f) = Ok b → ∃ a, m = Ok a ∧ f a = Ok b.
Proof. destruct m as [a|e]; simpl; [eauto|discriminate]. Qed.

Ltac inv_ok :=
  repeat match goal with
  | H : (_ ≫= _) = Ok _ |- _ => apply bind_Ok_inv in H as (? & ? & H)
  | H : Ok _ = Ok _ |- _ => injection H as H; subst
  | H : Fault _ = Ok _ |- _ => discriminate H
  end.

(** ** Lemmas on arrays *)

Lemma arr_get_lookup {A} (l : list A) (i : nat) x :
  l !! i = Some x → arr_get l (Z.of_nat i) = Ok x.
Proof.
  intros H. unfold arr_get.
  destruct (Z.of_nat i <? 0) eqn:E; zify_bool; [lia|].
  by rewrite Nat2Z.id, H.
Qed.

Lemma arr_get_Ok {A} (l : list A) i x :
  arr_get l i = Ok x ↔ 0 ≤ i ∧ l !! Z.to_nat i = Some x.
Proof.
  unfold arr_get. destruct (i <? 0) eqn:E; zify_bool.
  { split; [done|lia]. }
  destruct (l !! Z.to_nat i) as [y|]; (split; [intros [= ->]|intros [_ [= ->]]]); done || lia.
Qed.

Lemma arr_get_oob {A} (l : list A) i :
  i < 0 ∨ Z.of_nat (length l) ≤ i → arr_get l i = Fault OutOfBounds.
Proof.
  intros H. unfold arr_get. destruct (i <? 0) eqn:E; zify_bool; [done|].
  by rewrite lookup_ge_None_2 by lia.
Qed.

Lemma arr_set_in {A} (l : list A) (i : Z) x :
  0 ≤ i < Z.of_nat (length l) → arr_set l i x = Ok (<[Z.to_nat i := x]> l).
Proof.
  intros H. unfold arr_set.
  by rewrite (proj2 (Z.leb_le _ _)), (proj2 (Z.ltb_lt _ _)) by lia.
Qed.

Lemma arr_set_oob {A} (l : list A) (i : Z) x :
  i < 0 ∨ Z.of_nat (length l) ≤ i → arr_set l i x = Fault OutOfBounds.
Proof.
  intros H. unfold arr_set.
  destruct (Z.leb_spec 0 i), (Z.ltb_spec i (Z.of_nat (length l)));
    simpl; done || lia.
Qed.

Lemma arr_set_Ok {A} (l l' : list A) i x :
  arr_set l i x = Ok l' →
  0 ≤ i < Z.of_nat (length l) ∧ l' = <[Z.to_nat i := x]> l.
Proof. unfold arr_set. case_bool; [naive_solver|done]. Qed.

Lemma arr_get_in {A} (l : list A) i :
  0 ≤ i < Z.of_nat (length l) → ∃ x, arr_get l i = Ok x ∧ l !! Z.to_nat i = Some x.
Proof.
  intros H. destruct (lookup_lt_is_Some_2 l (Z.to_nat i)) as [x Hx]; [lia|].
  exists x. rewrite arr_get_Ok. split; [split; [lia|done]|done].
Qed.

(** ** Lemmas on loops *)

Section loops.
Context {S : Type}.
Implicit Types (s : S).

(** The invariant rule of the counting loop: it also gives termination. *)
Lemma for_range_inv (P : Z → S → Prop) lo hi body s :
  lo ≤ hi →
  P lo s →
  (∀ i t, lo ≤ i < hi → P i t → ∃ t', body i t = Ok t' ∧ P (i + 1) t') →
  ∃ s', for_range lo hi body s = Ok s' ∧ P hi s'.
Proof.
  unfold for_range. intros Hle.
  assert (hi = lo + Z.of_nat (Z.to_nat (hi - lo))) as Hhi by lia.
  revert Hhi. generalize (Z.to_nat (hi - lo)) as n. clear Hle.
  intros n. revert lo s. induction n as [|n IH]; intros lo s Hhi Hs Hstep; simpl.
  { exists s. by replace hi with lo by lia. }
  destruct (Hstep lo s) as (t & -> & Ht); [lia|done|]. simpl.
  apply IH; [lia|done|]. intros i u Hi. apply Hstep; lia.
Qed.

(** The invariant rule of the loop with [break]: [Q] holds at the exit. *)
Lemma for_break_inv (P : Z → S → Prop) (Q : S → Prop) lo hi body s :
  lo ≤ hi →
  P lo s →
  (∀ t, P hi t → Q t) →
  (∀ i t, lo ≤ i < hi → P i t →
     (∃ t', body i t = Ok (Continue t') ∧ P (i + 1) t') ∨
     (∃ t', body i t = Ok (Break t') ∧ Q t')) →
  ∃ s', for_break lo hi body s = Ok s' ∧ Q s'.
Proof.
  unfold for_break. intros Hle Hs HQ.
  assert (hi = lo + Z.of_nat (Z.to_nat (hi - lo))) as Hhi by lia.
  revert Hhi. generalize (Z.to_nat (hi - lo)) as n. clear Hle.
  intros n. revert lo s Hs.
  induction n as [|n IH]; intros lo s Hs Hhi Hstep; simpl.
  { exists s. split; [done|]. apply HQ. by replace hi with lo by lia. }
  destruct (Hstep lo s) as [(t & -> & Ht)|(t & -> & Ht)]; [lia|done|..]; simpl.
  - apply IH; [done|lia|]. intros i u Hi. apply Hstep; lia.
  - eauto.
Qed.

End loops.

(** The search loop finds the least index that meets the condition. *)
Lemma for_find_spec lo hi cond (p : Z → bool) :
  (∀ i, lo ≤ i < hi → cond i = Ok (p i)) →
  ∃ r, for_find lo hi cond = Ok r ∧
    match r with
    | Some i => lo ≤ i < hi ∧ p i = true ∧ ∀ j, lo ≤ j < i → p j = false
    | None => ∀ j, lo ≤ j < hi → p j = false
    end.
Proof.
  unfold for_find. intros Hc.
  assert (hi ≤ lo + Z.of_nat (Z.to_nat (hi - lo)) ∧
          (Z.to_nat (hi - lo) = 0%nat ∨ hi = lo + Z.of_nat (Z.to_nat (hi - lo)))) as Hhi by lia.
  revert Hhi. generalize (Z.to_nat (hi - lo)) as n. intros n.
  revert lo Hc. induction n as [|n IH]; intros lo Hc [Hle Hhi]; simpl.
  { exists None. split; [done|]. intros j ?. lia. }
  rewrite Hc by lia. simpl. destruct (p lo) eqn:Hp.
  { exists (Some lo). repeat split; try done; lia. }
  destruct (IH (lo + 1)) as (r & Hr & Hspec).
  { intros i Hi. apply Hc. lia. }
  { lia. }
  exists r. split; [done|]. destruct r as [i|].
  - destruct Hspec as (Hi & Hpi & Hlt). repeat split; [lia|lia|done|].
    intros j Hj. destruct (decide (j = lo)) as [->|]; [done|apply Hlt; lia].
  - intros j Hj. destruct (decide (j = lo)) as [->|]; [done|apply Hspec; lia].
Qed.

(** ** Lemmas on machine integers *)

Lemma u32_small z : 0 ≤ z < 4294967296 → u32 z = z.
Proof. apply Z.mod_small. Qed.
Lemma s32_small z : -2147483648 ≤ z < 2147483648 → s32 z = z.
Proof. intros H. unfold s32. rewrite Z.mod_small; lia. Qed.
Lemma u8_range z : 0 ≤ u8 z < 256.
Proof. apply Z.mod_pos_bound. lia. Qed.
Lemma u16_range z : 0 ≤ u16 z < 65536.
Proof. apply Z.mod_pos_bound. lia. Qed.

(** A [char] is a signed byte on x86-64. *)
Definition char_ok (c : Z) : Prop := -128 ≤ c < 128.

Lemma u8_inj c d : char_ok c → char_ok d → u8 c = u8 d → c = d.
Proof.
  unfold char_ok, u8. intros Hc Hd H.
  pose proof (Z.div_mod c 256 ltac:(lia)).
  pose proof (Z.div_mod d 256 ltac:(lia)).
  rewrite H in *. nia.
Qed.

Lemma chr_range a : 0 ≤ chr a < 256.
Proof. unfold chr. pose proof (N_ascii_bounded a). lia. Qed.

(** A decidable property of every integer of a range is checked by
    computation. *)
Fixpoint all_from (n : nat) (z : Z) (p : Z → bool) : bool :=
  match n with
  | O => true
  | S n' => p z && all_from n' (z + 1) p
  end.

Lemma check_range (P : Z → Prop) `{∀ z, Decision (P z)} lo hi :
  all_from (Z.to_nat (hi - lo)) lo (λ z, bool_decide (P z)) = true →
  ∀ z, lo ≤ z < hi → P z.
Proof.
  intros Hall z Hz. assert (lo ≤ z < lo + Z.of_nat (Z.to_nat (hi - lo))) as Hz' by lia.
  clear Hz. revert Hall Hz'. generalize (Z.to_nat (hi - lo)) as n.
  intros n. revert lo. induction n as [|n IH]; intros lo Hall Hz; [lia|]. cbn [all_from] in Hall.
  apply andb_true_iff in Hall as [Hlo Hall]. destruct (decide (z = lo)) as [->|Hne].
  - by apply bool_decide_eq_true_1 in Hlo.
  - apply (IH (lo + 1)); [done|lia].
Qed.

(** The least natural number with a decidable property. *)
Lemma least_nat (P : nat → Prop) `{∀ n, Decision (P n)} m :
  P m → ∃ n, (n ≤ m)%nat ∧ P n ∧ ∀ j, (j < n)%nat → ¬ P j.
Proof.
  induction m as [m IH] using lt_wf_ind. intros Hm.
  destruct (decide (Exists P (seq 0 m))) as [Hex|Hall].
  - apply Exists_exists in Hex as (k & Hk%in_seq & HPk).
    destruct (IH k) as (n & ? & ? & ?); [lia|done|]. exists n. split; [lia|done].
  - exists m. split; [lia|]. split; [done|]. intros j Hj HPj. apply Hall.
    apply Exists_exists. exists j. split; [apply in_seq; lia|done].
Qed.

(** ** Splicing: [splice l k m] is [l] with [m] written over it from [k] on. *)

Definition splice {A} (l : list A) (k : nat) (m : list A) : list A :=
  take k l ++ m ++ drop (k + length m) l.

Section splice.
Context {A : Type}.
Implicit Types (l m : list A).

Lemma length_splice l k m :
  (k + length m ≤ length l)%nat → length (splice l k m) = length l.
Proof. intros H. unfold splice. rewrite !length_app, length_take, length_drop. lia. Qed.

Lemma splice_nil l k : splice l k [] = l.
Proof. unfold splice. simpl. rewrite Nat.add_0_r. apply take_drop. Qed.

Lemma splice_all l m : length m = length l → splice l 0 m = m.
Proof. intros H. unfold splice. rewrite drop_ge by lia. apply app_nil_r. Qed.

Lemma insert_splice l k x :
  (k < length l)%nat → <[k := x]> l = splice l k [x].
Proof.
  intros H. unfold splice. rewrite insert_take_drop by done. simpl.
  by rewrite Nat.add_1_r.
Qed.

Lemma splice_app l k m1 m2 :
  (k + length m1 + length m2 ≤ length l)%nat →
  splice (splice l k m1) (k + length m1) m2 = splice l k (m1 ++ m2).
Proof.
  intros H. unfold splice. rewrite (app_assoc (take k l) m1).
  assert (length (take k l ++ m1) = (k + length m1)%nat) as Hlen.
  { rewrite length_app, length_take. lia. }
  rewrite take_app_length' by done.
  rewrite drop_app_ge by lia. rewrite drop_drop, Hlen, length_app, <-!app_assoc.
  do 4 f_equal. lia.
Qed.

Lemma lookup_splice_out l k m i :
  (k + length m ≤ length l)%nat → (i < k ∨ k + length m ≤ i)%nat →
  splice l k m !! i = l !! i.
Proof.
  intros Hl Hi. unfold splice. destruct (decide (i < k)%nat).
  - rewrite lookup_app_l by (rewrite length_take; lia). by rewrite lookup_take_lt.
  - rewrite lookup_app_r by (rewrite length_take; lia).
    rewrite lookup_app_r by (rewrite length_take; lia).
    rewrite lookup_drop, length_take. f_equal. lia.
Qed.

Lemma lookup_splice_in l k m i :
  (k ≤ length l)%nat → (k ≤ i < k + length m)%nat →
  splice l k m !! i = m !! (i - k)%nat.
Proof.
  intros Hl Hi. unfold splice.
  rewrite lookup_app_r by (rewrite length_take; lia).
  rewrite lookup_app_l by (rewrite length_take; lia).
  rewrite length_take. f_equal. lia.
Qed.

Lemma splice_cons l k x m :
  (k + S (length m) ≤ length l)%nat →
  splice (<[k := x]> l) (S k) m = splice l k (x :: m).
Proof.
  intros H. rewrite insert_splice by lia.
  replace (S k) with (k + length [x])%nat by (simpl; lia).
  rewrite splice_app by (simpl; lia). done.
Qed.

End splice.

Lemma splice_snoc {A} (l m : list A) k x :
  (k + S (length m) ≤ length l)%nat →
  <[(k + length m)%nat := x]> (splice l k m) = splice l k (m ++ [x]).
Proof.
  intros H. rewrite insert_splice by (rewrite length_splice; lia).
  rewrite splice_app; [done|simpl; lia].
Qed.

Lemma splice_replicate {A} (l : list A) k n m x :
  (k + n + m ≤ length l)%nat →
  splice (splice l k (replicate n x)) (k + n) (replicate m x)
  = splice l k (replicate (n + m) x).
Proof.
  intros H. rewrite replicate_add, <-splice_app by (rewrite !length_replicate; lia).
  by rewrite length_replicate.
Qed.

#[export] Hint Rewrite @length_splice using lia : foxos_len.

(** A loop whose body replaces cell [i] by its image under [g]. *)
Lemma for_range_map {A} (g : A → A) (n : nat) (l : list A) body :
  (n ≤ length l)%nat →
  (∀ (i : nat) l' x, (i < n)%nat → l !! i = Some x → l' !! i = Some x → length l' = length l →
     body (Z.of_nat i) l' = Ok (<[i := g x]> l')) →
  for_range 0 (Z.of_nat n) body l = Ok (map g (take n l) ++ drop n l).
Proof.
  intros Hn Hbody.
  destruct (for_range_inv
    (λ i l', l' = map g (take (Z.to_nat i) l) ++ drop (Z.to_nat i) l)
    0 (Z.of_nat n) body l) as (l' & -> & ->).
  - lia.
  - done.
  - intros i l' Hi ->. set (k := Z.to_nat i).
    destruct (lookup_lt_is_Some_2 l k) as [x Hx]; [lia|].
    assert (length (map g (take k l)) = k) as Hk by (rewrite length_map, length_take; lia).
    exists (<[k := g x]> (map g (take k l) ++ drop k l)). split.
    + replace i with (Z.of_nat k) by lia. apply Hbody; try done; [lia| |].
      * rewrite lookup_app_r by lia. rewrite Hk, Nat.sub_diag, lookup_drop, Nat.add_0_r. done.
      * rewrite length_app, Hk, length_drop. lia.
    + replace (Z.to_nat (i + 1)) with (S k) by lia.
      rewrite (take_S_r l k x Hx), map_app, <-app_assoc. simpl.
      rewrite insert_app_r_alt by lia. rewrite Hk, Nat.sub_diag.
      by rewrite (drop_S l x k Hx).
  - by rewrite Nat2Z.id.
Qed.

(** A loop that copies the first [n] cells of [src] over [dest]. *)
Lemma for_range_copy {A} (n : nat) (src dest : list A) :
  (n ≤ length src)%nat → (n ≤ length dest)%nat →
  for_range 0 (Z.of_nat n) (λ j d, x ← arr_get src j; arr_set d j x) dest
  = Ok (splice dest 0 (take n src)).
Proof.
  intros Hs Hd.
  destruct (for_range_inv (λ i d, d = splice dest 0 (take (Z.to_nat i) src))
    0 (Z.of_nat n) (λ j d, x ← arr_get src j; arr_set d j x) dest) as (d & -> & ->).
  - lia.
  - change (take (Z.to_nat 0) src) with (@nil A). by rewrite splice_nil.
  - intros i d Hi ->. destruct (arr_get_in src i) as (x & -> & Hx); [lia|].
    cbn [mbind outcome_bind]. set (k := Z.to_nat i) in *.
    assert (length (take k src) = k) as Hk by (rewrite length_take; lia).
    rewrite arr_set_in by (rewrite length_splice; lia).
    eexists. split; [done|]. replace (Z.to_nat (i + 1)) with (S k) by lia. fold k.
    rewrite (take_S_r src k x Hx), <-splice_snoc, Hk by lia. done.
  - by rewrite Nat2Z.id.
Qed.
