(* ===== verification/CString.v ===== *)
(** * The string routines of [src/fs.c]

    [fs.c] defines its own [strcpy], [strcmp], [strlen], [strcat], [strncpy]
    and [strncmp]; [terminal.c] uses them through declarations.  A pointer
    [const char *p] that is only read is the list of the cells from [*p] to the
    end of its array, so [p + 1] is the tail and a read past the array is a
    fault; a destination is an array and an offset in it. *)

From S2P Require Import Prelude.

(** ** Definitions *)

Fixpoint strcpy (dest : list Z) (d : Z) (src : list Z) : outcome (list Z) :=
  match src with
  | [] => Fault OutOfBounds
  | c :: src' =>
      if c =? 0 then arr_set dest d 0
      else dest' ← arr_set dest d c; strcpy dest' (d + 1) src'
  end.

Fixpoint strcmp (s1 s2 : list Z) : outcome Z :=
  match s1, s2 with
  | c1 :: t1, c2 :: t2 =>
      if negb (c1 =? 0) && (c1 =? c2) then strcmp t1 t2
      else Ok (u8 c1 - u8 c2)
  | _, _ => Fault OutOfBounds
  end.

(** [while ( *s) s++;], counting [s - str]. *)
Fixpoint strlen_loop (s : list Z) (n : Z) : outcome Z :=
  match s with
  | [] => Fault OutOfBounds
  | c :: s' => if c =? 0 then Ok n else strlen_loop s' (n + 1)
  end.

Definition strlen (str : list Z) : outcome Z :=
  n ← strlen_loop str 0; Ok (u32 n).

Definition strcat (dest : list Z) (d : Z) (src : list Z) : outcome (list Z) :=
  n ← strlen (drop (Z.to_nat d) dest);
  strcpy dest (d + n) src.

(** First loop of [strncpy]: the fuel is the bound [n] of its counter. *)
Fixpoint strncpy_copy (fuel : nat) (dest : list Z) (d : Z) (src : list Z) (n i : Z)
  : outcome (list Z * Z) :=
  match fuel with
  | O => Ok (dest, i)
  | S fuel' =>
      if i <? n then
        c ← arr_get src i;
        if c =? 0 then Ok (dest, i)
        else dest' ← arr_set dest (d + i) c;
             strncpy_copy fuel' dest' d src n (i + 1)
      else Ok (dest, i)
  end.

Definition strncpy (dest : list Z) (d : Z) (src : list Z) (n : Z) : outcome (list Z) :=
  '(dest1, i) ← strncpy_copy (Z.to_nat n) dest d src n 0;
  for_range i n (λ j b, arr_set b (d + j) 0) dest1.

Fixpoint strncmp (s1 s2 : list Z) (n : Z) : outcome Z :=
  if n =? 0 then Ok 0
  else match s1, s2 with
       | c1 :: t1, c2 :: t2 =>
           if negb (c1 =? 0) && (c1 =? c2) then strncmp t1 t2 (n - 1)
           else Ok (u8 c1 - u8 c2)
       | _, _ => Fault OutOfBounds
       end.

(** ** Specification: the string held by an array *)

(** [c_str buf] is the text before the first NUL of [buf]. *)
Fixpoint c_str (buf : list Z) : option (list Z) :=
  match buf with
  | [] => None
  | c :: buf' => if c =? 0 then Some [] else cons c <$> c_str buf'
  end.

Definition text (s : list Z) : Prop := Forall (λ c, c ≠ 0 ∧ char_ok c) s.

Definition is_str (buf s : list Z) : Prop :=
  text s ∧ ∃ rest, buf = s ++ 0 :: rest.

(** Dictionary order on the unsigned bytes of two texts. *)
Fixpoint lex_lt (s t : list Z) : Prop :=
  match s, t with
  | _, [] => False
  | [], _ :: _ => True
  | c :: s', d :: t' => u8 c < u8 d ∨ (c = d ∧ lex_lt s' t')
  end.

#[global] Instance char_ok_dec c : Decision (char_ok c).
Proof. unfold char_ok. apply _. Defined.
#[global] Instance text_dec s : Decision (text s).
Proof. unfold text. apply _. Defined.

(** ** Lemmas *)

Lemma text_nil : text [].
Proof. constructor. Qed.
Lemma text_cons c s : text (c :: s) ↔ (c ≠ 0 ∧ char_ok c) ∧ text s.
Proof. apply Forall_cons_iff. Qed.
Lemma text_app s t : text (s ++ t) ↔ text s ∧ text t.
Proof. apply Forall_app. Qed.
#[export] Hint Resolve text_nil : foxos.

Lemma is_str_nil rest : is_str (0 :: rest) [].
Proof. split; [apply text_nil|by exists rest]. Qed.
#[export] Hint Resolve is_str_nil : foxos.

Lemma is_str_cons buf c s :
  is_str (c :: buf) (c :: s) ↔ (c ≠ 0 ∧ char_ok c) ∧ is_str buf s.
Proof.
  unfold is_str. rewrite text_cons.
  split; [intros [[??] [rest [= Hr]]]|intros [? [? [rest ->]]]]; eauto 10.
Qed.

(** Case analysis on an array that holds a string. *)
Lemma is_str_inv buf s :
  is_str buf s →
  (s = [] ∧ ∃ rest, buf = 0 :: rest) ∨
  (∃ c s' buf', s = c :: s' ∧ buf = c :: buf' ∧ c ≠ 0 ∧ char_ok c ∧ is_str buf' s').
Proof.
  intros [Ht [rest ->]]. destruct s as [|c s]; simpl; [eauto|].
  right. apply text_cons in Ht as [[? ?] ?]. exists c, s, (s ++ 0 :: rest).
  do 4 (split; [done|]). split; [done|by exists rest].
Qed.

Lemma is_str_c_str buf s : is_str buf s ↔ c_str buf = Some s ∧ text s.
Proof.
  revert s. induction buf as [|c buf IH]; intros s; simpl.
  { split; [intros [_ [rest H]]|intros [? _]]; by destruct s. }
  destruct (Z.eqb_spec c 0) as [->|Hc].
  - split.
    + intros [[-> _]|(c & ? & ? & _ & ? & ? & _)]%is_str_inv; [split; [done|apply text_nil]|congruence].
    + intros [[= <-] _]. apply is_str_nil.
  - split.
    + intros [[-> [? ?]]|(c' & s' & buf' & -> & [= <- <-] & _ & ? & Hs)]%is_str_inv; [congruence|].
      apply IH in Hs as [-> ?]. split; [done|]. by apply text_cons.
    + intros [Hs Ht]. destruct (c_str buf) as [s'|] eqn:E; simpl in Hs; [|done].
      injection Hs as <-. apply text_cons in Ht as [? ?].
      apply is_str_cons. split; [done|]. apply IH. done.
Qed.

Lemma is_str_fun buf s t : is_str buf s → is_str buf t → s = t.
Proof. rewrite !is_str_c_str. intros [? _] [? _]. congruence. Qed.

Lemma is_str_app_nul s rest : text s → is_str (s ++ 0 :: rest) s.
Proof. intros. split; [done|by eexists]. Qed.

Lemma is_str_length buf s : is_str buf s → (length s < length buf)%nat.
Proof. intros [_ [rest ->]]. rewrite length_app. simpl. lia. Qed.

Lemma is_str_drop buf s k :
  is_str buf s → (k ≤ length s)%nat → is_str (drop k buf) (drop k s).
Proof.
  intros [Ht [rest ->]] Hk. rewrite drop_app_le by done. split; [|by eexists].
  by apply Forall_drop.
Qed.

Lemma is_str_lookup buf s (i : nat) c :
  is_str buf s → s !! i = Some c → buf !! i = Some c.
Proof. intros [_ [rest ->]]. apply lookup_app_l_Some. Qed.

Lemma is_str_nul buf s : is_str buf s → buf !! length s = Some 0.
Proof. intros [_ [rest ->]]. by rewrite list_lookup_middle. Qed.

(** [chars] of an ASCII literal without NUL is a text. *)
Lemma lit_is_str s : text (chars s) → is_str (lit s) (chars s).
Proof. intros. unfold lit. by apply is_str_app_nul. Qed.

(** *** [strcpy] *)

Lemma strcpy_fits src s dest (d : nat) :
  is_str src s → (d + length s < length dest)%nat →
  strcpy dest (Z.of_nat d) src = Ok (splice dest d (s ++ [0])).
Proof.
  revert s dest d. induction src as [|c src IH]; intros s dest d Hs Hd.
  { apply is_str_length in Hs. simpl in Hs. lia. }
  apply is_str_inv in Hs as [[-> [rest [= -> ->]]]|(c' & s' & src' & -> & [= <- <-] & Hc & _ & Hs)];
    simpl in *.
  - rewrite arr_set_in by lia. by rewrite Nat2Z.id, insert_splice by lia.
  - rewrite (proj2 (Z.eqb_neq c 0) Hc), arr_set_in by lia. simpl.
    rewrite Nat2Z.id. replace (Z.of_nat d + 1) with (Z.of_nat (S d)) by lia.
    rewrite (IH s') by (done || rewrite length_insert; lia).
    f_equal. apply splice_cons. rewrite length_app. simpl. lia.
Qed.

Lemma strcpy_overflows src s dest (d : nat) :
  is_str src s → (length dest ≤ d + length s)%nat →
  strcpy dest (Z.of_nat d) src = Fault OutOfBounds.
Proof.
  revert s dest d. induction src as [|c src IH]; intros s dest d Hs Hd; [done|].
  apply is_str_inv in Hs as [[-> [rest [= -> ->]]]|(c' & s' & src' & -> & [= <- <-] & Hc & _ & Hs)];
    simpl in *.
  - apply arr_set_oob. lia.
  - rewrite (proj2 (Z.eqb_neq c 0) Hc).
    destruct (decide (d < length dest)%nat).
    + rewrite arr_set_in by lia. simpl.
      replace (Z.of_nat d + 1) with (Z.of_nat (S d)) by lia.
      apply (IH s'); [done|]. rewrite length_insert. lia.
    + by rewrite arr_set_oob by lia.
Qed.

Lemma is_str_splice dest (d : nat) s :
  text s → (d + length s < length dest)%nat →
  is_str (drop d (splice dest d (s ++ [0]))) s.
Proof.
  intros Hs Hd. unfold splice.
  rewrite drop_app_length' by (rewrite length_take; lia).
  rewrite <-app_assoc. by apply is_str_app_nul.
Qed.

(** *** [strlen], [strcat] *)

Lemma strlen_loop_str buf s n :
  is_str buf s → strlen_loop buf n = Ok (n + Z.of_nat (length s)).
Proof.
  revert s n. induction buf as [|c buf IH]; intros s n Hs.
  { apply is_str_length in Hs. simpl in Hs. lia. }
  apply is_str_inv in Hs as [[-> [rest [= -> ->]]]|(c' & s' & src' & -> & [= <- <-] & Hc & _ & Hs)];
    simpl.
  - f_equal. lia.
  - rewrite (proj2 (Z.eqb_neq c 0) Hc), (IH s') by done. f_equal. lia.
Qed.

Lemma strlen_str buf s :
  is_str buf s → Z.of_nat (length s) < 4294967296 →
  strlen buf = Ok (Z.of_nat (length s)).
Proof.
  intros Hs Hl. unfold strlen. rewrite (strlen_loop_str _ s) by done. simpl.
  by rewrite u32_small by lia.
Qed.

(** *** [strcmp], [strncmp] *)

Lemma u8_nonzero c : c ≠ 0 → char_ok c → 0 < u8 c.
Proof.
  intros Hc Hok. pose proof (u8_range c).
  enough (u8 c ≠ u8 0) by (change (u8 0) with 0 in *; lia).
  intros E. apply Hc, u8_inj; done.
Qed.

Lemma strcmp_spec b1 b2 s1 s2 :
  is_str b1 s1 → is_str b2 s2 →
  ∃ r, strcmp b1 b2 = Ok r ∧ -255 ≤ r ≤ 255 ∧
       (r = 0 ↔ s1 = s2) ∧ (r < 0 ↔ lex_lt s1 s2) ∧ (r > 0 ↔ lex_lt s2 s1).
Proof.
  revert b2 s1 s2. induction b1 as [|c b1 IH]; intros b2 s1 s2 H1 H2.
  { apply is_str_length in H1. simpl in H1. lia. }
  apply is_str_inv in H1 as [[-> [? [= -> ->]]]|(? & t1 & ? & -> & [= <- <-] & Hc & Hok & H1)];
  apply is_str_inv in H2 as [[-> [? ->]]|(d & t2 & b2' & -> & -> & Hd & Hokd & H2)];
  cbn [strcmp lex_lt].
  - exists 0. repeat split; try done; lia.
  - exists (0 - u8 d). pose proof (u8_range d). pose proof (u8_nonzero d Hd Hokd).
    repeat split; try done; lia.
  - rewrite (proj2 (Z.eqb_neq c 0) Hc). exists (u8 c - 0).
    pose proof (u8_range c). pose proof (u8_nonzero c Hc Hok).
    repeat split; try done; lia.
  - rewrite (proj2 (Z.eqb_neq c 0) Hc). simpl. destruct (Z.eqb_spec c d) as [<-|Hne].
    + destruct (IH b2' t1 t2) as (r & -> & Hr & H0 & Hlt & Hgt); [done|done|].
      exists r. split; [done|]. split; [done|].
      rewrite H0, Hlt, Hgt. naive_solver lia.
    + exists (u8 c - u8 d). pose proof (u8_range c). pose proof (u8_range d).
      assert (u8 c ≠ u8 d). { intros E. apply Hne. by apply u8_inj. }
      repeat split; try naive_solver lia.
Qed.

Lemma strcmp_eq b1 b2 s1 s2 r :
  is_str b1 s1 → is_str b2 s2 → strcmp b1 b2 = Ok r → (r =? 0) = bool_decide (s1 = s2).
Proof.
  intros H1 H2 Hr. destruct (strcmp_spec _ _ _ _ H1 H2) as (r' & Hr' & _ & H0 & _).
  rewrite Hr in Hr'. injection Hr' as <-.
  case_bool_decide as E; [apply Z.eqb_eq|apply Z.eqb_neq]; tauto.
Qed.

(** [strncmp] against a literal as long as its bound is a prefix test. *)
Lemma strncmp_prefix b1 b2 s1 s2 :
  is_str b1 s1 → is_str b2 s2 →
  ∃ r, strncmp b1 b2 (Z.of_nat (length s2)) = Ok r ∧ (r = 0 ↔ s2 `prefix_of` s1).
Proof.
  revert b1 s1 s2. induction b2 as [|d b2 IH]; intros b1 s1 s2 H1 H2.
  { apply is_str_length in H2. simpl in H2. lia. }
  apply is_str_inv in H2 as [[-> [? [= -> ->]]]|(? & t2 & ? & -> & [= <- <-] & Hd & Hokd & H2)].
  { exists 0. split; [by destruct b1|]. split; [intros; apply prefix_nil|done]. }
  apply is_str_inv in H1 as [[-> [? ->]]|(c & t1 & b1' & -> & -> & Hc & Hok & H1)];
  cbn [strncmp length];
  rewrite (proj2 (Z.eqb_neq (Z.of_nat (S (length t2))) 0)) by lia; simpl.
  - exists (0 - u8 d). pose proof (u8_nonzero d Hd Hokd). split; [done|].
    split; [lia|]. intros [? ?]. done.
  - rewrite (proj2 (Z.eqb_neq c 0) Hc). simpl. destruct (Z.eqb_spec c d) as [<-|Hne].
    + destruct (IH b1' t1 t2) as (r & Hr & Hiff); [done|done|]. exists r.
      replace (Z.of_nat (S (length t2)) - 1) with (Z.of_nat (length t2)) by lia.
      split; [done|]. rewrite Hiff. split; [apply prefix_cons|apply prefix_cons_inv_2].
    + exists (u8 c - u8 d).
      assert (u8 c ≠ u8 d). { intros E. apply Hne. by apply u8_inj. }
      split; [done|]. split; [lia|]. intros ?%prefix_cons_inv_1. congruence.
Qed.
