(* ===== verification/Ports.v ===== *)
(** * Port input and output ([src/io.h])

    The inline functions of [io.h] are single [in] and [out] instructions.  The
    machine state they act on is the history of the port accesses made so far,
    newest first.  What the hardware does is not code of the kernel: it is a
    parameter of type [io_env].  Its main part is the value presented on a port
    after a given history, so that a device may react to every earlier access. *)

From S2P Require Import Prelude.

Inductive io_width := W8 | W16 | W32.

(** A read or a write of a port, or a software interrupt with the contents of
    [ax], [bx] and [cx]. *)
Inductive io_event :=
| IoIn (w : io_width) (port value : Z)
| IoOut (w : io_width) (port value : Z)
| IoInt (vector ax bx cx : Z).

#[global] Instance io_width_eq_dec : EqDecision io_width.
Proof. solve_decision. Defined.
#[global] Instance io_event_eq_dec : EqDecision io_event.
Proof. solve_decision. Defined.

(** The accesses made so far, newest first. *)
Abbreviation io_log := (list io_event).

(** The hardware and the BIOS: the answer to a read of a port; whether the
    handler of an interrupt comes back; and the contents of [ax], [bx], [cx] and
    [dx] where the code has not set them (at the start of an assembly block and
    after an interrupt). *)
Record io_env := Env {
  answer :> io_log → Z → Z;
  comes_back : io_log → bool;
  registers : io_log → Z * Z * Z * Z
}.

(** Ports that answer by [f]; an interrupt does not come back. *)
Definition devices (f : io_log → Z → Z) : io_env := Env f (λ _, false) (λ _, (0, 0, 0, 0)).

Definition inb (e : io_env) (port : Z) (h : io_log) : Z * io_log :=
  let value := u8 (e h port) in (value, IoIn W8 port value :: h).

Definition outb (port value : Z) (h : io_log) : io_log :=
  IoOut W8 port (u8 value) :: h.

Definition inw (e : io_env) (port : Z) (h : io_log) : Z * io_log :=
  let value := u16 (e h port) in (value, IoIn W16 port value :: h).

Definition outw (port value : Z) (h : io_log) : io_log :=
  IoOut W16 port (u16 value) :: h.

Definition inl (e : io_env) (port : Z) (h : io_log) : Z * io_log :=
  let value := u32 (e h port) in (value, IoIn W32 port value :: h).

Definition outl (port value : Z) (h : io_log) : io_log :=
  IoOut W32 port (u32 value) :: h.

(** The byte values written to [port], newest first: the last one is what a
    latch behind that port holds. *)
Fixpoint port_writes (port : Z) (h : io_log) : list Z :=
  match h with
  | [] => []
  | IoOut W8 p v :: h' =>
      if p =? port then v :: port_writes port h' else port_writes port h'
  | _ :: h' => port_writes port h'
  end.
