(* ===== verification/Keyboard.v ===== *)
(** * The PS/2 keyboard driver ([src/keyboard.c], [src/keyboard.h])

    The driver polls the controller's status port 0x64 and reads scan codes
    from 0x60.  [keyboard_read] is split where the source has its blank line
    after [scancode = keyboard_get_scancode();]: [keyboard_decode] is the rest
    of the function, a state machine on the three static variables. *)

From S2P Require Import Prelude.
From S2P Require Import Ports.

(** ** Definitions *)

Definition KEY_LSHIFT := 0x2A.
Definition KEY_RSHIFT := 0x36.
Definition KEY_UP := 0x48.
Definition KEY_DOWN := 0x50.
Definition KEY_LEFT := 0x4B.
Definition KEY_RIGHT := 0x4D.
Definition KEY_DELETE := 0x53.

Definition CHAR_UP := 1.
Definition CHAR_DOWN := 2.
Definition CHAR_LEFT := 3.
Definition CHAR_RIGHT := 4.
Definition CHAR_DEL := 5.

Definition scancode_to_char : list Z :=
  [0; 0] ++ chars "1234567890-=" ++ [8] ++
  [9] ++ chars "qwertyuiop[]" ++ [10] ++
  [0] ++ chars "asdfghjkl;'`" ++
  [0] ++ chars "\zxcvbnm,./" ++ [0] ++
  chars "*" ++ [0] ++ chars " ".

(** The double quote, code 34, stands at 0x28. *)
Definition scancode_to_char_shift : list Z :=
  [0; 0] ++ chars "!@#$%^&*()_+" ++ [8] ++
  [9] ++ chars "QWERTYUIOP{}" ++ [10] ++
  [0] ++ chars "ASDFGHJKL:" ++ [34] ++ chars "~" ++
  [0] ++ chars "|ZXCVBNM<>?" ++ [0] ++
  chars "*" ++ [0] ++ chars " ".

(** The static variables of [keyboard.c]; [last_scancode] and [key_held] are
    static in [keyboard_read]. *)
Record kbd := Kbd {
  shift_pressed : Z;
  last_scancode : Z;
  key_held : Z
}.

Definition kbd0 : kbd := Kbd 0 0 0.

#[global] Instance kbd_eq_dec : EqDecision kbd.
Proof. solve_decision. Defined.

Section driver.
Context (e : io_env).

(** [while (inb(0x64) & 2);] *)
Fixpoint keyboard_wait (fuel : nat) (h : io_log) : outcome io_log :=
  match fuel with
  | O => Fault OutOfFuel
  | S fuel' =>
      let '(v, h') := inb e 0x64 h in
      if Z.land v 2 =? 0 then Ok h' else keyboard_wait fuel' h'
  end.

Definition keyboard_get_scancode (fuel : nat) (h : io_log) : outcome (Z * io_log) :=
  h1 ← keyboard_wait fuel h;
  Ok (inb e 0x60 h1).

(** [while (inb(0x64) & 1) { inb(0x60); }] *)
Fixpoint keyboard_init (fuel : nat) (h : io_log) : outcome io_log :=
  match fuel with
  | O => Fault OutOfFuel
  | S fuel' =>
      let '(v, h1) := inb e 0x64 h in
      if Z.land v 1 =? 0 then Ok h1
      else keyboard_init fuel' (snd (inb e 0x60 h1))
  end.

End driver.

(** The [switch] on the scan code. *)
Definition scancode_char (scancode shift : Z) : outcome Z :=
  if scancode =? KEY_UP then Ok CHAR_UP
  else if scancode =? KEY_DOWN then Ok CHAR_DOWN
  else if scancode =? KEY_LEFT then Ok CHAR_LEFT
  else if scancode =? KEY_RIGHT then Ok CHAR_RIGHT
  else if scancode =? KEY_DELETE then Ok CHAR_DEL
  else if scancode <? Z.of_nat (length scancode_to_char) then
    if negb (shift =? 0) then arr_get scancode_to_char_shift scancode
    else arr_get scancode_to_char scancode
  else Ok 0.

Definition keyboard_decode (scancode : Z) (k : kbd) : outcome (Z * kbd) :=
  if (scancode =? KEY_LSHIFT) || (scancode =? KEY_RSHIFT) then
    Ok (0, Kbd 1 (last_scancode k) (key_held k))
  else if (scancode =? Z.lor KEY_LSHIFT 0x80) || (scancode =? Z.lor KEY_RSHIFT 0x80) then
    Ok (0, Kbd 0 (last_scancode k) (key_held k))
  else if negb (Z.land scancode 0x80 =? 0) then
    if Z.land scancode 0x7F =? last_scancode k
    then Ok (0, Kbd (shift_pressed k) 0 0)
    else Ok (0, k)
  else
    c ← scancode_char scancode (shift_pressed k);
    if (scancode =? last_scancode k) && negb (key_held k =? 0) then Ok (0, k)
    else Ok (c, Kbd (shift_pressed k) scancode 1).

Definition keyboard_read (e : io_env) (fuel : nat) (k : kbd) (h : io_log)
  : outcome (Z * kbd * io_log) :=
  '(scancode, h1) ← keyboard_get_scancode e fuel h;
  '(c, k1) ← keyboard_decode scancode k;
  Ok (c, k1, h1).

(** ** Specifications *)

(** The characters [keyboard_decode] delivers on a stream of scan codes; the
    terminal drops the zeros. *)
Fixpoint decode_stream (codes : list Z) (k : kbd) : outcome (list Z * kbd) :=
  match codes with
  | [] => Ok ([], k)
  | s :: codes' =>
      '(c, k1) ← keyboard_decode s k;
      '(cs, k2) ← decode_stream codes' k1;
      Ok (if c =? 0 then cs else c :: cs, k2)
  end.

(** The keys of a US keyboard with their make codes of scan code set 1, without
    and with shift: what is printed on the keys, by rows of the keyboard, and
    the keys for the tabulator, Enter, backspace, the arrows and Delete.  The
    layout is stated here independently of the tables of the driver. *)
Record pc_key := PcKey { make : Z; plain : Z; shifted : Z }.

#[global] Instance pc_key_eq_dec : EqDecision pc_key.
Proof. solve_decision. Defined.

Fixpoint key_row (first : Z) (without_shift with_shift : list Z) : list pc_key :=
  match without_shift, with_shift with
  | p :: ps, s :: ss => PcKey first p s :: key_row (first + 1) ps ss
  | _, _ => []
  end.

Definition us_keys : list pc_key :=
  key_row 0x02 (chars "1234567890-=") (chars "!@#$%^&*()_+") ++
  key_row 0x10 (chars "qwertyuiop[]") (chars "QWERTYUIOP{}") ++
  key_row 0x1E (chars "asdfghjkl;'") (chars "ASDFGHJKL:" ++ [34]) ++
  key_row 0x29 (chars "`") (chars "~") ++
  key_row 0x2B (chars "\zxcvbnm,./") (chars "|ZXCVBNM<>?") ++
  [PcKey 0x39 32 32; PcKey 0x0F 9 9; PcKey 0x1C 10 10; PcKey 0x0E 8 8;
   PcKey 0x48 CHAR_UP CHAR_UP; PcKey 0x50 CHAR_DOWN CHAR_DOWN;
   PcKey 0x4B CHAR_LEFT CHAR_LEFT; PcKey 0x4D CHAR_RIGHT CHAR_RIGHT;
   PcKey 0x53 CHAR_DEL CHAR_DEL].

(** A typist: the make and break codes of a key, alone or while one of the shift
    keys is held. *)
Definition press_plain (k : pc_key) : list Z := [make k; make k + 0x80].
Definition press_shifted (sh : Z) (k : pc_key) : list Z := [sh; make k; make k + 0x80; sh + 0x80].

(** [types s codes]: typing the text [s] sends the scan codes [codes]. *)
Inductive types : list Z → list Z → Prop :=
| types_nil : types [] []
| types_plain k s codes :
    k ∈ us_keys → types s codes → types (plain k :: s) (press_plain k ++ codes)
| types_shifted k sh s codes :
    k ∈ us_keys → sh ∈ [0x2A; 0x36] → types s codes →
    types (shifted k :: s) (press_shifted sh k ++ codes).
#[export] Hint Constructors types : foxos.

(** One way to type a text. *)
Definition find_key (f : pc_key → Z) (c : Z) : option pc_key :=
  snd <$> list_find (λ k, f k = c) us_keys.

Definition type_char (c : Z) : list Z :=
  match find_key plain c, find_key shifted c with
  | Some k, _ => press_plain k
  | None, Some k => press_shifted 0x2A k
  | None, None => []
  end.

Definition type_text (s : list Z) : list Z := concat (map type_char s).

(** [stutter xs ys]: [ys] is [xs] with elements repeated in place, what a
    reader that samples a register sees. *)
Inductive stutter : list Z → list Z → Prop :=
| stutter_nil : stutter [] []
| stutter_cons x xs ys n :
    stutter xs ys → stutter (x :: xs) (replicate (S n) x ++ ys).
#[export] Hint Constructors stutter : foxos.

(** The log after [n] polls of the status port. *)
Fixpoint poll (e : io_env) (n : nat) (h : io_log) : io_log :=
  match n with
  | O => h
  | S n' => poll e n' (snd (inb e 0x64 h))
  end.

(** The status byte read by the poll number [n]. *)
Definition status_at (e : io_env) (n : nat) (h : io_log) : Z :=
  fst (inb e 0x64 (poll e n h)).

(** The log after [n] rounds of reading the status port and discarding a byte. *)
Fixpoint drain (e : io_env) (n : nat) (h : io_log) : io_log :=
  match n with
  | O => h
  | S n' => drain e n' (snd (inb e 0x60 (snd (inb e 0x64 h))))
  end.

(** ** Lemmas *)

Definition ascii_or_control (c : Z) : Prop := 0 ≤ c < 127.

#[global] Instance ascii_or_control_dec c : Decision (ascii_or_control c).
Proof. unfold ascii_or_control. apply _. Defined.

Lemma scancode_tables_ok :
  Forall ascii_or_control scancode_to_char ∧ Forall ascii_or_control scancode_to_char_shift.
Proof. split; apply (bool_decide_eq_true_1 _); vm_compute; reflexivity. Qed.

Lemma table_lookup_ok (l : list Z) sc :
  Forall ascii_or_control l → 0 ≤ sc < Z.of_nat (length l) →
  ∃ c, arr_get l sc = Ok c ∧ ascii_or_control c.
Proof.
  intros Hall Hsc. destruct (arr_get_in l sc Hsc) as (c & -> & Hc).
  exists c. split; [done|]. by apply (Forall_lookup_1 _ _ _ _ Hall Hc).
Qed.

Lemma scancode_char_total sc sh :
  0 ≤ sc → ∃ c, scancode_char sc sh = Ok c ∧ ascii_or_control c.
Proof.
  intros Hsc. unfold scancode_char. change (length scancode_to_char) with 58%nat.
  do 5 (case_bool; [eexists; split; [reflexivity|]; cbv; intuition discriminate|]).
  destruct scancode_tables_ok.
  case_bool; [|eexists; split; [reflexivity|]; cbv; intuition discriminate].
  case_bool; (apply table_lookup_ok; [done|simpl; lia]).
Qed.

Lemma keyboard_decode_total sc k :
  0 ≤ sc → ∃ c k', keyboard_decode sc k = Ok (c, k') ∧ ascii_or_control c.
Proof.
  intros Hsc. unfold keyboard_decode, ascii_or_control.
  do 2 (case_bool; [by eauto 6 with lia|]).
  case_bool; [case_bool; by eauto 6 with lia|].
  destruct (scancode_char_total sc (shift_pressed k) Hsc) as (c & -> & Hc). simpl.
  case_bool; eauto with lia.
Qed.

(** Decoding the same scan code again changes nothing and delivers nothing. *)
Lemma keyboard_decode_again sc k c k' :
  keyboard_decode sc k = Ok (c, k') → keyboard_decode sc k' = Ok (0, k').
Proof.
  unfold keyboard_decode.
  destruct ((sc =? KEY_LSHIFT) || (sc =? KEY_RSHIFT)); [by intros [= <- <-]|].
  destruct ((sc =? Z.lor KEY_LSHIFT 0x80) || (sc =? Z.lor KEY_RSHIFT 0x80));
    [by intros [= <- <-]|].
  destruct (negb (Z.land sc 0x80 =? 0)).
  { destruct (Z.land sc 0x7F =? last_scancode k) eqn:E; intros [= <- <-]; simpl.
    - by case_bool.
    - by rewrite E. }
  destruct (scancode_char sc (shift_pressed k)) as [c0|] eqn:Hc; simpl; [|done].
  destruct ((sc =? last_scancode k) && negb (key_held k =? 0)) eqn:E;
    intros [= <- <-]; simpl; rewrite Hc; simpl.
  - by rewrite E.
  - by rewrite Z.eqb_refl.
Qed.

Lemma decode_stream_again n sc ys k c k' :
  keyboard_decode sc k = Ok (c, k') →
  decode_stream (replicate n sc ++ ys) k' = decode_stream ys k'.
Proof.
  intros Hd%keyboard_decode_again. induction n as [|n IH]; simpl; [done|].
  rewrite Hd. simpl. rewrite IH. by destruct (decode_stream ys k') as [[? ?]|].
Qed.

Lemma decode_stream_stutter xs ys k :
  stutter xs ys → decode_stream ys k = decode_stream xs k.
Proof.
  intros H. revert k. induction H as [|x xs ys n H IH]; intros k; [done|].
  simpl. destruct (keyboard_decode x k) as [[c k']|] eqn:Hd; simpl; [|done].
  by rewrite (decode_stream_again _ _ _ _ _ _ Hd), IH.
Qed.

Lemma decode_stream_app xs ys k cs k1 :
  decode_stream xs k = Ok (cs, k1) →
  decode_stream (xs ++ ys) k =
    '(ds, k2) ← decode_stream ys k1; Ok (cs ++ ds, k2).
Proof.
  revert k cs. induction xs as [|x xs IH]; intros k cs; simpl.
  { intros [= <- <-]. by destruct (decode_stream ys k) as [[??]|]. }
  destruct (keyboard_decode x k) as [[c k']|]; simpl; [|done].
  destruct (decode_stream xs k') as [[cs' k'']|] eqn:E; simpl; [|done].
  intros [= <- <-]. rewrite (IH _ _ E).
  destruct (decode_stream ys k'') as [[ds k2]|]; simpl; [|done].
  by case_bool.
Qed.

Definition printable (c : Z) : Prop := 32 ≤ c < 127.

(** Every key of the keyboard, alone and with either shift key. *)
Lemma us_keys_decode :
  Forall (λ k, decode_stream (press_plain k) kbd0 = Ok ([plain k], kbd0) ∧
    Forall (λ sh, decode_stream (press_shifted sh k) kbd0 = Ok ([shifted k], kbd0)) [0x2A; 0x36])
    us_keys.
Proof. apply (bool_decide_eq_true_1 _). vm_compute. reflexivity. Qed.

Lemma types_decodes s codes : types s codes → decode_stream codes kbd0 = Ok (s, kbd0).
Proof.
  induction 1 as [|k s codes Hk _ IH|k sh s codes Hk Hsh _ IH]; [done|..];
    apply list_elem_of_lookup_1 in Hk as [i Hk];
    destruct (Forall_lookup_1 _ _ _ _ us_keys_decode Hk) as [Hp Hs].
  - by rewrite (decode_stream_app _ _ _ _ _ Hp), IH.
  - apply list_elem_of_lookup_1 in Hsh as [j Hj]. pose proof (Forall_lookup_1 _ _ _ _ Hs Hj) as Hd.
    cbv beta in Hd. by rewrite (decode_stream_app _ _ _ _ _ Hd), IH.
Qed.

Lemma find_key_Some f c k : find_key f c = Some k → k ∈ us_keys ∧ f k = c.
Proof.
  unfold find_key. destruct (list_find _ us_keys) as [[i k']|] eqn:E; [|done]. intros [= <-].
  apply list_find_Some in E as (Hi & Hc & _). split; [by eapply list_elem_of_lookup_2|done].
Qed.

(** Every printable character is on a key. *)
Lemma printable_key c :
  printable c → is_Some (find_key plain c) ∨ is_Some (find_key shifted c).
Proof.
  apply (check_range (λ c, is_Some (find_key plain c) ∨ is_Some (find_key shifted c)) 32 127).
  vm_compute. reflexivity.
Qed.

Lemma type_text_types s : Forall printable s → types s (type_text s).
Proof.
  unfold type_text. induction 1 as [|c s Hc _ IH]; [constructor|]. cbn [map concat].
  unfold type_char at 1. destruct (find_key plain c) as [k|] eqn:Ep.
  - apply find_key_Some in Ep as [Hk <-]. by constructor.
  - destruct (printable_key c Hc) as [[? E]|[k Es]]; [congruence|]. rewrite Es.
    apply find_key_Some in Es as [Hk <-]. constructor; [done|by left|done].
Qed.

Section waiting.
Context (e : io_env).

Lemma keyboard_wait_step n fuel h :
  (∀ j, (j < n)%nat → Z.land (status_at e j h) 2 ≠ 0) →
  keyboard_wait e (n + fuel) h = keyboard_wait e fuel (poll e n h).
Proof.
  revert h. induction n as [|n IH]; intros h Hbusy; [done|].
  cbn [keyboard_wait Nat.add poll]. destruct (inb e 0x64 h) as [v h'] eqn:Hin.
  specialize (Hbusy 0%nat ltac:(lia)) as H0. unfold status_at in H0. simpl in H0.
  injection Hin as <- <-. rewrite (proj2 (Z.eqb_neq _ _) H0). apply IH.
  intros j Hj. apply (Hbusy (S j)). lia.
Qed.

Lemma keyboard_wait_busy fuel h :
  (∀ j, (j < fuel)%nat → Z.land (status_at e j h) 2 ≠ 0) →
  keyboard_wait e fuel h = Fault OutOfFuel.
Proof.
  intros Hbusy. rewrite <-(Nat.add_0_r fuel). by rewrite keyboard_wait_step.
Qed.

Lemma keyboard_wait_ready n fuel h :
  (∀ j, (j < n)%nat → Z.land (status_at e j h) 2 ≠ 0) →
  Z.land (status_at e n h) 2 = 0 → (n < fuel)%nat →
  keyboard_wait e fuel h = Ok (poll e (S n) h).
Proof.
  intros Hbusy Hready Hf. replace fuel with (n + S (fuel - n - 1))%nat by lia.
  rewrite keyboard_wait_step by done. cbn [keyboard_wait].
  unfold status_at in Hready. destruct (inb e 0x64 (poll e n h)) as [v h'] eqn:Hin.
  simpl in Hready. rewrite Hready. simpl. f_equal.
  clear Hbusy Hready Hf. revert h Hin. induction n as [|n IH]; intros h Hin; simpl in *.
  - by injection Hin as _ <-.
  - by rewrite (IH _ Hin).
Qed.

End waiting.

(** ** Properties *)

(** C23: round trip of the keyboard layout.  When a text is typed on a US
    keyboard (each key pressed and released, with either shift key held around
    the characters that need it), the scan codes are decoded to exactly that
    text and the driver ends in the state it started in, even when the polling
    loop samples every scan code any number of times.  Every text of printable
    ASCII characters can be typed in this way. *)
Theorem keyboard_types_text s :
  (∀ sent sampled, types s sent → stutter sent sampled →
     decode_stream sampled kbd0 = Ok (s, kbd0)) ∧
  (Forall printable s → types s (type_text s)).
Proof.
  split; [|apply type_text_types]. intros sent sampled Hs Hc.
  by rewrite (decode_stream_stutter _ _ _ Hc), (types_decodes s).
Qed.

Lemma keyboard_types_text_witness :
  decode_stream [0x36; 0x36; 0x23; 0xA3; 0xA3; 0xB6; 0x17; 0x17; 0x97] kbd0
  = Ok (chars "Hi", kbd0).
Proof.
  apply (proj1 (keyboard_types_text (chars "Hi")) [0x36; 0x23; 0xA3; 0xB6; 0x17; 0x97]).
  - apply (types_shifted (PcKey 0x23 (chr "h") (chr "H")) 0x36 _ [0x17; 0x97]);
      [apply (bool_decide_eq_true_1 _); vm_compute; reflexivity..|].
    apply (types_plain (PcKey 0x17 (chr "i") (chr "I")) []); [|constructor].
    apply (bool_decide_eq_true_1 _); vm_compute; reflexivity.
  - apply (stutter_cons _ _ _ 1), (stutter_cons _ _ _ 0), (stutter_cons _ _ _ 1),
      (stutter_cons _ _ _ 0), (stutter_cons _ _ _ 1), (stutter_cons _ _ _ 0), stutter_nil.
Defined.

(** C24: [keyboard_wait] reads the status register until bit 1 is clear.  If poll
    number [n] is the first to see it clear, the call returns after exactly the
    polls 0 to [n] (with more than [n] polls as fuel); if every poll sees the bit
    set, the call never returns.  So it returns for some fuel if and only if the
    controller clears the bit at some poll. *)
Theorem keyboard_wait_terminates_iff e h :
  ((∃ fuel h', keyboard_wait e fuel h = Ok h') ↔ ∃ n, Z.land (status_at e n h) 2 = 0) ∧
  (∀ n fuel, Z.land (status_at e n h) 2 = 0 →
     (∀ j, (j < n)%nat → Z.land (status_at e j h) 2 ≠ 0) →
     keyboard_wait e fuel h = if decide (n < fuel)%nat then Ok (poll e (S n) h) else Fault OutOfFuel) ∧
  ((∀ n, Z.land (status_at e n h) 2 ≠ 0) → ∀ fuel, keyboard_wait e fuel h = Fault OutOfFuel).
Proof.
  assert (∀ n fuel, Z.land (status_at e n h) 2 = 0 →
     (∀ j, (j < n)%nat → Z.land (status_at e j h) 2 ≠ 0) →
     keyboard_wait e fuel h = if decide (n < fuel)%nat then Ok (poll e (S n) h) else Fault OutOfFuel) as Hex.
  { intros n fuel Hn Hj. case_decide; [by apply keyboard_wait_ready|].
    apply keyboard_wait_busy. intros j Hlt. apply Hj. lia. }
  assert ((∀ n, Z.land (status_at e n h) 2 ≠ 0) → ∀ fuel, keyboard_wait e fuel h = Fault OutOfFuel) as Hno.
  { intros Hall fuel. apply keyboard_wait_busy. auto. }
  split; [|done]. split.
  - intros (fuel & h' & Hf).
    destruct (decide (Exists (λ j, Z.land (status_at e j h) 2 = 0) (seq 0 fuel))) as [Hx|Hx].
    + apply Exists_exists in Hx as (n & _ & Hn). by exists n.
    + rewrite keyboard_wait_busy in Hf; [done|]. intros j Hj Hz. apply Hx.
      apply Exists_exists. exists j. split; [apply in_seq; lia|done].
  - intros (m & Hm).
    destruct (least_nat (λ j, Z.land (status_at e j h) 2 = 0) m Hm) as (n & _ & Hn & Hj).
    exists (S n), (poll e (S n) h). rewrite (Hex n) by done. by rewrite decide_True by lia.
Qed.

(** A controller that is busy for two polls. *)
Lemma keyboard_wait_terminates_iff_witness :
  let e := devices (λ h _, if (length h <? 2)%nat then 2 else 0) in
  keyboard_wait e 3 [] = Ok (poll e 3 []) ∧ keyboard_wait e 2 [] = Fault OutOfFuel.
Proof.
  intros e. destruct (keyboard_wait_terminates_iff e []) as (_ & H & _).
  assert (∀ j, (j < 2)%nat → Z.land (status_at e j []) 2 ≠ 0) as Hb.
  { intros [|[|j]] Hj; [vm_compute; discriminate..|lia]. }
  split; [apply (H 2%nat 3%nat)|apply (H 2%nat 2%nat)]; vm_compute in Hb |- *; done.
Defined.
