(* ===== verification/Asm.v ===== *)
(** * The inline assembly of the [exit] command ([src/terminal.c])

    The command ends in a block of assembly: wait for the keyboard controller,
    write the power-off code to the ACPI port, call the BIOS twice, halt, jump
    to the same place for ever.  The block is a list of instructions, one step of
    the processor is a function on the registers it uses and the port log.  The
    BIOS is not code of the repository: whether an interrupt comes back, and with
    which registers, is part of the hardware parameter [io_env]. *)

From S2P Require Import Prelude.
From S2P Require Import Ports.
From S2P Require Import Keyboard.

(** ** Definitions *)

(** The instructions of the block; a label is the number of an instruction. *)
Inductive instr :=
| Cli
| InAl (port : Z)
| TestAl (mask : Z)
| Jnz (label : nat)
| MovAx (n : Z)
| MovBx (n : Z)
| MovCx (n : Z)
| MovDx (n : Z)
| OutAxDx
| Int (vector : Z)
| Hlt
| Jmp (label : nat).

(** The label [1:] is instruction 1, the dot of the last line is itself. *)
Definition exit_asm : list instr :=
  [Cli; InAl 0x64; TestAl 0x02; Jnz 1; MovAx 0x2000; MovDx 0x604; OutAxDx;
   MovAx 0x5301; MovBx 0x1004; Int 0x15; MovAx 0x5307; MovBx 0x1; MovCx 0x3; Int 0x15;
   Hlt; Jmp 15].

Record cpu := Cpu {
  ip : nat;
  ax : Z;
  bx : Z;
  cx : Z;
  dx : Z;
  zero_flag : bool;
  interrupt_flag : bool;
  io : io_log
}.

#[global] Instance cpu_eq_dec : EqDecision cpu.
Proof. solve_decision. Defined.

(** What a step leads to: the next state, the code behind the block, or into an
    interrupt that does not come back. *)
Inductive asm_result :=
| Runs (c : cpu)
| Leaves (c : cpu)
| Lost (c : cpu).

Section assembly.
Context (e : io_env).

(** A halted processor goes on with the next instruction when it is woken. *)
Definition execute (i : instr) (c : cpu) : asm_result :=
  let next := Cpu (S (ip c)) in
  let '(Cpu _ a b k d z f h) := c in
  match i with
  | Cli => Runs (next a b k d z false h)
  | InAl port =>
      let '(v, h1) := inb e port h in Runs (next (Z.lor (Z.land a 0xFF00) v) b k d z f h1)
  | TestAl mask => Runs (next a b k d (Z.land (u8 a) mask =? 0) f h)
  | Jnz label => Runs (if z then next a b k d z f h else Cpu label a b k d z f h)
  | MovAx n => Runs (next (u16 n) b k d z f h)
  | MovBx n => Runs (next a (u16 n) k d z f h)
  | MovCx n => Runs (next a b (u16 n) d z f h)
  | MovDx n => Runs (next a b k (u16 n) z f h)
  | OutAxDx => Runs (next a b k d z f (outw d a h))
  | Int vector =>
      let h1 := IoInt vector a b k :: h in
      let '(a1, b1, c1, d1) := registers e h1 in
      if comes_back e h1 then Runs (next a1 b1 c1 d1 z f h1) else Lost (Cpu (ip c) a b k d z f h1)
  | Hlt => Runs (next a b k d z f h)
  | Jmp label => Runs (Cpu label a b k d z f h)
  end.

Definition asm_step (code : list instr) (c : cpu) : asm_result :=
  match code !! ip c with
  | Some i => execute i c
  | None => Leaves c
  end.

(** The run of a block: [true] when control leaves it; [false] when it never
    does, because a step leads to the same state again or an interrupt does not
    come back. *)
Fixpoint asm_run (fuel : nat) (code : list instr) (c : cpu) : outcome (bool * cpu) :=
  match fuel with
  | O => Fault OutOfFuel
  | S fuel' =>
      match asm_step code c with
      | Runs c1 => if decide (c1 = c) then Ok (false, c) else asm_run fuel' code c1
      | Leaves c1 => Ok (true, c1)
      | Lost c1 => Ok (false, c1)
      end
  end.

(** The processor at the start of a block. *)
Definition enter_asm (h : io_log) : cpu :=
  let '(a, b, c, d) := registers e h in Cpu 0 a b c d false true h.

(** [n] steps; a state that has left or is lost stays so. *)
Fixpoint asm_steps (n : nat) (code : list instr) (c : cpu) : asm_result :=
  match n with
  | O => Runs c
  | S n' =>
      match asm_step code c with
      | Runs c1 => asm_steps n' code c1
      | r => r
      end
  end.

(** ** Lemmas *)

(** Every instruction of the block leads to an instruction of the block. *)
Lemma exit_step_inside c :
  (ip c < 16)%nat → ∀ c1, asm_step exit_asm c = Runs c1 → (ip c1 < 16)%nat.
Proof.
  intros Hip c1. unfold asm_step. destruct c as [i a b k d z f h]. cbn [ip] in *.
  do 16 (destruct i as [|i]; [cbn; repeat case_match; intros; simplify_eq; simpl; lia|]). lia.
Qed.

Lemma exit_never_leaves n c :
  (ip c < 16)%nat → ∀ c1, asm_steps n exit_asm c ≠ Leaves c1.
Proof.
  revert c. induction n as [|n IH]; intros c Hip c1; [done|]. cbn [asm_steps].
  destruct (asm_step exit_asm c) as [c2|c2|c2] eqn:E; [|exfalso|done].
  - apply IH. by apply (exit_step_inside c).
  - unfold asm_step in E. destruct (lookup_lt_is_Some_2 exit_asm (ip c)) as [i Hi]; [simpl; lia|].
    rewrite Hi in E. destruct c, i; simpl in E; repeat case_match; done.
Qed.

(** [al] after an input. *)
Lemma al_of_input a v : 0 ≤ v < 256 → u8 (Z.lor (Z.land a 0xFF00) v) = v.
Proof.
  intros Hv. unfold u8. change 256 with (2 ^ 8). rewrite <-Z.land_ones by lia.
  rewrite Z.land_lor_distr_l, <-Z.land_assoc. change (Z.land 0xFF00 (Z.ones 8)) with 0.
  rewrite Z.land_0_r, Z.lor_0_l, Z.land_ones by lia. apply Z.mod_small. lia.
Qed.

Lemma asm_run_step fuel code c c1 :
  asm_step code c = Runs c1 → ip c1 ≠ ip c → asm_run (S fuel) code c = asm_run fuel code c1.
Proof. intros Hs Hip. cbn [asm_run]. by rewrite Hs, decide_False by congruence. Qed.

(** One poll: the jump goes back while bit 1 is set. *)
Lemma exit_poll fuel a b k d z f h :
  ∃ a' z', asm_run (3 + fuel) exit_asm (Cpu 1 a b k d z f h)
  = asm_run fuel exit_asm
      (Cpu (if Z.land (status_at e 0 h) 2 =? 0 then 4 else 1) a' b k d z' f (poll e 1 h)).
Proof.
  set (v := u8 (e h 0x64)). exists (Z.lor (Z.land a 0xFF00) v), (Z.land v 2 =? 0).
  assert (u8 (Z.lor (Z.land a 0xFF00) v) = v) as Hal by apply al_of_input, u8_range.
  cbn [Nat.add].
  erewrite asm_run_step; [|reflexivity|done]. fold v. erewrite asm_run_step; [|reflexivity|done].
  cbn [execute]. rewrite Hal. erewrite asm_run_step; [|reflexivity|].
  - change (status_at e 0 h) with v. cbn [ip]. by destruct (Z.land v 2 =? 0).
  - cbn. by destruct (Z.land v 2 =? 0).
Qed.

Lemma exit_polls n fuel a b k d z f h :
  (∀ j, (j < n)%nat → Z.land (status_at e j h) 2 ≠ 0) → Z.land (status_at e n h) 2 = 0 →
  ∃ a' z', asm_run (3 * S n + fuel) exit_asm (Cpu 1 a b k d z f h)
  = asm_run fuel exit_asm (Cpu 4 a' b k d z' f (poll e (S n) h)).
Proof.
  revert a z h. induction n as [|n IH]; intros a z h Hb Hr.
  - change (3 * 1 + fuel)%nat with (3 + fuel)%nat.
    destruct (exit_poll fuel a b k d z f h) as (a' & z' & ->). rewrite Hr. by exists a', z'.
  - replace (3 * S (S n) + fuel)%nat with (3 + (3 * S n + fuel))%nat by lia.
    destruct (exit_poll (3 * S n + fuel) a b k d z f h) as (a1 & z1 & ->).
    rewrite (proj2 (Z.eqb_neq _ 0)) by (apply Hb; lia).
    destruct (IH a1 z1 (poll e 1 h)) as (a' & z' & ->); [|exact Hr|by exists a', z'].
    intros j Hj. apply (Hb (S j)). lia.
Qed.

(** While the bit stays set the polls go on. *)
Lemma exit_busy fuel a b k d z f h :
  (∀ j, Z.land (status_at e j h) 2 ≠ 0) →
  asm_run fuel exit_asm (Cpu 1 a b k d z f h) = Fault OutOfFuel.
Proof.
  revert a z h. induction fuel as [fuel IH] using lt_wf_ind. intros a z h Hb.
  destruct fuel as [|[|[|fuel]]]; [done|..].
  - erewrite asm_run_step; [|reflexivity|done]. done.
  - do 2 (erewrite asm_run_step; [|reflexivity|done]). done.
  - destruct (exit_poll fuel a b k d z f h) as (a' & z' & He). change (S (S (S fuel))) with (3 + fuel)%nat.
    rewrite He, (proj2 (Z.eqb_neq _ 0)) by apply Hb. apply IH; [lia|].
    intros j. apply (Hb (S j)).
Qed.

(** An interrupt that comes back, and one that does not. *)
Lemma asm_run_int fuel code c vector :
  code !! ip c = Some (Int vector) →
  let h1 := IoInt vector (ax c) (bx c) (cx c) :: io c in
  if comes_back e h1 then
    ∃ c1, asm_run (S fuel) code c = asm_run fuel code c1 ∧ ip c1 = S (ip c) ∧ io c1 = h1
  else ∃ c1, asm_run (S fuel) code c = Ok (false, c1) ∧ io c1 = h1.
Proof.
  intros Hi h1. destruct c as [i a b k d z f h]. cbn [ip ax bx cx io] in *.
  cbn [asm_run]. unfold asm_step. cbn [ip]. rewrite Hi. cbn [execute ip]. fold h1.
  destruct (registers e h1) as [[[a1 b1] k1] d1]. destruct (comes_back e h1); [|by eexists].
  rewrite decide_False by (intros [= ?]; lia). by eexists.
Qed.

(** The log at the end: the polls, the power-off code, and one or two calls of
    the BIOS, as the first one comes back or not. *)
Definition exit_log (n : nat) (h : io_log) : io_log :=
  let '(_, _, k, _) := registers e h in
  let h1 := IoOut W16 0x604 0x2000 :: poll e (S n) h in
  let h2 := IoInt 0x15 0x5301 0x1004 k :: h1 in
  if comes_back e h2 then IoInt 0x15 0x5307 1 3 :: h2 else h2.

Lemma exit_runs n fuel h :
  (∀ j, (j < n)%nat → Z.land (status_at e j h) 2 ≠ 0) → Z.land (status_at e n h) 2 = 0 →
  (n < fuel)%nat →
  ∃ c, asm_run (3 * fuel + 16) exit_asm (enter_asm h) = Ok (false, c) ∧ io c = exit_log n h.
Proof.
  intros Hb Hr Hf. unfold enter_asm, exit_log. destruct (registers e h) as [[[a b] k] d].
  replace (3 * fuel + 16)%nat with (S (3 * S n + (14 + (3 * (fuel - S n) + 1))))%nat by lia.
  generalize (3 * (fuel - S n) + 1)%nat as g. intros g.
  erewrite asm_run_step; [|reflexivity|done]. cbn [ip].
  destruct (exit_polls n (14 + g) a b k d false false h Hb Hr) as (a' & z' & ->).
  cbn [Nat.add]. do 5 (erewrite asm_run_step; [|reflexivity|done]).
  match goal with |- context [asm_run (S ?fl) _ ?c] =>
    pose proof (asm_run_int fl exit_asm c 0x15 eq_refl) as H1 end.
  cbn [ip ax bx cx io] in H1 |- *.
  change (u16 0x5301) with 0x5301 in H1 |- *. change (u16 0x1004) with 0x1004 in H1 |- *.
  change (outw (u16 0x604) (u16 0x2000) ?l) with (IoOut W16 0x604 0x2000 :: l) in H1 |- *.
  destruct (comes_back e _); destruct H1 as (c1 & -> & H1); [|by exists c1].
  destruct H1 as [Hip Hio]. destruct c1 as [i a1 b1 k1 d1 z1 f1 h1]. cbn [ip io] in Hip, Hio. subst i h1.
  do 3 (erewrite asm_run_step; [|reflexivity|done]).
  match goal with |- context [asm_run (S ?fl) _ ?c] =>
    pose proof (asm_run_int fl exit_asm c 0x15 eq_refl) as H2 end.
  cbn [ip ax bx cx io] in H2 |- *.
  destruct (comes_back e _); destruct H2 as (c2 & -> & H2); [|by exists c2].
  destruct H2 as [Hip Hio]. destruct c2 as [i a2 b2 k2 d2 z2 f2 h2]. cbn [ip io] in Hip, Hio. subst i h2.
  erewrite asm_run_step; [|reflexivity|done]. cbn [asm_run].
  match goal with |- context [asm_step exit_asm ?c] => change (asm_step exit_asm c) with (Runs c) end.
  cbv beta iota. rewrite decide_True by done. by eexists.
Qed.

Lemma exit_waits fuel h :
  (∀ j, Z.land (status_at e j h) 2 ≠ 0) →
  asm_run fuel exit_asm (enter_asm h) = Fault OutOfFuel.
Proof.
  intros Hb. unfold enter_asm. destruct (registers e h) as [[[a b] k] d].
  destruct fuel as [|fuel]; [done|]. erewrite asm_run_step; [|reflexivity|done]. by apply exit_busy.
Qed.

End assembly.
