(* ===== verification/Vga.v ===== *)
(** * The VGA text driver ([src/vga.c], [src/vga.h])

    The state holds the 80 x 25 page of cells at [VGA_MEMORY], the three static
    variables of [vga.c] and the log of port accesses of the machine, which the
    keyboard driver shares.  A cell outside the page is a fault. *)

From S2P Require Import Prelude.
From S2P Require Import CString.
From S2P Require Import Ports.

(** ** Definitions *)

Definition VGA_COLOR_BLACK := 0.
Definition VGA_COLOR_BROWN := 6.
Definition VGA_COLOR_LIGHT_GREY := 7.
Definition VGA_COLOR_LIGHT_BLUE := 9.
Definition VGA_COLOR_LIGHT_GREEN := 10.
Definition VGA_COLOR_LIGHT_CYAN := 11.
Definition VGA_COLOR_LIGHT_RED := 12.
Definition VGA_COLOR_LIGHT_MAGENTA := 13.
Definition VGA_COLOR_WHITE := 15.

Definition VGA_WIDTH := 80.
Definition VGA_HEIGHT := 25.

Record vga := Vga {
  vga_buffer : list Z;
  cursor_x : Z;
  cursor_y : Z;
  vga_color : Z;
  ports : io_log
}.

#[global] Instance vga_eq_dec : EqDecision vga.
Proof. solve_decision. Defined.

Definition set_buffer (b : list Z) (v : vga) : vga :=
  Vga b (cursor_x v) (cursor_y v) (vga_color v) (ports v).
Definition set_xy (x y : Z) (v : vga) : vga :=
  Vga (vga_buffer v) x y (vga_color v) (ports v).
Definition set_ports (h : io_log) (v : vga) : vga :=
  Vga (vga_buffer v) (cursor_x v) (cursor_y v) (vga_color v) h.

Definition vga_entry_color (fg bg : Z) : Z := u8 (Z.lor fg (Z.shiftl bg 4)).

(** [(uint16_t)c | (uint16_t)color << 8]: the conversion of a negative [char]
    to [uint16_t] sets the upper byte. *)
Definition vga_entry (c color : Z) : Z :=
  u16 (Z.lor (u16 c) (Z.shiftl (u16 color) 8)).

Definition vga_set_cursor (x y : Z) (v : vga) : vga :=
  let pos := u16 (y * VGA_WIDTH + x) in
  let h1 := outb 0x3D4 0x0F (ports v) in
  let h2 := outb 0x3D5 (u8 (Z.land pos 0xFF)) h1 in
  let h3 := outb 0x3D4 0x0E h2 in
  let h4 := outb 0x3D5 (u8 (Z.land (Z.shiftr pos 8) 0xFF)) h3 in
  set_xy x y (set_ports h4 v).

Definition vga_get_cursor (v : vga) : Z * Z := (cursor_x v, cursor_y v).

(** Store one cell through [vga_buffer]. *)
Definition put_cell (i e : Z) (v : vga) : outcome vga :=
  b ← arr_set (vga_buffer v) i e; Ok (set_buffer b v).

Definition vga_scroll (v : vga) : outcome vga :=
  v1 ← for_range 0 (VGA_HEIGHT - 1) (λ y,
         for_range 0 VGA_WIDTH (λ x w,
           e ← arr_get (vga_buffer w) ((y + 1) * VGA_WIDTH + x);
           put_cell (y * VGA_WIDTH + x) e w)) v;
  for_range 0 VGA_WIDTH (λ x w,
    put_cell ((VGA_HEIGHT - 1) * VGA_WIDTH + x) (vga_entry 32 (vga_color w)) w) v1.

Definition vga_clear (v : vga) : outcome vga :=
  v1 ← for_range 0 VGA_HEIGHT (λ y,
         for_range 0 VGA_WIDTH (λ x w,
           put_cell (y * VGA_WIDTH + x) (vga_entry 32 (vga_color w)) w)) v;
  Ok (vga_set_cursor 0 0 (set_xy 0 0 v1)).

Definition vga_init (v : vga) : outcome vga :=
  vga_clear (Vga (vga_buffer v) (cursor_x v) (cursor_y v)
                 (vga_entry_color VGA_COLOR_LIGHT_GREY VGA_COLOR_BLACK) (ports v)).

(** The end of [vga_putchar], reached by every branch that does not return:
    wrap at the right edge, scroll at the bottom, move the hardware cursor. *)
Definition putchar_wrap (v : vga) : outcome vga :=
  let v1 := if VGA_WIDTH <=? cursor_x v then set_xy 0 (cursor_y v + 1) v else v in
  v2 ← (if VGA_HEIGHT <=? cursor_y v1
        then w ← vga_scroll v1; Ok (set_xy (cursor_x w) (VGA_HEIGHT - 1) w)
        else Ok v1);
  Ok (vga_set_cursor (cursor_x v2) (cursor_y v2) v2).

(** Erase the cell under the cursor at [(x, y)] and return early. *)
Definition putchar_erase (x y : Z) (v : vga) : outcome vga :=
  w ← put_cell (y * VGA_WIDTH + x) (vga_entry 32 (vga_color v)) (set_xy x y v);
  Ok (vga_set_cursor x y w).

Definition vga_putchar (c : Z) (v : vga) : outcome vga :=
  let x := cursor_x v in
  let y := cursor_y v in
  if c =? 10 then putchar_wrap (set_xy 0 (y + 1) v)
  else if c =? 13 then putchar_wrap (set_xy 0 y v)
  else if c =? 9 then putchar_wrap (set_xy (Z.land (x + 8) (Z.lnot 7)) y v)
  else if c =? 8 then
    if 0 <? x then putchar_erase (x - 1) y v
    else if 0 <? y then putchar_erase (VGA_WIDTH - 1) (y - 1) v
    else putchar_wrap v
  else
    w ← put_cell (y * VGA_WIDTH + x) (vga_entry c (vga_color v)) v;
    putchar_wrap (set_xy (x + 1) y w).

Fixpoint vga_write (str : list Z) (v : vga) : outcome vga :=
  match str with
  | [] => Fault OutOfBounds
  | c :: str' => if c =? 0 then Ok v else w ← vga_putchar c v; vga_write str' w
  end.

Fixpoint vga_puts (str : list Z) (v : vga) : outcome vga :=
  match str with
  | [] => Fault OutOfBounds
  | c :: str' => if c =? 0 then Ok v else w ← vga_putchar c v; vga_puts str' w
  end.

Definition vga_set_color (foreground background : Z) (v : vga) : vga :=
  Vga (vga_buffer v) (cursor_x v) (cursor_y v)
      (vga_entry_color foreground background) (ports v).

Definition vga_put_entry (x y c : Z) (v : vga) : outcome vga :=
  if (0 <=? x) && (x <? VGA_WIDTH) && (0 <=? y) && (y <? VGA_HEIGHT)
  then put_cell (y * VGA_WIDTH + x) (vga_entry c (vga_color v)) v
  else Ok v.

(** ** Specifications *)

(** Printing a list of characters: what [vga_write] and [vga_printf] do to the
    screen. *)
Fixpoint emit (cs : list Z) (v : vga) : outcome vga :=
  match cs with
  | [] => Ok v
  | c :: cs' => w ← vga_putchar c v; emit cs' w
  end.

(** The page after one scroll. *)
Definition scrolled (b : list Z) (color : Z) : list Z :=
  drop 80 b ++ replicate 80 (vga_entry 32 color).

(** The type invariant of the driver: a full page of 16-bit cells, an 8-bit
    colour and the cursor on the page. *)
Record vga_wf (v : vga) : Prop := {
  wf_length : length (vga_buffer v) = 2000%nat;
  wf_cells : Forall (λ e, 0 ≤ e < 65536) (vga_buffer v);
  wf_color : 0 ≤ vga_color v < 256;
  wf_x : 0 ≤ cursor_x v < VGA_WIDTH;
  wf_y : 0 ≤ cursor_y v < VGA_HEIGHT
}.

(** The CRT controller behind ports 0x3D4 (index) and 0x3D5 (data): the
    register selected by a log and the value of register [r] after it. *)
Fixpoint crtc_index (h : io_log) : Z :=
  match h with
  | [] => 0
  | IoOut W8 p v :: h' => if p =? 0x3D4 then v else crtc_index h'
  | _ :: h' => crtc_index h'
  end.

Fixpoint crtc_reg (r : Z) (h : io_log) : Z :=
  match h with
  | [] => 0
  | IoOut W8 p v :: h' =>
      if (p =? 0x3D5) && (crtc_index h' =? r) then v else crtc_reg r h'
  | _ :: h' => crtc_reg r h'
  end.

(** The position of the hardware cursor: registers 0x0E (high) and 0x0F (low). *)
Definition crtc_cursor (h : io_log) : Z := crtc_reg 0x0E h * 256 + crtc_reg 0x0F h.

(** ** Lemmas *)

Lemma set_buffer_set_buffer b b' v : set_buffer b (set_buffer b' v) = set_buffer b v.
Proof. done. Qed.
Lemma set_buffer_id v : set_buffer (vga_buffer v) v = v.
Proof. by destruct v. Qed.

Lemma put_cell_in i e v :
  0 ≤ i < Z.of_nat (length (vga_buffer v)) →
  put_cell i e v = Ok (set_buffer (<[Z.to_nat i := e]> (vga_buffer v)) v).
Proof. intros H. unfold put_cell. by rewrite arr_set_in. Qed.

(** *** Filling a run of cells *)

Lemma fill_cells (k n : nat) e b v body :
  (k + n ≤ length b)%nat →
  (∀ i w, 0 ≤ i < Z.of_nat n → vga_color w = vga_color v →
     body i w = put_cell (Z.of_nat k + i) e w) →
  for_range 0 (Z.of_nat n) body (set_buffer b v)
  = Ok (set_buffer (splice b k (replicate n e)) v).
Proof.
  intros Hk Hbody.
  destruct (for_range_inv
    (λ i w, w = set_buffer (splice b k (replicate (Z.to_nat i) e)) v)
    0 (Z.of_nat n) body (set_buffer b v)) as (w & -> & ->).
  - lia.
  - simpl. by rewrite splice_nil.
  - intros i w Hi ->. eexists. split.
    + rewrite Hbody by done. apply put_cell_in. simpl.
      rewrite length_splice by (rewrite length_replicate; lia). lia.
    + simpl. rewrite set_buffer_set_buffer. f_equal.
      replace (Z.to_nat (Z.of_nat k + i)) with (k + length (replicate (Z.to_nat i) e))%nat
        by (rewrite length_replicate; lia).
      rewrite splice_snoc by (rewrite length_replicate; lia).
      f_equal. replace (Z.to_nat (i + 1)) with (S (Z.to_nat i)) by lia.
      by rewrite <-replicate_S_end.
  - by rewrite Nat2Z.id.
Qed.

(** *** Scrolling *)

(** The page while the first [k] cells have been moved up by one row. *)
Definition shifting (b : list Z) (k : nat) : list Z := take k (drop 80 b) ++ drop k b.

Lemma length_shifting b k : (k + 80 ≤ length b)%nat → length (shifting b k) = length b.
Proof. intros. unfold shifting. rewrite length_app, length_take, !length_drop. lia. Qed.

Lemma shifting_lookup b k : (k + 80 < length b)%nat → shifting b k !! (k + 80)%nat = b !! (k + 80)%nat.
Proof.
  intros H. unfold shifting.
  rewrite lookup_app_r by (rewrite length_take, length_drop; lia).
  rewrite length_take, length_drop, lookup_drop. f_equal. lia.
Qed.

Lemma shifting_step b k e :
  (k + 80 < length b)%nat → b !! (k + 80)%nat = Some e →
  <[k := e]> (shifting b k) = shifting b (S k).
Proof.
  intros H He. unfold shifting.
  rewrite insert_app_r_alt by (rewrite length_take, length_drop; lia).
  rewrite length_take, length_drop.
  replace (k - min k (length b - 80))%nat with 0%nat by lia.
  destruct (lookup_lt_is_Some_2 b k) as [x Hx]; [lia|].
  rewrite (drop_S b x k Hx). simpl.
  rewrite (take_S_r (drop 80 b) k e) by (rewrite lookup_drop; rewrite <-He; f_equal; lia).
  by rewrite <-app_assoc.
Qed.

Lemma vga_scroll_ok v :
  length (vga_buffer v) = 2000%nat →
  vga_scroll v = Ok (set_buffer (scrolled (vga_buffer v) (vga_color v)) v).
Proof.
  intros Hlen. unfold vga_scroll. set (b := vga_buffer v) in *.
  destruct (for_range_inv
    (λ y w, w = set_buffer (shifting b (80 * Z.to_nat y)) v)
    0 (VGA_HEIGHT - 1)
    (λ y, for_range 0 VGA_WIDTH (λ x w,
           e ← arr_get (vga_buffer w) ((y + 1) * VGA_WIDTH + x);
           put_cell (y * VGA_WIDTH + x) e w)) v) as (w & -> & ->).
  - done.
  - by destruct v.
  - intros y w Hy ->. unfold VGA_HEIGHT, VGA_WIDTH in *.
    destruct (for_range_inv
      (λ x w, w = set_buffer (shifting b (80 * Z.to_nat y + Z.to_nat x)) v)
      0 80 (λ x w, e ← arr_get (vga_buffer w) ((y + 1) * 80 + x);
                   put_cell (y * 80 + x) e w)
      (set_buffer (shifting b (80 * Z.to_nat y)) v)) as (w & -> & ->).
    + lia.
    + by rewrite Nat.add_0_r.
    + intros x w Hx ->. set (k := (80 * Z.to_nat y + Z.to_nat x)%nat).
      destruct (lookup_lt_is_Some_2 b (k + 80)) as [e He]; [lia|].
      replace ((y + 1) * 80 + x) with (Z.of_nat (k + 80)) by lia.
      replace (y * 80 + x) with (Z.of_nat k) by lia. simpl.
      erewrite arr_get_lookup by (rewrite shifting_lookup by lia; exact He). simpl.
      rewrite put_cell_in by (simpl; rewrite length_shifting; lia).
      eexists. split; [done|]. simpl. rewrite Nat2Z.id, (shifting_step b k e) by (done || lia).
      rewrite set_buffer_set_buffer. do 2 f_equal. lia.
    + eexists. split; [done|]. do 2 f_equal. lia.
  - simpl. unfold VGA_HEIGHT, VGA_WIDTH.
    rewrite (fill_cells 1920 80 (vga_entry 32 (vga_color v))).
    + do 2 f_equal. unfold splice, shifting, scrolled. simpl.
      change (Z.to_nat (25 - 1)) with 24%nat. simpl.
      assert (length (take 1920 (drop 80 b)) = 1920%nat) as Ht
        by (rewrite length_take, length_drop; lia).
      rewrite take_app_length' by done.
      rewrite (take_ge (drop 80 b)) by (rewrite length_drop; lia).
      rewrite (drop_ge (_ ++ _)); [done|].
      rewrite length_app, !length_drop. lia.
    + rewrite length_shifting; lia.
    + intros i w Hi ->. done.
Qed.

Lemma length_scrolled b c : length b = 2000%nat → length (scrolled b c) = 2000%nat.
Proof. intros. unfold scrolled. rewrite length_app, length_drop, length_replicate. lia. Qed.

(** *** Clearing *)

Lemma vga_clear_ok v :
  length (vga_buffer v) = 2000%nat →
  vga_clear v = Ok (vga_set_cursor 0 0
    (set_buffer (replicate 2000 (vga_entry 32 (vga_color v))) v)).
Proof.
  intros Hlen. unfold vga_clear. set (e := vga_entry 32 (vga_color v)).
  destruct (for_range_inv
    (λ y w, w = set_buffer (splice (vga_buffer v) 0 (replicate (80 * Z.to_nat y) e)) v)
    0 VGA_HEIGHT
    (λ y, for_range 0 VGA_WIDTH (λ x w,
           put_cell (y * VGA_WIDTH + x) (vga_entry 32 (vga_color w)) w)) v) as (w & -> & ->).
  - done.
  - simpl. by rewrite splice_nil, set_buffer_id.
  - intros y w Hy ->. unfold VGA_WIDTH, VGA_HEIGHT in *. eexists. split.
    + apply (fill_cells (80 * Z.to_nat y) 80 e).
      * rewrite length_splice by (rewrite length_replicate; lia). lia.
      * intros i w Hi Hc. rewrite Hc. f_equal. lia.
    + rewrite (splice_replicate (vga_buffer v) 0) by lia.
      do 3 f_equal. lia.
  - cbn [mbind outcome_bind].
    by rewrite splice_all by (rewrite length_replicate, Hlen; done).
Qed.

(** *** The cursor registers *)

Lemma crtc_cursor_set x y v :
  crtc_cursor (ports (vga_set_cursor x y v)) = u16 (y * VGA_WIDTH + x).
Proof.
  unfold crtc_cursor, vga_set_cursor. cbn -[u16 u8 Z.land Z.shiftr Z.mul].
  set (p := u16 (y * VGA_WIDTH + x)).
  assert (0 ≤ p < 65536) as Hp by apply u16_range.
  change 255 with (Z.ones 8). rewrite !Z.land_ones, Z.shiftr_div_pow2 by lia.
  unfold u8. change (2 ^ 8) with 256. rewrite !Z.mod_mod by lia.
  rewrite (Z.mod_small (p / 256)) by (split; [apply Z.div_pos|apply Z.div_lt_upper_bound]; lia).
  pose proof (Z.div_mod p 256 ltac:(lia)). 
  change (14 mod 256) with 14. change (15 mod 256) with 15. cbn [Z.eqb Pos.eqb]. lia.
Qed.

Lemma vga_set_cursor_set_xy x y x' y' v :
  vga_set_cursor x y (set_xy x' y' v) = vga_set_cursor x y v.
Proof. done. Qed.

(** *** Entries *)

Lemma vga_entry_range c color : 0 ≤ vga_entry c color < 65536.
Proof. apply u16_range. Qed.
#[export] Hint Resolve vga_entry_range : foxos.

(** *** [vga_putchar] on a full page *)

(** What [putchar_wrap] computes. *)
Definition wrapped (v : vga) : vga :=
  let x := if VGA_WIDTH <=? cursor_x v then 0 else cursor_x v in
  let y := if VGA_WIDTH <=? cursor_x v then cursor_y v + 1 else cursor_y v in
  if VGA_HEIGHT <=? y
  then vga_set_cursor x (VGA_HEIGHT - 1)
         (set_buffer (scrolled (vga_buffer v) (vga_color v)) v)
  else vga_set_cursor x y v.

Lemma putchar_wrap_ok v :
  length (vga_buffer v) = 2000%nat → putchar_wrap v = Ok (wrapped v).
Proof.
  intros Hlen. unfold putchar_wrap, wrapped.
  destruct (VGA_WIDTH <=? cursor_x v); simpl; case_bool; try done;
    by rewrite vga_scroll_ok.
Qed.

Lemma put_cell_ok x y e v :
  length (vga_buffer v) = 2000%nat → 0 ≤ x < VGA_WIDTH → 0 ≤ y < VGA_HEIGHT →
  put_cell (y * VGA_WIDTH + x) e v
  = Ok (set_buffer (<[Z.to_nat (y * VGA_WIDTH + x) := e]> (vga_buffer v)) v).
Proof. unfold VGA_WIDTH, VGA_HEIGHT. intros. apply put_cell_in. lia. Qed.

Lemma scrolled_cells b color :
  Forall (λ e, 0 ≤ e < 65536) b → Forall (λ e, 0 ≤ e < 65536) (scrolled b color).
Proof.
  intros Hb. apply Forall_app. split; [by apply Forall_drop|].
  apply Forall_replicate, vga_entry_range.
Qed.

(** A state whose cursor may be one step off the page, as the branches of
    [vga_putchar] leave it. *)
Record vga_pre (v : vga) : Prop := {
  pre_length : length (vga_buffer v) = 2000%nat;
  pre_cells : Forall (λ e, 0 ≤ e < 65536) (vga_buffer v);
  pre_color : 0 ≤ vga_color v < 256;
  pre_x : 0 ≤ cursor_x v;
  pre_y : 0 ≤ cursor_y v
}.

Lemma wrapped_wf v : vga_pre v → vga_wf (wrapped v).
Proof.
  intros []. unfold wrapped.
  destruct (VGA_WIDTH <=? cursor_x v) eqn:Ex; case_bool; zify_bool; split; simpl;
    unfold VGA_WIDTH, VGA_HEIGHT in *; try done; try lia;
    auto using length_scrolled, scrolled_cells.
Qed.

Lemma wrapped_sync v :
  vga_pre v →
  crtc_cursor (ports (wrapped v)) = cursor_y (wrapped v) * VGA_WIDTH + cursor_x (wrapped v).
Proof.
  intros H. pose proof (wrapped_wf v H) as [_ _ _ Hx Hy].
  unfold wrapped in *. destruct (VGA_WIDTH <=? cursor_x v); case_bool;
    rewrite crtc_cursor_set; apply Z.mod_small; simpl in *;
    unfold VGA_WIDTH, VGA_HEIGHT in *; lia.
Qed.

Lemma wf_pre v x y :
  vga_wf v → 0 ≤ x → 0 ≤ y → vga_pre (set_xy x y v).
Proof. intros []. by split. Qed.

Lemma pre_cell v i e :
  vga_pre v → 0 ≤ e < 65536 → vga_pre (set_buffer (<[i := e]> (vga_buffer v)) v).
Proof.
  intros [] He. split; simpl; try done; [by rewrite length_insert|].
  by apply Forall_insert.
Qed.

(** The invariant, together with the hardware cursor showing the software one. *)
Definition vga_synced (v : vga) : Prop :=
  vga_wf v ∧ crtc_cursor (ports v) = cursor_y v * VGA_WIDTH + cursor_x v.

Lemma wrapped_synced v : vga_pre v → vga_synced (wrapped v).
Proof. intros H. split; [by apply wrapped_wf|by apply wrapped_sync]. Qed.

Lemma set_cursor_synced v x y :
  vga_wf v → 0 ≤ x < VGA_WIDTH → 0 ≤ y < VGA_HEIGHT → vga_synced (vga_set_cursor x y v).
Proof.
  intros [] Hx Hy. split; [by split|]. rewrite crtc_cursor_set. simpl.
  apply Z.mod_small. unfold VGA_WIDTH, VGA_HEIGHT in *. lia.
Qed.

Lemma putchar_erase_ok x y v :
  vga_wf v → 0 ≤ x < VGA_WIDTH → 0 ≤ y < VGA_HEIGHT →
  ∃ w, putchar_erase x y v = Ok w ∧ vga_synced w.
Proof.
  intros Hwf Hx Hy. unfold putchar_erase.
  rewrite put_cell_ok by (apply Hwf || done). eexists. split; [done|].
  apply set_cursor_synced; [|done|done]. destruct Hwf. split; simpl; try done.
  - by rewrite length_insert.
  - by apply Forall_insert; [|apply vga_entry_range].
Qed.

Lemma vga_putchar_ok c v :
  vga_wf v → ∃ w, vga_putchar c v = Ok w ∧ vga_synced w.
Proof.
  intros Hwf. pose proof Hwf as [Hlen Hcells Hcol Hx Hy].
  unfold vga_putchar.
  assert (∀ x y, 0 ≤ x → 0 ≤ y →
    ∃ w, putchar_wrap (set_xy x y v) = Ok w ∧ vga_synced w) as Hwrap.
  { intros x y ??. rewrite putchar_wrap_ok by done. eexists. split; [done|].
    by apply wrapped_synced, wf_pre. }
  do 2 (case_bool; [apply Hwrap; lia|]).
  case_bool; [apply Hwrap; [apply Z.land_nonneg; lia|lia]|].
  case_bool.
  { do 2 (case_bool; [apply putchar_erase_ok; unfold VGA_WIDTH, VGA_HEIGHT in *; done || lia|]).
    destruct (Hwrap (cursor_x v) (cursor_y v)) as (w & Hw & ?); [lia|lia|].
    exists w. by destruct v. }
  rewrite put_cell_ok by done. simpl.
  rewrite putchar_wrap_ok by (simpl; by rewrite length_insert).
  eexists. split; [done|]. apply wrapped_synced.
  pose proof (pre_cell (set_xy (cursor_x v + 1) (cursor_y v) v)
    (Z.to_nat (cursor_y v * VGA_WIDTH + cursor_x v)) (vga_entry c (vga_color v))) as H3.
  apply H3; [|apply vga_entry_range]. apply wf_pre; [done|lia|lia].
Qed.

Lemma emit_ok cs v : vga_synced v → ∃ w, emit cs v = Ok w ∧ vga_synced w.
Proof.
  revert v. induction cs as [|c cs IH]; intros v Hv; simpl; [eauto|].
  destruct (vga_putchar_ok c v) as (w & -> & Hw); [apply Hv|]. by apply IH.
Qed.

Lemma emit_app cs ds v : emit (cs ++ ds) v = (emit cs v ≫= emit ds).
Proof.
  revert v. induction cs as [|c cs IH]; intros v; simpl; [done|].
  destruct (vga_putchar c v); simpl; [apply IH|done].
Qed.

(** *** Ordinary characters *)

(** The characters that [vga_putchar] does not treat as control characters. *)
Definition ordinary (c : Z) : Prop := c ≠ 8 ∧ c ≠ 9 ∧ c ≠ 10 ∧ c ≠ 13.

#[global] Instance ordinary_dec c : Decision (ordinary c).
Proof. unfold ordinary. apply _. Defined.

(** The cursor as a position in the page. *)
Definition cursor_pos (v : vga) : Z := cursor_y v * VGA_WIDTH + cursor_x v.

Lemma putchar_ordinary c v :
  vga_wf v → ordinary c →
  vga_putchar c v = Ok (wrapped (set_xy (cursor_x v + 1) (cursor_y v)
    (set_buffer (<[Z.to_nat (cursor_pos v) := vga_entry c (vga_color v)]> (vga_buffer v)) v))).
Proof.
  intros [Hlen _ _ Hx Hy] (H8 & H9 & H10 & H13). unfold vga_putchar.
  rewrite (proj2 (Z.eqb_neq c 10) H10), (proj2 (Z.eqb_neq c 13) H13),
    (proj2 (Z.eqb_neq c 9) H9), (proj2 (Z.eqb_neq c 8) H8).
  rewrite put_cell_ok by done. simpl.
  by rewrite putchar_wrap_ok by (simpl; by rewrite length_insert).
Qed.

(** One ordinary character that does not fill the page. *)
Lemma putchar_step c v :
  vga_wf v → ordinary c → cursor_pos v < 1999 →
  ∃ w, vga_putchar c v = Ok w ∧ vga_wf w ∧ vga_color w = vga_color v ∧
    vga_buffer w = <[Z.to_nat (cursor_pos v) := vga_entry c (vga_color v)]> (vga_buffer v) ∧
    cursor_pos w = cursor_pos v + 1.
Proof.
  intros Hwf Hc Hpos. destruct (vga_putchar_ok c v Hwf) as (w & Hw & [Hwfw _]).
  exists w. split; [done|]. split; [done|].
  rewrite putchar_ordinary in Hw by done. injection Hw as <-.
  destruct Hwf as [_ _ _ Hx Hy]. unfold wrapped, cursor_pos in *. simpl.
  unfold VGA_WIDTH, VGA_HEIGHT in *.
  destruct (80 <=? cursor_x v + 1) eqn:E; case_bool; zify_bool; simpl; repeat split; lia.
Qed.

Lemma emit_text cs v :
  vga_wf v → Forall ordinary cs → cursor_pos v + Z.of_nat (length cs) < 2000 →
  ∃ w, emit cs v = Ok w ∧ vga_wf w ∧ vga_color w = vga_color v ∧
    vga_buffer w = splice (vga_buffer v) (Z.to_nat (cursor_pos v))
                     (map (λ c, vga_entry c (vga_color v)) cs) ∧
    cursor_pos w = cursor_pos v + Z.of_nat (length cs).
Proof.
  intros Hwf Hcs. revert v Hwf. induction Hcs as [|c cs Hc Hcs IH]; intros v Hwf Hpos; simpl.
  { exists v. rewrite splice_nil. repeat split; try done; try apply Hwf. lia. }
  simpl in Hpos. destruct (putchar_step c v) as (w & -> & Hw & Hcol & Hb & Hp); [done|done|lia|].
  destruct (IH w Hw) as (w' & Hw' & Hwf' & Hcol' & Hb' & Hp'); [lia|].
  exists w'. cbn [mbind outcome_bind]. rewrite Hw'. split; [done|]. split; [done|].
  split; [congruence|]. split; [|lia].
  assert (0 ≤ cursor_pos v).
  { destruct Hwf as [_ _ _ Hx Hy]. unfold cursor_pos, VGA_WIDTH in *. lia. }
  rewrite Hb', Hb, Hp, Hcol. replace (Z.to_nat (cursor_pos v + 1)) with (S (Z.to_nat (cursor_pos v))) by lia.
  apply splice_cons. rewrite length_map, (wf_length _ Hwf). lia.
Qed.

Lemma cursor_of_pos v : vga_wf v → cursor_x v = cursor_pos v mod VGA_WIDTH ∧ cursor_y v = cursor_pos v / VGA_WIDTH.
Proof.
  intros [_ _ _ Hx Hy]. unfold cursor_pos, VGA_WIDTH in *.
  rewrite Z.add_comm, Z.mod_add, Z.div_add by lia.
  rewrite Z.mod_small, Z.div_small by lia. lia.
Qed.

Lemma vga_write_c_str buf s v : c_str buf = Some s → vga_write buf v = emit s v.
Proof.
  revert s v. induction buf as [|c buf IH]; intros s v; simpl; [done|].
  destruct (c =? 0); [by intros [= <-]|].
  destruct (c_str buf) as [s'|]; simpl; [|done]. intros [= <-]. simpl.
  destruct (vga_putchar c v); simpl; [by apply IH|done].
Qed.

Lemma vga_write_emit buf s v : is_str buf s → vga_write buf v = emit s v.
Proof. intros [Hs _]%is_str_c_str. by apply vga_write_c_str. Qed.

Lemma vga_puts_write buf v : vga_puts buf v = vga_write buf v.
Proof.
  revert v. induction buf as [|c buf IH]; intros v; simpl; [done|].
  case_bool; [done|]. destruct (vga_putchar c v); simpl; [apply IH|done].
Qed.

Lemma vga_entry_decode c color :
  char_ok c → 0 ≤ color < 256 →
  vga_entry c color = u8 c + 256 * (if 0 <=? c then color else 255).
Proof.
  intros Hc Hcol.
  pose (P n := vga_entry (n / 256) (n mod 256)
               = u8 (n / 256) + 256 * (if 0 <=? n / 256 then n mod 256 else 255)).
  assert (P (c * 256 + color)) as HP.
  { apply (check_range P (-32768) 32768); [vm_compute; reflexivity|].
    unfold char_ok in Hc. lia. }
  unfold P in HP.
  rewrite (Z.add_comm (c * 256)), Z.mod_add, Z.div_add, Z.div_small, Z.mod_small in HP by lia.
  exact HP.
Qed.

(** ** Properties *)

(** C16: memory safety and invariant of the text driver.  From any state with
    the cursor on the page, [vga_putchar] returns for every character (ordinary,
    newline, carriage return, tab, backspace) without touching a cell outside
    the page; the cursor is on the page again and the CRT controller's cursor
    registers hold its position. *)
Theorem vga_putchar_safe c v :
  vga_wf v →
  ∃ w, vga_putchar c v = Ok w ∧ vga_wf w ∧
       crtc_cursor (ports w) = cursor_y w * VGA_WIDTH + cursor_x w.
Proof. apply vga_putchar_ok. Qed.

Definition blank : vga := Vga (replicate 2000 0x720) 79 24 7 [].

Lemma blank_wf : vga_wf blank.
Proof.
  split; [done| |simpl; lia|unfold VGA_WIDTH; simpl; lia|unfold VGA_HEIGHT; simpl; lia].
  unfold blank; cbn [vga_buffer]. apply Forall_replicate. lia.
Qed.

Lemma vga_putchar_safe_witness :
  ∃ w, vga_putchar (chr "a") blank = Ok w ∧ vga_wf w ∧
       crtc_cursor (ports w) = cursor_y w * VGA_WIDTH + cursor_x w.
Proof. apply vga_putchar_safe, blank_wf. Defined.

(** C17: the nested copy loops of [vga_scroll] compute the page without its
    first row followed by a row of blanks in the current colour, and change
    nothing else. *)
Theorem vga_scroll_moves_rows v :
  length (vga_buffer v) = 2000%nat →
  vga_scroll v = Ok (set_buffer
    (drop 80 (vga_buffer v) ++ replicate 80 (vga_entry 32 (vga_color v))) v).
Proof. apply vga_scroll_ok. Qed.

Lemma vga_scroll_moves_rows_witness :
  vga_scroll blank = Ok (set_buffer
    (drop 80 (replicate 2000 0x720) ++ replicate 80 (vga_entry 32 7)) blank).
Proof. apply (vga_scroll_moves_rows blank). reflexivity. Defined.

(** C18: [vga_write] of a string of ordinary characters that ends before the
    last cell of the page writes exactly the entries of these characters, in
    the current colour, from the cursor on, leaves every other cell alone, does
    not scroll and advances the cursor by the length of the string. *)
Theorem vga_write_places_text buf s v :
  vga_wf v → is_str buf s → Forall ordinary s →
  cursor_pos v + Z.of_nat (length s) < 2000 →
  ∃ w, vga_write buf v = Ok w ∧
    vga_buffer w = splice (vga_buffer v) (Z.to_nat (cursor_pos v))
                     (map (λ c, vga_entry c (vga_color v)) s) ∧
    vga_color w = vga_color v ∧
    cursor_x w = (cursor_pos v + Z.of_nat (length s)) mod VGA_WIDTH ∧
    cursor_y w = (cursor_pos v + Z.of_nat (length s)) / VGA_WIDTH.
Proof.
  intros Hwf Hs Ho Hp. rewrite (vga_write_emit _ _ _ Hs).
  destruct (emit_text s v Hwf Ho Hp) as (w & -> & Hw & Hc & Hb & Hpos).
  exists w. destruct (cursor_of_pos w Hw) as [-> ->]. by rewrite Hpos.
Qed.

Lemma vga_write_places_text_witness :
  ∃ w, vga_write (lit "FoxOS> ") (set_xy 78 3 blank) = Ok w ∧
    vga_buffer w = splice (replicate 2000 0x720) 318
                     (map (λ c, vga_entry c 7) (chars "FoxOS> ")) ∧
    vga_color w = 7 ∧ cursor_x w = 5 ∧ cursor_y w = 4.
Proof.
  apply (vga_write_places_text _ (chars "FoxOS> ") (set_xy 78 3 blank)).
  - split; try apply blank_wf; unfold VGA_WIDTH, VGA_HEIGHT; simpl; lia.
  - apply lit_is_str, (bool_decide_eq_true_1 _). reflexivity.
  - apply (bool_decide_eq_true_1 _). reflexivity.
  - reflexivity.
Defined.

(** C19: an ordinary character written into the last cell of the page scrolls
    it: the cell is written first, then every row moves up, and the cursor is
    at the start of the blank last row. *)
Theorem vga_putchar_scrolls c v :
  vga_wf v → ordinary c → cursor_x v = 79 → cursor_y v = 24 →
  ∃ w, vga_putchar c v = Ok w ∧ cursor_x w = 0 ∧ cursor_y w = 24 ∧
    vga_buffer w = scrolled (<[1999%nat := vga_entry c (vga_color v)]> (vga_buffer v))
                            (vga_color v).
Proof.
  intros Hwf Ho Hx Hy. rewrite putchar_ordinary by done.
  eexists. split; [done|]. unfold wrapped, cursor_pos. rewrite Hx, Hy. done.
Qed.

Lemma vga_putchar_scrolls_witness :
  ∃ w, vga_putchar (chr "a") blank = Ok w ∧ cursor_x w = 0 ∧ cursor_y w = 24 ∧
    vga_buffer w = scrolled (<[1999%nat := vga_entry (chr "a") 7]> (replicate 2000 0x720)) 7.
Proof.
  apply (vga_putchar_scrolls (chr "a") blank); [apply blank_wf| |reflexivity|reflexivity].
  apply (bool_decide_eq_true_1 _). reflexivity.
Defined.

(** C31: the two bytes of a screen entry.  For an ASCII character the low byte is
    the character and the high byte the colour attribute, so both can be read
    back; for a [char] above 127, negative as a signed byte, the sign extension
    of [(uint16_t)c] makes the attribute 0xFF whatever the colour is. *)
Theorem vga_entry_bytes c color :
  char_ok c → 0 ≤ color < 256 →
  vga_entry c color mod 256 = u8 c ∧
  vga_entry c color / 256 = (if 0 <=? c then color else 255).
Proof.
  intros Hc Hcol. rewrite vga_entry_decode by done. pose proof (u8_range c).
  rewrite Z.mul_comm, Z.mod_add, Z.div_add by lia.
  rewrite Z.mod_small, Z.div_small by lia. done.
Qed.

Lemma vga_entry_bytes_witness :
  vga_entry (-61) 7 mod 256 = 195 ∧ vga_entry (-61) 7 / 256 = 255.
Proof. apply (vga_entry_bytes (-61) 7); unfold char_ok; lia. Defined.
