(* ===== verification/VgaFormat.v ===== *)
(** * Number and formatted output of the VGA driver ([src/vga.c])

    [vga_put_dec], [vga_put_hex] and [vga_put_bin] write the digits of a number
    backwards into a local buffer and print it from the end; [vga_printf]
    interprets a format string.  The fuel of each digit loop is one more than
    the size of its buffer, so an overflow of the buffer is met before the fuel
    ends.  A variadic argument is the 8-byte slot the System V calling
    convention passes it in: an [int] fills the low half of its slot. *)

From S2P Require Import Prelude.
From S2P Require Import CString.
From S2P Require Import Ports.
From S2P Require Import Vga.

(** ** Definitions *)

Definition INT64_MIN := -9223372036854775808.

(** [while (i > 0) vga_putchar(buf[--i]);] *)
Fixpoint print_back (i : nat) (buf : list Z) (v : vga) : outcome vga :=
  match i with
  | O => Ok v
  | S i' => c ← arr_get buf (Z.of_nat i'); w ← vga_putchar c v; print_back i' buf w
  end.

(** [while (num > 0) { buf[i++] = '0' + (num % 10); num /= 10; }] *)
Fixpoint dec_digits (fuel : nat) (num : Z) (buf : list Z) (i : Z) : outcome (list Z * Z) :=
  match fuel with
  | O => Fault OutOfFuel
  | S fuel' =>
      if 0 <? num then
        buf' ← arr_set buf i (s8 (48 + Z.rem num 10));
        dec_digits fuel' (Z.quot num 10) buf' (i + 1)
      else Ok (buf, i)
  end.

Definition vga_put_dec (num : Z) (v : vga) : outcome vga :=
  if num =? INT64_MIN then vga_write (lit "-9223372036854775808") v
  else
    let buf := replicate 32 0 in
    let is_negative := num <? 0 in
    let num := if is_negative then s64 (- num) else num in
    '(buf, i) ← (if num =? 0 then b ← arr_set buf 0 48; Ok (b, 1)
                 else dec_digits 33 num buf 0);
    w ← (if (is_negative : bool) then vga_putchar 45 v else Ok v);
    print_back (Z.to_nat i) buf w.

Definition hex_digits : list Z := lit "0123456789ABCDEF".

(** [do { buf[i++] = hex_digits[num & 0xF]; num = num >> 4; } while (num > 0);] *)
Fixpoint hex_loop (fuel : nat) (num : Z) (buf : list Z) (i : Z) : outcome (list Z * Z) :=
  match fuel with
  | O => Fault OutOfFuel
  | S fuel' =>
      d ← arr_get hex_digits (Z.land num 0xF);
      buf' ← arr_set buf i d;
      let num' := Z.shiftr num 4 in
      if 0 <? num' then hex_loop fuel' num' buf' (i + 1) else Ok (buf', i + 1)
  end.

Definition vga_put_hex (num : Z) (v : vga) : outcome vga :=
  '(buf, i) ← hex_loop 33 num (replicate 32 0) 0;
  w ← vga_write (lit "0x") v;
  print_back (Z.to_nat i) buf w.

(** [do { buf[i++] = '0' + (num & 1); num = num >> 1; } while (num > 0);] *)
Fixpoint bin_loop (fuel : nat) (num : Z) (buf : list Z) (i : Z) : outcome (list Z * Z) :=
  match fuel with
  | O => Fault OutOfFuel
  | S fuel' =>
      buf' ← arr_set buf i (s8 (48 + Z.land num 1));
      let num' := Z.shiftr num 1 in
      if 0 <? num' then bin_loop fuel' num' buf' (i + 1) else Ok (buf', i + 1)
  end.

Definition vga_put_bin (num : Z) (v : vga) : outcome vga :=
  '(buf, i) ← bin_loop 66 num (replicate 65 0) 0;
  w ← vga_write (lit "0b") v;
  print_back (Z.to_nat i) buf w.

(** An argument slot: a 64-bit word, or a pointer to the characters of an
    array. *)
Inductive va_slot :=
| VaWord (bits : Z)
| VaPtr (str : list Z).

Definition va_int (args : list va_slot) : outcome (Z * list va_slot) :=
  match args with
  | VaWord bits :: args' => Ok (s32 bits, args')
  | _ => Fault BadVaArg
  end.

Definition va_int64 (args : list va_slot) : outcome (Z * list va_slot) :=
  match args with
  | VaWord bits :: args' => Ok (s64 bits, args')
  | _ => Fault BadVaArg
  end.

Definition va_uint64 (args : list va_slot) : outcome (Z * list va_slot) :=
  match args with
  | VaWord bits :: args' => Ok (u64 bits, args')
  | _ => Fault BadVaArg
  end.

Definition va_str (args : list va_slot) : outcome (list Z * list va_slot) :=
  match args with
  | VaPtr str :: args' => Ok (str, args')
  | _ => Fault BadVaArg
  end.

(** The [switch] on the conversion character. *)
Definition printf_conv (c : Z) (args : list va_slot) (v : vga)
  : outcome (list va_slot * vga) :=
  if c =? chr "d" then '(n, args') ← va_int args; w ← vga_put_dec n v; Ok (args', w)
  else if c =? chr "x" then '(n, args') ← va_uint64 args; w ← vga_put_hex n v; Ok (args', w)
  else if c =? chr "b" then '(n, args') ← va_uint64 args; w ← vga_put_bin n v; Ok (args', w)
  else if c =? chr "s" then '(s, args') ← va_str args; w ← vga_write s v; Ok (args', w)
  else if c =? chr "c" then '(n, args') ← va_int args; w ← vga_putchar (s8 n) v; Ok (args', w)
  else if c =? chr "%" then w ← vga_putchar (chr "%") v; Ok (args, w)
  else w ← vga_putchar (chr "%") v; w' ← vga_putchar c w; Ok (args, w').

(** The body of the loop ends with [format++] in every case, also when the
    character after a [%] was the terminating NUL. *)
Fixpoint vga_printf (format : list Z) (args : list va_slot) (v : vga) : outcome vga :=
  match format with
  | [] => Fault OutOfBounds
  | c :: f1 =>
      if c =? 0 then Ok v
      else if c =? chr "%" then
        match f1 with
        | [] => Fault OutOfBounds
        | c1 :: f2 =>
            match (if c1 =? chr "l" then f2 else [0]) with
            | [] => Fault OutOfBounds
            | c2 :: _ =>
                if (c1 =? chr "l") && (c2 =? chr "l") then
                  match f2 with
                  | _ :: c3 :: f4 =>
                      if c3 =? chr "d" then
                        '(n, args') ← va_int64 args;
                        w ← vga_put_dec n v;
                        vga_printf f4 args' w
                      else vga_printf f4 args v
                  | _ => Fault OutOfBounds
                  end
                else
                  '(args', w) ← printf_conv c1 args v;
                  vga_printf f2 args' w
            end
        end
      else w ← vga_putchar c v; vga_printf f1 args w
  end.

(** ** Specifications: reading numbers back *)

Definition digit_of (c : Z) : Z :=
  if (48 <=? c) && (c <=? 57) then c - 48
  else if (65 <=? c) && (c <=? 70) then c - 55 else -1.

Definition digit_val (base c : Z) : option Z :=
  let d := digit_of c in
  if (0 <=? d) && (d <? base) then Some d else None.

(** One more digit on the right of a number. *)
Definition push_digit (base : Z) (acc : option Z) (c : Z) : option Z :=
  a ← acc; d ← digit_val base c; Some (base * a + d).

(** The value of a numeral, most significant digit first. *)
Definition read_num (base : Z) (s : list Z) : option Z :=
  match s with
  | [] => None
  | _ => fold_left (push_digit base) s (Some 0)
  end.

Definition read_dec (s : list Z) : option Z :=
  match s with
  | 45 :: s' => Z.opp <$> read_num 10 s'
  | _ => read_num 10 s
  end.

(** The value of digits stored least significant first. *)
Definition le_val (base : Z) (ds : list Z) : option Z :=
  fold_right (λ c acc, push_digit base acc c) (Some 0) ds.

(** The numeral of a number, the reference for the three printing loops: the
    digits of [n], least significant first, none for zero. *)
Definition digit_char (d : Z) : Z := if d <? 10 then 48 + d else 55 + d.

Fixpoint le_digits (fuel : nat) (base n : Z) : list Z :=
  match fuel with
  | O => []
  | S fuel' => if n =? 0 then []
               else digit_char (n mod base) :: le_digits fuel' base (n / base)
  end.

Definition num_text (base n : Z) : list Z :=
  if n =? 0 then [48] else rev (le_digits 64 base n).

Definition dec_text (n : Z) : list Z :=
  (if n <? 0 then [45] else []) ++ num_text 10 (Z.abs n).
Definition hex_text (n : Z) : list Z := chars "0x" ++ num_text 16 n.
Definition bin_text (n : Z) : list Z := chars "0b" ++ num_text 2 n.

(** The text a format string stands for.  [None]: a conversion without an
    argument of its kind, or a format that ends inside a conversion. *)
Definition conv_text (c : Z) (args : list va_slot) : option (list Z * list va_slot) :=
  if c =? chr "d" then
    match args with VaWord b :: r => Some (dec_text (s32 b), r) | _ => None end
  else if c =? chr "x" then
    match args with VaWord b :: r => Some (hex_text (u64 b), r) | _ => None end
  else if c =? chr "b" then
    match args with VaWord b :: r => Some (bin_text (u64 b), r) | _ => None end
  else if c =? chr "s" then
    match args with VaPtr p :: r => t ← c_str p; Some (t, r) | _ => None end
  else if c =? chr "c" then
    match args with VaWord b :: r => Some ([s8 (s32 b)], r) | _ => None end
  else if c =? chr "%" then Some ([chr "%"], args)
  else Some ([chr "%"; c], args).

Fixpoint fmt_text (s : list Z) (args : list va_slot) : option (list Z) :=
  match s with
  | [] => Some []
  | c :: s1 =>
      if negb (c =? chr "%") then cons c <$> fmt_text s1 args
      else match s1 with
           | [] => None
           | c1 :: s2 =>
               let short := '(t, r) ← conv_text c1 args; app t <$> fmt_text s2 r in
               if negb (c1 =? chr "l") then short
               else match s2 with
                    | [] => short
                    | c2 :: s3 =>
                        if negb (c2 =? chr "l") then short
                        else match s3 with
                             | [] => None
                             | c3 :: s4 =>
                                 if c3 =? chr "d" then
                                   match args with
                                   | VaWord b :: r => app (dec_text (s64 b)) <$> fmt_text s4 r
                                   | _ => None
                                   end
                                 else fmt_text s4 args
                             end
                    end
           end
  end.

(** ** Lemmas *)

Lemma read_num_rev base ds : ds ≠ [] → read_num base (rev ds) = le_val base ds.
Proof.
  intros Hne. transitivity (fold_left (push_digit base) (rev ds) (Some 0)).
  - destruct (rev ds) as [|x l] eqn:E; [|done].
    apply (f_equal (@rev Z)) in E. rewrite rev_involutive in E. done.
  - unfold le_val.
    rewrite <-(fold_left_rev_right (λ c acc, push_digit base acc c) (rev ds)).
    by rewrite rev_involutive.
Qed.

Lemma print_back_emit i buf v :
  (i ≤ length buf)%nat → print_back i buf v = emit (rev (take i buf)) v.
Proof.
  revert v. induction i as [|i IH]; intros v Hi; [done|].
  destruct (lookup_lt_is_Some_2 buf i) as [c Hc]; [lia|].
  cbn [print_back]. rewrite (arr_get_lookup _ _ _ Hc), (take_S_r _ _ _ Hc), rev_app_distr.
  simpl. destruct (vga_putchar c v); simpl; [apply IH; lia|done].
Qed.

(** The digits a loop stored from the start of its buffer are printed in
    reverse. *)
Lemma print_back_splice ds buf v :
  (length ds ≤ length buf)%nat →
  print_back (length ds) (splice buf 0 ds) v = emit (rev ds) v.
Proof.
  intros H. rewrite print_back_emit by (rewrite length_splice; lia).
  unfold splice. simpl. by rewrite take_app_length.
Qed.

Lemma digit_char_val base d :
  0 ≤ d < base → base ≤ 16 → digit_val base (digit_char d) = Some d.
Proof.
  intros Hd Hb. unfold digit_val.
  replace (digit_of (digit_char d)) with d.
  - by rewrite (proj2 (Z.leb_le 0 d)), (proj2 (Z.ltb_lt d base)) by lia.
  - symmetry. apply (check_range (λ d, digit_of (digit_char d) = d) 0 16);
      [vm_compute; reflexivity|lia].
Qed.

Lemma quotient_bound base num k :
  1 < base → 0 ≤ num < base ^ Z.of_nat (S k) → 0 ≤ num / base < base ^ Z.of_nat k.
Proof.
  intros Hb [H0 H1]. rewrite Nat2Z.inj_succ, Z.pow_succ_r in H1 by lia.
  split; [apply Z.div_pos; lia|apply Z.div_lt_upper_bound; lia].
Qed.

Lemma le_digits_val k fuel base n :
  1 < base ≤ 16 → 0 ≤ n < base ^ Z.of_nat k → (k ≤ fuel)%nat →
  le_val base (le_digits fuel base n) = Some n ∧ (length (le_digits fuel base n) ≤ k)%nat.
Proof.
  intros Hb. revert fuel n. induction k as [|k IH]; intros fuel n Hn Hk.
  { change (base ^ Z.of_nat 0) with 1 in Hn. replace n with 0 by lia. by destruct fuel. }
  destruct fuel as [|fuel]; [lia|]. cbn [le_digits].
  destruct (Z.eqb_spec n 0) as [->|Hne]; [split; [done|simpl; lia]|].
  destruct (IH fuel (n / base)) as [Hv Hl]; [apply quotient_bound; lia|lia|].
  split; [|simpl; lia]. cbn [le_val fold_right]. fold (le_val base (le_digits fuel base (n / base))).
  rewrite Hv. unfold push_digit. simpl.
  rewrite digit_char_val by (try apply Z.mod_pos_bound; lia). simpl. f_equal.
  pose proof (Z.div_mod n base). lia.
Qed.

Lemma le_digits_nil fuel base n : (0 < fuel)%nat → n ≠ 0 → le_digits fuel base n ≠ [].
Proof. destruct fuel; [lia|]. intros _ H. simpl. by rewrite (proj2 (Z.eqb_neq n 0)). Qed.

Lemma num_text_read base n :
  1 < base ≤ 16 → 0 ≤ n < 2 ^ 64 → read_num base (num_text base n) = Some n.
Proof.
  intros Hb Hn. unfold num_text. destruct (Z.eqb_spec n 0) as [->|Hne].
  { unfold read_num. simpl. unfold push_digit. simpl.
    change 48 with (digit_char 0). rewrite digit_char_val by lia. simpl. f_equal. lia. }
  rewrite read_num_rev by (apply le_digits_nil; [lia|done]).
  apply (le_digits_val 64); [done| |done]. split; [lia|].
  apply (Z.lt_le_trans _ (2 ^ 64)); [lia|]. apply Z.pow_le_mono_l. lia.
Qed.

Lemma dec_digits_ok k fuel rfuel num buf (i : nat) :
  0 ≤ num < 10 ^ Z.of_nat k → (k < fuel)%nat → (k ≤ rfuel)%nat → (i + k ≤ length buf)%nat →
  dec_digits fuel num buf (Z.of_nat i) =
    Ok (splice buf i (le_digits rfuel 10 num), Z.of_nat (i + length (le_digits rfuel 10 num))).
Proof.
  revert fuel rfuel num buf i. induction k as [|k IH]; intros fuel rfuel num buf i Hn Hf Hr Hi;
    (destruct fuel as [|fuel]; [lia|]); cbn [dec_digits].
  { change (10 ^ Z.of_nat 0) with 1 in Hn. replace num with 0 by lia. simpl.
    replace (le_digits rfuel 10 0) with (@nil Z) by (by destruct rfuel).
    by rewrite splice_nil, Nat.add_0_r. }
  destruct rfuel as [|rfuel]; [lia|]. cbn [le_digits].
  destruct (Z.eqb_spec num 0) as [->|Hne].
  { simpl. by rewrite splice_nil, Nat.add_0_r. }
  rewrite (proj2 (Z.ltb_lt 0 num)) by lia.
  rewrite Z.rem_mod_nonneg, Z.quot_div_nonneg, arr_set_in by lia. simpl.
  replace (Z.of_nat i + 1) with (Z.of_nat (S i)) by lia. rewrite Nat2Z.id.
  pose proof (quotient_bound 10 num k ltac:(lia) Hn) as Hq.
  pose proof (Z.mod_pos_bound num 10 ltac:(lia)) as Hm.
  destruct (le_digits_val k rfuel 10 (num / 10)) as [_ Hl]; [lia|done|lia|].
  rewrite (IH _ rfuel) by (done || rewrite ?length_insert; lia).
  replace (s8 (48 + num mod 10)) with (digit_char (num mod 10)).
  { rewrite splice_cons by lia. do 3 f_equal. lia. }
  unfold digit_char, s8. rewrite (proj2 (Z.ltb_lt _ 10)), (Z.mod_small (48 + num mod 10 + 128)) by lia. lia.
Qed.

(** The two [do ... while] loops store the digits of a number in the same way;
    [loop] is one of them. *)
Section do_while.
Context (base : Z) (Hbase : 1 < base ≤ 16).
Context (loop : nat → Z → list Z → Z → outcome (list Z * Z)).
Context (Hloop : ∀ fuel num buf i, 0 ≤ num →
  loop (S fuel) num buf i =
    buf' ← arr_set buf i (digit_char (num mod base));
    if 0 <? num / base then loop fuel (num / base) buf' (i + 1) else Ok (buf', i + 1)).

Lemma do_while_ok k fuel rfuel num buf (i : nat) :
  0 ≤ num < base ^ Z.of_nat (S k) → (k < fuel)%nat → (k ≤ rfuel)%nat →
  (i + S k ≤ length buf)%nat →
  let ds := digit_char (num mod base) :: le_digits rfuel base (num / base) in
  loop fuel num buf (Z.of_nat i) = Ok (splice buf i ds, Z.of_nat (i + length ds)).
Proof.
  revert fuel rfuel num buf i. induction k as [|k IH]; intros fuel rfuel num buf i Hn Hf Hr Hi ds;
    (destruct fuel as [|fuel]; [lia|]);
    rewrite Hloop, arr_set_in by lia; cbn [mbind outcome_bind]; rewrite Nat2Z.id.
  - subst ds. assert (num / base = 0) as -> by (apply Z.div_small; lia).
    replace (le_digits rfuel base 0) with (@nil Z) by (by destruct rfuel).
    rewrite insert_splice by lia. simpl. do 2 f_equal. lia.
  - destruct rfuel as [|rfuel]; [lia|]. pose proof (quotient_bound base num (S k) ltac:(lia) Hn) as Hq.
    subst ds. cbn [le_digits].
    destruct (0 <? num / base) eqn:Hpos; zify_bool.
    + rewrite (proj2 (Z.eqb_neq (num / base) 0)) by lia.
      replace (Z.of_nat i + 1) with (Z.of_nat (S i)) by lia.
      pose proof (le_digits_val k rfuel base (num / base / base) Hbase
        (quotient_bound base _ k ltac:(lia) Hq) ltac:(lia)) as [_ Hl].
      rewrite (IH _ rfuel) by (done || rewrite ?length_insert; lia). simpl.
      rewrite splice_cons by (simpl; lia). do 3 f_equal. lia.
    + replace (num / base) with 0 by lia. simpl. rewrite insert_splice by lia.
      do 2 f_equal. lia.
Qed.

End do_while.

Lemma digits_of_num_text base n :
  1 < base → 0 ≤ n →
  rev (digit_char (n mod base) :: le_digits 63 base (n / base)) = num_text base n.
Proof.
  intros Hb Hn. unfold num_text. destruct (Z.eqb_spec n 0) as [->|Hne].
  - by rewrite Z.mod_0_l, Z.div_0_l by lia.
  - change 64%nat with (S 63). cbn [le_digits]. by rewrite (proj2 (Z.eqb_neq n 0)).
Qed.

Lemma hex_digit_get num :
  arr_get hex_digits (Z.land num 0xF) = Ok (digit_char (num mod 16)).
Proof.
  change 0xF with (Z.ones 4). rewrite Z.land_ones by lia. change (2 ^ 4) with 16.
  generalize (Z.mod_pos_bound num 16 ltac:(lia)). generalize (num mod 16).
  apply (check_range (λ r, arr_get hex_digits r = Ok (digit_char r))). vm_compute. reflexivity.
Qed.

Lemma bin_digit_get num : s8 (48 + Z.land num 1) = digit_char (num mod 2).
Proof.
  change 1 with (Z.ones 1). rewrite Z.land_ones by lia. change (2 ^ 1) with 2.
  generalize (Z.mod_pos_bound num 2 ltac:(lia)). generalize (num mod 2).
  apply (check_range (λ r, s8 (48 + r) = digit_char r)). vm_compute. reflexivity.
Qed.

Lemma text_lit (s : string) v :
  bool_decide (text (chars s)) = true → vga_write (lit s) v = emit (chars s) v.
Proof. intros H%bool_decide_eq_true_1. by apply vga_write_emit, lit_is_str. Qed.

Lemma hex_loop_text num :
  0 ≤ num < 2 ^ 64 →
  ∃ ds, hex_loop 33 num (replicate 32 0) 0
        = Ok (splice (replicate 32 0) 0 ds, Z.of_nat (length ds)) ∧
        (length ds ≤ 32)%nat ∧ rev ds = num_text 16 num.
Proof.
  intros Hn. exists (digit_char (num mod 16) :: le_digits 63 16 (num / 16)).
  destruct (le_digits_val 15 63 16 (num / 16)) as [_ Hl]; [lia| |lia|].
  { apply (quotient_bound 16 num 15); [lia|done]. }
  split; [|split; [cbn [length]; lia|apply digits_of_num_text; lia]].
  apply (do_while_ok 16 ltac:(lia) hex_loop) with (k := 15%nat) (i := 0%nat); try done; try lia.
  - intros. cbn [hex_loop]. by rewrite hex_digit_get, Z.shiftr_div_pow2 by lia.
  - rewrite length_replicate. lia.
Qed.

Lemma bin_loop_text num :
  0 ≤ num < 2 ^ 64 →
  ∃ ds, bin_loop 66 num (replicate 65 0) 0
        = Ok (splice (replicate 65 0) 0 ds, Z.of_nat (length ds)) ∧
        (length ds ≤ 65)%nat ∧ rev ds = num_text 2 num.
Proof.
  intros Hn. exists (digit_char (num mod 2) :: le_digits 63 2 (num / 2)).
  destruct (le_digits_val 63 63 2 (num / 2)) as [_ Hl]; [lia| |lia|].
  { apply (quotient_bound 2 num 63); [lia|done]. }
  split; [|split; [cbn [length]; lia|apply digits_of_num_text; lia]].
  apply (do_while_ok 2 ltac:(lia) bin_loop) with (k := 63%nat) (i := 0%nat); try done; try lia.
  - intros. cbn [bin_loop]. by rewrite bin_digit_get, Z.shiftr_div_pow2 by lia.
  - rewrite length_replicate. lia.
Qed.

Lemma dec_digits_text num :
  0 ≤ num < 2 ^ 63 →
  ∃ ds, (if num =? 0 then b ← arr_set (replicate 32 0) 0 48; Ok (b, 1)
         else dec_digits 33 num (replicate 32 0) 0)
        = Ok (splice (replicate 32 0) 0 ds, Z.of_nat (length ds)) ∧
        (length ds ≤ 32)%nat ∧ rev ds = num_text 10 num.
Proof.
  intros Hn. unfold num_text. case_bool.
  { exists [48]. split; [done|split; [simpl; lia|done]]. }
  exists (le_digits 64 10 num).
  destruct (le_digits_val 19 64 10 num) as [_ Hl]; [lia|simpl; lia|lia|].
  split; [|split; [lia|done]].
  apply (dec_digits_ok 19 33 64 _ _ 0); [simpl; lia|lia|lia|rewrite length_replicate; lia].
Qed.

Lemma print_digits n ds w :
  (length ds ≤ n)%nat →
  print_back (Z.to_nat (Z.of_nat (length ds))) (splice (replicate n 0) 0 ds) w = emit (rev ds) w.
Proof. intros H. rewrite Nat2Z.id. apply print_back_splice. by rewrite length_replicate. Qed.

Lemma vga_put_hex_emit num v : 0 ≤ num < 2 ^ 64 → vga_put_hex num v = emit (hex_text num) v.
Proof.
  intros Hn. unfold vga_put_hex, hex_text.
  destruct (hex_loop_text num Hn) as (ds & -> & Hl & <-). cbn [mbind outcome_bind].
  rewrite text_lit, emit_app by done.
  destruct (emit (chars "0x") v); cbn [mbind outcome_bind]; [by apply print_digits|done].
Qed.

Lemma vga_put_bin_emit num v : 0 ≤ num < 2 ^ 64 → vga_put_bin num v = emit (bin_text num) v.
Proof.
  intros Hn. unfold vga_put_bin, bin_text.
  destruct (bin_loop_text num Hn) as (ds & -> & Hl & <-). cbn [mbind outcome_bind].
  rewrite text_lit, emit_app by done.
  destruct (emit (chars "0b") v); cbn [mbind outcome_bind]; [by apply print_digits|done].
Qed.

Lemma vga_put_dec_emit num v :
  INT64_MIN ≤ num < 2 ^ 63 → vga_put_dec num v = emit (dec_text num) v.
Proof.
  intros Hn. unfold vga_put_dec. destruct (Z.eqb_spec num INT64_MIN) as [->|Hmin].
  { by rewrite text_lit by done. }
  unfold INT64_MIN in *. unfold dec_text. rewrite emit_app.
  replace (if num <? 0 then s64 (- num) else num) with (Z.abs num).
  2:{ case_bool; [|lia]. unfold s64. rewrite Z.mod_small by lia. lia. }
  destruct (dec_digits_text (Z.abs num)) as (ds & -> & Hl & <-); [lia|].
  cbn [mbind outcome_bind].
  case_bool; cbn [emit]; [|by apply print_digits].
  destruct (vga_putchar 45 v); cbn [mbind outcome_bind]; [by apply print_digits|done].
Qed.

Lemma s32_range z : -2147483648 ≤ s32 z < 2147483648.
Proof. unfold s32. pose proof (Z.mod_pos_bound (z + 2147483648) 4294967296). lia. Qed.
Lemma s64_range z : INT64_MIN ≤ s64 z < 2 ^ 63.
Proof.
  unfold s64, INT64_MIN.
  pose proof (Z.mod_pos_bound (z + 9223372036854775808) 18446744073709551616). lia.
Qed.
Lemma u64_range z : 0 ≤ u64 z < 2 ^ 64.
Proof. apply Z.mod_pos_bound. lia. Qed.

Lemma printf_conv_text c args t rest v :
  conv_text c args = Some (t, rest) →
  printf_conv c args v = (w ← emit t v; Ok (rest, w)).
Proof.
  unfold conv_text, printf_conv. intros H.
  repeat (case_match; simplify_eq/=; try done);
    rewrite ?vga_put_dec_emit, ?vga_put_hex_emit, ?vga_put_bin_emit
      by (pose proof (s32_range bits); pose proof (u64_range bits); unfold INT64_MIN in *; lia);
    try done.
  - destruct (c_str str) as [t'|] eqn:E; simplify_eq/=. by rewrite (vga_write_c_str _ _ _ E).
  - by destruct (vga_putchar _ v).
  - by destruct (vga_putchar _ v).
  - destruct (vga_putchar _ v) as [w|]; [|done]. simpl. by destruct (vga_putchar _ w).
Qed.

(** One conversion of [vga_printf], against the text it stands for. *)
Lemma printf_short c1 f2 s2 args out v
    (IH : ∀ r o w, fmt_text s2 r = Some o → vga_printf f2 r w = emit o w) :
  ('(t, r) ← conv_text c1 args; app t <$> fmt_text s2 r) = Some out →
  ('(args', w) ← printf_conv c1 args v; vga_printf f2 args' w) = emit out v.
Proof.
  destruct (conv_text c1 args) as [[t r]|] eqn:Ec; simpl; [|done].
  destruct (fmt_text s2 r) as [o|] eqn:Ef; simpl; [|done]. intros [= <-].
  rewrite (printf_conv_text _ _ _ _ v Ec), emit_app.
  destruct (emit t v) as [w|]; simpl; [by apply IH|done].
Qed.

Lemma vga_printf_emit s fmt args out v :
  is_str fmt s → fmt_text s args = Some out → vga_printf fmt args v = emit out v.
Proof.
  remember (length s) as n eqn:Hn. revert s fmt args out v Hn.
  induction n as [n IH] using lt_wf_ind. intros s fmt args out v Hn Hs Ht.
  assert (∀ s' f', (length s' < n)%nat → is_str f' s' →
    ∀ r o w, fmt_text s' r = Some o → vga_printf f' r w = emit o w) as IH'.
  { intros s' f' Hl Hs' r o w Ho. by apply (IH (length s') Hl s'). }
  clear IH.
  apply is_str_inv in Hs as [[-> [? ->]]|(c & s1 & f1 & -> & -> & Hc & _ & Hs1)].
  { simpl in *. by injection Ht as <-. }
  simpl in Hn. cbn [fmt_text] in Ht. cbn [vga_printf].
  rewrite (proj2 (Z.eqb_neq c 0) Hc). destruct (c =? chr "%"); simpl in Ht.
  2:{ destruct (fmt_text s1 args) as [o|] eqn:E; simpl in Ht; [|done]. injection Ht as <-.
      simpl. destruct (vga_putchar c v) as [w|]; simpl; [|done].
      apply (IH' s1 f1); [lia|done|done]. }
  apply is_str_inv in Hs1 as [[-> [? ->]]|(c1 & s2 & f2 & -> & -> & _ & _ & Hs2)]; [done|].
  simpl in Hn. destruct (c1 =? chr "l"); simpl in Ht.
  2:{ simpl. apply (printf_short c1 f2 s2); [|done]. apply IH'; [lia|done]. }
  pose proof Hs2 as [[-> [r2 ->]]|(c2 & s3 & f3 & -> & -> & _ & _ & Hs3)]%is_str_inv.
  { change (0 =? chr "l") with false. cbn [andb].
    apply (printf_short c1 _ []); [|done]. apply IH'; [simpl; lia|done]. }
  simpl in Hn. destruct (c2 =? chr "l"); simpl in Ht; cbn [andb].
  2:{ apply (printf_short c1 _ (c2 :: s3)); [|done]. apply IH'; [simpl; lia|done]. }
  apply is_str_inv in Hs3 as [[-> [? ->]]|(c3 & s4 & f4 & -> & -> & _ & _ & Hs4)]; [done|].
  simpl in Hn. destruct (c3 =? chr "d").
  2:{ apply (IH' s4 f4); [lia|done|done]. }
  destruct args as [|[b|p] r]; try done. simpl.
  destruct (fmt_text s4 r) as [o|] eqn:E; simpl in Ht; [|done]. injection Ht as <-.
  rewrite vga_put_dec_emit, emit_app by apply s64_range.
  destruct (emit (dec_text (s64 b)) v) as [w|]; simpl; [|done].
  apply (IH' s4 f4); [lia|done|done].
Qed.

Lemma dec_text_read n : INT64_MIN ≤ n < 2 ^ 63 → read_dec (dec_text n) = Some n.
Proof.
  intros Hn. unfold INT64_MIN in Hn. unfold dec_text.
  assert (read_num 10 (num_text 10 (Z.abs n)) = Some (Z.abs n)) as Hr
    by (apply num_text_read; lia).
  case_bool.
  - simpl. rewrite Hr. simpl. f_equal. lia.
  - assert (Z.abs n = n) as Ha by lia. rewrite Ha in *. simpl.
    destruct (num_text 10 n) as [|c t] eqn:E; [done|].
    unfold read_dec. destruct (Z.eqb_spec c 45) as [->|Hne].
    + exfalso. unfold read_num in Hr. cbn [fold_left] in Hr.
      change (push_digit 10 (Some 0) 45) with (@None Z) in Hr. clear E.
      induction t as [|d t IH]; [done|]. exact (IH Hr).
    + rewrite <-Hr. repeat case_match; simplify_eq; done.
Qed.

(** ** Properties *)

(** C20: round trip of decimal output.  For every [int64_t], INT64_MIN
    included, [vga_put_dec] prints a numeral that reads back as that number:
    an optional minus sign and decimal digits, without overflowing its 32-byte
    buffer. *)
Theorem vga_put_dec_roundtrip n v :
  INT64_MIN ≤ n < 2 ^ 63 →
  vga_put_dec n v = emit (dec_text n) v ∧ read_dec (dec_text n) = Some n.
Proof. intros Hn. split; [by apply vga_put_dec_emit|by apply dec_text_read]. Qed.

Lemma vga_put_dec_roundtrip_witness :
  vga_put_dec INT64_MIN blank = emit (chars "-9223372036854775808") blank ∧
  read_dec (chars "-9223372036854775808") = Some (-9223372036854775808).
Proof. apply (vga_put_dec_roundtrip INT64_MIN blank). unfold INT64_MIN. lia. Defined.

(** C21: round trip of hexadecimal and binary output.  For every [uint64_t],
    [vga_put_hex] prints 0x and [vga_put_bin] prints 0b followed by digits that
    read back as that number in base 16 and base 2, within their buffers of 32
    and 65 bytes. *)
Theorem vga_put_hex_bin_roundtrip n v :
  0 ≤ n < 2 ^ 64 →
  vga_put_hex n v = emit (chars "0x" ++ num_text 16 n) v ∧
  vga_put_bin n v = emit (chars "0b" ++ num_text 2 n) v ∧
  read_num 16 (num_text 16 n) = Some n ∧ read_num 2 (num_text 2 n) = Some n.
Proof.
  intros Hn. repeat split.
  - by apply vga_put_hex_emit.
  - by apply vga_put_bin_emit.
  - apply num_text_read; lia.
  - apply num_text_read; lia.
Qed.

Lemma vga_put_hex_bin_roundtrip_witness :
  vga_put_hex 0xDEADBEEF blank = emit (chars "0x" ++ chars "DEADBEEF") blank ∧
  vga_put_bin 0xDEADBEEF blank
    = emit (chars "0b" ++ chars "11011110101011011011111011101111") blank ∧
  read_num 16 (chars "DEADBEEF") = Some 0xDEADBEEF ∧
  read_num 2 (chars "11011110101011011011111011101111") = Some 0xDEADBEEF.
Proof. apply (vga_put_hex_bin_roundtrip 0xDEADBEEF blank). lia. Defined.

(** C22: [vga_printf] prints the text its format string stands for: literal
    characters as they are, each conversion (%d, %lld, %x, %b, %s, %c, %%)
    replaced by the text of its argument, any other character behind a per cent
    sign shown as it is written, per cent sign included.  [%ll] followed by a
    character other than [d] prints nothing and takes no argument. *)
Theorem vga_printf_prints fmt s args out v :
  is_str fmt s → fmt_text s args = Some out → vga_printf fmt args v = emit out v.
Proof. apply vga_printf_emit. Qed.

Lemma vga_printf_prints_witness :
  vga_printf (lit "Dec=%d, Hex=%x, %s%%") [VaWord (-98); VaWord 123; VaPtr (lit "ok")] blank
  = emit (chars "Dec=-98, Hex=0x7B, ok%") blank.
Proof.
  apply (vga_printf_prints _ (chars "Dec=%d, Hex=%x, %s%%")).
  - apply lit_is_str, (bool_decide_eq_true_1 _). vm_compute. reflexivity.
  - vm_compute. reflexivity.
Defined.

(** C38: a format string that ends in a lone [%] makes [vga_printf] step over
    the terminating NUL: when the string is the whole of its array, the next
    read is outside of it. *)
Theorem vga_printf_trailing_percent s args v :
  text s → chr "%" ∉ s → vga_wf v →
  vga_printf (s ++ [chr "%"; 0]) args v = Fault OutOfBounds.
Proof.
  intros Hs Hp. revert v. induction s as [|c s IH]; intros v Hv.
  { simpl. destruct (vga_putchar_ok (chr "%") v Hv) as (w1 & Hw1 & Hs1 & _).
    destruct (vga_putchar_ok 0 w1 Hs1) as (w2 & Hw2 & _).
    unfold printf_conv. simpl. change (chr "%") with 37 in *. rewrite Hw1. simpl.
    by rewrite Hw2. }
  apply text_cons in Hs as [[Hc _] Hs]. apply not_elem_of_cons in Hp as [Hne Hp].
  cbn [vga_printf app].
  rewrite (proj2 (Z.eqb_neq c 0) Hc), (proj2 (Z.eqb_neq c (chr "%"))) by done.
  destruct (vga_putchar_ok c v Hv) as (w1 & -> & Hs1 & _). simpl. by apply IH.
Qed.

Lemma vga_printf_trailing_percent_witness :
  vga_printf (lit "100%") [] blank = Fault OutOfBounds.
Proof.
  apply (vga_printf_trailing_percent (chars "100")).
  - apply (bool_decide_eq_true_1 _). vm_compute. reflexivity.
  - apply (bool_decide_eq_true_1 _). vm_compute. reflexivity.
  - apply blank_wf.
Defined.
