(* ===== verification/Fs.v ===== *)
(** * The in-memory file system: definitions ([src/fs.c], [src/fs.h])

    A fixed table of 256 entries holds every file and directory; an entry names
    its parent by index and entry 0 is the root.  The state is the static
    variables [files] and [file_count] ([disk_port] is never used).  A
    [file_t *] into the table is the index of the entry.  Local arrays without
    an initialiser start with zeros here, which no function reads before it
    writes. *)

From S2P Require Import Prelude.
From S2P Require Import CString.

Definition MAX_FILENAME := 256.
Definition MAX_FILE_SIZE := 4096.
Definition MAX_FILES := 256.

Inductive file_type :=
| FILE_TYPE_NONE
| FILE_TYPE_FILE
| FILE_TYPE_DIR.

#[global] Instance file_type_eq_dec : EqDecision file_type.
Proof. solve_decision. Defined.

Record file_t := File {
  fname : list Z;
  ftype : file_type;
  fsize : Z;
  parent_index : Z;
  fdata : list Z
}.

#[global] Instance file_t_eq_dec : EqDecision file_t.
Proof. solve_decision. Defined.

Record fs := Fs {
  files : list file_t;
  file_count : Z
}.

#[global] Instance fs_eq_dec : EqDecision fs.
Proof. solve_decision. Defined.

(** The zero-initialised table before [fs_init]. *)
Definition zero_file : file_t :=
  File (replicate 256 0) FILE_TYPE_NONE 0 0 (replicate 4096 0).
Definition fs_bss : fs := Fs (replicate 256 zero_file) 0.

Definition set_fname (n : list Z) (f : file_t) : file_t :=
  File n (ftype f) (fsize f) (parent_index f) (fdata f).
Definition set_parent (p : Z) (f : file_t) : file_t :=
  File (fname f) (ftype f) (fsize f) p (fdata f).

Definition fs_save : Z := 1.
Definition fs_load : Z := 1.

(** Clear entry [i]: an empty name, no type, no size, parent -1 as [uint32_t]. *)
Definition clear_entry (i : Z) (l : list file_t) : outcome (list file_t) :=
  f ← arr_get l i;
  n ← arr_set (fname f) 0 0;
  arr_set l i (File n FILE_TYPE_NONE 0 (u32 (-1)) (fdata f)).

Definition fs_init (st : fs) : outcome fs :=
  l ← for_range 0 MAX_FILES clear_entry (files st);
  root ← arr_get l 0;
  n ← arr_set (fname root) 0 0;
  l' ← arr_set l 0 (File n FILE_TYPE_DIR 0 0 (fdata root));
  Ok (Fs l' 1).

(** [files[i].parent_index == p && strcmp(files[i].name, name) == 0] *)
Definition child_match (l : list file_t) (p : Z) (name : list Z) (i : Z) : outcome bool :=
  f ← arr_get l i;
  if parent_index f =? p then r ← strcmp (fname f) name; Ok (r =? 0) else Ok false.

(** [parent_index >= MAX_FILES || files[parent_index].type != FILE_TYPE_DIR] *)
Definition not_a_dir (l : list file_t) (p : Z) : outcome bool :=
  if MAX_FILES <=? p then Ok true
  else f ← arr_get l p; Ok (bool_decide (ftype f ≠ FILE_TYPE_DIR)).

Definition fs_create_file (name : list Z) (type : file_type) (parent : Z) (st : fs)
  : outcome (Z * fs) :=
  if MAX_FILES <=? file_count st then Ok (-1, st)
  else
    bad ← not_a_dir (files st) parent;
    if (bad : bool) then Ok (-1, st)
    else
      dup ← for_find 0 (file_count st) (child_match (files st) parent name);
      match dup with
      | Some _ => Ok (-1, st)
      | None =>
          let index := file_count st in
          f ← arr_get (files st) index;
          n ← strcpy (fname f) 0 name;
          l ← arr_set (files st) index (File n type 0 parent (fdata f));
          Ok (s32 index, Fs l (u32 (index + 1)))
      end.

(** [while ( *path == '/') path++;] *)
Fixpoint skip_slashes (path : list Z) : outcome (list Z) :=
  match path with
  | [] => Fault OutOfBounds
  | c :: path' => if c =? chr "/" then skip_slashes path' else Ok path
  end.

(** [while ( *path && *path != '/') *component++ = *path++;] and the NUL. *)
Fixpoint copy_component (path component : list Z) (k : Z) : outcome (list Z * list Z) :=
  match path with
  | [] => Fault OutOfBounds
  | c :: path' =>
      if negb (c =? 0) && negb (c =? chr "/") then
        component' ← arr_set component k c;
        copy_component path' component' (k + 1)
      else component' ← arr_set component k 0; Ok (path, component')
  end.

(** Returns the rest of the path ([None] for NULL) and the component buffer. *)
Definition get_next_path_component (path component : list Z)
  : outcome (option (list Z) * list Z) :=
  path1 ← skip_slashes path;
  '(path2, component') ← copy_component path1 component 0;
  c ← arr_get path2 0;
  Ok (if c =? 0 then None else Some path2, component').

(** The [while (path)] loop; every turn consumes a character. *)
Fixpoint parse_loop (fuel : nat) (st : fs) (path component : list Z) (current : Z)
  : outcome Z :=
  match fuel with
  | O => Fault OutOfFuel
  | S fuel' =>
      '(next, component') ← get_next_path_component path component;
      c0 ← arr_get component' 0;
      r ← (if c0 =? 0 then Ok (Some current)
           else for_find 0 (file_count st) (child_match (files st) current component'));
      match r with
      | None => Ok (-1)
      | Some current' =>
          match next with
          | None => Ok (s32 current')
          | Some path' => parse_loop fuel' st path' component' current'
          end
      end
  end.

Definition fs_parse_path (path : list Z) (st : fs) : outcome Z :=
  c ← arr_get path 0;
  root ← (if c =? 0 then Ok true
          else if c =? chr "/" then c1 ← arr_get path 1; Ok (c1 =? 0) else Ok false);
  if (root : bool) then Ok 0
  else parse_loop (length path) st path (replicate 256 0) 0.

Definition fs_get_file (path : list Z) (st : fs) : outcome (option Z) :=
  index ← fs_parse_path path st;
  if index <? 0 then Ok None else Ok (Some index).

(** [!file || file->type != FILE_TYPE_FILE] *)
Definition regular_file (file : option Z) (st : fs) : outcome (option (Z * file_t)) :=
  match file with
  | None => Ok None
  | Some i =>
      f ← arr_get (files st) i;
      if decide (ftype f = FILE_TYPE_FILE) then Ok (Some (i, f)) else Ok None
  end.

Definition fs_write (path data : list Z) (size : Z) (st : fs) : outcome (Z * fs) :=
  file ← fs_get_file path st;
  r ← regular_file file st;
  match r with
  | None => Ok (-1, st)
  | Some (i, f) =>
      let size := if MAX_FILE_SIZE <? size then MAX_FILE_SIZE else size in
      d ← for_range 0 size (λ j d, x ← arr_get data j; arr_set d j x) (fdata f);
      l ← arr_set (files st) i (File (fname f) (ftype f) size (parent_index f) d);
      Ok (s32 size, Fs l (file_count st))
  end.

Definition fs_read (path buffer : list Z) (size : Z) (st : fs) : outcome (Z * list Z) :=
  file ← fs_get_file path st;
  r ← regular_file file st;
  match r with
  | None => Ok (-1, buffer)
  | Some (_, f) =>
      let size := if fsize f <? size then fsize f else size in
      b ← for_range 0 size (λ j b, x ← arr_get (fdata f) j; arr_set b j x) buffer;
      Ok (s32 size, b)
  end.

(** The inner loop of the deletion: every entry whose parent is above [i]. *)
Definition lower_parent (i j : Z) (l : list file_t) : outcome (list file_t) :=
  f ← arr_get l j;
  if i <? parent_index f then arr_set l j (set_parent (u32 (parent_index f - 1)) f)
  else Ok l.

(** One turn of the shifting loop: [files[i] = files[i + 1]], then the inner
    loop over all entries. *)
Definition delete_step (count i : Z) (l : list file_t) : outcome (list file_t) :=
  f ← arr_get l (i + 1);
  l1 ← arr_set l i f;
  for_range 0 count (lower_parent i) l1.

Definition fs_delete_file (path : list Z) (st : fs) : outcome (Z * fs) :=
  index ← fs_parse_path path st;
  if index <=? 0 then Ok (-1, st)
  else
    f ← arr_get (files st) index;
    busy ← (if decide (ftype f = FILE_TYPE_DIR)
            then for_find 0 (file_count st) (λ i,
                   g ← arr_get (files st) i; Ok (parent_index g =? index))
            else Ok None);
    match busy with
    | Some _ => Ok (-1, st)
    | None =>
        l ← for_range index (u32 (file_count st - 1)) (delete_step (file_count st)) (files st);
        Ok (0, Fs l (u32 (file_count st - 1)))
    end.

(** [for (p = path; *p; p++) if ( *p == '/') last_slash = p;], with pointers as
    offsets in [path]. *)
Fixpoint last_slash_loop (p : list Z) (off last : Z) : outcome Z :=
  match p with
  | [] => Fault OutOfBounds
  | c :: p' =>
      if c =? 0 then Ok last
      else last_slash_loop p' (off + 1) (if c =? chr "/" then off else last)
  end.

(** The part [fs_mkdir] and [fs_create] share: the parent path and the name of
    the new entry. *)
Definition split_path (path : list Z) : outcome (list Z * list Z) :=
  last_slash ← last_slash_loop path 0 0;
  parent_path ← for_range 0 last_slash (λ i b, c ← arr_get path i; arr_set b i c)
                  (replicate 512 0);
  c0 ← arr_get parent_path 0;
  parent_path ← (if c0 =? 0 then strcpy parent_path 0 (lit "/") else Ok parent_path);
  name ← strcpy (replicate 256 0) 0 (drop (Z.to_nat (last_slash + 1)) path);
  Ok (parent_path, name).

Definition create_at (type : file_type) (path : list Z) (st : fs) : outcome (Z * fs) :=
  '(parent_path, name) ← split_path path;
  c0 ← arr_get name 0;
  if c0 =? 0 then Ok (-1, st)
  else
    parent ← fs_parse_path parent_path st;
    if parent <? 0 then Ok (-1, st)
    else fs_create_file name type parent st.

Definition fs_mkdir (path : list Z) (st : fs) : outcome (Z * fs) :=
  create_at FILE_TYPE_DIR path st.

Definition fs_create (path : list Z) (st : fs) : outcome (Z * fs) :=
  create_at FILE_TYPE_FILE path st.

(** The body of the listing loop on (buffer, current_pos - buffer, count). *)
Definition list_step (st : fs) (dir_index buffer_size i : Z) (s : list Z * Z * Z)
  : outcome (ctl (list Z * Z * Z)) :=
  let '(buffer, pos, count) := s in
  if i =? 0 then Ok (Continue s)
  else
    f ← arr_get (files st) i;
    if parent_index f =? dir_index then
      let remaining := u32 (buffer_size - pos) in
      if remaining <? MAX_FILENAME + 3 then Ok (Break s)
      else
        b1 ← strcpy buffer pos (fname f);
        n ← strlen (fname f);
        let pos1 := pos + n in
        '(b2, pos2) ← (if decide (ftype f = FILE_TYPE_DIR)
                       then b ← arr_set b1 pos1 (chr "/"); Ok (b, pos1 + 1)
                       else Ok (b1, pos1));
        b3 ← arr_set b2 pos2 10;
        Ok (Continue (b3, pos2 + 1, count + 1))
    else Ok (Continue s).

Definition fs_list_dir (path buffer : list Z) (buffer_size : Z) (st : fs)
  : outcome (Z * list Z) :=
  dir_index ← fs_parse_path path st;
  bad ← (if (dir_index <? 0) || (MAX_FILES <=? dir_index) then Ok true
         else f ← arr_get (files st) dir_index; Ok (bool_decide (ftype f ≠ FILE_TYPE_DIR)));
  if (bad : bool) then Ok (-1, buffer)
  else
    '(b, pos, count) ← for_break 0 (file_count st) (list_step st dir_index buffer_size)
                         (buffer, 0, 0);
    b' ← arr_set b pos 0;
    Ok (count, b').

Definition fs_delete (path : list Z) (st : fs) : outcome (Z * fs) :=
  idx ← fs_parse_path path st;
  if idx <? 0 then Ok (-1, st)
  else if idx =? 0 then Ok (-1, st)
  else l ← clear_entry idx (files st); Ok (0, Fs l (file_count st)).
