(* ===== verification/FsPath.v ===== *)
(** * The file system: invariant and path resolution

    The invariant of the table, the abstract lookup of a name in a directory,
    the components of a path, and the proof that [fs_parse_path] of
    [src/fs.c] resolves a path component by component. *)

From S2P Require Import Prelude.
From S2P Require Import CString.
From S2P Require Import Fs.

(** ** Definitions *)

(** The name of an entry. *)
Definition name_of (f : file_t) : list Z := default [] (c_str (fname f)).

Record entry_ok (f : file_t) : Prop := {
  ok_name : is_str (fname f) (name_of f);
  ok_name_len : length (fname f) = 256%nat;
  ok_data_len : length (fdata f) = 4096%nat;
  ok_size : 0 ≤ fsize f ≤ MAX_FILE_SIZE;
  ok_parent : 0 ≤ parent_index f < 4294967296
}.

(** The shape of the table: what every operation keeps. *)
Record fs_ok (st : fs) : Prop := {
  ok_files : length (files st) = 256%nat;
  ok_entries : Forall entry_ok (files st);
  ok_count : 1 ≤ file_count st ≤ MAX_FILES
}.

(** The entries in use. *)
Definition live (st : fs) : list file_t := take (Z.to_nat (file_count st)) (files st).

Definition is_child (p : nat) (s : list Z) (f : file_t) : Prop :=
  parent_index f = Z.of_nat p ∧ name_of f = s.

#[global] Instance is_child_dec p s f : Decision (is_child p s f).
Proof. unfold is_child. apply _. Defined.

(** The entry called [s] in directory [p]: the first one of the table. *)
Definition lookup_child (st : fs) (p : nat) (s : list Z) : option nat :=
  fst <$> list_find (is_child p s) (live st).

(** Splitting a text at its slashes; the components of a path are the parts
    that are not empty. *)
Fixpoint slash_split (s : list Z) : list (list Z) :=
  match s with
  | [] => [[]]
  | c :: s' =>
      if c =? chr "/" then [] :: slash_split s'
      else match slash_split s' with
           | [] => [[c]]
           | w :: ws => (c :: w) :: ws
           end
  end.

Definition components (s : list Z) : list (list Z) :=
  filter (λ w, w ≠ []) (slash_split s).

(** Following names from entry [cur]. *)
Fixpoint resolve_from (st : fs) (cur : nat) (ws : list (list Z)) : option nat :=
  match ws with
  | [] => Some cur
  | w :: ws' => i ← lookup_child st cur w; resolve_from st i ws'
  end.

Definition resolve (st : fs) (ws : list (list Z)) : option nat := resolve_from st 0 ws.

(** The same walk with the size of the component buffer: a component of 256
    characters or more does not fit. *)
Fixpoint walk_from (st : fs) (cur : nat) (ws : list (list Z)) : outcome (option nat) :=
  match ws with
  | [] => Ok (Some cur)
  | w :: ws' =>
      if decide (256 ≤ length w)%nat then Fault OutOfBounds
      else match lookup_child st cur w with
           | Some i => walk_from st i ws'
           | None => Ok None
           end
  end.

(** The [int] a C function returns for the result of a lookup. *)
Definition int_of_index (o : option nat) : Z :=
  match o with Some i => Z.of_nat i | None => -1 end.

(** The tree invariant: entry 0 is the root directory, every other entry in use
    has a name and a directory with a smaller index as parent, and no two
    entries of a directory share a name. *)
Record fs_tree (st : fs) : Prop := {
  tree_ok : fs_ok st;
  tree_root : ∃ f, files st !! 0%nat = Some f ∧ ftype f = FILE_TYPE_DIR ∧
                   parent_index f = 0 ∧ name_of f = [];
  tree_parent : ∀ i f, live st !! i = Some f → (0 < i)%nat →
    ∃ p g, parent_index f = Z.of_nat p ∧ (p < i)%nat ∧
           live st !! p = Some g ∧ ftype g = FILE_TYPE_DIR;
  tree_named : ∀ i f, live st !! i = Some f → (0 < i)%nat → name_of f ≠ [];
  tree_unique : ∀ i j f g, live st !! i = Some f → live st !! j = Some g →
    parent_index f = parent_index g → name_of f = name_of g → i = j
}.

(** ** Lemmas on components *)

Lemma slash_split_nonempty s : slash_split s ≠ [].
Proof. destruct s as [|c s]; simpl; [done|]. by repeat case_match. Qed.

Lemma components_nil : components [] = [].
Proof. done. Qed.

Lemma components_slash s : components (chr "/" :: s) = components s.
Proof. done. Qed.

Lemma components_slashes k s : components (replicate k (chr "/") ++ s) = components s.
Proof. induction k as [|k IH]; [done|]. by rewrite replicate_S, <-app_comm_cons, components_slash. Qed.

Lemma slash_split_word w r :
  chr "/" ∉ w → (r = [] ∨ ∃ r', r = chr "/" :: r') →
  slash_split (w ++ r) = w :: tail (slash_split r).
Proof.
  intros Hw Hr. induction w as [|c w IH]; simpl.
  { destruct Hr as [->|[r' ->]]; done. }
  apply not_elem_of_cons in Hw as [Hc Hw].
  rewrite (proj2 (Z.eqb_neq c (chr "/"))) by done. by rewrite IH.
Qed.

Lemma components_word w r :
  chr "/" ∉ w → w ≠ [] → (r = [] ∨ ∃ r', r = chr "/" :: r') →
  components (w ++ r) = w :: components r.
Proof.
  intros Hw Hne Hr. unfold components. rewrite slash_split_word by done.
  rewrite filter_cons_True by done. f_equal.
  destruct Hr as [->|[r' ->]]; [done|]. cbn [slash_split tail].
  change (chr "/" =? chr "/") with true. cbn [tail].
  by rewrite filter_cons_False by (intros H; by apply H).
Qed.

(** A path is slashes, one word, and the rest. *)
Lemma path_head s :
  ∃ k w r, s = (replicate k (chr "/") ++ w ++ r) ∧ (chr "/" ∉ w) ∧
           (r = [] ∨ ∃ r', r = chr "/" :: r') ∧ (w = [] → r = []).
Proof.
  induction s as [|c s (k & w & r & -> & Hw & Hr & Hwr)].
  { exists 0%nat, [], []. repeat split; try done; [apply not_elem_of_nil|by left]. }
  destruct (Z.eqb_spec c (chr "/")) as [->|Hc].
  { by exists (S k), w, r. }
  destruct k as [|k].
  - exists 0%nat, (c :: w), r. repeat split; try done. by apply not_elem_of_cons.
  - exists 0%nat, [c], (replicate (S k) (chr "/") ++ w ++ r). repeat split; try done.
    + apply not_elem_of_cons. split; [done|apply not_elem_of_nil].
    + right. by exists (replicate k (chr "/") ++ w ++ r).
Qed.

Lemma components_text s : text s → Forall text (components s).
Proof.
  intros Hs. assert (Forall text (slash_split s)) as Hall.
  { induction s as [|c s IH]; simpl; [repeat constructor|].
    apply text_cons in Hs as [Hc Hs]. specialize (IH Hs).
    case_bool; [by constructor; [apply text_nil|]|].
    destruct (slash_split s) as [|w ws].
    { constructor; [|done]. apply text_cons. split; [done|apply text_nil]. }
    apply Forall_cons_iff in IH as [? ?]. constructor; [by apply text_cons|done]. }
  apply Forall_lookup. intros i w [_ [j Hj]%list_elem_of_lookup_1]%list_elem_of_lookup_2%list_elem_of_filter.
  by apply (Forall_lookup_1 _ _ _ _ Hall Hj).
Qed.

(** ** Lemmas on the lookup *)

Lemma entry_lookup st i f : fs_ok st → files st !! i = Some f → entry_ok f.
Proof. intros [_ H _]. by apply Forall_lookup_1. Qed.

Lemma live_lookup st i f :
  live st !! i = Some f ↔ files st !! i = Some f ∧ (i < Z.to_nat (file_count st))%nat.
Proof. unfold live. rewrite lookup_take_Some. done. Qed.

Lemma length_live st : fs_ok st → length (live st) = Z.to_nat (file_count st).
Proof. intros [Hl _ Hc]. unfold live, MAX_FILES in *. rewrite length_take. lia. Qed.

Lemma child_match_ok st p name s (i : nat) f :
  fs_ok st → is_str name s → files st !! i = Some f →
  child_match (files st) (Z.of_nat p) name (Z.of_nat i) = Ok (bool_decide (is_child p s f)).
Proof.
  intros Hok Hs Hf. unfold child_match. rewrite (arr_get_lookup _ _ _ Hf). simpl.
  pose proof (entry_lookup _ _ _ Hok Hf) as [Hn _ _ _ _].
  destruct (Z.eqb_spec (parent_index f) (Z.of_nat p)) as [Hp|Hp].
  - destruct (strcmp_spec _ _ _ _ Hn Hs) as (r & Hr & _). rewrite Hr. simpl. f_equal.
    rewrite (strcmp_eq _ _ _ _ _ Hn Hs Hr). apply bool_decide_ext. unfold is_child. tauto.
  - f_equal. symmetry. apply bool_decide_eq_false_2. by intros [? ?].
Qed.

Lemma find_child_ok st p name s :
  fs_ok st → is_str name s →
  for_find 0 (file_count st) (child_match (files st) (Z.of_nat p) name)
  = Ok (Z.of_nat <$> lookup_child st p s).
Proof.
  intros Hok Hs. pose proof (ok_count _ Hok) as Hc. unfold MAX_FILES in Hc.
  set (q i := match files st !! Z.to_nat i with
              | Some f => bool_decide (is_child p s f) | None => false end).
  destruct (for_find_spec 0 (file_count st)
    (child_match (files st) (Z.of_nat p) name) q) as (r & -> & Hr).
  { intros i Hi. destruct (lookup_lt_is_Some_2 (files st) (Z.to_nat i)) as [f Hf].
    { rewrite (ok_files _ Hok). lia. }
    unfold q. rewrite Hf. rewrite <-(child_match_ok st p name s _ f Hok Hs Hf).
    f_equal. lia. }
  assert (∀ (j : nat) f, live st !! j = Some f → q (Z.of_nat j) = bool_decide (is_child p s f)) as Hq.
  { intros j f Hj%live_lookup. unfold q. by rewrite Nat2Z.id, (proj1 Hj). }
  f_equal. unfold lookup_child. destruct r as [i|].
  - destruct Hr as (Hi & Hqi & Hlt).
    destruct (lookup_lt_is_Some_2 (live st) (Z.to_nat i)) as [f Hf]; [rewrite length_live by done; lia|].
    assert (list_find (is_child p s) (live st) = Some (Z.to_nat i, f)) as ->.
    { apply list_find_Some. split; [done|split].
      - rewrite <-(Z2Nat.id i), (Hq _ f) in Hqi by (done || lia). by apply bool_decide_eq_true_1 in Hqi.
      - intros j y Hj Hji. specialize (Hlt (Z.of_nat j) ltac:(lia)).
        rewrite (Hq _ _ Hj) in Hlt. by apply bool_decide_eq_false_1 in Hlt. }
    simpl. f_equal. lia.
  - replace (list_find (is_child p s) (live st)) with (@None (nat * file_t)); [done|].
    symmetry. apply list_find_None, Forall_lookup. intros j y Hj.
    specialize (Hr (Z.of_nat j)). rewrite (Hq _ _ Hj) in Hr.
    apply (bool_decide_eq_false_1 _), Hr. apply live_lookup in Hj as [_ Hj]. lia.
Qed.

Lemma lookup_child_Some st p s i :
  lookup_child st p s = Some i →
  ∃ f, live st !! i = Some f ∧ is_child p s f ∧
       ∀ j g, live st !! j = Some g → (j < i)%nat → ¬ is_child p s g.
Proof.
  unfold lookup_child. destruct (list_find _ _) as [[j f]|] eqn:E; [|done].
  intros [= <-]. apply list_find_Some in E as (? & ? & ?). eauto.
Qed.

Lemma lookup_child_None st p s i f :
  lookup_child st p s = None → live st !! i = Some f → ¬ is_child p s f.
Proof.
  unfold lookup_child. destruct (list_find _ _) as [[j g]|] eqn:E; [done|].
  intros _ Hi. apply list_find_None in E. by apply (Forall_lookup_1 _ _ _ _ E Hi).
Qed.

Lemma lookup_child_lt st p s i : fs_ok st → lookup_child st p s = Some i → (i < 256)%nat.
Proof.
  intros Hok (f & Hf & _)%lookup_child_Some. apply live_lookup in Hf as [Hf _].
  apply lookup_lt_Some in Hf. by rewrite (ok_files _ Hok) in Hf.
Qed.

(** ** Lemmas on the walk of [fs_parse_path] *)

Lemma skip_slashes_ok path s k r :
  is_str path s → s = replicate k (chr "/") ++ r → (∀ r', r ≠ chr "/" :: r') →
  ∃ path', skip_slashes path = Ok path' ∧ is_str path' r.
Proof.
  revert path s. induction k as [|k IH]; intros path s Hs -> Hr; simpl in *.
  - exists path. split; [|done]. apply is_str_inv in Hs as [[-> [? ->]]|(c & r' & b & -> & -> & _)].
    + done.
    + simpl. rewrite (proj2 (Z.eqb_neq c (chr "/"))); [done|]. intros ->. by apply (Hr r').
  - apply is_str_inv in Hs as [[? _]|(c & r' & b & [= <- <-] & -> & _ & _ & Hs)]; [done|].
    simpl. by apply (IH b (replicate k (chr "/") ++ r)).
Qed.

Lemma copy_component_ok w path r comp (k : nat) :
  is_str path (w ++ r) → chr "/" ∉ w → (r = [] ∨ ∃ r', r = chr "/" :: r') →
  (k + length w < length comp)%nat →
  ∃ path', copy_component path comp (Z.of_nat k) = Ok (path', splice comp k (w ++ [0])) ∧
           is_str path' r.
Proof.
  revert path comp k. induction w as [|c w IH]; intros path comp k Hs Hw Hr Hk.
  - exists path. simpl in Hs. split; [|done].
    assert (∃ c path', path = c :: path' ∧ (c = 0 ∨ c = chr "/")) as (c & path' & -> & Hc).
    { apply is_str_inv in Hs as [[-> [? ->]]|(c & r' & b & -> & -> & _)]; [eauto|].
      destruct Hr as [?|[? [= -> _]]]; [done|]. eauto. }
    simpl. replace (negb (c =? 0) && negb (c =? chr "/")) with false by (by destruct Hc as [->| ->]).
    rewrite arr_set_in by lia. simpl. by rewrite Nat2Z.id, insert_splice by (simpl in Hk; lia).
  - apply not_elem_of_cons in Hw as [Hc Hw]. simpl in Hk.
    apply is_str_inv in Hs as [[? _]|(c' & r' & b & [= <- <-] & -> & Hc0 & _ & Hs)]; [done|].
    simpl. rewrite (proj2 (Z.eqb_neq c 0)), (proj2 (Z.eqb_neq c (chr "/"))) by done. simpl.
    rewrite arr_set_in by lia. simpl. rewrite Nat2Z.id.
    replace (Z.of_nat k + 1) with (Z.of_nat (S k)) by lia.
    destruct (IH b (<[k := c]> comp) (S k)) as (path' & -> & Hs'); try done.
    { rewrite length_insert. lia. }
    exists path'. split; [|done]. do 2 f_equal. apply splice_cons. rewrite length_app. simpl. lia.
Qed.

Lemma copy_component_overflow w path r comp (k : nat) :
  is_str path (w ++ r) → chr "/" ∉ w → (length comp ≤ k + length w)%nat →
  (r = [] ∨ ∃ r', r = chr "/" :: r') →
  copy_component path comp (Z.of_nat k) = Fault OutOfBounds.
Proof.
  revert path comp k. induction w as [|c w IH]; intros path comp k Hs Hw Hk Hr.
  - destruct path as [|c path]; [done|]. simpl in *.
    assert (c = 0 ∨ c = chr "/") as Hc.
    { apply is_str_inv in Hs as [[-> [? [= -> _]]]|(c' & r' & b & -> & [= <- _] & _)]; [by left|].
      destruct Hr as [?|[? [= -> _]]]; [done|]. by right. }
    replace (negb (c =? 0) && negb (c =? chr "/")) with false by (by destruct Hc as [->| ->]).
    by rewrite arr_set_oob by lia.
  - apply not_elem_of_cons in Hw as [Hc Hw]. simpl in Hk.
    apply is_str_inv in Hs as [[? _]|(c' & r' & b & [= <- <-] & -> & Hc0 & _ & Hs)]; [done|].
    simpl. rewrite (proj2 (Z.eqb_neq c 0)), (proj2 (Z.eqb_neq c (chr "/"))) by done. simpl.
    destruct (decide (k < length comp)%nat).
    + rewrite arr_set_in by lia. simpl.
      replace (Z.of_nat k + 1) with (Z.of_nat (S k)) by lia.
      apply IH; try done. rewrite length_insert. lia.
    + by rewrite arr_set_oob by lia.
Qed.

(** One call of [get_next_path_component] on a path split by [path_head]. *)
Lemma get_next_ok path s k w r comp :
  is_str path s → s = replicate k (chr "/") ++ w ++ r → chr "/" ∉ w →
  (r = [] ∨ ∃ r', r = chr "/" :: r') → (w = [] → r = []) →
  (length w < length comp)%nat →
  ∃ next, get_next_path_component path comp = Ok (next, splice comp 0 (w ++ [0])) ∧
    match next with
    | None => r = []
    | Some path' => r ≠ [] ∧ is_str path' r
    end.
Proof.
  intros Hs Hsplit Hw Hr Hwr Hl. unfold get_next_path_component.
  destruct (skip_slashes_ok path s k (w ++ r)) as (p1 & -> & Hp1); [done|done| |].
  { intros r' E. destruct w as [|c w]; simpl in E.
    - by rewrite (Hwr eq_refl) in E.
    - apply not_elem_of_cons in Hw as [Hc _]. congruence. }
  simpl. destruct (copy_component_ok w p1 r comp 0) as (p2 & Hc & Hp2); [done..|simpl; lia|].
  change (Z.of_nat 0) with 0 in Hc. rewrite Hc. simpl.
  apply is_str_inv in Hp2 as Hp2'. destruct Hp2' as [[-> [? ->]]|(c & r' & b & -> & -> & Hc0 & _)].
  - exists None. done.
  - exists (Some (c :: b)). unfold arr_get. simpl. by rewrite (proj2 (Z.eqb_neq c 0) Hc0).
Qed.

Lemma get_next_overflow path s k w r comp :
  is_str path s → s = replicate k (chr "/") ++ w ++ r → chr "/" ∉ w →
  (r = [] ∨ ∃ r', r = chr "/" :: r') → (w = [] → r = []) → w ≠ [] →
  (length comp ≤ length w)%nat →
  get_next_path_component path comp = Fault OutOfBounds.
Proof.
  intros Hs Hsplit Hw Hr Hwr Hne Hl. unfold get_next_path_component.
  destruct (skip_slashes_ok path s k (w ++ r)) as (p1 & -> & Hp1); [done|done| |].
  { intros r' E. destruct w as [|c w]; simpl in E; [done|].
    apply not_elem_of_cons in Hw as [Hc _]. congruence. }
  simpl. pose proof (copy_component_overflow w p1 r comp 0) as Ho.
  change (Z.of_nat 0) with 0 in Ho. by rewrite Ho.
Qed.

Lemma components_head k w r :
  chr "/" ∉ w → (r = [] ∨ ∃ r', r = chr "/" :: r') → (w = [] → r = []) →
  components (replicate k (chr "/") ++ w ++ r) = if decide (w = []) then [] else w :: components r.
Proof.
  intros Hw Hr Hwr. rewrite components_slashes. destruct (decide (w = [])) as [->|Hne].
  - by rewrite (Hwr eq_refl).
  - by apply components_word.
Qed.

Lemma parse_loop_ok fuel st s path comp (cur : nat) :
  fs_ok st → is_str path s → (length s < fuel)%nat → length comp = 256%nat → (cur < 256)%nat →
  parse_loop fuel st path comp (Z.of_nat cur) = int_of_index <$> walk_from st cur (components s).
Proof.
  intros Hok. revert s path comp cur.
  induction fuel as [|fuel IH]; intros s path comp cur Hs Hf Hcomp Hcur; [lia|].
  destruct (path_head s) as (k & w & r & Hsplit & Hw & Hr & Hwr). cbn [parse_loop].
  rewrite Hsplit, components_head by done.
  destruct (decide (256 ≤ length w)%nat) as [Hlong|Hshort].
  { assert (w ≠ []) as Hne by (intros ->; simpl in Hlong; lia).
    rewrite (get_next_overflow path s k w r) by (done || lia).
    rewrite decide_False by done. simpl. by rewrite decide_True by lia. }
  destruct (get_next_ok path s k w r comp) as (next & -> & Hnext); try done; [lia|].
  assert (length (splice comp 0 (w ++ [0])) = 256%nat) as Hcomp'.
  { rewrite length_splice; [done|]. rewrite length_app. simpl. lia. }
  assert (text w) as Htw.
  { destruct Hs as [Ht _]. subst s. by apply text_app in Ht as [_ [Ht _]%text_app]. }
  assert (is_str (splice comp 0 (w ++ [0])) w) as Hwc.
  { apply (is_str_splice comp 0 w); [done|simpl; lia]. }
  cbn [mbind outcome_bind].
  destruct (decide (w = [])) as [->|Hne].
  { rewrite (Hwr eq_refl) in *. simpl. destruct next as [p|]; [by destruct Hnext|].
    simpl. unfold splice. simpl. by rewrite s32_small by lia. }
  assert (∃ c0, arr_get (splice comp 0 (w ++ [0])) 0 = Ok c0 ∧ c0 ≠ 0) as (c0 & -> & Hc0).
  { apply is_str_inv in Hwc as [[-> _]|(c & ? & b & _ & -> & ? & _)]; [done|by exists c]. }
  cbn [mbind outcome_bind]. rewrite (proj2 (Z.eqb_neq c0 0) Hc0).
  rewrite (find_child_ok st cur _ w) by done. cbn [mbind outcome_bind walk_from].
  rewrite decide_False by lia.
  destruct (lookup_child st cur w) as [i|] eqn:Hi; [|done]. cbn [fmap option_fmap option_map].
  pose proof (lookup_child_lt _ _ _ _ Hok Hi). destruct next as [p|].
  - destruct Hnext as [Hrne Hp]. apply IH; try done. subst s.
    rewrite !length_app in Hf. destruct w; [done|]. simpl in Hf. lia.
  - rewrite Hnext. simpl. by rewrite s32_small by lia.
Qed.

Lemma fs_parse_path_ok path s st :
  fs_ok st → is_str path s →
  fs_parse_path path st = int_of_index <$> walk_from st 0 (components s).
Proof.
  intros Hok Hs. unfold fs_parse_path.
  pose proof (parse_loop_ok (length path) st s path (replicate 256 0) 0 Hok Hs
    (is_str_length _ _ Hs) (length_replicate _ _) ltac:(lia)) as Hloop.
  change (Z.of_nat 0) with 0 in Hloop.
  apply is_str_inv in Hs as [[-> [? ->]]|(c & s' & b & -> & -> & Hc & _ & Hs)]; [done|].
  unfold arr_get at 1. simpl. rewrite (proj2 (Z.eqb_neq c 0) Hc).
  destruct (Z.eqb_spec c (chr "/")) as [->|_]; [|done].
  apply is_str_inv in Hs as [[-> [? ->]]|(c' & s'' & b' & -> & -> & Hc' & _)]; [done|].
  unfold arr_get. simpl. by rewrite (proj2 (Z.eqb_neq c' 0) Hc').
Qed.

(** Short components: the walk is the resolution. *)
Definition short (ws : list (list Z)) : Prop := Forall (λ w, (length w < 256)%nat) ws.

Lemma walk_resolve st cur ws : short ws → walk_from st cur ws = Ok (resolve_from st cur ws).
Proof.
  intros Hs. revert cur. induction Hs as [|w ws Hw Hs IH]; intros cur; simpl; [done|].
  rewrite decide_False by lia. destruct (lookup_child st cur w); simpl; [apply IH|done].
Qed.

Lemma fs_parse_path_resolve path s st :
  fs_ok st → is_str path s → short (components s) →
  fs_parse_path path st = Ok (int_of_index (resolve st (components s))).
Proof. intros Hok Hs Hc. rewrite (fs_parse_path_ok path s) by done. by rewrite walk_resolve. Qed.

Lemma resolve_from_app st cur ws vs :
  resolve_from st cur (ws ++ vs) = i ← resolve_from st cur ws; resolve_from st i vs.
Proof.
  revert cur. induction ws as [|w ws IH]; intros cur; simpl; [done|].
  destruct (lookup_child st cur w); simpl; [apply IH|done].
Qed.

Lemma resolve_lt st cur ws i :
  fs_ok st → (cur < Z.to_nat (file_count st))%nat →
  resolve_from st cur ws = Some i → (i < Z.to_nat (file_count st))%nat.
Proof.
  intros Hok. revert cur. induction ws as [|w ws IH]; intros cur Hcur; simpl; [by intros [= <-]|].
  destruct (lookup_child st cur w) as [j|] eqn:E; simpl; [|done]. apply IH.
  apply lookup_child_Some in E as (f & Hf & _). by apply live_lookup in Hf as [_ Hj].
Qed.
