(* ===== verification/FsOps.v ===== *)
(** * The file system: creating, reading, writing, listing

    Every operation of [src/fs.c] but the deletions: its exact result on every
    branch, and that it keeps the invariant of the table. *)

From S2P Require Import Prelude.
From S2P Require Import CString.
From S2P Require Import Fs.
From S2P Require Import FsPath.

(** ** Initialisation *)

(** A table of the right size, with any contents. *)
Definition fs_raw (st : fs) : Prop :=
  length (files st) = 256%nat ∧
  Forall (λ f, length (fname f) = 256%nat ∧ length (fdata f) = 4096%nat) (files st).

Definition reset_entry (f : file_t) : file_t :=
  File (<[0%nat := 0]> (fname f)) FILE_TYPE_NONE 0 4294967295 (fdata f).

Definition root_entry (f : file_t) : file_t :=
  File (<[0%nat := 0]> (fname f)) FILE_TYPE_DIR 0 0 (fdata f).

Lemma clear_entry_ok (i : nat) l f :
  l !! i = Some f → (0 < length (fname f))%nat →
  clear_entry (Z.of_nat i) l = Ok (<[i := reset_entry f]> l).
Proof.
  intros Hf Hl. unfold clear_entry. rewrite (arr_get_lookup _ _ _ Hf). simpl.
  rewrite arr_set_in by lia. simpl. apply lookup_lt_Some in Hf.
  rewrite arr_set_in by lia. by rewrite Nat2Z.id.
Qed.

Lemma name_of_reset n t z p d :
  length n = 256%nat → name_of (File (<[0%nat := 0]> n) t z p d) = [] ∧
  is_str (<[0%nat := 0]> n) [].
Proof. intros Hn. destruct n as [|c n]; [done|]. split; [done|apply is_str_nil]. Qed.

Lemma reset_entry_ok f :
  length (fname f) = 256%nat → length (fdata f) = 4096%nat → entry_ok (reset_entry f).
Proof.
  intros Hn Hd. destruct (name_of_reset (fname f) FILE_TYPE_NONE 0 4294967295 (fdata f) Hn) as [Hnm Hs].
  split; simpl; try done; try (unfold MAX_FILE_SIZE; lia).
  - unfold reset_entry. by rewrite Hnm.
  - by rewrite length_insert.
Qed.

Lemma root_entry_ok f :
  length (fname f) = 256%nat → length (fdata f) = 4096%nat →
  entry_ok (root_entry f) ∧ name_of (root_entry f) = [].
Proof.
  intros Hn Hd. destruct (name_of_reset (fname f) FILE_TYPE_DIR 0 0 (fdata f) Hn) as [Hnm Hs].
  split; [|done]. split; simpl; try done; try (unfold MAX_FILE_SIZE; lia).
  - unfold root_entry. by rewrite Hnm.
  - by rewrite length_insert.
Qed.

Lemma fs_init_ok st :
  fs_raw st →
  ∃ f l, files st = f :: l ∧
         fs_init st = Ok (Fs (root_entry (reset_entry f) :: map reset_entry l) 1).
Proof.
  intros [Hlen Hall]. unfold fs_init.
  change MAX_FILES with (Z.of_nat 256).
  rewrite (for_range_map reset_entry); [|lia|].
  2:{ intros i l' x Hi Hx Hx' Hl'. apply clear_entry_ok; [done|].
      destruct (Forall_lookup_1 _ _ _ _ Hall Hx). lia. }
  rewrite take_ge, drop_ge, app_nil_r by lia.
  destruct (files st) as [|f l]; [done|]. exists f, l. split; [done|].
  destruct (Forall_inv Hall) as [Hn _]. cbn [mbind outcome_bind map arr_get].
  rewrite (arr_get_lookup _ 0 (reset_entry f)) by done. cbn [mbind outcome_bind].
  rewrite arr_set_in by (simpl; rewrite length_insert; lia). cbn [mbind outcome_bind].
  rewrite arr_set_in by (simpl; lia). done.
Qed.

Lemma fs_init_tree st : fs_raw st → ∃ st', fs_init st = Ok st' ∧ fs_tree st' ∧ file_count st' = 1.
Proof.
  intros Hraw. pose proof Hraw as [Hlen Hall].
  destruct (fs_init_ok st Hraw) as (f & l & Hfl & ->). eexists. split; [done|].
  split; [|done]. rewrite Hfl in Hlen, Hall. simpl in Hlen.
  apply Forall_cons_iff in Hall as [[Hn Hd] Hall].
  destruct (root_entry_ok (reset_entry f)) as [Hrok Hrn];
    [simpl; by rewrite length_insert|done|].
  split.
  - split; simpl; [rewrite length_map; lia| |unfold MAX_FILES; lia].
    constructor; [done|]. apply Forall_map. eapply Forall_impl; [|exact Hall].
    intros g [? ?]. by apply reset_entry_ok.
  - by exists (root_entry (reset_entry f)).
  - intros [|i] g; [lia|]. intros [_ Hi]%live_lookup. simpl in Hi. lia.
  - intros [|i] g; [lia|]. intros [_ Hi]%live_lookup. simpl in Hi. lia.
  - intros i j ?? [_ Hi]%live_lookup [_ Hj]%live_lookup. simpl in *. lia.
Qed.

(** ** Creating an entry *)

Definition is_dir (st : fs) (p : nat) : bool :=
  match files st !! p with
  | Some g => bool_decide (ftype g = FILE_TYPE_DIR)
  | None => false
  end.

(** The three tests of [fs_create_file]. *)
Definition can_create (st : fs) (p : nat) (s : list Z) : bool :=
  (file_count st <? MAX_FILES) && is_dir st p && bool_decide (lookup_child st p s = None).

Definition new_entry (f : file_t) (s : list Z) (t : file_type) (p : nat) : file_t :=
  File (splice (fname f) 0 (s ++ [0])) t 0 (Z.of_nat p) (fdata f).

(** The table with one more entry: slot [file_count] is filled. *)
Definition add_entry (st : fs) (s : list Z) (t : file_type) (p : nat) : fs :=
  let n := Z.to_nat (file_count st) in
  match files st !! n with
  | Some f => Fs (<[n := new_entry f s t p]> (files st)) (file_count st + 1)
  | None => st
  end.

Lemma not_a_dir_ok st p :
  fs_ok st → not_a_dir (files st) (Z.of_nat p) = Ok (negb (is_dir st p)).
Proof.
  intros Hok. unfold not_a_dir, is_dir, MAX_FILES. case_bool.
  - rewrite lookup_ge_None_2 by (rewrite (ok_files _ Hok); lia). done.
  - destruct (lookup_lt_is_Some_2 (files st) p) as [g Hg]; [rewrite (ok_files _ Hok); lia|].
    rewrite (arr_get_lookup _ _ _ Hg), Hg. simpl. f_equal. by rewrite bool_decide_not.
Qed.

Lemma fs_create_file_ok name s t p st :
  fs_ok st → is_str name s → (length s < 256)%nat →
  fs_create_file name t (Z.of_nat p) st =
    Ok (if can_create st p s then (file_count st, add_entry st s t p) else (-1, st)).
Proof.
  intros Hok Hs Hl. unfold fs_create_file, can_create.
  pose proof (ok_count _ Hok) as Hc. unfold MAX_FILES in *.
  destruct (256 <=? file_count st) eqn:Hfull; zify_bool.
  { by rewrite (proj2 (Z.ltb_ge (file_count st) 256)) by lia. }
  rewrite (proj2 (Z.ltb_lt (file_count st) 256)) by lia.
  rewrite not_a_dir_ok by done. cbn [mbind outcome_bind andb].
  destruct (is_dir st p) eqn:Hdir; cbn [negb andb]; [|done].
  rewrite (find_child_ok st p name s) by done. cbn [mbind outcome_bind].
  destruct (lookup_child st p s) as [i|] eqn:Hlk; cbn [fmap option_fmap option_map].
  { by rewrite bool_decide_eq_false_2. }
  rewrite bool_decide_eq_true_2 by done. unfold add_entry.
  destruct (lookup_lt_is_Some_2 (files st) (Z.to_nat (file_count st))) as [f Hf].
  { rewrite (ok_files _ Hok). lia. }
  pose proof (entry_lookup _ _ _ Hok Hf) as [_ Hnl _ _ _].
  replace (arr_get (files st) (file_count st)) with (Ok f)
    by (symmetry; apply arr_get_Ok; split; [lia|done]).
  rewrite Hf. cbn [mbind outcome_bind].
  pose proof (strcpy_fits name s (fname f) 0 Hs ltac:(simpl; lia)) as Hcp.
  change (Z.of_nat 0) with 0 in Hcp. rewrite Hcp. cbn [mbind outcome_bind].
  rewrite arr_set_in by (rewrite (ok_files _ Hok); lia). cbn [mbind outcome_bind].
  by rewrite s32_small, u32_small by lia.
Qed.

(** A refusal, also for a name that does not fit. *)
Lemma fs_create_file_refuses name s t p st :
  fs_ok st → is_str name s → can_create st p s = false →
  fs_create_file name t (Z.of_nat p) st = Ok (-1, st).
Proof.
  intros Hok Hs. unfold fs_create_file, can_create.
  pose proof (ok_count _ Hok) as Hc. unfold MAX_FILES in *.
  destruct (256 <=? file_count st) eqn:Hfull; zify_bool; [done|].
  rewrite (proj2 (Z.ltb_lt (file_count st) 256)) by lia.
  rewrite not_a_dir_ok by done. cbn [mbind outcome_bind andb].
  destruct (is_dir st p) eqn:Hdir; cbn [negb andb]; [|done].
  rewrite (find_child_ok st p name s) by done. cbn [mbind outcome_bind].
  by destruct (lookup_child st p s).
Qed.

Lemma fs_create_file_overflow name s t p st :
  fs_ok st → is_str name s → (256 ≤ length s)%nat → can_create st p s = true →
  fs_create_file name t (Z.of_nat p) st = Fault OutOfBounds.
Proof.
  intros Hok Hs Hl Hcan. unfold fs_create_file. unfold can_create in Hcan.
  pose proof (ok_count _ Hok) as Hc. unfold MAX_FILES in *. zify_bool.
  rewrite (proj2 (Z.leb_gt 256 (file_count st))) by lia.
  rewrite not_a_dir_ok by done. cbn [mbind outcome_bind].
  match goal with H : is_dir st p = true |- _ => rewrite H end. cbn [negb].
  rewrite (find_child_ok st p name s) by done.
  match goal with H : bool_decide (lookup_child st p s = None) = true |- _ =>
    apply bool_decide_eq_true_1 in H; rewrite H end. cbn [mbind outcome_bind fmap option_fmap option_map].
  destruct (lookup_lt_is_Some_2 (files st) (Z.to_nat (file_count st))) as [f Hf].
  { rewrite (ok_files _ Hok). lia. }
  pose proof (entry_lookup _ _ _ Hok Hf) as [_ Hnl _ _ _].
  replace (arr_get (files st) (file_count st)) with (Ok f)
    by (symmetry; apply arr_get_Ok; split; [lia|done]).
  cbn [mbind outcome_bind].
  pose proof (strcpy_overflows name s (fname f) 0 Hs ltac:(simpl; lia)) as Hcp.
  change (Z.of_nat 0) with 0 in Hcp. by rewrite Hcp.
Qed.

(** *** The table after a creation *)

Section add_entry.
Context (st : fs) (Hok : fs_ok st) (s : list Z) (t : file_type) (p : nat).
Context (Hs : text s) (Hl : (length s < 256)%nat).
Context (Hroom : file_count st < MAX_FILES).

Let n := Z.to_nat (file_count st).
Let st' := add_entry st s t p.

Lemma add_entry_eq :
  ∃ f, files st !! n = Some f ∧ entry_ok f ∧
       st' = Fs (<[n := new_entry f s t p]> (files st)) (file_count st + 1).
Proof.
  pose proof (ok_count _ Hok). unfold MAX_FILES in *.
  destruct (lookup_lt_is_Some_2 (files st) n) as [f Hf]; [rewrite (ok_files _ Hok); subst n; lia|].
  exists f. split; [done|]. split; [by apply (entry_lookup st n)|].
  subst st' n. unfold add_entry. by rewrite Hf.
Qed.

Lemma new_entry_ok f :
  entry_ok f → (p < 256)%nat → entry_ok (new_entry f s t p) ∧ name_of (new_entry f s t p) = s.
Proof.
  intros [Hn Hnl Hd Hz Hp] Hp256.
  assert (is_str (splice (fname f) 0 (s ++ [0])) s) as Hstr.
  { apply (is_str_splice (fname f) 0 s); [done|simpl; lia]. }
  assert (name_of (new_entry f s t p) = s) as Hname.
  { apply is_str_c_str in Hstr as [Hc _]. unfold name_of. simpl. by rewrite Hc. }
  split; [|done]. split; simpl; try done; try (unfold MAX_FILE_SIZE; lia).
  - by rewrite Hname.
  - rewrite length_splice; [done|]. rewrite length_app. simpl. lia.
Qed.

Lemma live_add_entry : (p < 256)%nat → ∃ g, live st' = live st ++ [g] ∧ entry_ok g ∧ name_of g = s ∧
  ftype g = t ∧ parent_index g = Z.of_nat p ∧ fsize g = 0.
Proof.
  intros Hp. destruct add_entry_eq as (f & Hf & Hfok & Heq).
  destruct (new_entry_ok f Hfok Hp) as [Hg Hgn].
  exists (new_entry f s t p). split; [|done]. rewrite Heq. unfold live. simpl.
  pose proof (ok_count _ Hok). unfold MAX_FILES in *. pose proof (ok_files _ Hok).
  replace (Z.to_nat (file_count st + 1)) with (S n) by (subst n; lia).
  rewrite (take_S_r _ _ (new_entry f s t p)).
  - by rewrite take_insert_ge by lia.
  - apply list_lookup_insert_eq. subst n. lia.
Qed.

Lemma add_entry_ok : (p < 256)%nat → fs_ok st'.
Proof.
  intros Hp. destruct add_entry_eq as (f & Hf & Hfok & ->).
  pose proof (ok_count _ Hok). unfold MAX_FILES in *.
  split; simpl; [by rewrite length_insert, (ok_files _ Hok)| |unfold MAX_FILES; lia].
  apply Forall_insert; [apply (ok_entries _ Hok)|]. by apply new_entry_ok.
Qed.

Lemma lookup_child_add q w :
  (p < 256)%nat →
  lookup_child st' q w =
    match lookup_child st q w with
    | Some i => Some i
    | None => if decide (q = p ∧ w = s) then Some n else None
    end.
Proof.
  intros Hp. destruct (live_add_entry Hp) as (g & Hlive & _ & Hgn & _ & Hgp & _).
  unfold lookup_child. rewrite Hlive.
  destruct (list_find (is_child q w) (live st)) as [[i x]|] eqn:E.
  - by rewrite (list_find_app_l _ _ _ _ _ E).
  - rewrite list_find_app_r by done. rewrite length_live by done. fold n. simpl.
    assert (is_child q w g ↔ q = p ∧ w = s) as Hiff.
    { unfold is_child. rewrite Hgp, Hgn. split; intros [? ?]; split; try lia; congruence. }
    destruct (decide (q = p ∧ w = s)) as [Hy|Hn].
    + by rewrite decide_True by tauto.
    + by rewrite decide_False by tauto.
Qed.

End add_entry.

Lemma add_entry_tree st s t p :
  fs_tree st → text s → s ≠ [] → (length s < 256)%nat → can_create st p s = true →
  (p < Z.to_nat (file_count st))%nat → fs_tree (add_entry st s t p).
Proof.
  intros Htree Hs Hsne Hl Hcan Hp.
  pose proof Htree as [Hok (r & Hr & Hrt & Hrp & Hrn) Hpar Hnamed Huniq].
  pose proof (ok_count _ Hok) as Hc. unfold can_create in Hcan. zify_bool.
  destruct (live_add_entry st Hok s t p Hs Hl) as (g & Hlive & Hg & Hgn & Hgt & Hgp & _);
    [done|unfold MAX_FILES in *; lia|].
  match goal with H : is_dir st p = true |- _ => unfold is_dir in H;
    destruct (files st !! p) as [d|] eqn:Hd; [|done]; apply bool_decide_eq_true_1 in H; rename H into Hdt end.
  match goal with H : bool_decide _ = true |- _ => apply bool_decide_eq_true_1 in H; rename H into Hnone end.
  assert (live st !! p = Some d) as Hdl by (apply live_lookup; done).
  assert (∀ i f, live (add_entry st s t p) !! i = Some f →
    live st !! i = Some f ∨ (i = length (live st) ∧ f = g)) as Hcases.
  { intros i f. rewrite Hlive. intros [?|[? ?]]%lookup_app_Some; [by left|].
    apply list_lookup_singleton_Some in H1 as [? ?]. right. split; [lia|done]. }
  assert (∀ i f, live st !! i = Some f → live (add_entry st s t p) !! i = Some f) as Hkeep.
  { intros i f Hf. rewrite Hlive. by apply lookup_app_l_Some. }
  split.
  - apply add_entry_ok; try done. unfold MAX_FILES in *. lia.
  - assert (live st !! 0%nat = Some r) as H0 by (apply live_lookup; split; [done|lia]).
    apply Hkeep, live_lookup in H0 as [? _]. by exists r.
  - intros i f [Hf|[-> ->]]%Hcases Hi.
    + destruct (Hpar i f Hf Hi) as (q & h & ? & ? & Hh & ?). exists q, h. auto.
    + exists p, d. split; [done|]. split; [rewrite length_live by done; lia|]. auto.
  - intros i f [Hf|[-> ->]]%Hcases Hi; [by apply (Hnamed i)|congruence].
  - assert (∀ i f, live st !! i = Some f → parent_index f = parent_index g →
      name_of f = name_of g → False) as Hfresh.
    { intros i f Hf Hpe Hne. apply (lookup_child_None _ _ _ _ _ Hnone Hf).
      split; congruence. }
    intros i j f h [Hf|[-> ->]]%Hcases [Hh|[-> ->]]%Hcases Hpe Hne; eauto; exfalso; eauto.
Qed.

(** ** Creating at a path: [fs_mkdir] and [fs_create] *)

Lemma slash_split_app a c :
  slash_split (a ++ chr "/" :: c) = slash_split a ++ slash_split c.
Proof.
  induction a as [|x a IH]; [done|]. simpl. case_bool; [by rewrite IH|].
  rewrite IH. destruct (slash_split a) as [|w ws] eqn:E; [by apply slash_split_nonempty in E|done].
Qed.

Lemma components_app a c : components (a ++ chr "/" :: c) = components a ++ components c.
Proof. unfold components. by rewrite slash_split_app, list.filter_app. Qed.

Lemma components_single b : chr "/" ∉ b → b ≠ [] → components b = [b].
Proof.
  intros Hb Hne. pose proof (components_word b [] Hb Hne (or_introl eq_refl)) as H.
  by rewrite app_nil_r in H.
Qed.

Lemma last_slash_none p s off last :
  is_str p s → chr "/" ∉ s → last_slash_loop p off last = Ok last.
Proof.
  revert s off. induction p as [|c p IH]; intros s off Hs Hn.
  { apply is_str_length in Hs. simpl in Hs. lia. }
  apply is_str_inv in Hs as [[-> [? [= -> ->]]]|(? & s' & ? & -> & [= <- <-] & Hc & _ & Hs)];
    simpl; [done|].
  apply not_elem_of_cons in Hn as [Hne Hn].
  rewrite (proj2 (Z.eqb_neq c 0) Hc), (proj2 (Z.eqb_neq c (chr "/"))) by done. by apply (IH s').
Qed.

Lemma last_slash_at p a b off last :
  is_str p (a ++ chr "/" :: b) → chr "/" ∉ b →
  last_slash_loop p off last = Ok (off + Z.of_nat (length a)).
Proof.
  intros Hs Hb. revert p off last Hs. induction a as [|x a IH]; intros p off last Hs; simpl in Hs;
    (apply is_str_inv in Hs as [[? _]|(c & s' & p' & [= <- <-] & -> & Hc & _ & Hs)]; [done|]).
  - simpl. rewrite (last_slash_none p' b) by done. f_equal. lia.
  - cbn [last_slash_loop]. rewrite (proj2 (Z.eqb_neq x 0) Hc), IH by done.
    f_equal. simpl. lia.
Qed.

(** The text of the parent path: a path with nothing before its last slash has
    the root as its parent. *)
Definition parent_text (a : list Z) : list Z := if decide (a = []) then chars "/" else a.

Lemma components_parent a : components (parent_text a) = components a.
Proof. unfold parent_text. by destruct (decide (a = [])) as [->|]. Qed.

Lemma is_str_take_app (a b : list Z) path (n : nat) :
  is_str path (a ++ b) → (length a < n)%nat →
  is_str (splice (replicate n 0) 0 (take (length a) path)) a.
Proof.
  intros [Ht [rest ->]] Hn. apply text_app in Ht as [Ha _].
  rewrite <-app_assoc, take_app_length. unfold splice. simpl.
  split; [done|]. exists (replicate (n - length a - 1) 0).
  rewrite drop_replicate. f_equal.
  destruct (n - length a)%nat as [|m] eqn:E; [lia|]. simpl. by rewrite Nat.sub_0_r.
Qed.

(** An empty parent path becomes the root. *)
Lemma root_default pp a :
  is_str pp a → length pp = 512%nat →
  ∃ pp', (c0 ← arr_get pp 0; if c0 =? 0 then strcpy pp 0 (lit "/") else Ok pp) = Ok pp' ∧
         is_str pp' (parent_text a).
Proof.
  intros Hpp Hppl. unfold parent_text. destruct (decide (a = [])) as [->|Hne].
  - apply is_str_inv in Hpp as [[_ [r Hr]]|(c & ? & ? & ? & _)]; [|done]. rewrite Hr in Hppl |- *.
    change (arr_get (0 :: r) 0) with (Ok 0). cbn [mbind outcome_bind Z.eqb].
    pose proof (strcpy_fits (lit "/") (chars "/") (0 :: r) 0) as Hc.
    change (Z.of_nat 0) with 0 in Hc.
    rewrite Hc; [|by apply lit_is_str, (bool_decide_eq_true_1 _)|simpl in *; lia].
    eexists. split; [done|].
    apply (is_str_splice (0 :: r) 0); [by apply (bool_decide_eq_true_1 _)|simpl in *; lia].
  - exists pp. split; [|done].
    apply is_str_inv in Hpp as [[? _]|(c & ? & ? & _ & -> & Hc & _)]; [done|].
    unfold arr_get. simpl. by rewrite (proj2 (Z.eqb_neq c 0) Hc).
Qed.

Lemma split_path_ok path a b :
  is_str path (a ++ chr "/" :: b) → chr "/" ∉ b → (length a < 512)%nat → (length b < 256)%nat →
  ∃ pp nm, split_path path = Ok (pp, nm) ∧ is_str pp (parent_text a) ∧ is_str nm b.
Proof.
  intros Hs Hb Ha Hbl. unfold split_path.
  rewrite (last_slash_at path a b), Z.add_0_l by done. cbn [mbind outcome_bind].
  pose proof (is_str_length _ _ Hs) as Hpl. rewrite length_app in Hpl.
  rewrite for_range_copy by (rewrite ?length_replicate; lia). cbn [mbind outcome_bind].
  set (pp := splice (replicate 512 0) 0 (take (length a) path)).
  assert (is_str pp a) as Hpp by (apply (is_str_take_app a _ _ _ Hs); lia).
  assert (length pp = 512%nat) as Hppl.
  { unfold pp. rewrite length_splice; rewrite ?length_replicate; [done|]. rewrite length_take. lia. }
  destruct (root_default pp a Hpp Hppl) as (pp' & Hpp' & Hstr).
  destruct (arr_get pp 0) as [c0|] eqn:Hc0; cbn [mbind outcome_bind] in Hpp' |- *; [|done].
  rewrite Hpp'. cbn [mbind outcome_bind].
  replace (Z.to_nat (Z.of_nat (length a) + 1)) with (S (length a)) by lia.
  assert (is_str (drop (S (length a)) path) b) as Hd.
  { pose proof (is_str_drop _ _ (S (length a)) Hs) as Hd. rewrite length_app in Hd.
    rewrite <-(Nat.add_1_r (length a)) in Hd at 3. rewrite <-drop_drop, drop_app_length in Hd.
    apply Hd. simpl. lia. }
  pose proof (strcpy_fits _ b (replicate 256 0) 0 Hd) as Hcp. change (Z.of_nat 0) with 0 in Hcp.
  rewrite Hcp by (rewrite length_replicate; simpl; lia). cbn [mbind outcome_bind].
  eexists _, _. split; [done|]. split; [done|].
  apply (is_str_splice (replicate 256 0) 0 b); [apply Hd|rewrite length_replicate; simpl; lia].
Qed.

Lemma create_at_ok t path a b st :
  fs_ok st → is_str path (a ++ chr "/" :: b) → chr "/" ∉ b →
  (length a < 512)%nat → (length b < 256)%nat → short (components a) →
  create_at t path st = Ok
    (if decide (b = []) then (-1, st)
     else match resolve st (components a) with
          | None => (-1, st)
          | Some p => if can_create st p b then (file_count st, add_entry st b t p) else (-1, st)
          end).
Proof.
  intros Hok Hs Hb Ha Hbl Hshort. unfold create_at.
  destruct (split_path_ok path a b) as (pp & nm & -> & Hpp & Hnm); [done..|].
  cbn [mbind outcome_bind].
  destruct (decide (b = [])) as [->|Hne].
  { by apply is_str_inv in Hnm as [[_ [r ->]]|(? & ? & ? & ? & _)]. }
  assert (∃ c0, arr_get nm 0 = Ok c0 ∧ c0 ≠ 0) as (c0 & -> & Hc0).
  { apply is_str_inv in Hnm as [[? _]|(c & ? & ? & _ & -> & ? & _)]; [done|by exists c]. }
  cbn [mbind outcome_bind]. rewrite (proj2 (Z.eqb_neq c0 0) Hc0).
  rewrite (fs_parse_path_resolve pp (parent_text a)) by (rewrite ?components_parent; done).
  rewrite components_parent. cbn [mbind outcome_bind].
  destruct (resolve st (components a)) as [p|]; simpl; [|done].
  rewrite (proj2 (Z.ltb_ge (Z.of_nat p) 0)) by lia. by apply fs_create_file_ok.
Qed.
