(* ===== verification/FsData.v ===== *)
(** * The file system: contents and listings

    [fs_write], [fs_read] and [fs_list_dir] of [src/fs.c]. *)

From S2P Require Import Prelude.
From S2P Require Import CString.
From S2P Require Import Fs.
From S2P Require Import FsPath.
From S2P Require Import FsOps.

(** ** Specifications *)

(** The contents of a file. *)
Definition contents (f : file_t) : list Z := take (Z.to_nat (fsize f)) (fdata f).

(** Entry [i] replaced by a file with the same name, type and parent. *)
Definition store (st : fs) (i : nat) (f : file_t) (d : list Z) (n : Z) : fs :=
  Fs (<[i := File (fname f) (ftype f) n (parent_index f) d]> (files st)) (file_count st).

(** The line [fs_list_dir] prints for an entry. *)
Definition entry_line (f : file_t) : list Z :=
  name_of f ++ (if decide (ftype f = FILE_TYPE_DIR) then chars "/" else []) ++ [10].

(** The entries of directory [d], in table order; the root is not its own
    child. *)
Definition children (st : fs) (d : nat) : list file_t :=
  filter (λ f, parent_index f = Z.of_nat d) (tail (live st)).

(** The entries whose lines fit: the listing stops when fewer than 259 bytes
    are left. *)
Fixpoint fitting (space : Z) (fs : list file_t) : list file_t :=
  match fs with
  | [] => []
  | f :: fs' =>
      if space <? MAX_FILENAME + 3 then []
      else f :: fitting (space - Z.of_nat (length (entry_line f))) fs'
  end.

Definition listing (fs : list file_t) : list Z := concat (map entry_line fs).

(** ** Resolution depends on names and parents only *)

Definition key_of (f : file_t) : Z * list Z := (parent_index f, name_of f).

Lemma lookup_child_key st p s :
  lookup_child st p s = fst <$> list_find (λ k, k = (Z.of_nat p, s)) (key_of <$> live st).
Proof.
  unfold lookup_child. induction (live st) as [|f l IH]; [done|].
  rewrite fmap_cons. cbn [list_find].
  assert (is_child p s f ↔ key_of f = (Z.of_nat p, s)) as Hiff.
  { unfold is_child, key_of. split; [by intros [-> ->]|by intros [= -> ->]]. }
  destruct (decide (key_of f = (Z.of_nat p, s))) as [Hy|Hn].
  - by rewrite decide_True by tauto.
  - rewrite decide_False by tauto.
    destruct (list_find (is_child p s) l) as [[? ?]|], (list_find _ (key_of <$> l)) as [[? ?]|];
      simpl in *; try done. injection IH as ->. done.
Qed.

Lemma resolve_from_key st st' cur ws :
  key_of <$> live st' = key_of <$> live st → resolve_from st' cur ws = resolve_from st cur ws.
Proof.
  intros Hk. revert cur. induction ws as [|w ws IH]; intros cur; simpl; [done|].
  rewrite !lookup_child_key, Hk. destruct (fst <$> list_find _ _); simpl; [apply IH|done].
Qed.

Lemma store_keys st i f d n :
  files st !! i = Some f → key_of <$> live (store st i f d n) = key_of <$> live st.
Proof.
  intros Hf. unfold live, store. simpl. rewrite !fmap_take, list_fmap_insert.
  f_equal. apply list_insert_id. by rewrite list_lookup_fmap, Hf.
Qed.

Lemma store_ok st i f d n :
  fs_ok st → files st !! i = Some f → length d = 4096%nat → 0 ≤ n ≤ MAX_FILE_SIZE →
  fs_ok (store st i f d n).
Proof.
  intros Hok Hf Hd Hn. pose proof (entry_lookup _ _ _ Hok Hf) as [].
  destruct Hok. split; simpl; [by rewrite length_insert| |done].
  apply Forall_insert; [done|]. by split.
Qed.

(** ** [fs_get_file] *)

Lemma fs_get_file_ok path s st :
  fs_ok st → is_str path s → short (components s) →
  fs_get_file path st = Ok (Z.of_nat <$> resolve st (components s)).
Proof.
  intros Hok Hs Hc. unfold fs_get_file. rewrite (fs_parse_path_resolve path s) by done. simpl.
  destruct (resolve st (components s)) as [i|]; simpl; [|done].
  by rewrite (proj2 (Z.ltb_ge (Z.of_nat i) 0)) by lia.
Qed.

Lemma resolve_entry st ws i :
  fs_ok st → resolve st ws = Some i → ∃ f, live st !! i = Some f ∧ files st !! i = Some f.
Proof.
  intros Hok Hi. pose proof (ok_count _ Hok). unfold MAX_FILES in *.
  apply resolve_lt in Hi; [|done|lia].
  destruct (lookup_lt_is_Some_2 (files st) i) as [f Hf]; [rewrite (ok_files _ Hok); lia|].
  exists f. split; [|done]. by apply live_lookup.
Qed.

(** The regular file a path leads to, if any. *)
Definition file_at (st : fs) (ws : list (list Z)) : option (nat * file_t) :=
  i ← resolve st ws; f ← files st !! i;
  if decide (ftype f = FILE_TYPE_FILE) then Some (i, f) else None.

Lemma file_at_Some st ws i f :
  file_at st ws = Some (i, f) ↔
  resolve st ws = Some i ∧ files st !! i = Some f ∧ ftype f = FILE_TYPE_FILE.
Proof.
  unfold file_at. split.
  - destruct (resolve st ws) as [j|]; simpl; [|done].
    destruct (files st !! j) as [g|] eqn:Hg; simpl; [|done].
    case_decide; [|done]. by intros [= <- <-].
  - intros (-> & Hf & Ht). simpl. rewrite Hf. simpl. by rewrite decide_True.
Qed.

Lemma regular_file_ok path s st :
  fs_ok st → is_str path s → short (components s) →
  (file ← fs_get_file path st; regular_file file st)
  = Ok ((λ '(i, f), (Z.of_nat i, f)) <$> file_at st (components s)).
Proof.
  intros Hok Hs Hc. rewrite (fs_get_file_ok path s) by done. unfold file_at. simpl.
  destruct (resolve st (components s)) as [i|] eqn:Hi; simpl; [|done].
  destruct (resolve_entry _ _ _ Hok Hi) as (f & _ & Hf).
  rewrite (arr_get_lookup _ _ _ Hf), Hf. simpl. by case_decide.
Qed.

(** ** [fs_write] and [fs_read] *)

Lemma fs_write_ok path s data size st :
  fs_ok st → is_str path s → short (components s) → 0 ≤ size →
  Z.min size MAX_FILE_SIZE ≤ Z.of_nat (length data) →
  fs_write path data size st = Ok
    match file_at st (components s) with
    | None => (-1, st)
    | Some (i, f) =>
        let n := Z.min size MAX_FILE_SIZE in
        (n, store st i f (splice (fdata f) 0 (take (Z.to_nat n) data)) n)
    end.
Proof.
  intros Hok Hs Hc Hsz Hd. unfold fs_write.
  pose proof (regular_file_ok path s st Hok Hs Hc) as Hr.
  destruct (fs_get_file path st) as [o|]; [|done]. cbn [mbind outcome_bind] in Hr |- *.
  rewrite Hr. cbn [mbind outcome_bind].
  destruct (file_at st (components s)) as [[i f]|] eqn:Hfile; [|done].
  cbn [fmap option_fmap option_map].
  apply file_at_Some in Hfile as (_ & Hf & _).
  pose proof (entry_lookup _ _ _ Hok Hf) as [_ _ Hdl _ _].
  replace (if MAX_FILE_SIZE <? size then MAX_FILE_SIZE else size) with (Z.min size MAX_FILE_SIZE)
    by (case_bool; lia).
  unfold MAX_FILE_SIZE in *. set (n := Z.min size 4096) in *.
  replace n with (Z.of_nat (Z.to_nat n)) at 1 by lia.
  rewrite for_range_copy by lia. cbn [mbind outcome_bind].
  rewrite arr_set_in by (apply lookup_lt_Some in Hf; lia). cbn [mbind outcome_bind].
  rewrite Nat2Z.id, s32_small by lia. done.
Qed.

Lemma fs_read_ok path s buffer size st :
  fs_ok st → is_str path s → short (components s) → 0 ≤ size →
  size ≤ Z.of_nat (length buffer) →
  fs_read path buffer size st = Ok
    match file_at st (components s) with
    | None => (-1, buffer)
    | Some (i, f) =>
        let n := Z.min size (fsize f) in
        (n, splice buffer 0 (take (Z.to_nat n) (fdata f)))
    end.
Proof.
  intros Hok Hs Hc Hsz Hd. unfold fs_read.
  pose proof (regular_file_ok path s st Hok Hs Hc) as Hr.
  destruct (fs_get_file path st) as [o|]; [|done]. cbn [mbind outcome_bind] in Hr |- *.
  rewrite Hr. cbn [mbind outcome_bind].
  destruct (file_at st (components s)) as [[i f]|] eqn:Hfile; [|done].
  cbn [fmap option_fmap option_map].
  apply file_at_Some in Hfile as (_ & Hf & _).
  pose proof (entry_lookup _ _ _ Hok Hf) as [_ _ Hdl Hfs _].
  replace (if fsize f <? size then fsize f else size) with (Z.min size (fsize f))
    by (case_bool; lia).
  unfold MAX_FILE_SIZE in *. set (n := Z.min size (fsize f)) in *.
  replace n with (Z.of_nat (Z.to_nat n)) at 1 by lia.
  rewrite for_range_copy by lia. cbn [mbind outcome_bind].
  by rewrite s32_small by lia.
Qed.

(** ** [fs_list_dir] *)

Lemma splice_replace_last {A} (l m : list A) k x y :
  (k + S (length m) ≤ length l)%nat →
  <[(k + length m)%nat := x]> (splice l k (m ++ [y])) = splice l k (m ++ [x]).
Proof.
  intros H. rewrite <-(splice_snoc l m k y) by lia.
  rewrite list_insert_insert_eq. by apply splice_snoc.
Qed.

Lemma name_length f : entry_ok f → (length (name_of f) < 256)%nat.
Proof. intros [Hn Hl _ _ _]. apply is_str_length in Hn. lia. Qed.

Lemma entry_line_length f : entry_ok f → (1 ≤ length (entry_line f) ≤ 257)%nat.
Proof.
  intros Hf. pose proof (name_length f Hf). unfold entry_line.
  rewrite !length_app. case_decide; simpl; lia.
Qed.

(** One entry of the directory with enough room. *)
Lemma list_step_entry st d size (i : nat) f buf (pos : nat) cnt :
  fs_ok st → files st !! i = Some f → i ≠ 0%nat → parent_index f = Z.of_nat d →
  Z.of_nat (length buf) = size → size < 4294967296 → 259 ≤ size - Z.of_nat pos →
  list_step st (Z.of_nat d) size (Z.of_nat i) (buf, Z.of_nat pos, cnt)
  = Ok (Continue (splice buf pos (entry_line f),
                  Z.of_nat (pos + length (entry_line f)), cnt + 1)).
Proof.
  intros Hok Hf Hi Hp Hb Hsz Hrem. pose proof (entry_lookup _ _ _ Hok Hf) as Hfok.
  pose proof (name_length f Hfok) as Hnl. pose proof (ok_name _ Hfok) as Hn. unfold list_step.
  rewrite (proj2 (Z.eqb_neq (Z.of_nat i) 0)) by lia.
  rewrite (arr_get_lookup _ _ _ Hf). cbn [mbind outcome_bind].
  rewrite Hp, Z.eqb_refl, u32_small by lia.
  rewrite (proj2 (Z.ltb_ge _ _)) by (unfold MAX_FILENAME; lia).
  rewrite (strcpy_fits _ _ _ pos Hn) by lia. cbn [mbind outcome_bind].
  rewrite (strlen_str _ _ Hn) by lia. cbn [mbind outcome_bind].
  unfold entry_line. case_decide.
  - rewrite arr_set_in by (rewrite length_splice; rewrite ?length_app; simpl; lia).
    cbn [mbind outcome_bind].
    replace (Z.to_nat (Z.of_nat pos + Z.of_nat (length (name_of f))))
      with (pos + length (name_of f))%nat by lia.
    rewrite splice_replace_last by lia.
    rewrite arr_set_in by (rewrite length_splice; rewrite ?length_app; simpl; lia).
    cbn [mbind outcome_bind]. do 4 f_equal.
    + replace (Z.to_nat (Z.of_nat pos + Z.of_nat (length (name_of f)) + 1))
        with (pos + length (name_of f ++ [chr "/"]))%nat by (rewrite length_app; simpl; lia).
      rewrite splice_snoc by (rewrite length_app; simpl; lia). by rewrite <-app_assoc.
    + rewrite !length_app. simpl. lia.
  - cbn [mbind outcome_bind app].
    rewrite arr_set_in by (rewrite length_splice; rewrite ?length_app; simpl; lia).
    cbn [mbind outcome_bind].
    replace (Z.to_nat (Z.of_nat pos + Z.of_nat (length (name_of f))))
      with (pos + length (name_of f))%nat by lia.
    rewrite splice_replace_last by lia. do 4 f_equal.
    rewrite length_app. simpl. lia.
Qed.

(** The loop over the entries from index [i] on. *)
Lemma list_loop_ok st d size l (i : nat) buf (pos : nat) cnt :
  fs_ok st → (0 < i)%nat → (∀ j f, l !! j = Some f → files st !! (i + j)%nat = Some f) →
  Z.of_nat (length buf) = size → size < 4294967296 → Z.of_nat pos < size →
  let es := fitting (size - Z.of_nat pos) (filter (λ f, parent_index f = Z.of_nat d) l) in
  for_break_up (length l) (Z.of_nat i) (list_step st (Z.of_nat d) size) (buf, Z.of_nat pos, cnt)
  = Ok (splice buf pos (listing es), Z.of_nat (pos + length (listing es)),
        cnt + Z.of_nat (length es)) ∧
  Z.of_nat (pos + length (listing es)) < size.
Proof.
  intros Hok Hi. revert i buf pos cnt Hi.
  induction l as [|f l IH]; intros i buf pos cnt Hi Hl Hb Hsz Hpos es.
  { unfold es, listing. simpl. rewrite splice_nil. split; [do 3 f_equal; lia|lia]. }
  pose proof (Hl 0%nat f eq_refl) as Hf. rewrite Nat.add_0_r in Hf.
  assert (∀ j g, l !! j = Some g → files st !! (S i + j)%nat = Some g) as Hl'.
  { intros j g Hg. rewrite <-(Hl (S j) g Hg). f_equal. lia. }
  pose proof (entry_line_length f (entry_lookup _ _ _ Hok Hf)) as Hll.
  cbn [length for_break_up]. subst es. rewrite filter_cons.
  replace (Z.of_nat i + 1) with (Z.of_nat (S i)) by lia.
  case_decide as Hp.
  - cbn [fitting]. destruct (size - Z.of_nat pos <? MAX_FILENAME + 3) eqn:Hfit; zify_bool;
      unfold MAX_FILENAME in *.
    { assert (list_step st (Z.of_nat d) size (Z.of_nat i) (buf, Z.of_nat pos, cnt)
              = Ok (Break (buf, Z.of_nat pos, cnt))) as ->.
      { unfold list_step. rewrite (proj2 (Z.eqb_neq (Z.of_nat i) 0)) by lia.
        rewrite (arr_get_lookup _ _ _ Hf). cbn [mbind outcome_bind].
        rewrite Hp, Z.eqb_refl, u32_small by lia. by rewrite (proj2 (Z.ltb_lt _ _)). }
      unfold listing. simpl. rewrite splice_nil. split; [do 3 f_equal; lia|lia]. }
    rewrite (list_step_entry st d size i f) by (done || lia). cbn [mbind outcome_bind].
    destruct (IH (S i) (splice buf pos (entry_line f)) (pos + length (entry_line f))%nat (cnt + 1))
      as [-> Hlt]; [lia|done|rewrite length_splice; lia|lia|lia|].
    replace (size - Z.of_nat (pos + length (entry_line f)))
      with (size - Z.of_nat pos - Z.of_nat (length (entry_line f))) in * by lia.
    set (es := fitting _ _) in *. unfold listing in *. cbn [map concat length].
    rewrite length_app, splice_app by lia. split; [|lia].
    f_equal. f_equal; [f_equal; lia|lia].
  - assert (list_step st (Z.of_nat d) size (Z.of_nat i) (buf, Z.of_nat pos, cnt)
            = Ok (Continue (buf, Z.of_nat pos, cnt))) as ->.
    { unfold list_step. rewrite (proj2 (Z.eqb_neq (Z.of_nat i) 0)) by lia.
      rewrite (arr_get_lookup _ _ _ Hf). cbn [mbind outcome_bind].
      by rewrite (proj2 (Z.eqb_neq _ _)). }
    cbn [mbind outcome_bind]. apply IH; done || lia.
Qed.

(** Without space the loop writes nothing. *)
Lemma list_loop_zero st d l (i : nat) buf :
  fs_ok st → (0 < i)%nat → (∀ j f, l !! j = Some f → files st !! (i + j)%nat = Some f) →
  for_break_up (length l) (Z.of_nat i) (list_step st d 0) (buf, 0, 0) = Ok (buf, 0, 0).
Proof.
  intros Hok. revert i. induction l as [|f l IH]; intros i Hi Hl; [done|].
  pose proof (Hl 0%nat f eq_refl) as Hf. rewrite Nat.add_0_r in Hf.
  cbn [length for_break_up].
  assert (list_step st d 0 (Z.of_nat i) (buf, 0, 0)
    = Ok (if parent_index f =? d then Break (buf, 0, 0) else Continue (buf, 0, 0))) as ->.
  { unfold list_step. rewrite (proj2 (Z.eqb_neq (Z.of_nat i) 0)) by lia.
    rewrite (arr_get_lookup _ _ _ Hf). cbn [mbind outcome_bind]. by case_bool. }
  cbn [mbind outcome_bind]. case_bool; [done|].
  replace (Z.of_nat i + 1) with (Z.of_nat (S i)) by lia. apply IH; [lia|].
  intros j g Hg. rewrite <-(Hl (S j) g Hg). f_equal. lia.
Qed.

Lemma fs_list_dir_run path s buf size st :
  fs_ok st → is_str path s → short (components s) →
  Z.of_nat (length buf) = size → 0 ≤ size < 4294967296 →
  fs_list_dir path buf size st =
    match resolve st (components s) with
    | Some d =>
        if is_dir st d then
          if decide (size = 0) then Fault OutOfBounds
          else
            let es := fitting size (children st d) in
            Ok (Z.of_nat (length es), splice buf 0 (listing es ++ [0]))
        else Ok (-1, buf)
    | None => Ok (-1, buf)
    end.
Proof.
  intros Hok Hs Hc Hb Hsz. unfold fs_list_dir.
  rewrite (fs_parse_path_resolve path s) by done. cbn [mbind outcome_bind].
  destruct (resolve st (components s)) as [d|] eqn:Hd; cbn [int_of_index]; [|done].
  destruct (resolve_entry _ _ _ Hok Hd) as (f & Hfl & Hf).
  pose proof (lookup_lt_Some _ _ _ Hf) as Hlt. rewrite (ok_files _ Hok) in Hlt.
  rewrite (proj2 (Z.ltb_ge (Z.of_nat d) 0)), (proj2 (Z.leb_gt MAX_FILES (Z.of_nat d)))
    by (unfold MAX_FILES; lia).
  cbn [orb]. rewrite (arr_get_lookup _ _ _ Hf). unfold is_dir. rewrite Hf.
  cbn [mbind outcome_bind]. rewrite bool_decide_not.
  case_bool_decide; cbn [negb]; [|done].
  pose proof (ok_count _ Hok) as Hcnt. unfold for_break, children.
  pose proof (length_live st Hok) as Hll. rewrite Z.sub_0_r, <-Hll.
  destruct (live st) as [|r l] eqn:Hlive; [simpl in Hll; lia|]. cbn [tail length for_break_up].
  assert (list_step st (Z.of_nat d) size 0 (buf, 0, 0) = Ok (Continue (buf, 0, 0))) as -> by done.
  cbn [mbind outcome_bind].
  assert (∀ j g, l !! j = Some g → files st !! (1 + j)%nat = Some g) as Hll'.
  { intros j g Hg. assert (live st !! (S j) = Some g) as Hj by (by rewrite Hlive).
    by apply live_lookup in Hj as [? _]. }
  case_decide as H0.
  { rewrite H0. change (0 + 1) with (Z.of_nat 1). rewrite list_loop_zero by (done || lia).
    cbn [mbind outcome_bind]. rewrite arr_set_oob by lia. done. }
  destruct (list_loop_ok st d size l 1 buf 0 0) as [Heq Hpos]; try done; try lia.
  change (Z.of_nat 1) with (0 + 1) in Heq. change (Z.of_nat 0) with 0 in Heq.
  rewrite Z.sub_0_r in Heq, Hpos. change (Z.of_nat 0) with 0 in Hpos.
  rewrite ?Z.sub_0_r in Hpos. rewrite Heq. cbn [mbind outcome_bind].
  set (es := fitting _ _) in *. simpl in Hpos.
  rewrite arr_set_in by (rewrite length_splice; lia). cbn [mbind outcome_bind].
  rewrite Nat2Z.id, splice_snoc by lia. done.
Qed.

Lemma fs_list_dir_ok path s buf size st :
  fs_ok st → is_str path s → short (components s) →
  Z.of_nat (length buf) = size → 1 ≤ size < 4294967296 →
  fs_list_dir path buf size st = Ok
    match resolve st (components s) with
    | Some d => if is_dir st d then
        let es := fitting size (children st d) in
        (Z.of_nat (length es), splice buf 0 (listing es ++ [0]))
        else (-1, buf)
    | None => (-1, buf)
    end.
Proof.
  intros Hok Hs Hsh Hb Hsz. rewrite (fs_list_dir_run path s) by (done || lia).
  destruct (resolve st (components s)) as [d|]; [|done]. destruct (is_dir st d); [|done].
  by rewrite decide_False by lia.
Qed.

Lemma fitting_all space es :
  Forall entry_ok es → 257 * Z.of_nat (length es) + 2 ≤ space → fitting space es = es.
Proof.
  intros Hes. revert space. induction Hes as [|f es Hf Hes IH]; intros space Hsp; [done|].
  pose proof (entry_line_length f Hf). cbn [fitting length] in *. unfold MAX_FILENAME.
  rewrite (proj2 (Z.ltb_ge space (256 + 3))) by lia. by rewrite IH by lia.
Qed.

Lemma children_ok st d :
  fs_ok st → Forall entry_ok (children st d) ∧ (length (children st d) ≤ 255)%nat.
Proof.
  intros Hok. pose proof (length_live st Hok) as Hl. pose proof (ok_count _ Hok) as Hc.
  unfold MAX_FILES in *. unfold children. split.
  - apply Forall_forall. intros f [_ Hin]%list_elem_of_In%list_elem_of_filter.
    apply list_elem_of_lookup_1 in Hin as [i Hi]. rewrite lookup_tail in Hi.
    apply live_lookup in Hi as [Hi _]. by apply (entry_lookup st (S i)).
  - etransitivity; [apply length_filter|]. destruct (live st); simpl in *; lia.
Qed.

Lemma entry_line_text f : entry_ok f → text (entry_line f).
Proof.
  intros [[Hn _] _ _ _ _]. unfold entry_line. apply text_app. split; [done|].
  apply text_app. split; [case_decide|]; apply (bool_decide_eq_true_1 _); done.
Qed.

Lemma listing_text es : Forall entry_ok es → text (listing es).
Proof.
  unfold listing. induction 1 as [|f es Hf _ IH]; [apply text_nil|]. simpl. apply text_app.
  split; [by apply entry_line_text|done].
Qed.

Lemma length_listing es :
  Forall entry_ok es → (length (listing es) ≤ 257 * length es)%nat.
Proof.
  unfold listing. induction 1 as [|f es Hf _ IH]; [simpl; lia|].
  pose proof (entry_line_length f Hf). cbn [map concat length]. rewrite length_app. lia.
Qed.
