(* ===== verification/FsDelete.v ===== *)
(** * The file system: deletion

    [fs_delete_file] closes the gap in the table by moving every later entry
    down one slot; after each move it lowers the parents above that slot, over
    the whole table.  An entry whose parent lies behind the gap is therefore
    lowered once per move and not once, and this file proves what comes out:
    the distance of the parent from the gap is halved. *)

From S2P Require Import Prelude.
From S2P Require Import CString.
From S2P Require Import Fs.
From S2P Require Import FsPath.
From S2P Require Import FsOps.
From S2P Require Import FsData.

(** ** Specifications *)

(** The effect of the inner loop at slot [i] on an entry. *)
Definition lower (i : Z) (f : file_t) : file_t :=
  if i <? parent_index f then set_parent (parent_index f - 1) f else f.

(** The parent after the turns [idx], ..., [idx + t - 1]. *)
Fixpoint lowered (idx : Z) (t : nat) (p : Z) : Z :=
  match t with
  | O => p
  | S t' => let q := lowered idx t' p in if idx + Z.of_nat t' <? q then q - 1 else q
  end.

(** The parent the whole loop leaves. *)
Definition halved (idx p : Z) : Z := if p <=? idx then p else idx + (p - idx) / 2.

(** The parent a deletion should leave: entries behind slot [idx] move down by
    one. *)
Definition renumbered (idx p : Z) : Z := if p <=? idx then p else p - 1.

Definition reparent (idx : Z) (f : file_t) : file_t :=
  set_parent (halved idx (parent_index f)) f.

(** The test of [fs_delete_file]: a directory with an entry in it. *)
Definition busy (st : fs) (idx : nat) : Prop :=
  ∃ f i g, files st !! idx = Some f ∧ ftype f = FILE_TYPE_DIR ∧
           live st !! i = Some g ∧ parent_index g = Z.of_nat idx.

(** ** The arithmetic of the repeated lowering *)

Lemma half_bounds d : 2 * (d / 2) ≤ d < 2 * (d / 2) + 2.
Proof. pose proof (Z.div_mod d 2). pose proof (Z.mod_pos_bound d 2). lia. Qed.

Lemma lowered_max idx t p :
  idx < p → lowered idx t p = idx + Z.max (p - idx - Z.of_nat t) ((p - idx) / 2).
Proof.
  intros Hp. pose proof (half_bounds (p - idx)).
  induction t as [|t IH]; cbn [lowered]; [lia|]. rewrite IH. case_bool; lia.
Qed.

Lemma lowered_below idx t p : p ≤ idx → lowered idx t p = p.
Proof. intros Hp. induction t as [|t IH]; cbn [lowered]; [done|]. rewrite IH. case_bool; lia. Qed.

Lemma lowered_halved idx t p :
  p - idx ≤ Z.of_nat t → lowered idx t p = halved idx p.
Proof.
  intros Ht. unfold halved. case_bool; [by apply lowered_below|].
  pose proof (half_bounds (p - idx)). rewrite lowered_max by lia. lia.
Qed.

Lemma halved_range idx p : 0 ≤ idx → 0 ≤ p → 0 ≤ halved idx p ≤ p.
Proof. intros. unfold halved. pose proof (half_bounds (p - idx)). case_bool; lia. Qed.

(** Halving is the right renumbering exactly for parents at most two slots
    behind the gap. *)
Lemma halved_renumbered idx p : halved idx p = renumbered idx p ↔ p ≤ idx + 2.
Proof. unfold halved, renumbered. pose proof (half_bounds (p - idx)). case_bool; lia. Qed.

(** ** The loops *)

Lemma lookup_map_take {A} (h : A → A) (n : nat) (l : list A) k :
  (map h (take n l) ++ drop n l) !! k = (if decide (k < n)%nat then h <$> l !! k else l !! k).
Proof.
  destruct (decide (k < n)%nat) as [Hk|Hk].
  - destruct (decide (k < length l)%nat).
    + rewrite lookup_app_l by (rewrite length_map, length_take; lia).
      rewrite list_lookup_fmap, lookup_take_lt by lia. done.
    + rewrite !lookup_ge_None_2; [done|lia|]. rewrite length_app, length_map, length_take, length_drop. lia.
  - destruct (decide (n ≤ length l)%nat).
    + rewrite lookup_app_r by (rewrite length_map, length_take; lia).
      rewrite length_map, length_take, lookup_drop. f_equal. lia.
    + rewrite !lookup_ge_None_2; [done|lia|]. rewrite length_app, length_map, length_take, length_drop. lia.
Qed.

Lemma lower_loop_ok i (n : nat) l :
  (n ≤ length l)%nat → Forall (λ f, 0 ≤ parent_index f < 4294967296) l → 0 ≤ i →
  for_range 0 (Z.of_nat n) (lower_parent i) l = Ok (map (lower i) (take n l) ++ drop n l).
Proof.
  intros Hn Hall Hi. apply for_range_map; [done|].
  intros k l' f Hk Hf Hf' Hl. unfold lower_parent, lower.
  rewrite (arr_get_lookup _ _ _ Hf'). cbn [mbind outcome_bind].
  pose proof (Forall_lookup_1 _ _ _ _ Hall Hf) as Hp. simpl in Hp. case_bool.
  - rewrite arr_set_in by lia. by rewrite Nat2Z.id, u32_small by lia.
  - by rewrite list_insert_id.
Qed.

Lemma lowered_range (idx : nat) t p : 0 ≤ p → 0 ≤ lowered (Z.of_nat idx) t p ≤ p.
Proof.
  intros Hp. induction t as [|t IH]; cbn [lowered]; [lia|]. case_bool; lia.
Qed.

Lemma set_parent_id f : set_parent (parent_index f) f = f.
Proof. by destruct f. Qed.

Section deletion.
Context (st : fs) (Hok : fs_ok st) (idx : nat).
Let n := Z.to_nat (file_count st).
Context (Hidx : (idx < n)%nat).

(** The entry that slot [k] holds after the turns below [i], and its parent. *)
Definition slot (i k : nat) : option file_t :=
  files st !! (if decide (idx ≤ k < i)%nat then S k else k).

Definition turn (i k : nat) (f : file_t) : file_t :=
  if decide (k < n)%nat
  then set_parent (lowered (Z.of_nat idx) (i - idx) (parent_index f)) f else f.

Definition after (i : nat) (l : list file_t) : Prop :=
  length l = 256%nat ∧ ∀ k, l !! k = turn i k <$> slot i k.

Lemma n_range : (1 ≤ n ≤ 256)%nat ∧ Z.of_nat n = file_count st.
Proof. pose proof (ok_count _ Hok). unfold MAX_FILES in *. subst n. lia. Qed.

Lemma slot_entry i k f : slot i k = Some f → entry_ok f.
Proof. unfold slot. case_decide; apply entry_lookup; done. Qed.

Lemma after_start : after idx (files st).
Proof.
  split; [apply (ok_files _ Hok)|]. intros k. unfold slot, turn.
  rewrite decide_False by lia. rewrite Nat.sub_diag. cbn [lowered].
  destruct (files st !! k); simpl; [|done]. case_decide; [by rewrite set_parent_id|done].
Qed.

Lemma after_parents i l : after i l → Forall (λ f, 0 ≤ parent_index f < 4294967296) l.
Proof.
  intros [_ Hl]. apply Forall_lookup. intros k f. rewrite Hl.
  destruct (slot i k) as [g|] eqn:Hg; simpl; [|done]. intros [= <-].
  pose proof (ok_parent _ (slot_entry _ _ _ Hg)). unfold turn. case_decide; [|done]. simpl.
  pose proof (lowered_range idx (i - idx) (parent_index g)). lia.
Qed.

Lemma delete_step_ok i l :
  after i l → (idx ≤ i)%nat → (S i < n)%nat →
  ∃ l', delete_step (file_count st) (Z.of_nat i) l = Ok l' ∧ after (S i) l'.
Proof.
  intros Hafter Hi Hn. pose proof Hafter as [Hlen Hl]. pose proof n_range as [Hn256 Hnc].
  unfold delete_step. replace (Z.of_nat i + 1) with (Z.of_nat (S i)) by lia.
  destruct (lookup_lt_is_Some_2 l (S i)) as [f Hf]; [lia|].
  rewrite (arr_get_lookup _ _ _ Hf). cbn [mbind outcome_bind].
  rewrite arr_set_in by lia. cbn [mbind outcome_bind]. rewrite Nat2Z.id, <-Hnc.
  rewrite lower_loop_ok; [|rewrite length_insert; lia| |lia].
  2:{ apply Forall_insert; [by apply (after_parents i)|].
      apply (Forall_lookup_1 _ _ _ _ (after_parents i l Hafter) Hf). }
  eexists. split; [done|]. split.
  { rewrite length_app, length_map, length_take, length_drop, length_insert. lia. }
  intros k. rewrite lookup_map_take, list_lookup_insert.
  assert (∀ g, turn (S i) k g = if decide (k < n)%nat then lower (Z.of_nat i) (turn i k g) else turn i k g) as Hturn.
  { intros g. unfold turn. case_decide; [|done]. unfold lower. simpl.
    replace (S i - idx)%nat with (S (i - idx)) by lia. cbn [lowered].
    replace (Z.of_nat idx + Z.of_nat (i - idx)) with (Z.of_nat i) by lia.
    by case_bool. }
  assert ((if decide (i = k ∧ (i < length l)%nat) then Some f else l !! k)
          = turn i k <$> slot (S i) k) as ->.
  { destruct (decide (i = k ∧ (i < length l)%nat)) as [[<- _]|Hik].
    - rewrite <-Hf, Hl. unfold slot.
      rewrite (decide_False (P := (idx ≤ S i < i)%nat)), (decide_True (P := (idx ≤ i < S i)%nat)) by lia.
      destruct (files st !! S i); simpl; [|done]. f_equal. unfold turn.
      by rewrite !decide_True by lia.
    - rewrite Hl. unfold slot. destruct (decide (k = i)); [lia|].
      destruct (decide (idx ≤ k < i)%nat); [by rewrite decide_True by lia|by rewrite decide_False by lia]. }
  destruct (slot (S i) k) as [g|]; simpl; [|by case_decide].
  rewrite Hturn. by case_decide.
Qed.

Lemma delete_loop_ok :
  ∃ l, for_range (Z.of_nat idx) (u32 (file_count st - 1)) (delete_step (file_count st)) (files st)
       = Ok l ∧ after (n - 1) l.
Proof.
  pose proof n_range as [Hn256 Hnc]. rewrite u32_small by lia.
  destruct (for_range_inv (λ i l, after (Z.to_nat i) l) (Z.of_nat idx) (file_count st - 1)
    (delete_step (file_count st)) (files st)) as (l & Hl & Hafter).
  - lia.
  - rewrite Nat2Z.id. apply after_start.
  - intros i l Hi Hafter. destruct (delete_step_ok (Z.to_nat i) l) as (l' & Hl' & Ha); [done|lia|lia|].
    rewrite Z2Nat.id in Hl' by lia. exists l'. split; [done|].
    by replace (Z.to_nat (i + 1)) with (S (Z.to_nat i)) by lia.
  - exists l. split; [done|]. by replace (n - 1)%nat with (Z.to_nat (file_count st - 1)) by lia.
Qed.

End deletion.

(** ** [fs_delete_file] *)

Definition parents_live (st : fs) : Prop :=
  Forall (λ f, parent_index f < file_count st) (live st).

Lemma lookup_delete {A} (l : list A) i k :
  delete i l !! k = l !! (if decide (i ≤ k)%nat then S k else k).
Proof.
  case_decide; [by apply list_lookup_delete_ge|apply list_lookup_delete_lt; lia].
Qed.

Lemma after_ok st idx l :
  fs_ok st → after st idx (Z.to_nat (file_count st) - 1) l → 1 < file_count st →
  fs_ok (Fs l (file_count st - 1)).
Proof.
  intros Hok [Hlen Hl] Hc. pose proof (ok_count _ Hok). unfold MAX_FILES in *.
  split; simpl; [done| |unfold MAX_FILES; lia].
  apply Forall_lookup. intros k f. rewrite Hl.
  destruct (slot st idx _ k) as [g|] eqn:Hg; simpl; [|done]. intros [= <-].
  pose proof (slot_entry st Hok idx _ _ _ Hg) as Hgok. unfold turn. case_decide; [|done].
  destruct Hgok as [Hn Hnl Hd Hs Hp]. split; simpl; try done.
  match goal with |- context [lowered _ ?t _] =>
    pose proof (lowered_range idx t (parent_index g)) end. lia.
Qed.

Lemma after_live st idx l :
  fs_ok st → (idx < Z.to_nat (file_count st))%nat → parents_live st →
  after st idx (Z.to_nat (file_count st) - 1) l →
  live (Fs l (file_count st - 1)) = map (reparent (Z.of_nat idx)) (delete idx (live st)).
Proof.
  intros Hok Hidx Hpar [Hlen Hl]. pose proof (ok_count _ Hok) as Hc. unfold MAX_FILES in *.
  set (n := Z.to_nat (file_count st)) in *.
  apply list_eq. intros k. unfold live at 1. cbn [files file_count].
  replace (Z.to_nat (file_count st - 1)) with (n - 1)%nat by lia.
  rewrite list_lookup_fmap, lookup_delete.
  destruct (decide (k < n - 1)%nat) as [Hk|Hk].
  - rewrite lookup_take_lt, Hl by done. unfold slot.
    assert (live st !! (if decide (idx ≤ k)%nat then S k else k)
            = files st !! (if decide (idx ≤ k < n - 1)%nat then S k else k)) as <-.
    { unfold live. fold n. destruct (decide (idx ≤ k)%nat).
      - rewrite decide_True by lia. apply lookup_take_lt. lia.
      - rewrite decide_False by lia. apply lookup_take_lt. lia. }
    destruct (live st !! _) as [f|] eqn:Hf; simpl; [|done]. f_equal.
    unfold turn. rewrite decide_True by (fold n; lia). unfold reparent. f_equal.
    apply lowered_halved. pose proof (Forall_lookup_1 _ _ _ _ Hpar Hf). simpl in *. lia.
  - rewrite lookup_take_ge by lia.
    rewrite lookup_ge_None_2; [done|]. rewrite length_live by done. fold n. case_decide; lia.
Qed.

Lemma busy_scan st (idx : nat) f :
  fs_ok st → files st !! idx = Some f →
  ∃ r, (if decide (ftype f = FILE_TYPE_DIR)
        then for_find 0 (file_count st) (λ i,
               g ← arr_get (files st) i; Ok (parent_index g =? Z.of_nat idx))
        else Ok None) = Ok r ∧ (r = None ↔ ¬ busy st idx).
Proof.
  intros Hok Hf. pose proof (ok_count _ Hok) as Hc. unfold MAX_FILES in *.
  destruct (decide (ftype f = FILE_TYPE_DIR)) as [Hd|Hd].
  2:{ exists None. split; [done|]. split; [|done]. intros _ (f' & i & g & Hf' & ? & _). congruence. }
  set (q i := match files st !! Z.to_nat i with
              | Some g => parent_index g =? Z.of_nat idx | None => false end).
  destruct (for_find_spec 0 (file_count st)
    (λ i, g ← arr_get (files st) i; Ok (parent_index g =? Z.of_nat idx)) q) as (r & -> & Hr).
  { intros i Hi. destruct (arr_get_in (files st) i) as (g & -> & Hg);
      [rewrite (ok_files _ Hok); lia|]. unfold q. by rewrite Hg. }
  exists r. split; [done|]. destruct r as [i|].
  - split; [done|]. intros Hnb. destruct Hnb. destruct Hr as (Hi & Hq & _). unfold q in Hq.
    destruct (files st !! Z.to_nat i) as [g|] eqn:Hg; [|done]. zify_bool.
    exists f, (Z.to_nat i), g. repeat split; try done. apply live_lookup. split; [done|lia].
  - split; [|done]. intros _ (f' & i & g & _ & _ & Hg & Hp).
    apply live_lookup in Hg as [Hg Hi]. specialize (Hr (Z.of_nat i) ltac:(lia)).
    unfold q in Hr. rewrite Nat2Z.id, Hg in Hr. zify_bool. done.
Qed.

Lemma busy_dec st idx : busy st idx ∨ ¬ busy st idx.
Proof.
  destruct (is_dir st idx) eqn:Hd; unfold is_dir in Hd;
    destruct (files st !! idx) as [f|] eqn:Hf; try done.
  - apply bool_decide_eq_true_1 in Hd.
    destruct (decide (Exists (λ g, parent_index g = Z.of_nat idx) (live st))) as [He|He].
    + apply Exists_exists in He as (g & [i Hi]%list_elem_of_In%list_elem_of_lookup_1 & Hp).
      left. by exists f, i, g.
    + right. intros (f' & i & g & _ & _ & Hg & Hp). apply He, Exists_exists.
      exists g. split; [|done]. by apply list_elem_of_In, (list_elem_of_lookup_2 _ i).
  - apply bool_decide_eq_false_1 in Hd. right. intros (f' & _ & _ & Hf' & Ht & _). congruence.
  - right. intros (f' & _ & _ & Hf' & _). congruence.
Qed.

Lemma fs_delete_file_ok path s st idx :
  fs_ok st → is_str path s → short (components s) →
  resolve st (components s) = Some idx → idx ≠ 0%nat → ¬ busy st idx →
  ∃ l, fs_delete_file path st = Ok (0, Fs l (file_count st - 1)) ∧
       after st idx (Z.to_nat (file_count st) - 1) l.
Proof.
  intros Hok Hs Hc Hr Hne Hb. pose proof (ok_count _ Hok) as Hcnt. unfold MAX_FILES in *.
  destruct (resolve_entry _ _ _ Hok Hr) as (f & Hfl & Hf).
  apply live_lookup in Hfl as [_ Hlt]. unfold fs_delete_file.
  rewrite (fs_parse_path_resolve path s), Hr by done. cbn [mbind outcome_bind int_of_index].
  rewrite (proj2 (Z.leb_gt (Z.of_nat idx) 0)) by lia.
  rewrite (arr_get_lookup _ _ _ Hf). cbn [mbind outcome_bind].
  destruct (busy_scan st idx f Hok Hf) as (r & -> & Hiff). cbn [mbind outcome_bind].
  rewrite (proj2 Hiff Hb).
  destruct (delete_loop_ok st Hok idx Hlt) as (l & -> & Hafter). cbn [mbind outcome_bind].
  exists l. by rewrite u32_small by lia.
Qed.

(** The refusals: no such path, the root, a directory that is not empty. *)
Lemma fs_delete_file_refuses path s st :
  fs_ok st → is_str path s → short (components s) →
  match resolve st (components s) with
  | None => True
  | Some idx => idx = 0%nat ∨ busy st idx
  end →
  fs_delete_file path st = Ok (-1, st).
Proof.
  intros Hok Hs Hc Hr. unfold fs_delete_file.
  rewrite (fs_parse_path_resolve path s) by done. cbn [mbind outcome_bind].
  destruct (resolve st (components s)) as [idx|] eqn:E; [|done]. cbn [int_of_index].
  destruct Hr as [->|Hb]; [done|]. case_bool; [done|].
  destruct (resolve_entry _ _ _ Hok E) as (f & _ & Hf).
  rewrite (arr_get_lookup _ _ _ Hf). cbn [mbind outcome_bind].
  destruct (busy_scan st idx f Hok Hf) as (r & -> & Hiff). cbn [mbind outcome_bind].
  destruct r; [done|]. exfalso. by apply Hiff.
Qed.

Lemma tree_parents_live st : fs_tree st → parents_live st.
Proof.
  intros [Hok (r & Hr & _ & Hrp & _) Hpar _ _]. apply Forall_lookup. intros i f Hf.
  pose proof (ok_count _ Hok) as Hc. unfold MAX_FILES in *.
  apply live_lookup in Hf as Hf'. destruct Hf' as [Hff Hi].
  destruct (decide (i = 0%nat)) as [->|Hne].
  - rewrite Hr in Hff. injection Hff as <-. lia.
  - destruct (Hpar i f Hf ltac:(lia)) as (p & g & -> & Hp & _). lia.
Qed.
