(* ===== verification/FsSpec.v ===== *)
(** * The file system against its specification

    The abstract file system is a finite map from paths (lists of names) to
    nodes.  This file proves that the operations of [src/fs.c] on the table
    implement the operations on the map, for every state that satisfies the
    tree invariant; deletion does so when no parent lies more than two slots
    behind the deleted entry. *)

From stdpp Require Import gmap.
From S2P Require Import Prelude.
From S2P Require Import CString.
From S2P Require Import Fs.
From S2P Require Import FsPath.
From S2P Require Import FsOps.
From S2P Require Import FsData.
From S2P Require Import FsDelete.

(** ** The specification *)

Inductive node :=
| NDir
| NFile (data : list Z)
| NNone.

#[global] Instance node_eq_dec : EqDecision node.
Proof. solve_decision. Defined.

Abbreviation afs := (gmap (list (list Z)) node).

Definition new_node (t : file_type) : node :=
  match t with
  | FILE_TYPE_DIR => NDir
  | FILE_TYPE_FILE => NFile []
  | FILE_TYPE_NONE => NNone
  end.

(** Adding a node: its directory exists and the name is free. *)
Definition a_create (t : file_type) (dir : list (list Z)) (b : list Z) (m : afs) : option afs :=
  match m !! dir, m !! (dir ++ [b]) with
  | Some NDir, None => Some (<[dir ++ [b] := new_node t]> m)
  | _, _ => None
  end.

(** Writing a file: its contents become the first bytes of [data], the rest of
    a longer old file is cut off. *)
Definition a_write (ws : list (list Z)) (data : list Z) (m : afs) : option afs :=
  match m !! ws with
  | Some (NFile _) => Some (<[ws := NFile data]> m)
  | _ => None
  end.

(** A path with an entry below it. *)
Definition a_has_entry (ws : list (list Z)) (m : afs) : bool :=
  existsb (λ kv, bool_decide (removelast kv.1 = ws ∧ kv.1 ≠ [])) (map_to_list m).

(** Deletion: any node but the root and directories with entries. *)
Definition a_delete (ws : list (list Z)) (m : afs) : option afs :=
  match m !! ws with
  | None => None
  | Some n =>
      if bool_decide (ws = []) || (bool_decide (n = NDir) && a_has_entry ws m) then None
      else Some (delete ws m)
  end.

Lemma a_has_entry_iff ws m : a_has_entry ws m = true ↔ ∃ w n, m !! (ws ++ [w]) = Some n.
Proof.
  unfold a_has_entry. rewrite existsb_exists. split.
  - intros ([vs n] & Hin & [Hr Hne]%bool_decide_eq_true_1). simpl in *.
    apply list_elem_of_In, elem_of_map_to_list in Hin.
    destruct (exists_last Hne) as (us & w & ->). rewrite removelast_last in Hr. subst. eauto.
  - intros (w & n & Hn). exists (ws ++ [w], n). split; [by apply list_elem_of_In, elem_of_map_to_list|].
    apply bool_decide_eq_true_2. simpl. rewrite removelast_last. split; [done|by destruct ws].
Qed.

(** ** The abstraction *)

Definition node_of (f : file_t) : node :=
  match ftype f with
  | FILE_TYPE_DIR => NDir
  | FILE_TYPE_FILE => NFile (contents f)
  | FILE_TYPE_NONE => NNone
  end.

Definition good (ws : list (list Z)) : Prop := Forall (λ w, w ≠ []) ws.

Definition view (st : fs) (ws : list (list Z)) : option node :=
  i ← resolve st ws; f ← live st !! i; Some (node_of f).

(** The map describes the table: the node at every path without empty names is
    the entry the path resolves to. *)
Definition fs_abs (st : fs) (m : afs) : Prop :=
  ∀ ws, m !! ws = if decide (good ws) then view st ws else None.

(** ** Lookups in a tree *)

Lemma lookup_child_iff st p w i :
  fs_tree st → lookup_child st p w = Some i ↔ ∃ f, live st !! i = Some f ∧ is_child p w f.
Proof.
  intros Ht. split.
  - intros (f & ? & ? & _)%lookup_child_Some. eauto.
  - intros (f & Hf & Hc). destruct (lookup_child st p w) as [j|] eqn:E.
    + apply lookup_child_Some in E as (g & Hg & Hgc & _). f_equal.
      destruct Hc, Hgc. by apply (tree_unique _ Ht j i g f); congruence.
    + by destruct (lookup_child_None _ _ _ _ _ E Hf).
Qed.

Lemma lookup_child_root st p w : fs_tree st → w ≠ [] → lookup_child st p w ≠ Some 0%nat.
Proof.
  intros Ht Hw H. apply lookup_child_iff in H as (f & Hf & _ & Hn); [|done].
  destruct (tree_root _ Ht) as (r & Hr & _ & _ & Hrn). apply live_lookup in Hf as [Hf _]. congruence.
Qed.

Lemma good_snoc ws w : good (ws ++ [w]) ↔ good ws ∧ w ≠ [].
Proof. unfold good. rewrite Forall_app, Forall_singleton. done. Qed.

Lemma good_components s : good (components s).
Proof.
  unfold good, components. apply Forall_lookup.
  by intros i w [Hw _]%list_elem_of_lookup_2%list_elem_of_filter.
Qed.

Lemma resolve_snoc st ws w :
  resolve st (ws ++ [w]) = p ← resolve st ws; lookup_child st p w.
Proof.
  unfold resolve. rewrite resolve_from_app. destruct (resolve_from st 0 ws); simpl; [|done].
  by destruct (lookup_child st n w).
Qed.

Lemma resolve_inj st ws vs i :
  fs_tree st → good ws → good vs →
  resolve st ws = Some i → resolve st vs = Some i → ws = vs.
Proof.
  intros Ht. revert vs i. induction ws as [|w ws IH] using rev_ind;
    intros vs i Hws Hvs Hi Hj; destruct vs as [|v vs _] using rev_ind; [done|..].
  - injection Hi as <-. rewrite resolve_snoc in Hj. apply good_snoc in Hvs as [_ Hv].
    destruct (resolve st vs); simpl in Hj; [|done]. by apply lookup_child_root in Hj.
  - injection Hj as <-. rewrite resolve_snoc in Hi. apply good_snoc in Hws as [_ Hw].
    destruct (resolve st ws); simpl in Hi; [|done]. by apply lookup_child_root in Hi.
  - rewrite resolve_snoc in Hi, Hj. apply good_snoc in Hws as [Hws _], Hvs as [Hvs _].
    destruct (resolve st ws) as [p|] eqn:Ep; simpl in Hi; [|done].
    destruct (resolve st vs) as [q|] eqn:Eq; simpl in Hj; [|done].
    apply lookup_child_iff in Hi as (f & Hf & Hfp & Hfn); [|done].
    apply lookup_child_iff in Hj as (g & Hg & Hgp & Hgn); [|done].
    assert (f = g) as <- by congruence. assert (p = q) as <- by lia.
    by rewrite (IH vs p) by done; congruence.
Qed.

Lemma resolve_live st ws i : fs_tree st → resolve st ws = Some i → ∃ f, live st !! i = Some f.
Proof. intros Ht Hi. destruct (resolve_entry st ws i (tree_ok _ Ht) Hi) as (f & ? & _). eauto. Qed.

Lemma view_Some st ws n :
  view st ws = Some n ↔ ∃ i f, resolve st ws = Some i ∧ live st !! i = Some f ∧ n = node_of f.
Proof.
  unfold view. split.
  - destruct (resolve st ws) as [i|]; simpl; [|done].
    destruct (live st !! i) as [f|] eqn:Hf; simpl; [|done]. intros [= <-]. eauto.
  - intros (i & f & -> & Hf & ->). simpl. by rewrite Hf.
Qed.

Lemma view_None st ws : fs_tree st → view st ws = None ↔ resolve st ws = None.
Proof.
  intros Ht. unfold view. destruct (resolve st ws) as [i|] eqn:Hi; simpl; [|done].
  destruct (resolve_live st ws i Ht Hi) as [f ->]. done.
Qed.

(** ** Creation *)

Section creation.
Context (st : fs) (Ht : fs_tree st) (pw : list (list Z)) (p : nat).
Context (Hpw : good pw) (Hp : resolve st pw = Some p).
Context (b : list Z) (t : file_type) (Hb : text b) (Hne : b ≠ []) (Hl : (length b < 256)%nat).
Context (Hcan : can_create st p b = true).

Let n := Z.to_nat (file_count st).
Let st' := add_entry st b t p.

Lemma created_parent : (p < n)%nat ∧ (p < 256)%nat ∧ file_count st < MAX_FILES ∧
  lookup_child st p b = None ∧ is_dir st p = true.
Proof.
  unfold can_create in Hcan. apply andb_true_iff in Hcan as [Hc1 Hc2].
  apply andb_true_iff in Hc1 as [Hc1 Hd]. apply bool_decide_eq_true_1 in Hc2. zify_bool.
  pose proof (ok_count _ (tree_ok _ Ht)). unfold MAX_FILES in *.
  apply resolve_lt in Hp; [|apply tree_ok, Ht|lia]. fold n in Hp. repeat split; try done. lia.
Qed.

Lemma created_tree : fs_tree st'.
Proof. apply add_entry_tree; try done. apply created_parent. Qed.

Lemma created_lookup q w :
  lookup_child st' q w =
    match lookup_child st q w with
    | Some i => Some i
    | None => if decide (q = p ∧ w = b) then Some n else None
    end.
Proof. destruct created_parent as (_ & ? & ? & _). apply lookup_child_add; try done. apply tree_ok, Ht. Qed.

Lemma created_no_child w : lookup_child st n w = None.
Proof.
  destruct (lookup_child st n w) as [i|] eqn:E; [|done].
  apply lookup_child_iff in E as (f & Hf & Hfp & _); [|done].
  pose proof (tree_parents_live st Ht) as Hpl.
  pose proof (Forall_lookup_1 _ _ _ _ Hpl Hf) as Hlt. simpl in Hlt.
  pose proof (ok_count _ (tree_ok _ Ht)). subst n. lia.
Qed.

Lemma created_resolve ws :
  good ws → resolve st' ws = if decide (ws = pw ++ [b]) then Some n else resolve st ws.
Proof.
  destruct created_parent as (Hpn & _ & _ & Hnone & _).
  induction ws as [|w ws IH] using rev_ind; intros Hg.
  { rewrite decide_False; [done|]. by destruct pw. }
  apply good_snoc in Hg as [Hg Hw]. rewrite !resolve_snoc, (IH Hg).
  destruct (decide (ws = pw ++ [b])) as [->|Hws].
  - rewrite decide_False by (intros [E _]%app_inj_tail; apply (f_equal length) in E;
      rewrite length_app in E; simpl in E; lia).
    rewrite resolve_snoc, Hp. simpl. rewrite created_lookup, created_no_child, Hnone. simpl.
    rewrite decide_False by lia. done.
  - destruct (resolve st ws) as [q|] eqn:Eq; simpl.
    2:{ rewrite decide_False; [done|]. intros [-> _]%app_inj_tail. congruence. }
    rewrite created_lookup. destruct (lookup_child st q w) as [i|] eqn:Ei.
    + rewrite decide_False; [done|]. intros [-> ->]%app_inj_tail. congruence.
    + destruct (decide (q = p ∧ w = b)) as [[-> ->]|Hn].
      * rewrite decide_True; [done|]. f_equal. by apply (resolve_inj st ws pw p).
      * rewrite decide_False; [done|]. intros [-> ->]%app_inj_tail. apply Hn. split; congruence.
Qed.

Lemma created_view ws :
  good ws → view st' ws = if decide (ws = pw ++ [b]) then Some (new_node t) else view st ws.
Proof.
  intros Hg. destruct created_parent as (_ & Hp256 & Hroom & _).
  destruct (live_add_entry st (tree_ok _ Ht) b t p Hb Hl Hroom Hp256)
    as (g & Hlive & _ & _ & Hgt & _ & Hgs).
  pose proof (length_live st (tree_ok _ Ht)) as Hll. fold n in Hll.
  unfold view. rewrite created_resolve by done. fold st' in Hlive. rewrite Hlive.
  destruct (decide (ws = pw ++ [b])) as [->|Hws].
  - cbn [mbind option_bind]. rewrite <-Hll, list_lookup_middle by done.
    simpl. f_equal. unfold node_of, new_node, contents. by rewrite Hgt, Hgs.
  - destruct (resolve st ws) as [i|] eqn:Ei; [|done]. cbn [mbind option_bind].
    destruct (resolve_live st ws i Ht Ei) as [f Hf].
    by rewrite (lookup_app_l_Some _ _ _ _ Hf), Hf.
Qed.

End creation.

(** What a creation at [dir ++ [b]] promises: with room in the table it is the
    abstract creation; otherwise -1, and nothing changes. *)
Definition creation (t : file_type) (dir : list (list Z)) (b : list Z) (st : fs) (m : afs)
  (o : outcome (Z * fs)) : Prop :=
  ∃ r st', o = Ok (r, st') ∧ fs_tree st' ∧
    match (if decide (b ≠ [] ∧ file_count st < MAX_FILES) then a_create t dir b m else None) with
    | Some m' => r = file_count st ∧ file_count st' = file_count st + 1 ∧ fs_abs st' m'
    | None => r = -1 ∧ st' = st
    end.

Lemma abs_good st m ws : fs_abs st m → good ws → m !! ws = view st ws.
Proof. intros Ha Hg. by rewrite Ha, decide_True. Qed.

Lemma view_dir st ws p :
  fs_tree st → resolve st ws = Some p → view st ws = Some NDir ↔ is_dir st p = true.
Proof.
  intros Ht Hp. destruct (resolve_entry st ws p (tree_ok _ Ht) Hp) as (f & Hf & Hff).
  unfold view, is_dir. rewrite Hp. simpl. rewrite Hf, Hff. simpl. unfold node_of.
  rewrite bool_decide_eq_true. by destruct (ftype f).
Qed.

(** The three tests of the code are the two of the specification and the room
    in the table. *)
Lemma can_create_abs t st m ws p b :
  fs_tree st → fs_abs st m → good ws → b ≠ [] → resolve st ws = Some p →
  (if decide (b ≠ [] ∧ file_count st < MAX_FILES) then a_create t ws b m else None)
  = if can_create st p b then Some (<[ws ++ [b] := new_node t]> m) else None.
Proof.
  intros Ht Ha Hg Hb Hp. unfold can_create, a_create.
  rewrite !(abs_good st m) by (done || by apply good_snoc).
  pose proof (view_dir st ws p Ht Hp) as Hdir.
  pose proof (view_None st (ws ++ [b]) Ht) as Hnone.
  rewrite resolve_snoc, Hp in Hnone. simpl in Hnone.
  destruct (Z.ltb_spec (file_count st) MAX_FILES); [rewrite decide_True by done|by rewrite decide_False by lia].
  destruct (is_dir st p); cbn [andb].
  - rewrite (proj2 Hdir eq_refl). case_bool_decide as Hl.
    + by rewrite (proj2 Hnone Hl).
    + by destruct (view st (ws ++ [b])); [|destruct Hl; apply Hnone].
  - destruct (view st ws) as [[]|]; try done. by specialize (proj1 Hdir eq_refl).
Qed.

Lemma add_entry_count st b t p :
  fs_ok st → (length b < 256)%nat → file_count st < MAX_FILES →
  file_count (add_entry st b t p) = file_count st + 1.
Proof. intros Hok Hl Hr. by destruct (add_entry_eq st Hok b t p Hl Hr) as (f & _ & _ & ->). Qed.

Lemma create_at_refines t path a b st m :
  fs_tree st → fs_abs st m → is_str path (a ++ chr "/" :: b) → chr "/" ∉ b →
  (length a < 512)%nat → (length b < 256)%nat → short (components a) →
  creation t (components a) b st m (create_at t path st).
Proof.
  intros Ht Ha Hs Hb Hal Hbl Hsh. pose proof (good_components a) as Hg.
  unfold creation. rewrite (create_at_ok t path a b) by (done || apply Ht).
  destruct (decide (b = [])) as [->|Hne].
  { exists (-1), st. rewrite decide_False by tauto. done. }
  destruct (resolve st (components a)) as [p|] eqn:Hp.
  2:{ exists (-1), st. unfold a_create. rewrite (abs_good st m) by done.
      rewrite (proj2 (view_None st (components a) Ht) Hp). by case_decide. }
  rewrite (can_create_abs t st m _ p b) by done.
  destruct (can_create st p b) eqn:Hcan; [|by exists (-1), st].
  assert (text b) as Hbt by (destruct Hs as [[_ [_ ?]%text_cons]%text_app _]; done).
  assert (file_count st < MAX_FILES) as Hroom
    by (unfold can_create in Hcan; zify_bool; lia).
  exists (file_count st), (add_entry st b t p). split; [done|].
  split; [by apply (created_tree st Ht (components a) p Hp)|].
  split; [done|]. split; [apply add_entry_count; [apply Ht|done..]|]. intros ws.
  rewrite lookup_insert. destruct (decide (good ws)) as [Hw|Hw].
  - rewrite (created_view st Ht (components a) p Hg Hp b t) by done.
    rewrite Ha, (decide_True (P := good ws)) by done.
    destruct (decide (components a ++ [b] = ws)) as [<-|Hn];
      [by rewrite decide_True|by rewrite decide_False by congruence].
  - rewrite decide_False; [by rewrite Ha, decide_False|].
    intros <-. apply Hw, good_snoc. done.
Qed.

(** C7: [fs_mkdir] and [fs_create] on a path [a/b] implement the abstract
    creation of a directory or an empty file at the components of [a] followed
    by [b]: when the table has room, the parent is a directory and the name is
    free, they return the index of the new entry and the tree gains exactly that
    node; otherwise they return -1 and change nothing.  The tree invariant is
    kept in both cases. *)
Theorem fs_mkdir_create_refine path a b st m :
  fs_tree st → fs_abs st m → is_str path (a ++ chr "/" :: b) → chr "/" ∉ b →
  (length a < 512)%nat → (length b < 256)%nat → short (components a) →
  creation FILE_TYPE_DIR (components a) b st m (fs_mkdir path st) ∧
  creation FILE_TYPE_FILE (components a) b st m (fs_create path st).
Proof. intros. split; by apply create_at_refines. Qed.

(** ** Writing *)

Section writing.
Context (st : fs) (Ht : fs_tree st) (ws : list (list Z)) (Hws : good ws) (i : nat) (f : file_t).
Context (Hfile : file_at st ws = Some (i, f)).
Context (d : list Z) (n : Z) (Hd : length d = 4096%nat) (Hn : 0 ≤ n ≤ MAX_FILE_SIZE).

Let f' := File (fname f) (ftype f) n (parent_index f) d.
Let st' := store st i f d n.

Lemma stored_files : files st !! i = Some f ∧ ftype f = FILE_TYPE_FILE ∧ resolve st ws = Some i ∧
  live st !! i = Some f.
Proof.
  apply file_at_Some in Hfile as (Hi & Hf & Hft).
  destruct (resolve_entry st ws i (tree_ok _ Ht) Hi) as (g & ? & ?). repeat split; congruence.
Qed.

Lemma stored_live : live st' = <[i := f']> (live st).
Proof.
  destruct stored_files as (Hf & _ & _ & Hl). apply live_lookup in Hl as [_ Hl].
  unfold live, st', store. simpl. by rewrite take_insert_lt.
Qed.

Lemma stored_live_lookup k g :
  live st' !! k = Some g →
  ∃ h, live st !! k = Some h ∧ parent_index g = parent_index h ∧ name_of g = name_of h ∧
       ftype g = ftype h ∧ (k ≠ i → g = h).
Proof.
  destruct stored_files as (_ & _ & _ & Hl). rewrite stored_live.
  intros [(<- & <- & _)|[Hne ?]]%list_lookup_insert_Some; [exists f|exists g]; split_and!; done.
Qed.

Lemma stored_live_lookup_2 k h :
  live st !! k = Some h → ∃ g, live st' !! k = Some g ∧ ftype g = ftype h.
Proof.
  intros Hk. destruct stored_files as (_ & _ & _ & Hl). rewrite stored_live.
  destruct (decide (k = i)) as [->|].
  - exists f'. rewrite list_lookup_insert_eq by (by eapply lookup_lt_Some). split; [done|].
    simpl. congruence.
  - exists h. by rewrite list_lookup_insert_ne.
Qed.

Lemma stored_tree : fs_tree st'.
Proof.
  destruct stored_files as (Hf & Hft & _ & Hl). pose proof Ht as [Hok (r & Hr & Hrt & Hrp & Hrn) Hpar Hnm Hu].
  split.
  - by apply store_ok.
  - exists r. repeat split; try done. unfold st', store. simpl.
    rewrite list_lookup_insert_ne; [done|]. intros ->. congruence.
  - intros k g (h & Hh & -> & _)%stored_live_lookup Hk.
    destruct (Hpar k h Hh Hk) as (p & e & -> & Hlt & He & Het).
    destruct (stored_live_lookup_2 p e He) as (e' & He' & Het'). exists p, e'. repeat split; congruence.
  - intros k g (h & Hh & _ & -> & _)%stored_live_lookup. by apply Hnm.
  - intros k j g h (g' & Hg & -> & -> & _)%stored_live_lookup (h' & Hh & -> & -> & _)%stored_live_lookup.
    by apply Hu.
Qed.

Lemma stored_view vs :
  good vs → view st' vs = if decide (vs = ws) then Some (NFile (take (Z.to_nat n) d)) else view st vs.
Proof.
  intros Hg. destruct stored_files as (Hf & Hft & Hi & Hl). unfold view.
  assert (resolve st' vs = resolve st vs) as ->.
  { apply resolve_from_key. by apply store_keys. }
  rewrite stored_live. destruct (decide (vs = ws)) as [->|Hne].
  - rewrite Hi. simpl. rewrite list_lookup_insert_eq by (by eapply lookup_lt_Some). simpl.
    unfold node_of, contents. simpl. by rewrite Hft.
  - destruct (resolve st vs) as [j|] eqn:Hj; [|done]. simpl. rewrite list_lookup_insert_ne; [done|].
    intros ->. apply Hne. by apply (resolve_inj st vs ws j).
Qed.

End writing.

Lemma take_splice_take (n : nat) (l d : list Z) :
  (n ≤ length d)%nat → take n (splice l 0 (take n d)) = take n d.
Proof.
  intros Hn. unfold splice. simpl. rewrite take_app_le by (rewrite length_take; lia).
  by rewrite take_take, Nat.min_id.
Qed.

Lemma file_at_view st ws :
  fs_tree st →
  match file_at st ws with
  | Some (i, f) => view st ws = Some (NFile (contents f))
  | None => ∀ d, view st ws ≠ Some (NFile d)
  end.
Proof.
  intros Ht. unfold file_at, view. destruct (resolve st ws) as [i|] eqn:Hi; [|done]. simpl.
  destruct (resolve_entry st ws i (tree_ok _ Ht) Hi) as (f & -> & ->). simpl. unfold node_of.
  case_decide as Hd; [by rewrite Hd|]. by destruct (ftype f).
Qed.

Lemma fs_write_ref path s data size st m :
  fs_tree st → fs_abs st m → is_str path s → short (components s) → 0 ≤ size →
  Z.min size MAX_FILE_SIZE ≤ Z.of_nat (length data) →
  let n := Z.min size MAX_FILE_SIZE in
  ∃ r st', fs_write path data size st = Ok (r, st') ∧ fs_tree st' ∧
    match a_write (components s) (take (Z.to_nat n) data) m with
    | Some m' => r = n ∧ file_count st' = file_count st ∧ fs_abs st' m'
    | None => r = -1 ∧ st' = st
    end.
Proof.
  intros Ht Ha Hs Hsh Hsz Hd n. pose proof (good_components s) as Hg.
  rewrite (fs_write_ok path s) by (done || apply Ht). unfold a_write.
  rewrite (abs_good st m) by done. pose proof (file_at_view st (components s) Ht) as Hv.
  destruct (file_at st (components s)) as [[i f]|] eqn:Hf.
  2:{ exists (-1), st. split; [done|]. split; [done|].
      by destruct (view st (components s)) as [[]|]; try done; destruct (Hv data0). }
  rewrite Hv. eexists _, _. split; [done|]. fold n.
  pose proof Hf as Hf'. apply file_at_Some in Hf' as (_ & Hfi & _).
  pose proof (entry_lookup _ _ _ (tree_ok _ Ht) Hfi) as [_ _ Hdl _ _].
  assert (0 ≤ n ≤ MAX_FILE_SIZE ∧ n ≤ Z.of_nat (length data)) as [Hn Hnd] by (unfold n, MAX_FILE_SIZE in *; lia).
  set (d := splice _ _ _).
  assert (length d = 4096%nat) as Hdlen.
  { unfold d. rewrite length_splice; [done|]. rewrite length_take. unfold MAX_FILE_SIZE in *. lia. }
  split; [by apply (stored_tree st Ht (components s))|]. do 2 (split; [done|]). intros ws.
  rewrite lookup_insert. destruct (decide (good ws)) as [Hw|Hw].
  - rewrite (stored_view st Ht (components s) Hg i f Hf) by done. unfold d.
    rewrite take_splice_take by lia. rewrite Ha, (decide_True (P := good ws)) by done.
    destruct (decide (components s = ws)) as [<-|];
      [by rewrite decide_True|by rewrite decide_False by congruence].
  - rewrite decide_False by congruence. by rewrite Ha, decide_False.
Qed.


(** C8: [fs_write] implements the abstract write: on a regular file it stores
    the first [min size 4096] bytes of the data as the whole contents of that
    file, touches no other node and returns the number of bytes; on anything
    else it returns -1 and changes nothing. *)
Theorem fs_write_refines path s data size st m :
  fs_tree st → fs_abs st m → is_str path s → short (components s) → 0 ≤ size →
  Z.min size MAX_FILE_SIZE ≤ Z.of_nat (length data) →
  let n := Z.min size MAX_FILE_SIZE in
  ∃ r st', fs_write path data size st = Ok (r, st') ∧ fs_tree st' ∧
    match a_write (components s) (take (Z.to_nat n) data) m with
    | Some m' => r = n ∧ fs_abs st' m'
    | None => r = -1 ∧ st' = st
    end.
Proof.
  intros Ht Ha Hs Hsh Hsz Hd n.
  destruct (fs_write_ref path s data size st m) as (r & st' & Hw & Ht' & Hm); try done.
  exists r, st'. split; [done|]. split; [done|]. fold n in Hm. by case_match; [destruct Hm as (? & _ & ?)|].
Qed.

(** C9: What [fs_write] stores, [fs_read] gives back: after a write of at most
    4096 bytes to a file, a read through any spelling of the same path into a
    buffer of [k] bytes returns [min k size] and fills the front of the buffer
    with the first bytes written, leaving the rest of the buffer alone. *)
Theorem fs_write_read_roundtrip path path' s s' data size buffer st i f :
  fs_tree st → is_str path s → is_str path' s' → components s' = components s →
  short (components s) → file_at st (components s) = Some (i, f) →
  0 ≤ size ≤ MAX_FILE_SIZE → size = Z.of_nat (length data) →
  Z.of_nat (length buffer) < 4294967296 →
  ∃ st', fs_write path data size st = Ok (size, st') ∧
    let n := Nat.min (length buffer) (length data) in
    fs_read path' buffer (Z.of_nat (length buffer)) st'
    = Ok (Z.of_nat n, take n data ++ drop n buffer).
Proof.
  intros Ht Hs Hs' Hcc Hsh Hf Hsz Hd Hb.
  rewrite (fs_write_ok path s) by (done || apply Ht || (unfold MAX_FILE_SIZE in *; lia)).
  rewrite Hf. cbv zeta. rewrite Z.min_l by lia. eexists. split; [done|]. cbv zeta.
  pose proof Hf as Hf'. apply file_at_Some in Hf' as (Hi & Hfi & Hft).
  pose proof (entry_lookup _ _ _ (tree_ok _ Ht) Hfi) as [_ _ Hdl _ _].
  set (d := splice _ _ _). assert (length d = 4096%nat) as Hdlen.
  { unfold d. rewrite length_splice; [done|]. rewrite length_take. unfold MAX_FILE_SIZE in *. lia. }
  pose proof (stored_tree st Ht (components s) i f Hf d size Hdlen Hsz) as Ht'.
  rewrite (fs_read_ok path' s') by (congruence || apply Ht' || lia). rewrite Hcc.
  assert (file_at (store st i f d size) (components s)
    = Some (i, File (fname f) (ftype f) size (parent_index f) d)) as ->.
  { apply file_at_Some. split; [|split; [|done]].
    - rewrite <-Hi. apply resolve_from_key. by apply store_keys.
    - apply list_lookup_insert_eq. by eapply lookup_lt_Some. }
  cbv zeta. cbn [fsize fdata]. rewrite Hd. f_equal. f_equal; [lia|].
  replace (Z.to_nat (Z.min (Z.of_nat (length buffer)) (Z.of_nat (length data))))
    with (Nat.min (length buffer) (length data)) by lia.
  set (n := Nat.min _ _). replace (take n d) with (take n data).
  - unfold splice. simpl. f_equal. f_equal. rewrite length_take. lia.
  - unfold d, splice. simpl. rewrite Hd, Nat2Z.id, (take_ge data (length data)) by done.
    by rewrite take_app_le by lia.
Qed.
