(* ===== verification/FsRemove.v ===== *)
(** * The file system: deletion against the specification

    [fs_delete_file] of [src/fs.c] removes exactly one node of the tree when no
    parent lies more than two slots behind the deleted entry.  Without that
    condition the halving of [FsDelete] moves entries to other directories. *)

From stdpp Require Import gmap.
From S2P Require Import Prelude.
From S2P Require Import CString.
From S2P Require Import Fs.
From S2P Require Import FsPath.
From S2P Require Import FsOps.
From S2P Require Import FsData.
From S2P Require Import FsDelete.
From S2P Require Import FsSpec.

(** Every parent is at most two slots behind [idx]. *)
Definition near (st : fs) (idx : nat) : Prop :=
  Forall (λ f, parent_index f ≤ Z.of_nat idx + 2) (live st).

(** The new index of an entry, and the old one of a slot. *)
Definition down (idx i : nat) : nat := if decide (i ≤ idx)%nat then i else (i - 1)%nat.
Definition up (idx k : nat) : nat := if decide (idx ≤ k)%nat then S k else k.

Section removal.
Context (st : fs) (Ht : fs_tree st) (idx : nat).
Context (Hidx : (idx < Z.to_nat (file_count st))%nat) (Hne : idx ≠ 0%nat).
Context (Hb : ¬ busy st idx) (Hnear : near st idx).
Context (l : list file_t) (Hafter : after st idx (Z.to_nat (file_count st) - 1) l).

Let st' := Fs l (file_count st - 1).
Let re (f : file_t) : file_t := set_parent (renumbered (Z.of_nat idx) (parent_index f)) f.

Lemma up_down i : i ≠ idx → up idx (down idx i) = i.
Proof. unfold up, down. intros. repeat case_decide; lia. Qed.

Lemma down_lt p k : p ≠ idx → (p < up idx k)%nat → (down idx p < k)%nat.
Proof.
  unfold up, down. intros Hp. destruct (decide (idx ≤ k)%nat), (decide (p ≤ idx)%nat); lia.
Qed.

Lemma up_inj i j : up idx i = up idx j → i = j.
Proof. unfold up. repeat case_decide; lia. Qed.

Lemma up_ne k : up idx k ≠ idx.
Proof. unfold up. case_decide; lia. Qed.

Lemma removed_live k : live st' !! k = re <$> live st !! up idx k.
Proof.
  subst st'. rewrite (after_live st idx l) by (done || apply Ht || by apply tree_parents_live).
  rewrite list_lookup_fmap, lookup_delete. unfold up.
  destruct (live st !! _) as [f|] eqn:Hf; simpl; [|done]. f_equal. unfold reparent, re. f_equal.
  apply halved_renumbered. apply (Forall_lookup_1 _ _ _ _ Hnear Hf).
Qed.

Lemma removed_Some k g :
  live st' !! k = Some g ↔ ∃ f, live st !! up idx k = Some f ∧ g = re f.
Proof. rewrite removed_live, fmap_Some. done. Qed.

(** Nothing lives in the deleted entry. *)
Lemma removed_no_child i f : live st !! i = Some f → parent_index f ≠ Z.of_nat idx.
Proof.
  intros Hf Hp. destruct (decide (i = 0%nat)) as [->|Hi].
  - destruct (tree_root _ Ht) as (r & Hr & _ & Hrp & _).
    apply live_lookup in Hf as [Hf _]. rewrite Hr in Hf. injection Hf as <-. lia.
  - destruct (tree_parent _ Ht i f Hf ltac:(lia)) as (p & g & Hpp & _ & Hg & Hgt).
    assert (p = idx) as -> by lia. apply Hb. apply live_lookup in Hg as [Hg _].
    by exists g, i, f.
Qed.

(** Away from the deleted slot the renumbering of parents is the renumbering of
    slots. *)
Lemma renumbered_down p : renumbered (Z.of_nat idx) (Z.of_nat p) = Z.of_nat (down idx p).
Proof. unfold renumbered, down. case_decide; case_bool; lia. Qed.

Lemma renumbered_inj i f p :
  live st !! i = Some f → p ≠ idx →
  parent_index (re f) = Z.of_nat (down idx p) ↔ parent_index f = Z.of_nat p.
Proof.
  intros Hf Hp. pose proof (removed_no_child i f Hf). simpl. rewrite <-renumbered_down.
  unfold renumbered. repeat case_bool; lia.
Qed.

Lemma removed_ok : fs_ok st'.
Proof. apply (after_ok st idx); [apply Ht|done|lia]. Qed.

Lemma removed_tree : fs_tree st'.
Proof.
  pose proof Ht as [Hok (r & Hr & Hrt & Hrp & Hrn) Hpar Hnm Hu].
  assert (live st !! 0%nat = Some r) as Hr0 by (apply live_lookup; split; [done|lia]).
  split.
  - apply removed_ok.
  - assert (live st' !! 0%nat = Some (re r)) as H0.
    { apply removed_Some. exists r. unfold up. rewrite decide_False by lia. done. }
    apply live_lookup in H0 as [H0 _]. exists (re r). repeat split; try done.
    simpl. rewrite Hrp. unfold renumbered. case_bool; lia.
  - intros k g (f & Hf & ->)%removed_Some Hk.
    assert (0 < up idx k)%nat as Hup by (unfold up; case_decide; lia).
    destruct (Hpar _ f Hf Hup) as (p & e & Hpe & Hlt & He & Het).
    assert (p ≠ idx) as Hpi.
    { intros ->. by apply (removed_no_child _ f Hf). }
    exists (down idx p), (re e). split; [by apply (renumbered_inj _ f p Hf)|].
    split; [by apply down_lt|].
    split; [|done]. apply removed_Some. exists e. by rewrite up_down.
  - intros k g (f & Hf & ->)%removed_Some Hk. apply (Hnm _ f Hf). unfold up. case_decide; lia.
  - intros i j g h (f & Hf & ->)%removed_Some (e & He & ->)%removed_Some Hp Hn.
    apply up_inj. apply (Hu _ _ f e Hf He); [|done].
    pose proof (removed_no_child _ f Hf). pose proof (removed_no_child _ e He).
    revert Hp. simpl. unfold renumbered. repeat case_bool; lia.
Qed.

Lemma removed_lookup p w :
  p ≠ idx →
  lookup_child st' (down idx p) w =
    match lookup_child st p w with
    | Some i => if decide (i = idx) then None else Some (down idx i)
    | None => None
    end.
Proof.
  intros Hp. apply option_eq. intros k. rewrite lookup_child_iff by apply removed_tree.
  transitivity (lookup_child st p w = Some (up idx k)).
  - rewrite lookup_child_iff by done. setoid_rewrite removed_Some. split.
    + intros (g & (f & Hf & ->) & [Hgp Hgn]). exists f. split; [done|].
      split; [by apply (renumbered_inj _ f p Hf)|done].
    + intros (f & Hf & [Hfp Hfn]). exists (re f). split; [by exists f|].
      split; [by apply (renumbered_inj _ f p Hf)|done].
  - destruct (lookup_child st p w) as [i|]; [|done]. split.
    + intros [= ->]. rewrite decide_False by apply up_ne. f_equal.
      apply up_inj. by rewrite up_down by apply up_ne.
    + case_decide; [done|]. intros [= <-]. by rewrite up_down.
Qed.

Lemma removed_resolve ws :
  resolve st' ws =
    match resolve st ws with
    | Some i => if decide (i = idx) then None else Some (down idx i)
    | None => None
    end.
Proof.
  induction ws as [|w ws IH] using rev_ind.
  { unfold resolve. simpl. by rewrite decide_False. }
  rewrite !resolve_snoc, IH. destruct (resolve st ws) as [p|]; simpl; [|done].
  destruct (decide (p = idx)) as [->|Hp]; simpl; [|by apply removed_lookup].
  destruct (lookup_child st idx w) as [i|] eqn:E; [|done].
  apply lookup_child_iff in E as (f & Hf & Hfp & _); [|done].
  by apply removed_no_child in Hf.
Qed.

Lemma removed_view ws :
  view st' ws = if decide (resolve st ws = Some idx) then None else view st ws.
Proof.
  unfold view. rewrite removed_resolve. destruct (resolve st ws) as [i|]; [|done].
  destruct (decide (i = idx)) as [->|Hi]; [by rewrite decide_True|].
  rewrite decide_False by congruence. cbn [mbind option_bind]. rewrite removed_live, up_down by done.
  by destruct (live st !! i).
Qed.

End removal.

(** ** The theorem *)

Lemma busy_abs st m ws idx :
  fs_tree st → fs_abs st m → good ws → resolve st ws = Some idx → idx ≠ 0%nat →
  busy st idx ↔ view st ws = Some NDir ∧ a_has_entry ws m = true.
Proof.
  intros Ht Ha Hg Hi H0. rewrite a_has_entry_iff.
  destruct (resolve_entry st ws idx (tree_ok _ Ht) Hi) as (e & He & Hee).
  rewrite (view_dir st ws idx Ht Hi). unfold is_dir. rewrite Hee, bool_decide_eq_true. split.
  - intros (f & i & g & Hf & Hft & Hgi & Hgp). assert (f = e) as -> by congruence.
    split; [done|]. exists (name_of g), (node_of g).
    assert (0 < i)%nat as Hpos.
    { destruct (decide (i = 0%nat)) as [->|]; [|lia].
      destruct (tree_root _ Ht) as (r & Hr & _ & Hrp & _).
      apply live_lookup in Hgi as [Hgi _]. rewrite Hr in Hgi. injection Hgi as <-. lia. }
    pose proof (tree_named _ Ht i g Hgi Hpos) as Hn.
    rewrite Ha, decide_True by (by apply good_snoc).
    apply view_Some. exists i, g. split; [|done]. rewrite resolve_snoc, Hi. simpl.
    apply lookup_child_iff; [done|]. by exists g.
  - intros (Hft & w & n & Hn). rewrite Ha in Hn. case_decide as Hgw; [|done].
    apply view_Some in Hn as (i & g & Hr & Hgi & ->). rewrite resolve_snoc, Hi in Hr. simpl in Hr.
    apply lookup_child_iff in Hr as (h & Hh & Hhp & _); [|done]. exists e, i, h. done.
Qed.

Lemma resolve_root st ws : fs_tree st → good ws → resolve st ws = Some 0%nat ↔ ws = [].
Proof. intros Ht Hg. split; [|by intros ->]. intros Hr.
  apply (resolve_inj st ws [] 0%nat); done || by apply Forall_nil_2. Qed.

(** The refusals of the code are those of the specification. *)
Lemma delete_refused st m ws :
  fs_tree st → fs_abs st m → good ws →
  a_delete ws m = None ↔
  match resolve st ws with None => True | Some idx => idx = 0%nat ∨ busy st idx end.
Proof.
  intros Ht Ha Hg. unfold a_delete. rewrite (abs_good st m) by done.
  pose proof (resolve_root st ws Ht Hg) as Hroot.
  destruct (resolve st ws) as [idx|] eqn:Hi.
  2:{ by rewrite (proj2 (view_None st ws Ht) Hi). }
  destruct (view st ws) as [n|] eqn:Hv; [|apply view_None in Hv; congruence].
  destruct (decide (ws = [])) as [->|Hne].
  { rewrite bool_decide_eq_true_2 by done. simpl. split; [|done]. left.
    by injection (proj2 Hroot eq_refl). }
  rewrite bool_decide_eq_false_2 by done. cbn [orb].
  assert (idx ≠ 0%nat) as H0 by (intros ->; by apply Hne, Hroot).
  pose proof (busy_abs st m ws idx Ht Ha Hg Hi H0) as Hb. rewrite Hv in Hb.
  destruct (bool_decide (n = NDir) && a_has_entry ws m) eqn:E.
  - split; [|done]. intros _. right. apply Hb. apply andb_true_iff in E as [E ->].
    apply bool_decide_eq_true_1 in E. by subst.
  - split; [done|]. intros [?|Hbb]; [done|]. apply Hb in Hbb as [[= ->] Hh].
    by rewrite Hh, bool_decide_eq_true_2 in E.
Qed.

Lemma fs_delete_file_refines path s st m :
  fs_tree st → fs_abs st m → is_str path s → short (components s) →
  (∀ idx, resolve st (components s) = Some idx → near st idx) →
  ∃ r st', fs_delete_file path st = Ok (r, st') ∧ fs_tree st' ∧
    match a_delete (components s) m with
    | Some m' => r = 0 ∧ m' = delete (components s) m ∧
                 file_count st' = file_count st - 1 ∧ fs_abs st' m'
    | None => r = -1 ∧ st' = st
    end.
Proof.
  intros Ht Ha Hs Hsh Hnear. pose proof (good_components s) as Hg.
  pose proof (delete_refused st m (components s) Ht Ha Hg) as Href.
  destruct (a_delete (components s) m) as [m'|] eqn:Hm.
  2:{ exists (-1), st. split; [|done].
      apply (fs_delete_file_refuses path s); try done; [apply Ht|by apply Href]. }
  destruct (resolve st (components s)) as [idx|] eqn:Hi; [|by specialize (proj2 Href I)].
  assert (idx ≠ 0%nat ∧ ¬ busy st idx) as [H0 Hb].
  { split; [intros ->|intros Hbb]; by discriminate (proj2 Href); auto. }
  destruct (fs_delete_file_ok path s st idx) as (l & -> & Hafter); try done; [apply Ht|].
  assert (idx < Z.to_nat (file_count st))%nat as Hidx.
  { pose proof (ok_count _ (tree_ok _ Ht)). apply resolve_lt in Hi; [done|apply Ht|lia]. }
  assert (m' = delete (components s) m) as ->.
  { unfold a_delete in Hm. repeat case_match; congruence. }
  eexists _, _. split; [done|].
  split; [by apply (removed_tree st Ht idx Hidx H0 Hb (Hnear _ eq_refl))|].
  repeat (split; [done|]). intros ws.
  rewrite (removed_view st Ht idx Hidx H0 Hb (Hnear _ eq_refl) l Hafter).
  destruct (decide (ws = components s)) as [->|Hws].
  - rewrite lookup_delete_eq, Hi. by rewrite (decide_True (P := Some idx = Some idx)), decide_True.
  - rewrite lookup_delete_ne, Ha by done. destruct (decide (good ws)) as [Hw|]; [|done].
    rewrite decide_False; [done|]. intros Hr. by apply Hws, (resolve_inj st _ _ idx).
Qed.
