(* ===== verification/FsRun.v ===== *)
(** * The file system: sequences of operations

    Sequences of creations, writes and deletions from the initialised table,
    run on the table of [src/fs.c] and on the abstract map of [FsSpec], with the
    forward simulation between them, and the concrete runs that show where the
    code departs from the specification. *)

From stdpp Require Import gmap.
From S2P Require Import Prelude.
From S2P Require Import CString.
From S2P Require Import Fs.
From S2P Require Import FsPath.
From S2P Require Import FsOps.
From S2P Require Import FsData.
From S2P Require Import FsDelete.
From S2P Require Import FsSpec.
From S2P Require Import FsRemove.

(** ** Operations as data *)

(** [Mkdir a b] is [fs_mkdir] on the path [a/b], [Touch a b] is [fs_create]. *)
Inductive fs_cmd :=
| Mkdir (a b : list Z)
| Touch (a b : list Z)
| Put (s data : list Z)
| Remove (s : list Z).

Definition run_cmd (c : fs_cmd) (st : fs) : outcome (Z * fs) :=
  match c with
  | Mkdir a b => fs_mkdir (a ++ chr "/" :: b ++ [0]) st
  | Touch a b => fs_create (a ++ chr "/" :: b ++ [0]) st
  | Put s data => fs_write (s ++ [0]) data (Z.of_nat (length data)) st
  | Remove s => fs_delete_file (s ++ [0]) st
  end.

Fixpoint run_cmds (cs : list fs_cmd) (st : fs) : outcome (list Z * fs) :=
  match cs with
  | [] => Ok ([], st)
  | c :: cs' =>
      '(r, st1) ← run_cmd c st;
      '(rs, st2) ← run_cmds cs' st1;
      Ok (r :: rs, st2)
  end.

(** The same on the specification: the result of every call and the new tree.
    A creation returns the number of nodes there were. *)
Definition a_make (t : file_type) (a b : list Z) (m : afs) : Z * afs :=
  match (if decide (b ≠ [] ∧ (size m < 256)%nat) then a_create t (components a) b m else None) with
  | Some m' => (Z.of_nat (size m), m')
  | None => (-1, m)
  end.

Definition a_cmd (c : fs_cmd) (m : afs) : Z * afs :=
  match c with
  | Mkdir a b => a_make FILE_TYPE_DIR a b m
  | Touch a b => a_make FILE_TYPE_FILE a b m
  | Put s data =>
      match a_write (components s) (take 4096 data) m with
      | Some m' => (Z.of_nat (Nat.min (length data) 4096), m')
      | None => (-1, m)
      end
  | Remove s =>
      match a_delete (components s) m with
      | Some m' => (0, m')
      | None => (-1, m)
      end
  end.

Fixpoint a_cmds (cs : list fs_cmd) (m : afs) : list Z * afs :=
  match cs with
  | [] => ([], m)
  | c :: cs' =>
      let '(r, m1) := a_cmd c m in
      let '(rs, m2) := a_cmds cs' m1 in (r :: rs, m2)
  end.

Definition a_init : afs := {[ [] := NDir ]}.

(** The paths an operation may get: texts whose parts fit the buffers of the
    code; for a deletion, no parent far behind the deleted entry. *)
Definition cmd_ok (c : fs_cmd) (st : fs) : Prop :=
  match c with
  | Mkdir a b | Touch a b =>
      text (a ++ (chr "/" :: b)) ∧ chr "/" ∉ b ∧ (length a < 512)%nat ∧ (length b < 256)%nat ∧
      short (components a)
  | Put s _ => text s ∧ short (components s)
  | Remove s =>
      text s ∧ short (components s) ∧
      match resolve st (components s) with Some idx => near st idx | None => True end
  end.

#[global] Instance cmd_ok_dec c st : Decision (cmd_ok c st).
Proof.
  destruct c; simpl; unfold text, short, near; try apply _.
  destruct (resolve st (components s)); apply _.
Defined.

Fixpoint cmds_ok (cs : list fs_cmd) (st : fs) : Prop :=
  match cs with
  | [] => True
  | c :: cs' =>
      cmd_ok c st ∧
      match run_cmd c st with Ok (_, st1) => cmds_ok cs' st1 | Fault _ => True end
  end.

#[global] Instance cmds_ok_dec cs st : Decision (cmds_ok cs st).
Proof.
  revert st. induction cs as [|c cs IH]; intros st; simpl; [apply _|].
  destruct (run_cmd c st) as [[r st1]|]; apply _.
Defined.

(** ** The simulation *)

(** A table and a tree that agree; every entry in use is a node. *)
Record refines (st : fs) (m : afs) : Prop := {
  ref_tree : fs_tree st;
  ref_abs : fs_abs st m;
  ref_size : file_count st = Z.of_nat (size m)
}.

Lemma is_str_term s : text s → is_str (s ++ [0]) s.
Proof. intros Hs. split; [done|]. by exists []. Qed.

Lemma a_create_size t dir b m m' : a_create t dir b m = Some m' → size m' = S (size m).
Proof.
  unfold a_create. repeat case_match; try done. intros [= <-]. by apply map_size_insert_None.
Qed.

Lemma a_write_size ws d m m' : a_write ws d m = Some m' → size m' = size m.
Proof.
  unfold a_write. destruct (m !! ws) as [[]|] eqn:E; try done. intros [= <-].
  by apply map_size_insert_Some.
Qed.

Lemma a_delete_size ws m m' : a_delete ws m = Some m' → size m = S (size m').
Proof.
  unfold a_delete. destruct (m !! ws) as [n|] eqn:E; [|done]. case_match; [done|]. intros [= <-].
  rewrite map_size_delete_Some by (by rewrite E).
  pose proof (map_size_ne_0_lookup_2 m ws). rewrite E in H0.
  specialize (H0 ltac:(by eexists)). lia.
Qed.

Lemma make_simulates t a b path st m :
  refines st m → is_str path (a ++ chr "/" :: b) → chr "/" ∉ b →
  (length a < 512)%nat → (length b < 256)%nat → short (components a) →
  ∃ st', create_at t path st = Ok ((a_make t a b m).1, st') ∧ refines st' (a_make t a b m).2.
Proof.
  intros [Ht Ha Hsz] Hs Hb Hal Hbl Hsh.
  destruct (create_at_refines t path a b st m) as (r & st' & -> & Ht' & Hm); try done.
  exists st'. unfold a_make.
  assert (file_count st < MAX_FILES ↔ (size m < 256)%nat) as Hroom by (unfold MAX_FILES; lia).
  assert (∀ o : option afs, (if decide (b ≠ [] ∧ (size m < 256)%nat) then o else None)
    = (if decide (b ≠ [] ∧ file_count st < MAX_FILES) then o else None)) as ->.
  { intros o. destruct (decide (b ≠ [] ∧ file_count st < MAX_FILES));
      [by rewrite decide_True by tauto|by rewrite decide_False by tauto]. }
  destruct (if decide _ then _ else _) as [m'|] eqn:E.
  - case_decide; [|done]. destruct Hm as (-> & Hc & Ha'). rewrite Hsz. split; [done|].
    split; [done|done|]. apply a_create_size in E. simpl. lia.
  - destruct Hm as [-> ->]. split; [done|]. by split.
Qed.

Lemma remove_simulates path s st m :
  refines st m → is_str path s → short (components s) →
  match resolve st (components s) with Some idx => near st idx | None => True end →
  ∃ st', fs_delete_file path st = Ok ((a_cmd (Remove s) m).1, st') ∧
         refines st' (a_cmd (Remove s) m).2.
Proof.
  intros [Ht Ha Hsz] Hs Hsh Hnear. simpl.
  destruct (fs_delete_file_refines path s st m) as (r & st' & -> & Ht' & Hm); try done.
  { intros idx Hi. by rewrite Hi in Hnear. }
  exists st'. destruct (a_delete (components s) m) as [m'|] eqn:E; simpl.
  - destruct Hm as (-> & -> & Hc & Ha'). split; [done|]. split; [done|done|].
    pose proof (a_delete_size _ _ _ E). lia.
  - destruct Hm as [-> ->]. by split.
Qed.

Lemma cmd_simulates c st m :
  refines st m → cmd_ok c st →
  ∃ st', run_cmd c st = Ok ((a_cmd c m).1, st') ∧ refines st' (a_cmd c m).2.
Proof.
  intros Href Hok. pose proof Href as [Ht Ha Hsz]. destruct c as [a b|a b|s d|s]; simpl in *.
  1,2: destruct Hok as (Htx & Hb & Hal & Hbl & Hsh); apply make_simulates; try done;
       rewrite app_comm_cons, app_assoc; by apply is_str_term.
  - destruct Hok as [Htx Hsh].
    destruct (fs_write_ref (s ++ [0]) s d (Z.of_nat (length d)) st m) as (r & st' & -> & Ht' & Hm);
      try done; [by apply is_str_term|lia|unfold MAX_FILE_SIZE; lia|].
    exists st'. replace (take (Z.to_nat _) d) with (take 4096 d) in Hm.
    2:{ unfold MAX_FILE_SIZE. destruct (decide (length d ≤ 4096)%nat).
        - by rewrite !take_ge by lia.
        - f_equal. lia. }
    destruct (a_write (components s) (take 4096 d) m) as [m'|] eqn:E; simpl.
    + destruct Hm as (-> & Hc & Ha'). split; [f_equal; f_equal; unfold MAX_FILE_SIZE; lia|].
      split; [done|done|]. apply a_write_size in E. lia.
    + destruct Hm as [-> ->]. by split.
  - destruct Hok as (Htx & Hsh & Hnear). apply remove_simulates; try done. by apply is_str_term.
Qed.

Lemma cmds_simulate cs st m :
  refines st m → cmds_ok cs st →
  ∃ st', run_cmds cs st = Ok ((a_cmds cs m).1, st') ∧ refines st' (a_cmds cs m).2.
Proof.
  revert st m. induction cs as [|c cs IH]; intros st m Href Hok; simpl in *; [by exists st|].
  destruct Hok as [Hc Hcs]. destruct (cmd_simulates c st m Href Hc) as (st1 & Hr & Href1).
  rewrite Hr in Hcs |- *. destruct (a_cmd c m) as [r m1]. simpl in *.
  destruct (IH st1 m1 Href1 Hcs) as (st2 & -> & Href2).
  destruct (a_cmds cs m1) as [rs m2]. simpl in *. by exists st2.
Qed.

(** ** The initial state *)

Lemma init_refines st : fs_raw st → ∃ st', fs_init st = Ok st' ∧ refines st' a_init.
Proof.
  intros Hraw. destruct (fs_init_tree st Hraw) as (st' & Hi & Ht & Hc). exists st'.
  split; [done|]. split; [done| |by rewrite Hc]. intros ws. unfold a_init.
  destruct (tree_root _ Ht) as (r & Hr & Hrt & _ & Hrn).
  assert (live st' !! 0%nat = Some r) as Hr0 by (apply live_lookup; split; [done|lia]).
  destruct ws as [|w ws].
  - rewrite lookup_singleton_eq, decide_True by (by apply Forall_nil_2).
    unfold view, resolve. simpl. rewrite Hr0. simpl. unfold node_of. by rewrite Hrt.
  - rewrite lookup_singleton_ne by done. case_decide as Hg; [|done]. symmetry.
    apply view_None; [done|]. apply Forall_cons_iff in Hg as [Hw _]. unfold resolve. simpl.
    destruct (lookup_child st' 0 w) as [i|] eqn:E; [|done].
    pose proof (lookup_child_root st' 0 w Ht Hw). apply lookup_child_Some in E as E'.
    destruct E' as (f & Hf & _). apply live_lookup in Hf as [_ Hlt]. rewrite Hc in Hlt.
    destruct i; [done|]. simpl in Hlt. lia.
Qed.

(** ** The main theorem and its witness *)

(** C2: Whatever the table held before, [fs_init] followed by a sequence of
    directory creations, file creations, writes and deletions returns at every
    call what the abstract tree returns, without an out-of-bounds access, and
    ends in a table that represents the abstract tree.  The sequence must satisfy
    [cmds_ok]: paths and names fit the buffers, the path of a creation has a
    slash, and no deletion names an entry more than two slots before a directory
    with entries. *)
Theorem fs_runs_refine st cs :
  fs_raw st →
  ∃ st0, fs_init st = Ok st0 ∧
    (cmds_ok cs st0 →
     ∃ st', run_cmds cs st0 = Ok ((a_cmds cs a_init).1, st') ∧
            refines st' (a_cmds cs a_init).2).
Proof.
  intros Hraw. destruct (init_refines st Hraw) as (st0 & Hi & Href). exists st0.
  split; [done|]. by apply cmds_simulate.
Qed.

Lemma fs_bss_raw : fs_raw fs_bss.
Proof. split; [done|]. by apply Forall_replicate. Qed.

(** The table after the boot, for concrete runs. *)
Definition fs_boot : fs := match fs_init fs_bss with Ok st => st | Fault _ => fs_bss end.

Lemma fs_boot_refines : refines fs_boot a_init.
Proof. unfold fs_boot. by destruct (init_refines fs_bss fs_bss_raw) as (st & -> & ?). Qed.

Lemma run_refines cs st :
  cmds_ok cs fs_boot → run_cmds cs fs_boot = Ok ((a_cmds cs a_init).1, st) →
  refines st (a_cmds cs a_init).2.
Proof.
  intros Hok Hr. destruct (cmds_simulate cs fs_boot a_init fs_boot_refines Hok) as (st' & H & ?).
  congruence.
Qed.

(** The state after a run of commands. *)
Definition after_cmds (cs : list fs_cmd) : fs :=
  match run_cmds cs fs_boot with Ok (_, st) => st | Fault _ => fs_boot end.

Lemma after_refines cs :
  bool_decide (cmds_ok cs fs_boot) = true → refines (after_cmds cs) (a_cmds cs a_init).2.
Proof.
  intros Hok%bool_decide_eq_true_1. unfold after_cmds.
  by destruct (cmds_simulate cs fs_boot a_init fs_boot_refines Hok) as (st & -> & ?).
Qed.

Definition sample_cmds : list fs_cmd :=
  [Mkdir [] (chars "d"); Touch (chars "/d") (chars "x"); Put (chars "/d/x") (chars "hello");
   Mkdir (chars "/none") (chars "y"); Remove (chars "/d"); Remove (chars "//d/x");
   Remove (chars "/d")].

Lemma fs_runs_refine_witness :
  ∃ st', run_cmds sample_cmds fs_boot = Ok ([1; 2; 5; -1; -1; 0; 0], st') ∧ refines st' a_init.
Proof.
  destruct (fs_runs_refine fs_bss sample_cmds fs_bss_raw) as (st0 & Hi & H).
  assert (st0 = fs_boot) as -> by (unfold fs_boot; by rewrite Hi).
  destruct H as (st' & Hr & Href); [apply (bool_decide_eq_true_1 _); vm_compute; reflexivity|].
  exists st'. split; [rewrite Hr; do 2 f_equal; vm_compute; reflexivity|].
  replace a_init with (a_cmds sample_cmds a_init).2; [exact Href|]. vm_compute. reflexivity.
Defined.
