(* ===== verification/FsClaims.v ===== *)
(** * The file system: properties of single operations

    The results of the other files of the file system at the level of one call
    of [src/fs.c], each on every branch, and the concrete runs that show where
    the code departs from what it means to do. *)

From stdpp Require Import gmap.
From S2P Require Import Prelude.
From S2P Require Import CString.
From S2P Require Import Fs.
From S2P Require Import FsPath.
From S2P Require Import FsOps.
From S2P Require Import FsData.
From S2P Require Import FsDelete.
From S2P Require Import FsSpec.
From S2P Require Import FsRemove.
From S2P Require Import FsRun.

(** ** Concrete states *)

Definition sample : list fs_cmd :=
  [Mkdir [] (chars "d"); Touch (chars "/d") (chars "x")].

Lemma sample_refines : refines (after_cmds sample) (a_cmds sample a_init).2.
Proof. apply after_refines. vm_compute. reflexivity. Qed.

Lemma lit_str (s : string) : bool_decide (text (chars s)) = true → is_str (lit s) (chars s).
Proof. intros H%bool_decide_eq_true_1. by apply lit_is_str. Qed.

(** The result of a call and the table it leaves. *)
Definition result (o : outcome (Z * fs)) : option Z :=
  match o with Ok (r, _) => Some r | Fault _ => None end.
Definition table (o : outcome (Z * fs)) : fs :=
  match o with Ok (_, st) => st | Fault _ => fs_boot end.

Lemma result_table o r : result o = Some r → o = Ok (r, table o).
Proof. destruct o as [[r' st]|]; [|done]. by intros [= ->]. Qed.

(** Decides a closed decidable proposition by computation. *)
Ltac compute_decide := apply (bool_decide_eq_true_1 _); vm_compute; reflexivity.

Lemma fs_mkdir_create_refine_witness :
  creation FILE_TYPE_DIR [chars "d"] (chars "e") (after_cmds sample) (a_cmds sample a_init).2
    (fs_mkdir (lit "/d/e") (after_cmds sample)) ∧
  creation FILE_TYPE_FILE [chars "d"] (chars "e") (after_cmds sample) (a_cmds sample a_init).2
    (fs_create (lit "/d/e") (after_cmds sample)).
Proof.
  destruct sample_refines as [Ht Ha _].
  apply (fs_mkdir_create_refine (lit "/d/e") (chars "/d") (chars "e")); try done;
    try compute_decide; by apply (lit_str "/d/e").
Defined.

Lemma fs_write_refines_witness :
  ∃ st', fs_write (lit "/d/x") (chars "hey") 3 (after_cmds sample) = Ok (3, st') ∧ fs_tree st' ∧
         fs_abs st' (<[[chars "d"; chars "x"] := NFile (chars "hey")]> (a_cmds sample a_init).2).
Proof.
  destruct sample_refines as [Ht Ha _].
  destruct (fs_write_refines (lit "/d/x") (chars "/d/x") (chars "hey") 3 _ _ Ht Ha)
    as (r & st' & Hw & Ht' & Hm); try compute_decide; [by apply lit_str|].
  exists st'. assert (a_write [chars "d"; chars "x"] (chars "hey") (a_cmds sample a_init).2
    = Some (<[[chars "d"; chars "x"] := NFile (chars "hey")]> (a_cmds sample a_init).2)) as Haw
    by (vm_compute; reflexivity).
  change (components (chars "/d/x")) with [chars "d"; chars "x"] in Hm.
  change (take _ _) with (chars "hey") in Hm. rewrite Haw in Hm. destruct Hm as [Hr Ha'].
  change (Z.min 3 MAX_FILE_SIZE) with 3 in Hr. subst r.
  split; [exact Hw|]. split; [exact Ht'|exact Ha'].
Defined.

Lemma fs_write_read_roundtrip_witness :
  ∃ st', fs_write (lit "/d/x") (chars "hey") 3 (after_cmds sample) = Ok (3, st') ∧
         fs_read (lit "d//x") (chars "abcdef") 6 st' = Ok (3, chars "heydef").
Proof.
  destruct sample_refines as [Ht Ha _].
  destruct (file_at (after_cmds sample) [chars "d"; chars "x"]) as [[i f]|] eqn:Hf.
  - destruct (fs_write_read_roundtrip (lit "/d/x") (lit "d//x") (chars "/d/x") (chars "d//x")
      (chars "hey") 3 (chars "abcdef") _ i f Ht) as (st' & Hw & Hr);
      [by apply lit_str|by apply lit_str|compute_decide|compute_decide|exact Hf
      |compute_decide|reflexivity|compute_decide|].
    exists st'. split; [exact Hw|exact Hr].
  - exfalso. vm_compute in Hf. discriminate Hf.
Defined.

(** ** Creating an entry *)

(** C12: [fs_create_file] on every branch, for every parent index: a full table, a
    parent that is not a directory (an index of 256 or more among them) and a
    name that is taken are refused with -1 and no change; else the entry is put
    in the first unused slot, whose index is returned, the lookup of the name in
    the parent finds it, and a tree stays a tree (for a name that is not empty
    and a parent in use); a name of 256 characters or more that is not refused
    overruns the name field. *)
Theorem fs_create_file_correct name s t (p : nat) st :
  fs_tree st → is_str name s →
  (256 ≤ p → can_create st p s = false)%nat ∧
  if can_create st p s then
    if decide (length s < 256)%nat then
      fs_create_file name t (Z.of_nat p) st = Ok (file_count st, add_entry st s t p) ∧
      lookup_child (add_entry st s t p) p s = Some (Z.to_nat (file_count st)) ∧
      (s ≠ [] → (p < Z.to_nat (file_count st))%nat → fs_tree (add_entry st s t p))
    else fs_create_file name t (Z.of_nat p) st = Fault OutOfBounds
  else fs_create_file name t (Z.of_nat p) st = Ok (-1, st).
Proof.
  intros Ht Hs. pose proof (tree_ok _ Ht) as Hok. pose proof (ok_count _ Hok) as Hc.
  unfold MAX_FILES in *.
  assert (256 ≤ p → is_dir st p = false)%nat as Hbig.
  { intros Hp. unfold is_dir. by rewrite lookup_ge_None_2 by (rewrite (ok_files _ Hok); lia). }
  split; [intros Hp; unfold can_create; by rewrite Hbig, andb_false_r by done|].
  destruct (can_create st p s) eqn:Hcan; [|by apply (fs_create_file_refuses name s)].
  case_decide as Hl; [|apply (fs_create_file_overflow name s); done || lia].
  split; [rewrite (fs_create_file_ok name s) by done; by rewrite Hcan|].
  pose proof Hs as [Htx _]. split; [|intros Hne Hp; by apply add_entry_tree].
  unfold can_create in Hcan. apply andb_true_iff in Hcan as [[Hr Hd]%andb_true_iff Hn].
  apply bool_decide_eq_true_1 in Hn. apply Z.ltb_lt in Hr.
  assert (p < 256)%nat as Hp.
  { destruct (decide (p < 256)%nat); [done|]. rewrite Hbig in Hd by lia. done. }
  rewrite lookup_child_add by (done || lia). rewrite Hn. by rewrite decide_True.
Qed.

Lemma fs_create_file_correct_witness :
  fs_create_file (lit "new") FILE_TYPE_FILE 1 (after_cmds sample)
  = Ok (3, add_entry (after_cmds sample) (chars "new") FILE_TYPE_FILE 1) ∧
  fs_tree (add_entry (after_cmds sample) (chars "new") FILE_TYPE_FILE 1).
Proof.
  destruct sample_refines as [Ht _ _].
  pose proof (fs_create_file_correct (lit "new") (chars "new") FILE_TYPE_FILE 1 _ Ht
    (lit_str "new" eq_refl)) as H.
  assert (can_create (after_cmds sample) 1 (chars "new") = true) as Hcan by (vm_compute; reflexivity).
  rewrite Hcan in H. destruct H as (_ & He & _ & Htree). split; [exact He|].
  apply Htree; [discriminate|vm_compute; lia].
Defined.

(** ** Paths *)

(** C13: [fs_parse_path] follows the components of the path from the root,
    ignoring repeated, leading and trailing slashes: it returns the index the
    names lead to and -1 when a name is missing; it faults exactly when the walk
    comes to a component of 256 characters or more, which overruns the component
    buffer. *)
Theorem fs_parse_path_correct path s st :
  fs_ok st → is_str path s →
  fs_parse_path path st = int_of_index <$> walk_from st 0 (components s) ∧
  (short (components s) →
   fs_parse_path path st = Ok (int_of_index (resolve st (components s)))).
Proof.
  intros Hok Hs. split; [by apply fs_parse_path_ok|]. by apply fs_parse_path_resolve.
Qed.

Lemma fs_parse_path_correct_witness :
  fs_parse_path (lit "//d///x/") (after_cmds sample) = Ok 2 ∧
  fs_parse_path (lit "/d/y") (after_cmds sample) = Ok (-1).
Proof.
  destruct sample_refines as [Ht _ _]. pose proof (tree_ok _ Ht) as Hok. split.
  - rewrite (proj2 (fs_parse_path_correct _ _ _ Hok (lit_str "//d///x/" eq_refl)))
      by compute_decide. vm_compute. reflexivity.
  - rewrite (proj2 (fs_parse_path_correct _ _ _ Hok (lit_str "/d/y" eq_refl)))
      by compute_decide. vm_compute. reflexivity.
Defined.

(** ** Listing *)

(** C14: [fs_list_dir] on a directory writes the lines of its entries, in table
    order, with a slash after the name of a directory, and a final NUL, and
    returns their number; a path that is not a directory gives -1 and leaves the
    buffer alone.  A buffer of at least one byte is never overrun: the listing
    stops before the first entry for which fewer than 259 bytes are left.  With
    a buffer of size 0 the final NUL of a listing is stored out of bounds.  With
    the 66048 bytes the [ls] command passes, every entry is listed. *)
Theorem fs_list_dir_correct path s buf size st :
  fs_ok st → is_str path s → short (components s) →
  Z.of_nat (length buf) = size → size < 4294967296 →
  fs_list_dir path buf size st =
    match resolve st (components s) with
    | Some d =>
        if is_dir st d then
          if decide (size = 0) then Fault OutOfBounds
          else
            let es := fitting size (children st d) in
            Ok (Z.of_nat (length es), splice buf 0 (listing es ++ [0]))
        else Ok (-1, buf)
    | None => Ok (-1, buf)
    end ∧
  (66048 ≤ size → ∀ d, fitting size (children st d) = children st d).
Proof.
  intros Hok Hs Hsh Hb Hsz. split; [apply fs_list_dir_run; done || lia|].
  intros Hbig d. destruct (children_ok st d Hok). apply fitting_all; [done|]. lia.
Qed.

Lemma fs_list_dir_correct_witness :
  fs_list_dir (lit "/") (replicate 300 9) 300 (after_cmds sample)
  = Ok (1, chars "d/" ++ [10; 0] ++ replicate 296 9) ∧
  fs_list_dir (lit "/") [] 0 (after_cmds sample) = Fault OutOfBounds.
Proof.
  destruct sample_refines as [Ht _ _]. split; [|by rewrite (proj1 (fs_list_dir_correct (lit "/") (chars "/") [] 0 _
    (tree_ok _ Ht) (lit_str "/" eq_refl) ltac:(compute_decide) eq_refl ltac:(lia)))].
  rewrite (proj1 (fs_list_dir_correct (lit "/") (chars "/") (replicate 300 9) 300 _
    (tree_ok _ Ht) (lit_str "/" eq_refl) ltac:(compute_decide) eq_refl ltac:(lia))).
  vm_compute. reflexivity.
Defined.

(** ** Deleting *)

(** C10: [fs_delete_file] exactly, on every table whose parents are in use: the
    root, a missing path and a directory with entries are refused with -1 and no
    change; else the entry is taken out of the table, later entries move down
    one slot, and a parent [p] behind the deleted slot [idx] becomes
    [idx + (p - idx) / 2].  This is the slot the parent itself moves to if and
    only if [p] is at most [idx + 2]. *)
Theorem fs_delete_file_exact path s st :
  fs_ok st → parents_live st → is_str path s → short (components s) →
  (∃ idx st', resolve st (components s) = Some idx ∧ idx ≠ 0%nat ∧ ¬ busy st idx ∧
     fs_delete_file path st = Ok (0, st') ∧ fs_ok st' ∧
     file_count st' = file_count st - 1 ∧
     live st' = map (reparent (Z.of_nat idx)) (delete idx (live st)) ∧
     ∀ p, halved (Z.of_nat idx) p = renumbered (Z.of_nat idx) p ↔ p ≤ Z.of_nat idx + 2) ∨
  (match resolve st (components s) with
   | None => True | Some idx => idx = 0%nat ∨ busy st idx end ∧
   fs_delete_file path st = Ok (-1, st)).
Proof.
  intros Hok Hpl Hs Hsh. pose proof (fs_delete_file_refuses path s st Hok Hs Hsh) as Href.
  destruct (resolve st (components s)) as [idx|] eqn:Hi; [|right; by rewrite Href].
  destruct (decide (idx = 0%nat)) as [->|H0]; [right; by rewrite Href by (by left); auto|].
  destruct (busy_dec st idx) as [Hb|Hb]; [right; by rewrite Href by (by right); auto|].
  left. destruct (fs_delete_file_ok path s st idx) as (l & Hd & Hafter); try done.
  pose proof (ok_count _ Hok) as Hc. unfold MAX_FILES in *.
  assert (idx < Z.to_nat (file_count st))%nat as Hlt by (apply resolve_lt in Hi; [done|done|lia]).
  exists idx, (Fs l (file_count st - 1)). do 4 (split; [done|]).
  split; [apply (after_ok st idx); done || lia|]. split; [done|].
  split; [by apply after_live|]. intros p. apply halved_renumbered.
Qed.

Lemma fs_delete_file_exact_witness :
  ∃ st', fs_delete_file (lit "/d/x") (after_cmds sample) = Ok (0, st') ∧ file_count st' = 2.
Proof.
  destruct sample_refines as [Ht _ _].
  destruct (fs_delete_file_exact (lit "/d/x") (chars "/d/x") _ (tree_ok _ Ht)
    (tree_parents_live _ Ht) (lit_str "/d/x" eq_refl) ltac:(compute_decide))
    as [(idx & st' & _ & _ & _ & Hd & _ & Hc & _)|[_ Hd]].
  - exists st'. split; [exact Hd|]. rewrite Hc. vm_compute. reflexivity.
  - exfalso. apply (f_equal result) in Hd. vm_compute in Hd. discriminate Hd.
Defined.

(** C11: [fs_delete_file] removes exactly the node at the path, as the
    specification does, when every parent is at most two slots behind the
    deleted entry: all other paths keep their nodes and contents, and the table
    stays a tree. *)
Theorem fs_delete_file_removes path s st m :
  fs_tree st → fs_abs st m → is_str path s → short (components s) →
  (∀ idx, resolve st (components s) = Some idx → near st idx) →
  ∃ r st', fs_delete_file path st = Ok (r, st') ∧ fs_tree st' ∧
    match a_delete (components s) m with
    | Some m' => r = 0 ∧ m' = delete (components s) m ∧ fs_abs st' m'
    | None => r = -1 ∧ st' = st
    end.
Proof.
  intros Ht Ha Hs Hsh Hn.
  destruct (fs_delete_file_refines path s st m) as (r & st' & He & Ht' & Hm); try done.
  exists r, st'. split; [done|]. split; [done|].
  by case_match; [destruct Hm as (? & ? & _ & ?)|].
Qed.

Lemma fs_delete_file_removes_witness :
  ∃ r st', fs_delete_file (lit "/d/x") (after_cmds sample) = Ok (r, st') ∧ fs_tree st' ∧
    r = 0 ∧ fs_abs st' (delete [chars "d"; chars "x"] (a_cmds sample a_init).2).
Proof.
  destruct sample_refines as [Ht Ha _].
  destruct (fs_delete_file_removes (lit "/d/x") (chars "/d/x") _ _ Ht Ha (lit_str "/d/x" eq_refl)
    ltac:(compute_decide)) as (r & st' & Hd & Ht' & Hm).
  - intros idx Hi. assert (idx = 2%nat) as -> by (vm_compute in Hi; congruence).
    unfold near. compute_decide.
  - exists r, st'. split; [exact Hd|]. split; [exact Ht'|].
    assert (a_delete [chars "d"; chars "x"] (a_cmds sample a_init).2
      = Some (delete [chars "d"; chars "x"] (a_cmds sample a_init).2)) as Hdel
      by (vm_compute; reflexivity).
    change (components (chars "/d/x")) with [chars "d"; chars "x"] in Hm.
    rewrite Hdel in Hm. destruct Hm as (Hr & _ & Ha'). split; [exact Hr|exact Ha'].
Defined.

Definition four_dirs : list fs_cmd :=
  [Mkdir [] (chars "a"); Mkdir [] (chars "b"); Mkdir [] (chars "c"); Mkdir [] (chars "d");
   Touch (chars "/d") (chars "x")].

(** C32: A deletion can move files of other directories: with directories [/a],
    [/b], [/c], [/d] and the file [/d/x], deleting the empty directory [/a]
    reports success, but afterwards [/d/x] is gone and [/c/x] exists. *)
Theorem fs_delete_file_moves_files :
  fs_parse_path (lit "/d/x") (after_cmds four_dirs) = Ok 5 ∧
  fs_parse_path (lit "/c/x") (after_cmds four_dirs) = Ok (-1) ∧
  ∃ st', fs_delete_file (lit "/a") (after_cmds four_dirs) = Ok (0, st') ∧
         fs_parse_path (lit "/d/x") st' = Ok (-1) ∧
         fs_parse_path (lit "/c/x") st' = Ok 4.
Proof.
  split; [vm_compute; reflexivity|]. split; [vm_compute; reflexivity|].
  exists (table (fs_delete_file (lit "/a") (after_cmds four_dirs))).
  split; [apply result_table; vm_compute; reflexivity|]. split; vm_compute; reflexivity.
Qed.

(** ** Paths without a slash *)

Lemma split_path_no_slash path c s :
  is_str path (c :: s) → chr "/" ∉ c :: s → (length s < 256)%nat →
  ∃ pp nm, split_path path = Ok (pp, nm) ∧ is_str pp (chars "/") ∧ is_str nm s.
Proof.
  intros Hs Hn Hl. unfold split_path. rewrite (last_slash_none path (c :: s)) by done.
  cbn [mbind outcome_bind]. change (for_range 0 0 _ _) with (Ok (replicate 512 0)).
  cbn [mbind outcome_bind]. change (arr_get (replicate 512 0) 0) with (Ok 0).
  cbn [mbind outcome_bind Z.eqb].
  pose proof (strcpy_fits (lit "/") (chars "/") (replicate 512 0) 0 (lit_str "/" eq_refl)) as Hc.
  change (Z.of_nat 0) with 0 in Hc.
  rewrite Hc by (rewrite length_replicate; simpl; lia). cbn [mbind outcome_bind].
  change (Z.to_nat (0 + 1)) with 1%nat.
  assert (is_str (drop 1 path) s) as Hd
    by (pose proof (is_str_drop _ _ 1 Hs) as H; apply H; simpl; lia).
  pose proof (strcpy_fits _ s (replicate 256 0) 0 Hd) as Hcp. change (Z.of_nat 0) with 0 in Hcp.
  rewrite Hcp by (rewrite length_replicate; simpl; lia). cbn [mbind outcome_bind].
  eexists _, _. split; [done|]. split.
  - apply (is_str_splice (replicate 512 0) 0); [compute_decide|rewrite length_replicate; simpl; lia].
  - apply (is_str_splice (replicate 256 0) 0 s); [apply Hd|rewrite length_replicate; simpl; lia].
Qed.

(** C33: On a path without a slash [fs_mkdir] and [fs_create] drop the first
    character: they create an entry of the root named by the rest of the path
    (and refuse a path of one character). *)
Theorem fs_create_no_slash path c s st :
  fs_ok st → is_str path (c :: s) → chr "/" ∉ c :: s → (length s < 256)%nat →
  let made t := if decide (s = []) then (-1, st)
    else if can_create st 0 s then (file_count st, add_entry st s t 0) else (-1, st) in
  fs_mkdir path st = Ok (made FILE_TYPE_DIR) ∧ fs_create path st = Ok (made FILE_TYPE_FILE).
Proof.
  intros Hok Hs Hn Hl made.
  assert (∀ t, create_at t path st = Ok (made t)) as H; [|split; apply H].
  intros t. unfold create_at, made.
  destruct (split_path_no_slash path c s Hs Hn Hl) as (pp & nm & -> & Hpp & Hnm).
  cbn [mbind outcome_bind]. destruct (decide (s = [])) as [->|Hne].
  { by apply is_str_inv in Hnm as [[_ [r ->]]|(? & ? & ? & ? & _)]. }
  assert (∃ c0, arr_get nm 0 = Ok c0 ∧ c0 ≠ 0) as (c0 & -> & Hc0).
  { apply is_str_inv in Hnm as [[? _]|(c1 & ? & ? & _ & -> & ? & _)]; [done|by exists c1]. }
  cbn [mbind outcome_bind]. rewrite (proj2 (Z.eqb_neq c0 0) Hc0).
  rewrite (fs_parse_path_resolve pp (chars "/")) by (done || compute_decide).
  change (components (chars "/")) with (@nil (list Z)). cbn. change 0 with (Z.of_nat 0).
  by rewrite (fs_create_file_ok nm s).
Qed.

Lemma fs_create_no_slash_witness :
  ∃ st', fs_mkdir (lit "foo") fs_boot = Ok (1, st') ∧
         fs_parse_path (lit "/foo") st' = Ok (-1) ∧ fs_parse_path (lit "/oo") st' = Ok 1.
Proof.
  destruct (fs_create_no_slash (lit "foo") (chr "f") (chars "oo") fs_boot
    (tree_ok _ (ref_tree _ _ fs_boot_refines)) (lit_str "foo" eq_refl)) as [Hm _];
    [compute_decide|compute_decide|].
  exists (add_entry fs_boot (chars "oo") FILE_TYPE_DIR 0).
  assert (can_create fs_boot 0 (chars "oo") = true) as Hcan by (vm_compute; reflexivity).
  rewrite Hcan in Hm. split; [exact Hm|]. split; vm_compute; reflexivity.
Defined.

(** ** [fs_delete] *)

Section clearing.
Context (st : fs) (Ht : fs_tree st) (idx : nat) (f : file_t) (Hf : files st !! idx = Some f).
Let st' := Fs (<[idx := reset_entry f]> (files st)) (file_count st).

Lemma cleared_lookup p w i :
  (p < 256)%nat → lookup_child st' p w = Some i → i ≠ idx ∧ lookup_child st p w = Some i.
Proof.
  intros Hp (g & [Hg Hi]%live_lookup & [Hgp Hgn] & _)%lookup_child_Some. subst st'. simpl in *.
  apply list_lookup_insert_Some in Hg as [(<- & <- & _)|[Hne Hg]]; [simpl in Hgp; lia|].
  split; [done|]. apply lookup_child_iff; [done|]. exists g. split; [by apply live_lookup|done].
Qed.

Lemma cleared_resolve ws i :
  resolve st' ws = Some i → resolve st ws = Some i ∧ (ws ≠ [] → i ≠ idx).
Proof.
  revert i. induction ws as [|w ws IH] using rev_ind; intros i Hi; [done|].
  rewrite resolve_snoc in Hi |- *. destruct (resolve st' ws) as [p|]; simpl in Hi; [|done].
  destruct (IH p eq_refl) as [Hp _]. rewrite Hp. simpl.
  destruct (resolve_entry st ws p (tree_ok _ Ht) Hp) as (g & _ & Hg%lookup_lt_Some).
  rewrite (ok_files _ (tree_ok _ Ht)) in Hg. by apply cleared_lookup in Hi as [? ?].
Qed.

End clearing.

(** C15: [fs_delete] refuses a missing path and the root with -1 and no change;
    else it resets the entry in place and returns 0.  The path leads nowhere
    afterwards, no new path appears, and every other slot is as it was; but the
    slot stays in use ([file_count] is the same), and a directory is not tested
    for entries. *)
Theorem fs_delete_clears path s st :
  fs_tree st → is_str path s → short (components s) →
  match resolve st (components s) with
  | None | Some O => fs_delete path st = Ok (-1, st)
  | Some idx =>
      ∃ f st', files st !! idx = Some f ∧ fs_delete path st = Ok (0, st') ∧
        files st' = <[idx := reset_entry f]> (files st) ∧ file_count st' = file_count st ∧
        resolve st' (components s) = None ∧
        ∀ ws i, resolve st' ws = Some i → resolve st ws = Some i
  end.
Proof.
  intros Ht Hs Hsh. pose proof (tree_ok _ Ht) as Hok. unfold fs_delete.
  rewrite (fs_parse_path_resolve path s) by done. cbn [mbind outcome_bind].
  destruct (resolve st (components s)) as [[|idx]|] eqn:Hi; [done| |done]. cbn [int_of_index].
  rewrite (proj2 (Z.ltb_ge _ _)), (proj2 (Z.eqb_neq _ _)) by lia.
  destruct (resolve_entry _ _ _ Hok Hi) as (f & _ & Hf). exists f.
  pose proof (entry_lookup _ _ _ Hok Hf) as [_ Hn _ _ _].
  rewrite (clear_entry_ok (S idx) _ f) by (done || lia). cbn [mbind outcome_bind].
  eexists. split; [done|]. split; [done|]. do 2 (split; [done|]). split.
  - apply eq_None_not_Some. intros [j Hj].
    destruct (cleared_resolve st Ht (S idx) f _ j Hj) as [Hj' Hne]. rewrite Hi in Hj'.
    injection Hj' as <-. exfalso. apply Hne; [|done]. intros E. rewrite E in Hi. by injection Hi.
  - intros ws i Hr. by apply (cleared_resolve st Ht (S idx) f ws i) in Hr as [? _].
Qed.

Lemma fs_delete_clears_witness :
  ∃ st', fs_delete (lit "/d") (after_cmds sample) = Ok (0, st') ∧
         file_count st' = 3 ∧ resolve st' [chars "d"] = None.
Proof.
  destruct sample_refines as [Ht _ _].
  pose proof (fs_delete_clears (lit "/d") (chars "/d") _ Ht (lit_str "/d" eq_refl)
    ltac:(compute_decide)) as H.
  assert (resolve (after_cmds sample) [chars "d"] = Some 1%nat) as Hr by (vm_compute; reflexivity).
  change (components (chars "/d")) with [chars "d"] in H. rewrite Hr in H.
  destruct H as (f & st' & _ & Hd & _ & Hc & Hn & _). exists st'. split; [exact Hd|].
  split; [|exact Hn]. rewrite Hc. vm_compute. reflexivity.
Defined.
