(* ===== verification/Terminal.v ===== *)
(** * The terminal: definitions ([src/terminal.c], [src/terminal.h])

    The state of the whole machine the terminal runs on is the static variables
    of [terminal.c] with the states of the screen, the file system and the
    keyboard driver.  The port log is the one of the screen.

    Two parameters stand for what is outside the code: [e], the answers of the
    hardware to port reads, and [hi], the upper half of the 8-byte slot in which
    an [int] argument of [vga_printf] is passed, which the calling convention
    leaves undefined.  [fuel] bounds the polls of the keyboard controller.

    The [exit] command ends in a block of assembly ([Asm]): [execute_command] says
    whether it returns. *)

From S2P Require Import Prelude.
From S2P Require Import CString.
From S2P Require Import Ports.
From S2P Require Import Keyboard.
From S2P Require Import Asm.
From S2P Require Import Vga.
From S2P Require Import VgaFormat.
From S2P Require Import Fs.

Definition TERMINAL_BUFFER_SIZE := 256.
Definition TERMINAL_PROMPT : list Z := lit "FoxOS> ".

(** The static variables; [edit_pos] is [cursor_pos] of the source and
    [current_color] is static in [execute_command]. *)
Record term := Term {
  input_buffer : list Z;
  buffer_pos : Z;
  prompt_length : Z;
  edit_pos : Z;
  current_dir : list Z;
  current_color : Z
}.

Record machine := Machine {
  tm : term;
  screen : vga;
  disk : fs;
  keys : kbd
}.

(** The values before [terminal_init]. *)
Definition term_bss : term :=
  Term (replicate 256 0) 0 0 0 (chars "/" ++ replicate 511 0) VGA_COLOR_LIGHT_GREEN.

Definition set_term (t : term) (m : machine) : machine :=
  Machine t (screen m) (disk m) (keys m).
Definition set_screen (v : vga) (m : machine) : machine :=
  Machine (tm m) v (disk m) (keys m).
Definition set_disk (d : fs) (m : machine) : machine :=
  Machine (tm m) (screen m) d (keys m).
Definition set_line (b : list Z) (n p : Z) (t : term) : term :=
  Term b n (prompt_length t) p (current_dir t) (current_color t).
Definition set_dir (d : list Z) (t : term) : term :=
  Term (input_buffer t) (buffer_pos t) (prompt_length t) (edit_pos t) d (current_color t).
Definition set_cycle (c : Z) (t : term) : term :=
  Term (input_buffer t) (buffer_pos t) (prompt_length t) (edit_pos t) (current_dir t) c.

Definition clear_buffer (t : term) : outcome term :=
  b ← for_range 0 TERMINAL_BUFFER_SIZE (λ i b, arr_set b i 0) (input_buffer t);
  Ok (set_line b 0 0 t).

(** ** The input line *)

Definition update_cursor_position (t : term) (v : vga) : vga :=
  let '(_, y) := vga_get_cursor v in
  let new_x := Z.rem (prompt_length t + edit_pos t) VGA_WIDTH in
  let new_y := y - Z.quot (prompt_length t + buffer_pos t) VGA_WIDTH
                 + Z.quot (prompt_length t + edit_pos t) VGA_WIDTH in
  vga_set_cursor new_x new_y v.

Definition redraw_input_line (t : term) (v : vga) : outcome vga :=
  let '(_, y0) := vga_get_cursor v in
  let y := y0 - Z.quot (prompt_length t + buffer_pos t) VGA_WIDTH in
  let x := Z.rem (prompt_length t) VGA_WIDTH in
  v1 ← for_range 0 (buffer_pos t + 1) (λ _ w, vga_putchar 32 w) (vga_set_cursor x y v);
  v2 ← for_range 0 (buffer_pos t)
         (λ i w, c ← arr_get (input_buffer t) i; vga_putchar c w) (vga_set_cursor x y v1);
  Ok (update_cursor_position t v2).

(** ** Arguments and paths *)

(** [while ( *cmd && *cmd != ' ') cmd++;] *)
Fixpoint skip_name (cmd : list Z) : outcome (list Z) :=
  match cmd with
  | [] => Fault OutOfBounds
  | c :: cmd' => if negb (c =? 0) && negb (c =? 32) then skip_name cmd' else Ok cmd
  end.

(** [while ( *cmd == ' ') cmd++;] *)
Fixpoint skip_spaces (cmd : list Z) : outcome (list Z) :=
  match cmd with
  | [] => Fault OutOfBounds
  | c :: cmd' => if c =? 32 then skip_spaces cmd' else Ok cmd
  end.

(** [while ( *cmd && *cmd != ' ') *arg1++ = *cmd++;] and the NUL. *)
Fixpoint copy_word (cmd arg : list Z) (k : Z) : outcome (list Z * list Z) :=
  match cmd with
  | [] => Fault OutOfBounds
  | c :: cmd' =>
      if negb (c =? 0) && negb (c =? 32)
      then arg' ← arr_set arg k c; copy_word cmd' arg' (k + 1)
      else arg' ← arr_set arg k 0; Ok (cmd, arg')
  end.

(** [while ( *cmd) *arg2++ = *cmd++;] and the NUL. *)
Fixpoint copy_rest (cmd arg : list Z) (k : Z) : outcome (list Z) :=
  match cmd with
  | [] => Fault OutOfBounds
  | c :: cmd' =>
      if negb (c =? 0) then arg' ← arr_set arg k c; copy_rest cmd' arg' (k + 1)
      else arr_set arg k 0
  end.

Definition parse_args (cmd arg1 arg2 : list Z) : outcome (list Z * list Z) :=
  c1 ← skip_name cmd;
  c2 ← skip_spaces c1;
  '(c3, a1) ← copy_word c2 arg1 0;
  c4 ← skip_spaces c3;
  a2 ← copy_rest c4 arg2 0;
  Ok (a1, a2).

Definition build_path (cwd relative_path full_path : list Z) : outcome (list Z) :=
  r0 ← arr_get relative_path 0;
  if r0 =? chr "/" then strcpy full_path 0 relative_path
  else
    f1 ← strcpy full_path 0 cwd;
    d1 ← arr_get cwd 1;
    f2 ← (if negb (d1 =? 0) then strcat f1 0 (lit "/") else Ok f1);
    strcat f2 0 relative_path.

(** ** Commands *)

(** A format string that ends with a newline. *)
Definition line (s : string) : list Z := chars s ++ [10; 0].

Definition printf (format : list Z) (args : list va_slot) (m : machine) : outcome machine :=
  v ← vga_printf format args (screen m); Ok (set_screen v m).

Fixpoint print_lines (ls : list (list Z)) (m : machine) : outcome machine :=
  match ls with
  | [] => Ok m
  | l :: ls' => m1 ← printf l [] m; print_lines ls' m1
  end.

(** Whether a command returns to [terminal_run]. *)
Inductive flow :=
| Returned (m : machine)
| Stopped (m : machine).

Definition cmd_help (m : machine) : outcome machine :=
  print_lines
    [line "Available commands:";
     line "  help     - Show this help";
     line "  clear    - Clear screen";
     line "  version  - Show version";
     line "  color    - Change text color";
     line "  ls       - List directory contents";
     line "  cd       - Change directory";
     line "  mkdir    - Create directory";
     line "  touch    - Create empty file";
     line "  rm       - Remove file or empty directory";
     line "  pwd      - Print working directory"] m.

Definition cmd_clear (m : machine) : outcome machine :=
  v ← vga_clear (screen m); Ok (set_screen v m).

(** The message and the block of assembly.  The last statement is [return]: the
    command returns if control ever leaves the block.  The fuel is enough for
    [fuel] polls of three instructions each and the other instructions. *)
Definition cmd_exit (e : io_env) (fuel : nat) (m : machine) : outcome flow :=
  m1 ← printf (line "Exiting FoxOS...") [] m;
  '(leaves, c) ← asm_run e (3 * fuel + 16) exit_asm (enter_asm e (ports (screen m1)));
  let m2 := set_screen (set_ports (io c) (screen m1)) m1 in
  Ok (if (leaves : bool) then Returned m2 else Stopped m2).

(** The slot of an [int] argument, and of a 64-bit one. *)
Definition va_of_int (hi : Z → Z) (n : Z) : va_slot := VaWord (u32 n + 4294967296 * hi n).
Definition va_of_int64 (n : Z) : va_slot := VaWord (u64 n).

Definition cmd_formatting (hi : Z → Z) (m : machine) : outcome machine :=
  m1 ← printf (line "Decimal numbers:") [] m;
  m2 ← printf (line "  Positive: %d") [va_of_int hi 12345] m1;
  m3 ← printf (line "  Negative: %d") [va_of_int hi (-9876)] m2;
  m4 ← printf (line "  Zero: %d") [va_of_int hi 0] m3;
  m5 ← printf (line "  Large Positive: %d") [va_of_int hi 2147483647] m4;
  m6 ← printf (line "  Large Negative: %d") [va_of_int64 (-2147483648)] m5;
  m7 ← printf (line "  Very Large: %lld") [va_of_int64 9223372036854775807] m6;
  m8 ← printf (chars "  Very Large Negative: %lld" ++ [10; 10; 0])
         [va_of_int64 (-9223372036854775808)] m7;
  m9 ← printf (line "Other formats:") [] m8;
  m10 ← printf (line "  Hexadecimal: %x") [va_of_int hi 0xDEADBEEF] m9;
  m11 ← printf (line "  Binary: %b") [va_of_int hi 86] m10;
  m12 ← printf (line "  Character: %c") [va_of_int hi 65] m11;
  m13 ← printf (line "  String: %s") [VaPtr (lit "Hello, World!")] m12;
  printf (chars "  Mixed: Dec=%d, Hex=%x" ++ [10; 10; 0])
    [va_of_int hi 123; va_of_int hi 123] m13.

Definition color_text (color : Z) (format : list Z) (m : machine) : outcome machine :=
  printf format [] (set_screen (vga_set_color color VGA_COLOR_BLACK (screen m)) m).

Definition cmd_colors (m : machine) : outcome machine :=
  m0 ← printf (10 :: line "Available colors:") [] m;
  m1 ← color_text VGA_COLOR_LIGHT_RED (lit "RED ") m0;
  m2 ← color_text VGA_COLOR_LIGHT_GREEN (lit "GREEN ") m1;
  m3 ← color_text VGA_COLOR_LIGHT_BLUE (lit "BLUE ") m2;
  m4 ← color_text VGA_COLOR_LIGHT_CYAN (lit "CYAN ") m3;
  m5 ← color_text VGA_COLOR_LIGHT_MAGENTA (lit "MAGENTA ") m4;
  m6 ← color_text VGA_COLOR_BROWN (lit "BROWN ") m5;
  color_text VGA_COLOR_WHITE (line "WHITE") m6.

Definition cmd_color (m : machine) : machine :=
  let c := u8 (Z.rem (current_color (tm m) + 1) 16) in
  set_screen (vga_set_color c VGA_COLOR_BLACK (screen m)) (set_term (set_cycle c (tm m)) m).

(** [char arg1[MAX_FILENAME] = {0}], [char full_path[MAX_FILENAME * 2] = {0}] *)
Definition name_buf : list Z := replicate 256 0.
Definition path_buf : list Z := replicate 512 0.

Definition cmd_ls (m : machine) : outcome machine :=
  let t := tm m in
  '(arg1, _) ← parse_args (input_buffer t) name_buf name_buf;
  a0 ← arr_get arg1 0;
  here ← (if a0 =? 0 then Ok true else r ← strcmp arg1 (lit "."); Ok (r =? 0));
  full_path ← (if (here : bool) then strcpy path_buf 0 (current_dir t)
               else build_path (current_dir t) arg1 path_buf);
  '(count, list_buffer) ← fs_list_dir full_path (replicate (Z.to_nat 66048) 0) 66048 (disk m);
  if count <? 0 then printf (line "Error: Cannot list directory") [] m
  else printf (lit "%s") [VaPtr list_buffer] m.

(** The test [dir && dir->type == FILE_TYPE_DIR] of the [cd] command. *)
Definition is_directory (dir : option Z) (d : fs) : outcome bool :=
  match dir with
  | None => Ok false
  | Some i => f ← arr_get (files d) i; Ok (bool_decide (ftype f = FILE_TYPE_DIR))
  end.

Definition cmd_cd (m : machine) : outcome machine :=
  let t := tm m in
  '(arg1, _) ← parse_args (input_buffer t) name_buf name_buf;
  a0 ← arr_get arg1 0;
  if a0 =? 0 then d ← strcpy (current_dir t) 0 (lit "/"); Ok (set_term (set_dir d t) m)
  else
    full_path ← build_path (current_dir t) arg1 path_buf;
    dir ← fs_get_file full_path (disk m);
    b ← is_directory dir (disk m);
    if (b : bool) then d ← strcpy (current_dir t) 0 full_path; Ok (set_term (set_dir d t) m)
    else printf (line "Error: Directory not found") [] m.

Definition cmd_mkdir (m : machine) : outcome machine :=
  let t := tm m in
  '(arg1, _) ← parse_args (input_buffer t) name_buf name_buf;
  a0 ← arr_get arg1 0;
  if a0 =? 0 then printf (line "Error: Directory name required") [] m
  else
    full_path ← build_path (current_dir t) arg1 path_buf;
    '(r, d) ← fs_mkdir full_path (disk m);
    if r <? 0 then printf (line "Error: Cannot create directory") [] (set_disk d m)
    else Ok (set_disk d m).

Definition cmd_touch (m : machine) : outcome machine :=
  let t := tm m in
  '(arg1, _) ← parse_args (input_buffer t) name_buf name_buf;
  a0 ← arr_get arg1 0;
  if a0 =? 0 then printf (line "Error: File name required") [] m
  else
    full_path ← build_path (current_dir t) arg1 path_buf;
    last_slash ← last_slash_loop full_path 0 0;
    p1 ← strncpy path_buf 0 full_path last_slash;
    c0 ← arr_get p1 0;
    parent_path ← (if c0 =? 0 then strcpy p1 0 (lit "/") else Ok p1);
    parent_index ← fs_parse_path parent_path (disk m);
    if 0 <=? parent_index then
      '(r, d) ← fs_create_file (drop (Z.to_nat (last_slash + 1)) full_path)
                  FILE_TYPE_FILE parent_index (disk m);
      if r <? 0 then printf (line "Error: Cannot create file") [] (set_disk d m)
      else Ok (set_disk d m)
    else printf (line "Error: Invalid path") [] m.

Definition cmd_rm (m : machine) : outcome machine :=
  let t := tm m in
  '(arg1, _) ← parse_args (input_buffer t) name_buf name_buf;
  a0 ← arr_get arg1 0;
  if a0 =? 0 then printf (line "Error: File/directory name required") [] m
  else
    full_path ← build_path (current_dir t) arg1 path_buf;
    '(r, d) ← fs_delete_file full_path (disk m);
    if r <? 0 then printf (line "Error: Cannot remove file/directory") [] (set_disk d m)
    else Ok (set_disk d m).

(** [if (strcmp(input_buffer, s) == 0) a else b], and with [strncmp]. *)
Definition on_word (s : string) (t : term) {A} (a b : outcome A) : outcome A :=
  r ← strcmp (input_buffer t) (lit s); if r =? 0 then a else b.
Definition on_prefix (s : string) (n : Z) (t : term) {A} (a b : outcome A) : outcome A :=
  r ← strncmp (input_buffer t) (lit s) n; if r =? 0 then a else b.

Definition execute_command (e : io_env) (hi : Z → Z) (fuel : nat) (m0 : machine)
  : outcome flow :=
  if buffer_pos (tm m0) =? 0 then Ok (Returned m0)
  else
    b ← arr_set (input_buffer (tm m0)) (buffer_pos (tm m0)) 0;
    let t := set_line b (buffer_pos (tm m0)) (edit_pos (tm m0)) (tm m0) in
    let m := set_term t m0 in
    on_word "help" t (Returned <$> cmd_help m) (
    on_word "clear" t (Returned <$> cmd_clear m) (
    on_word "exit" t (cmd_exit e fuel m) (
    on_word "test-formatting" t (Returned <$> cmd_formatting hi m) (
    on_word "test-colors" t (Returned <$> cmd_colors m) (
    on_word "version" t (Returned <$> printf (line "FoxOS v0.1") [] m) (
    on_word "color" t (Ok (Returned (cmd_color m))) (
    on_word "pwd" t (Returned <$> printf (line "%s") [VaPtr (current_dir t)] m) (
    on_prefix "ls" 2 t (Returned <$> cmd_ls m) (
    on_prefix "cd" 2 t (Returned <$> cmd_cd m) (
    on_prefix "mkdir" 5 t (Returned <$> cmd_mkdir m) (
    on_prefix "touch" 5 t (Returned <$> cmd_touch m) (
    on_prefix "rm" 2 t (Returned <$> cmd_rm m) (
    Returned <$> printf (line "Unknown command: %s") [VaPtr (input_buffer t)] m))))))))))))).

(** ** The terminal *)

Definition terminal_init (e : io_env) (fuel : nat) (m : machine) : outcome machine :=
  h ← keyboard_init e fuel (ports (screen m));
  d ← fs_init (disk m);
  t ← clear_buffer (tm m);
  let t' := Term (input_buffer t) (buffer_pos t) (Z.of_nat (length TERMINAL_PROMPT) - 1)
              (edit_pos t) (current_dir t) (current_color t) in
  printf TERMINAL_PROMPT [] (Machine t' (set_ports h (screen m)) d (keys m)).

(** [for (i = lo; i < buffer_pos - 1; i++) input_buffer[i] = input_buffer[i + 1];] *)
Definition shift_left (lo : Z) (t : term) : outcome (list Z) :=
  for_range lo (buffer_pos t - 1) (λ i b, c ← arr_get b (i + 1); arr_set b i c) (input_buffer t).

(** [for (i = buffer_pos; i > cursor_pos; i--) input_buffer[i] = input_buffer[i - 1];] *)
Definition shift_right (t : term) : outcome (list Z) :=
  for_range 0 (buffer_pos t - edit_pos t)
    (λ k b, let i := buffer_pos t - k in c ← arr_get b (i - 1); arr_set b i c) (input_buffer t).

(** Redraw after a change of the line. *)
Definition redraw (t : term) (m : machine) : outcome flow :=
  v ← redraw_input_line t (screen m); Ok (Returned (set_screen v (set_term t m))).

(** [terminal_run] after [keyboard_read] returned [c]. *)
Definition terminal_key (e : io_env) (hi : Z → Z) (fuel : nat) (c : Z) (m : machine)
  : outcome flow :=
  let t := tm m in
  let moved p := let t' := set_line (input_buffer t) (buffer_pos t) p t in
    Ok (Returned (set_screen (update_cursor_position t' (screen m)) (set_term t' m))) in
  if c =? 0 then Ok (Returned m)
  else if c =? CHAR_LEFT then
    if 0 <? edit_pos t then moved (edit_pos t - 1) else Ok (Returned m)
  else if c =? CHAR_RIGHT then
    if edit_pos t <? buffer_pos t then moved (edit_pos t + 1) else Ok (Returned m)
  else if c =? CHAR_DEL then
    if edit_pos t <? buffer_pos t then
      b ← shift_left (edit_pos t) t;
      b' ← arr_set b (buffer_pos t - 1) 0;
      redraw (set_line b' (buffer_pos t - 1) (edit_pos t) t) m
    else Ok (Returned m)
  else if c =? 10 then
    v ← vga_putchar 10 (screen m);
    r ← execute_command e hi fuel (set_screen v m);
    match r with
    | Stopped m1 => Ok (Stopped m1)
    | Returned m1 =>
        t1 ← clear_buffer (tm m1);
        m2 ← printf TERMINAL_PROMPT [] (set_term t1 m1);
        Ok (Returned m2)
    end
  else if c =? 8 then
    if 0 <? edit_pos t then
      b ← shift_left (edit_pos t - 1) t;
      b' ← arr_set b (buffer_pos t - 1) 0;
      redraw (set_line b' (buffer_pos t - 1) (edit_pos t - 1) t) m
    else Ok (Returned m)
  else if (buffer_pos t <? TERMINAL_BUFFER_SIZE - 1) && (32 <=? c) && (c <=? 126) then
    b ← shift_right t;
    b' ← arr_set b (edit_pos t) c;
    redraw (set_line b' (buffer_pos t + 1) (edit_pos t + 1) t) m
  else Ok (Returned m).

Definition terminal_run (e : io_env) (hi : Z → Z) (fuel : nat) (m : machine) : outcome flow :=
  '(c, k, h) ← keyboard_read e fuel (keys m) (ports (screen m));
  terminal_key e hi fuel c (Machine (tm m) (set_ports h (screen m)) (disk m) k).
