(* ===== verification/TermEdit.v ===== *)
(** * The line editor of the terminal

    The keys that edit the input line of [src/terminal.c] against a zipper: the
    text before the cursor, nearest character first, and the text after it.
    While the prompt and the line fit one row of the screen, every key does to
    the buffer what it does to the zipper and the screen shows the line; the
    73rd character of a line is drawn one row too high. *)

From S2P Require Import Prelude.
From S2P Require Import CString.
From S2P Require Import Ports.
From S2P Require Import Keyboard.
From S2P Require Import Vga.
From S2P Require Import VgaFormat.
From S2P Require Import Fs.
From S2P Require Import Terminal.

(** ** Specifications *)

Abbreviation zipper := (list Z * list Z)%type.

Definition line_of (z : zipper) : list Z := rev (fst z) ++ snd z.

Definition typeable (c : Z) : bool := (32 <=? c) && (c <=? 126).

(** One key other than Enter. *)
Definition edit (c : Z) (z : zipper) : zipper :=
  let '(b, a) := z in
  if c =? CHAR_LEFT then match b with x :: b' => (b', x :: a) | [] => z end
  else if c =? CHAR_RIGHT then match a with x :: a' => (x :: b, a') | [] => z end
  else if c =? CHAR_DEL then (b, tail a)
  else if c =? 8 then (tail b, a)
  else if typeable c && (Z.of_nat (length (line_of z)) <? 255) then (c :: b, a)
  else z.

(** The static variables hold the zipper. *)
Record edits (t : term) (z : zipper) : Prop := {
  ed_buffer : input_buffer t = line_of z ++ replicate (256 - length (line_of z)) 0;
  ed_pos : buffer_pos t = Z.of_nat (length (line_of z));
  ed_cursor : edit_pos t = Z.of_nat (length (fst z));
  ed_fits : (length (line_of z) ≤ 255)%nat;
  ed_chars : Forall (λ c, typeable c = true) (line_of z);
  ed_prompt : prompt_length t = 7
}.

(** The screen is well-formed and its cursor is on row [y], behind the prompt
    and the text before the cursor of the line. *)
Record shows (v : vga) (z : zipper) (y : Z) : Prop := {
  sh_wf : vga_wf v;
  sh_x : cursor_x v = 7 + Z.of_nat (length (fst z));
  sh_y : cursor_y v = y
}.

(** The cells of a text in the current colour. *)
Definition cells (v : vga) (s : list Z) : list Z := map (λ c, vga_entry c (vga_color v)) s.

(** Where the line starts in the page. *)
Definition line_start (y : Z) : nat := Z.to_nat (y * VGA_WIDTH + 7).

(** ** The shifting loops *)

Lemma arr_get_app {A} (l : list A) x l' n :
  n = Z.of_nat (length l) → arr_get (l ++ x :: l') n = Ok x.
Proof. intros ->. apply arr_get_lookup. by apply list_lookup_middle. Qed.

Lemma arr_set_app {A} (l : list A) x y l' n :
  n = Z.of_nat (length l) → arr_set (l ++ x :: l') n y = Ok (l ++ y :: l').
Proof.
  intros ->. rewrite arr_set_in by (rewrite length_app; simpl; lia).
  by rewrite Nat2Z.id, insert_app_r_alt, Nat.sub_diag by lia.
Qed.

Lemma shift_left_loop (pre : list Z) x mid rest lo :
  lo = Z.of_nat (length pre) →
  ∃ w, for_up (length mid) lo (λ i b, c ← arr_get b (i + 1); arr_set b i c)
         (pre ++ x :: mid ++ rest) = Ok (pre ++ mid ++ w :: rest).
Proof.
  revert pre x lo. induction mid as [|y mid IH]; intros pre x lo Hlo; [by exists x|].
  cbn [for_up length app].
  replace (pre ++ x :: y :: mid ++ rest) with ((pre ++ [x]) ++ y :: mid ++ rest)
    by (by rewrite <-app_assoc).
  rewrite arr_get_app by (rewrite length_app; simpl; lia). cbn [mbind outcome_bind].
  rewrite <-app_assoc. cbn [app]. rewrite arr_set_app by done. cbn [mbind outcome_bind].
  destruct (IH (pre ++ [y]) y (lo + 1)) as (w & Hw); [rewrite length_app; simpl; lia|].
  exists w. rewrite <-!app_assoc in Hw. exact Hw.
Qed.

Lemma shift_right_loop (pre mid : list Z) z rest n k :
  n - k = Z.of_nat (length pre + length mid) →
  ∃ w, for_up (length mid) k (λ k b, c ← arr_get b (n - k - 1); arr_set b (n - k) c)
         (pre ++ mid ++ z :: rest) = Ok (pre ++ w :: mid ++ rest).
Proof.
  revert z rest k. induction mid as [|y mid IH] using rev_ind; intros z rest k Hk; [by exists z|].
  rewrite length_app in Hk |- *. rewrite Nat.add_comm. simpl in Hk. cbn [for_up length Nat.add].
  replace (pre ++ (mid ++ [y]) ++ z :: rest) with ((pre ++ mid) ++ y :: z :: rest)
    by (by rewrite <-!app_assoc).
  rewrite arr_get_app by (rewrite length_app; lia). cbn [mbind outcome_bind].
  replace ((pre ++ mid) ++ y :: z :: rest) with ((pre ++ mid ++ [y]) ++ z :: rest)
    by (by rewrite <-!app_assoc).
  rewrite arr_set_app by (rewrite !length_app; simpl; lia). cbn [mbind outcome_bind].
  destruct (IH y (y :: rest) (k + 1)) as (w & Hw); [lia|].
  exists w. rewrite <-!app_assoc. exact Hw.
Qed.

(** Removing the character [x] after the text [pre]. *)
Lemma remove_char t (pre : list Z) x mid lo :
  input_buffer t = (pre ++ x :: mid) ++ replicate (256 - length (pre ++ x :: mid)) 0 →
  buffer_pos t = Z.of_nat (length (pre ++ x :: mid)) → lo = Z.of_nat (length pre) →
  (length (pre ++ x :: mid) ≤ 255)%nat →
  (b ← shift_left lo t; arr_set b (buffer_pos t - 1) 0)
  = Ok ((pre ++ mid) ++ replicate (256 - length (pre ++ mid)) 0).
Proof.
  intros Hb Hp -> Hl. unfold shift_left, for_range. rewrite Hb, Hp.
  rewrite length_app in Hl |- *. simpl in Hl |- *.
  replace (Z.to_nat _) with (length mid) by lia.
  rewrite <-app_assoc. cbn [app].
  destruct (shift_left_loop pre x mid (replicate (256 - (length pre + S (length mid))) 0)
    (Z.of_nat (length pre)) eq_refl) as (w & ->).
  cbn [mbind outcome_bind]. rewrite app_assoc, arr_set_app by (rewrite length_app; lia).
  rewrite length_app. replace (256 - (length pre + length mid))%nat
    with (S (256 - (length pre + S (length mid)))) by lia. done.
Qed.

(** Inserting [c] between [pre] and [mid]. *)
Lemma insert_char t (pre mid : list Z) c :
  input_buffer t = (pre ++ mid) ++ replicate (256 - length (pre ++ mid)) 0 →
  buffer_pos t = Z.of_nat (length (pre ++ mid)) → edit_pos t = Z.of_nat (length pre) →
  (length (pre ++ mid) < 255)%nat →
  (b ← shift_right t; arr_set b (edit_pos t) c)
  = Ok ((pre ++ c :: mid) ++ replicate (256 - length (pre ++ c :: mid)) 0).
Proof.
  intros Hb Hp He Hl. unfold shift_right, for_range. rewrite Hb, Hp, He.
  rewrite length_app in Hl |- *. rewrite length_app. simpl.
  replace (Z.to_nat _) with (length mid) by lia.
  replace (256 - (length pre + length mid))%nat
    with (S (256 - (length pre + S (length mid)))) by lia.
  rewrite <-!app_assoc. cbn [replicate].
  destruct (shift_right_loop pre mid 0 (replicate (256 - (length pre + S (length mid))) 0)
    (Z.of_nat (length pre + length mid)) 0) as (w & ->); [lia|].
  cbn [mbind outcome_bind]. by rewrite arr_set_app.
Qed.

(** ** Drawing *)

Lemma for_up_emit (cs pre post : list Z) v :
  for_up (length cs) (Z.of_nat (length pre))
    (λ i w, c ← arr_get (pre ++ cs ++ post) i; vga_putchar c w) v = emit cs v.
Proof.
  revert pre v. induction cs as [|c cs IH]; intros pre v; [done|]. cbn [length for_up emit app].
  rewrite arr_get_app by done. cbn [mbind outcome_bind].
  destruct (vga_putchar c v) as [w|]; [|done]. cbn [mbind outcome_bind].
  rewrite <-(IH (pre ++ [c])). rewrite length_app, <-app_assoc. simpl.
  by replace (Z.of_nat (length pre) + 1) with (Z.of_nat (length pre + 1)) by lia.
Qed.

Lemma draw_buffer (cs post : list Z) n v :
  n = Z.of_nat (length cs) →
  for_range 0 n (λ i w, c ← arr_get (cs ++ post) i; vga_putchar c w) v = emit cs v.
Proof.
  intros ->. unfold for_range. rewrite Z.sub_0_r, Nat2Z.id. apply (for_up_emit cs [] post).
Qed.

Lemma draw_blanks (n : nat) v :
  for_range 0 (Z.of_nat n) (λ _ w, vga_putchar 32 w) v = emit (replicate n 32) v.
Proof.
  unfold for_range. rewrite Z.sub_0_r, Nat2Z.id. generalize 0.
  revert v. induction n as [|n IH]; intros v i; [done|]. cbn [for_up replicate emit].
  destruct (vga_putchar 32 v); [apply IH|done].
Qed.

Lemma splice_over {A} (l a b m : list A) k :
  length m = length a → (k + length a + length b ≤ length l)%nat →
  splice (splice l k (a ++ b)) k m = splice l k (m ++ b).
Proof.
  intros Hm Hl. unfold splice.
  assert (length (take k l) = k) as Hk by (rewrite length_take; lia).
  rewrite take_app_length' by done. rewrite <-(app_assoc m b). do 2 f_equal.
  rewrite <-app_assoc, (app_assoc (take k l) a).
  rewrite drop_app_length' by (rewrite length_app; lia). rewrite !length_app. by rewrite Hm.
Qed.

Lemma printable_ordinary cs : Forall (λ c, typeable c = true) cs → Forall ordinary cs.
Proof.
  apply Forall_impl. intros c Hc. unfold typeable in Hc. zify_bool. unfold ordinary. lia.
Qed.

Lemma cursor_row v y n :
  vga_wf v → cursor_pos v = y * VGA_WIDTH + n → 0 ≤ n < VGA_WIDTH →
  cursor_x v = n ∧ cursor_y v = y.
Proof.
  intros Hwf Hp Hn. destruct (cursor_of_pos v Hwf) as [-> ->]. rewrite Hp.
  unfold VGA_WIDTH in *. rewrite Z.add_comm, Z.mod_add, Z.div_add by lia.
  rewrite Z.mod_small, Z.div_small by lia. lia.
Qed.

(** Redrawing a line that fits its row: the line and one blank are written
    behind the prompt, and the cursor stands at the cursor of the line. *)
Lemma redraw_ok t z v y :
  edits t z → vga_wf v → cursor_y v = y → (length (line_of z) ≤ 71)%nat →
  ∃ w, redraw_input_line t v = Ok w ∧ shows w z y ∧ vga_color w = vga_color v ∧
       vga_buffer w = splice (vga_buffer v) (line_start y) (cells v (line_of z ++ [32])).
Proof.
  intros [Hb Hp He _ Hch Hpr] Hwf Hy Hl. pose proof Hwf as [Hlen _ _ _ Hyr].
  set (n := length (line_of z)) in *.
  assert (length (fst z) ≤ n)%nat as Hz by (unfold n, line_of; rewrite length_app, length_rev; lia).
  unfold redraw_input_line, vga_get_cursor. rewrite Hpr, Hp, Hy.
  rewrite Z.quot_small by (unfold VGA_WIDTH; lia). rewrite Z.sub_0_r.
  change (Z.rem 7 VGA_WIDTH) with 7.
  assert (∀ u, vga_wf u → vga_wf (vga_set_cursor 7 y u) ∧
    cursor_pos (vga_set_cursor 7 y u) = y * VGA_WIDTH + 7) as Hset.
  { intros u Hu. split; [|done]. rewrite Hy in Hyr.
    by apply (set_cursor_synced u 7 y Hu); [unfold VGA_WIDTH; lia|]. }
  destruct (Hset v Hwf) as [Hv1 Hc1].
  replace (Z.of_nat n + 1) with (Z.of_nat (n + 1)) by lia. rewrite draw_blanks.
  destruct (emit_text (replicate (n + 1) 32) (vga_set_cursor 7 y v) Hv1)
    as (w1 & -> & Hw1 & Hcol1 & Hb1 & _).
  { apply Forall_replicate. unfold ordinary. lia. }
  { rewrite Hc1, length_replicate. unfold VGA_WIDTH, VGA_HEIGHT in *. lia. }
  cbn [mbind outcome_bind]. rewrite Hb, draw_buffer by done.
  destruct (Hset w1 Hw1) as [Hv2 Hc2].
  destruct (emit_text (line_of z) (vga_set_cursor 7 y w1) Hv2)
    as (w2 & -> & Hw2 & Hcol2 & Hb2 & Hc3).
  { by apply printable_ordinary. }
  { rewrite Hc2. unfold VGA_WIDTH, VGA_HEIGHT in *. lia. }
  cbn [mbind outcome_bind]. eexists. split; [done|].
  rewrite Hc2 in Hc3. fold n in Hc3.
  destruct (cursor_row w2 y (7 + Z.of_nat n)) as [Hx2 Hy2]; [done|lia|unfold VGA_WIDTH; lia|].
  unfold update_cursor_position, vga_get_cursor. rewrite Hpr, Hp, He, Hy2.
  rewrite !Z.quot_small, Z.rem_small by (unfold VGA_WIDTH; lia).
  replace (y - 0 + 0) with y by lia. split; [|split].
  - split; [|done|done]. rewrite Hy in Hyr.
    apply (set_cursor_synced w2); [done|unfold VGA_WIDTH; lia|done].
  - simpl. rewrite Hcol2. simpl. by rewrite Hcol1.
  - simpl. rewrite Hb2. simpl. rewrite Hb1, Hc2, Hc1. simpl in Hcol1 |- *. rewrite Hcol1.
    unfold cells, line_start. rewrite replicate_add, map_app.
    rewrite splice_over.
    + by rewrite map_app.
    + by rewrite !length_map, length_replicate.
    + rewrite !length_map, !length_replicate, Hlen. unfold VGA_WIDTH, VGA_HEIGHT in *. simpl. lia.
Qed.

(** ** Keys *)

(** What a key leaves: the zipper [z'] in the variables and on the screen, the
    rest of the machine as it was. *)
Record keyed (m : machine) (z z' : zipper) (y : Z) (m' : machine) : Prop := {
  kd_edits : edits (tm m') z';
  kd_shows : shows (screen m') z' y;
  kd_color : vga_color (screen m') = vga_color (screen m);
  kd_buffer : vga_buffer (screen m') =
    if decide (line_of z' = line_of z) then vga_buffer (screen m)
    else splice (vga_buffer (screen m)) (line_start y) (cells (screen m) (line_of z' ++ [32]));
  kd_disk : disk m' = disk m;
  kd_keys : keys m' = keys m;
  kd_dir : current_dir (tm m') = current_dir (tm m)
}.

Lemma keyed_same m z y : edits (tm m) z → shows (screen m) z y → keyed m z z y m.
Proof. intros He Hs. split; try done. by rewrite decide_True. Qed.

(** The zipper moves, the line stays. *)
Lemma keyed_move m z z' y p :
  edits (tm m) z → shows (screen m) z y → line_of z' = line_of z →
  p = Z.of_nat (length (fst z')) → (length (line_of z) ≤ 71)%nat →
  let t' := set_line (input_buffer (tm m)) (buffer_pos (tm m)) p (tm m) in
  keyed m z z' y
    (set_screen (update_cursor_position t' (screen m)) (set_term t' m)).
Proof.
  intros [Hb Hp He Hf Hc Hpr] [Hwf Hx Hy] Hl -> Hlen t'.
  assert (length (fst z') ≤ length (line_of z))%nat as Hz.
  { rewrite <-Hl. unfold line_of. rewrite length_app, length_rev. lia. }
  pose proof (wf_y _ Hwf) as Hyr.
  assert (update_cursor_position t' (screen m)
    = vga_set_cursor (7 + Z.of_nat (length (fst z'))) y (screen m)) as ->.
  { unfold update_cursor_position, vga_get_cursor. simpl. rewrite Hpr, Hp, Hy.
    rewrite !Z.quot_small, Z.rem_small by (unfold VGA_WIDTH; lia). f_equal. lia. }
  split; try done; [..|simpl; by rewrite decide_True].
  - by split; simpl; rewrite ?Hl.
  - split; [|done|done]. rewrite Hy in Hyr.
    apply (set_cursor_synced (screen m)); [done|unfold VGA_WIDTH; lia|done].
Qed.

(** The line changes and is drawn again. *)
Lemma keyed_redraw m z z' y b n p :
  shows (screen m) z y → line_of z' ≠ line_of z → (length (line_of z') ≤ 71)%nat →
  prompt_length (tm m) = 7 → Forall (λ c, typeable c = true) (line_of z') →
  b = line_of z' ++ replicate (256 - length (line_of z')) 0 →
  n = Z.of_nat (length (line_of z')) → p = Z.of_nat (length (fst z')) →
  ∃ m', redraw (set_line b n p (tm m)) m = Ok (Returned m') ∧ keyed m z z' y m'.
Proof.
  intros [Hwf Hx Hy] Hne Hl Hpr Hch -> -> ->. unfold redraw. set (t' := set_line _ _ _ _).
  assert (edits t' z') as Hed by (split; simpl; done || lia).
  destruct (redraw_ok t' z' (screen m) y Hed Hwf Hy Hl) as (w & -> & Hs & Hc & Hb).
  cbn [mbind outcome_bind]. eexists. split; [done|]. split; simpl; try done.
  by rewrite decide_False.
Qed.

Lemma length_line_ne (l l' : list Z) : length l ≠ length l' → l ≠ l'.
Proof. by intros H ->. Qed.

Section keys.
Context (e : io_env) (hi : Z → Z) (fuel : nat) (m : machine) (b a : list Z) (y : Z).
Context (Hed : edits (tm m) (b, a)) (Hsh : shows (screen m) (b, a) y).
Context (Hl : (length (line_of (b, a)) ≤ 71)%nat).

(** The key [c] does to the machine what it does to the zipper. *)
Definition key_ok (c : Z) : Prop :=
  ∃ m', terminal_key e hi fuel c m = Ok (Returned m') ∧ keyed m (b, a) (edit c (b, a)) y m'.

Lemma line_length (b' a' : list Z) : length (line_of (b', a')) = (length b' + length a')%nat.
Proof. unfold line_of. simpl. by rewrite length_app, length_rev. Qed.

Lemma line_shift x (b' a' : list Z) : line_of (x :: b', a') = line_of (b', x :: a').
Proof. unfold line_of. simpl. by rewrite <-app_assoc. Qed.

Lemma at_end : (edit_pos (tm m) <? buffer_pos (tm m)) = match a with [] => false | _ => true end.
Proof.
  rewrite (ed_cursor _ _ Hed), (ed_pos _ _ Hed), line_length. simpl.
  destruct a; [apply Z.ltb_ge|apply Z.ltb_lt]; simpl; lia.
Qed.

Lemma at_start : (0 <? edit_pos (tm m)) = match b with [] => false | _ => true end.
Proof.
  rewrite (ed_cursor _ _ Hed). simpl. destruct b; [apply Z.ltb_ge|apply Z.ltb_lt]; simpl; lia.
Qed.

Lemma key_left : key_ok CHAR_LEFT.
Proof.
  unfold key_ok, terminal_key. rewrite at_start. pose proof (ed_cursor _ _ Hed) as He. simpl in He |- *.
  destruct b as [|x b']; eexists; (split; [reflexivity|]); [by apply keyed_same|].
  apply keyed_move; [done|done|by rewrite <-line_shift|simpl in *; lia|done].
Qed.

Lemma key_right : key_ok CHAR_RIGHT.
Proof.
  unfold key_ok, terminal_key. rewrite at_end. pose proof (ed_cursor _ _ Hed) as He. simpl in He |- *.
  destruct a as [|x a']; eexists; (split; [reflexivity|]); [by apply keyed_same|].
  apply keyed_move; [done|done|by rewrite line_shift|simpl in *; lia|done].
Qed.

(** Both deletions remove a character [x] of the line. *)
Lemma remove_keyed pre x mid z' lo :
  line_of (b, a) = pre ++ x :: mid → line_of z' = pre ++ mid → lo = Z.of_nat (length pre) →
  ∃ m', (b' ← shift_left lo (tm m);
         b'' ← arr_set b' (buffer_pos (tm m) - 1) 0;
         redraw (set_line b'' (buffer_pos (tm m) - 1) (Z.of_nat (length (fst z'))) (tm m)) m)
        = Ok (Returned m') ∧ keyed m (b, a) z' y m'.
Proof.
  intros Hline Hz' Hlo. destruct Hed as [Hb Hp _ Hf Hch Hpr].
  rewrite Hline in Hb, Hp, Hf, Hch.
  pose proof (remove_char (tm m) pre x mid lo Hb Hp Hlo Hf) as Hr.
  destruct (shift_left lo (tm m)) as [b'|]; [|done]. cbn [mbind outcome_bind] in Hr |- *.
  rewrite Hr. cbn [mbind outcome_bind]. rewrite <-Hz'. rewrite Hline in Hl.
  rewrite length_app in *. simpl in *.
  assert (length (line_of z') = length pre + length mid)%nat as Hlz by (by rewrite Hz', length_app).
  apply keyed_redraw; [exact Hsh|..|exact Hpr| |reflexivity| |reflexivity].
  - rewrite Hline. apply length_line_ne. rewrite Hlz, length_app. simpl. lia.
  - lia.
  - rewrite Hz'. apply Forall_app in Hch as [? [_ ?]%Forall_cons_iff]. by apply Forall_app.
  - lia.
Qed.

Lemma key_del : key_ok CHAR_DEL.
Proof.
  pose proof remove_keyed as Hrem.
  unfold key_ok, terminal_key. rewrite at_end, (ed_cursor _ _ Hed). simpl.
  destruct a as [|x a']; [eexists; (split; [reflexivity|]); by apply keyed_same|].
  apply (Hrem (rev b) x a' (b, a')); [done|done|by rewrite length_rev].
Qed.

Lemma key_backspace : key_ok 8.
Proof.
  pose proof remove_keyed as Hrem.
  unfold key_ok, terminal_key. rewrite at_start. pose proof (ed_cursor _ _ Hed) as He. simpl in He |- *.
  destruct b as [|x b']; [eexists; (split; [reflexivity|]); by apply keyed_same|].
  replace (edit_pos (tm m) - 1) with (Z.of_nat (length b')) by (simpl in He; lia).
  apply (Hrem (rev b') x a (b', a)); [|done|by rewrite length_rev].
  unfold line_of. simpl. by rewrite <-app_assoc.
Qed.

Lemma key_other c :
  c ≠ 10 → c ≠ 0 → c ≠ CHAR_LEFT → c ≠ CHAR_RIGHT → c ≠ CHAR_DEL → c ≠ 8 →
  (length (line_of (edit c (b, a))) ≤ 71)%nat → key_ok c.
Proof.
  intros H10 H0 H1 H2 H3 H8 Hl'. unfold key_ok, terminal_key, edit in *.
  rewrite (proj2 (Z.eqb_neq _ _) H0), (proj2 (Z.eqb_neq _ _) H10) in *.
  rewrite (proj2 (Z.eqb_neq _ _) H1), (proj2 (Z.eqb_neq _ _) H2), (proj2 (Z.eqb_neq _ _) H3),
    (proj2 (Z.eqb_neq _ _) H8) in *.
  pose proof Hed as [Hb Hp He Hf Hch Hpr]. rewrite Hp.
  replace ((Z.of_nat (length (line_of (b, a))) <? TERMINAL_BUFFER_SIZE - 1) && (32 <=? c) && (c <=? 126))
    with (typeable c && (Z.of_nat (length (line_of (b, a))) <? 255))
    by (unfold typeable, TERMINAL_BUFFER_SIZE; simpl;
        destruct (32 <=? c), (c <=? 126), (_ <? _); done).
  destruct (typeable c && (Z.of_nat (length (line_of (b, a))) <? 255)) eqn:E.
  2:{ eexists. split; [done|]. by apply keyed_same. }
  apply andb_true_iff in E as [Hpc _].
  assert (edit_pos (tm m) = Z.of_nat (length (rev b))) as He' by (rewrite length_rev; done).
  pose proof (insert_char (tm m) (rev b) a c Hb Hp He' ltac:(unfold line_of in Hl; simpl in Hl; lia)) as Hi.
  destruct (shift_right (tm m)) as [b'|]; [|done]. cbn [mbind outcome_bind] in Hi |- *.
  rewrite Hi. cbn [mbind outcome_bind].
  assert (line_of (c :: b, a) = rev b ++ c :: a) as Hline by (by rewrite line_shift).
  rewrite <-Hline, He.
  apply keyed_redraw; [exact Hsh|..|exact Hl'|exact Hpr| |reflexivity| |].
  - apply length_line_ne. rewrite !line_length. simpl. lia.
  - rewrite Hline. apply Forall_app in Hch as [? ?]. apply Forall_app. split; [done|by constructor].
  - rewrite !line_length. simpl. lia.
  - simpl. lia.
Qed.

Lemma key_edits c : c ≠ 10 → (length (line_of (edit c (b, a))) ≤ 71)%nat → key_ok c.
Proof.
  intros Hc Hl'.
  destruct (decide (c = CHAR_LEFT)) as [->|]; [apply key_left|].
  destruct (decide (c = CHAR_RIGHT)) as [->|]; [apply key_right|].
  destruct (decide (c = CHAR_DEL)) as [->|]; [apply key_del|].
  destruct (decide (c = 8)) as [->|]; [apply key_backspace|].
  destruct (decide (c = 0)) as [->|]; [|by apply key_other].
  exists m. split; [done|]. by apply keyed_same.
Qed.

End keys.

(** ** Properties *)

(** The row of the screen shows the line and a blank behind it. *)
Definition drawn (v : vga) (z : zipper) (y : Z) : Prop :=
  take (S (length (line_of z))) (drop (line_start y) (vga_buffer v)) = cells v (line_of z ++ [32]).

(** Keys pressed one after the other. *)
Fixpoint press (e : io_env) (hi : Z → Z) (fuel : nat) (cs : list Z) (m : machine) : outcome flow :=
  match cs with
  | [] => Ok (Returned m)
  | c :: cs' =>
      r ← terminal_key e hi fuel c m;
      match r with
      | Returned m1 => press e hi fuel cs' m1
      | Stopped m1 => Ok (Stopped m1)
      end
  end.

(** The line stays short enough for its row after every key. *)
Fixpoint one_row (cs : list Z) (z : zipper) : Prop :=
  (length (line_of z) ≤ 71)%nat ∧
  match cs with
  | [] => True
  | c :: cs' => c ≠ 10 ∧ one_row cs' (edit c z)
  end.

#[global] Instance one_row_dec cs z : Decision (one_row cs z).
Proof. revert z. induction cs; intros z; simpl; apply _. Defined.

Lemma take_drop_splice {A} (l m : list A) k :
  (k + length m ≤ length l)%nat → take (length m) (drop k (splice l k m)) = m.
Proof.
  intros H. unfold splice. rewrite drop_app_length' by (rewrite length_take; lia).
  by rewrite take_app_length.
Qed.

Lemma keyed_drawn m z z' y m' :
  keyed m z z' y m' → vga_wf (screen m) → drawn (screen m) z y → 0 ≤ y < VGA_HEIGHT →
  (length (line_of z') ≤ 71)%nat → drawn (screen m') z' y.
Proof.
  intros [_ _ Hc Hb _ _ _] Hwf Hd Hy Hl. unfold drawn, cells in *. rewrite Hb, Hc.
  case_decide as Heq; [by rewrite Heq|].
  replace (S (length (line_of z')))
    with (length (map (λ c, vga_entry c (vga_color (screen m))) (line_of z' ++ [32])))
    by (rewrite length_map, length_app; simpl; lia).
  apply take_drop_splice. rewrite length_map, length_app, (wf_length _ Hwf).
  unfold line_start, VGA_WIDTH, VGA_HEIGHT in *. simpl. lia.
Qed.

(** C5: The line editor.  As long as prompt and line fit one row, pressing any
    sequence of keys other than Enter never faults, and afterwards the input
    buffer holds the line of the zipper the keys build (left, right, delete,
    backspace, insertion of typeable characters, everything else ignored)
    padded with NULs, the row of the screen shows that line, and the cursor
    stands behind the prompt at the position of the zipper. *)
Theorem terminal_edits_line e hi fuel cs m z y :
  edits (tm m) z → shows (screen m) z y → drawn (screen m) z y → one_row cs z →
  ∃ m', press e hi fuel cs m = Ok (Returned m') ∧
    let z' := fold_left (λ z c, edit c z) cs z in
    edits (tm m') z' ∧ shows (screen m') z' y ∧ drawn (screen m') z' y ∧ disk m' = disk m.
Proof.
  revert m z. induction cs as [|c cs IH]; intros m z Hed Hsh Hd Hrow; [by exists m|].
  destruct Hrow as (Hl & Hc & Hrow). destruct z as [b a].
  assert (length (line_of (edit c (b, a))) ≤ 71)%nat as Hl' by (destruct cs; apply Hrow).
  destruct (key_edits e hi fuel m b a y Hed Hsh Hl c Hc Hl') as (m1 & Hk & Hkd).
  pose proof (wf_y _ (sh_wf _ _ _ Hsh)) as Hy. rewrite (sh_y _ _ _ Hsh) in Hy.
  pose proof (keyed_drawn _ _ _ _ _ Hkd (sh_wf _ _ _ Hsh) Hd Hy Hl') as Hd1.
  destruct (IH m1 (edit c (b, a)) (kd_edits _ _ _ _ _ Hkd) (kd_shows _ _ _ _ _ Hkd) Hd1 Hrow)
    as (m' & Hp & H1 & H2 & H3 & H4).
  exists m'. cbn [press]. rewrite Hk. cbn [mbind outcome_bind]. split; [exact Hp|].
  cbn [fold_left]. do 3 (split; [done|]). rewrite H4. apply (kd_disk _ _ _ _ _ Hkd).
Qed.

(** A terminal with the prompt on row [y] and an empty line. *)
Definition at_prompt (y : Z) : machine :=
  Machine (Term (replicate 256 0) 0 7 0 (chars "/" ++ replicate 511 0) VGA_COLOR_LIGHT_GREEN)
    (Vga (replicate 2000 0x720) 7 y 7 []) fs_bss kbd0.

Lemma at_prompt_edits y : edits (tm (at_prompt y)) ([], []).
Proof. split; simpl; (done || lia || constructor). Qed.

Lemma at_prompt_shows y : 0 ≤ y < VGA_HEIGHT → shows (screen (at_prompt y)) ([], []) y.
Proof.
  intros Hy. split; [|done|done].
  split; unfold at_prompt; cbn [screen vga_buffer vga_color cursor_x cursor_y];
    [done| |lia|unfold VGA_WIDTH; lia|done].
  apply Forall_replicate. lia.
Qed.

Lemma terminal_edits_line_witness :
  ∃ m', press (devices (λ _ _, 0)) (λ _, 0) 1 (chars "lx" ++ [CHAR_LEFT; CHAR_DEL; chr "s"; 8; chr "s"])
          (at_prompt 3) = Ok (Returned m') ∧
        edits (tm m') ([chr "s"; chr "l"], []) ∧ shows (screen m') ([chr "s"; chr "l"], []) 3 ∧
        drawn (screen m') ([chr "s"; chr "l"], []) 3 ∧ disk m' = fs_bss.
Proof.
  destruct (terminal_edits_line (devices (λ _ _, 0)) (λ _, 0) 1
    (chars "lx" ++ [CHAR_LEFT; CHAR_DEL; chr "s"; 8; chr "s"]) (at_prompt 3) ([], []) 3
    (at_prompt_edits 3) (at_prompt_shows 3 ltac:(unfold VGA_HEIGHT; lia)) ltac:(vm_compute; reflexivity)
    ltac:(apply (bool_decide_eq_true_1 _); vm_compute; reflexivity)) as (m' & Hp & H).
  exists m'. split; [exact Hp|exact H].
Defined.

Lemma putchar_above v :
  vga_putchar 32 (vga_set_cursor 7 (-1) v) = Fault OutOfBounds.
Proof. done. Qed.

(** C34: A line of 72 characters with the prompt on the first row of the screen:
    the next character makes [redraw_input_line] compute row -1, and the first
    blank it prints is stored outside the page of the screen. *)
Theorem terminal_long_line_faults e hi fuel c b m :
  edits (tm m) (b, []) → length b = 72%nat → cursor_y (screen m) = 0 →
  length (vga_buffer (screen m)) = 2000%nat → typeable c = true →
  terminal_key e hi fuel c m = Fault OutOfBounds.
Proof.
  intros [Hb Hp He _ _ Hpr] Hl Hy Hv Hc. unfold line_of in *. simpl in *. rewrite app_nil_r in *.
  assert (length (rev b) = 72%nat) as Hlr by (by rewrite length_rev).
  pose proof (insert_char (tm m) (rev b) [] c) as Hi. rewrite !app_nil_r in Hi.
  specialize (Hi Hb Hp ltac:(by rewrite length_rev) ltac:(lia)).
  unfold typeable in Hc. apply andb_true_iff in Hc as [Hc1 Hc2]. unfold terminal_key.
  rewrite Hc1, Hc2, Hp, Hlr. zify_bool.
  rewrite !(proj2 (Z.eqb_neq _ _)) by (unfold CHAR_LEFT, CHAR_RIGHT, CHAR_DEL; lia).
  change (_ && true && true) with true. cbn iota.
  destruct (shift_right (tm m)) as [b'|]; [|done]. cbn [mbind outcome_bind] in Hi |- *.
  rewrite Hi. cbn [mbind outcome_bind]. unfold redraw, redraw_input_line, vga_get_cursor.
  cbn [set_line prompt_length buffer_pos]. rewrite Hpr, Hy.
  change (Z.rem 7 VGA_WIDTH) with 7.
  change (0 - Z.quot (7 + (Z.of_nat 72 + 1)) VGA_WIDTH) with (-1).
  unfold for_range. change (Z.to_nat (Z.of_nat 72 + 1 + 1 - 0)) with (S 73).
  cbn [for_up]. by rewrite putchar_above.
Qed.

(** A terminal on the first row with a line of 72 characters. *)
Definition full_row : machine :=
  Machine (Term (replicate 72 (chr "x") ++ replicate 184 0) 72 7 72 (chars "/" ++ replicate 511 0)
             VGA_COLOR_LIGHT_GREEN)
    (Vga (replicate 2000 0x720) 79 0 7 []) fs_bss kbd0.

Lemma terminal_long_line_faults_witness :
  terminal_key (devices (λ _ _, 0)) (λ _, 0) 1 (chr "x") full_row = Fault OutOfBounds.
Proof.
  apply (terminal_long_line_faults _ _ _ _ (replicate 72 (chr "x")));
    [split|..]; vm_compute; try reflexivity; [lia|].
  repeat constructor.
Defined.
