(* ===== verification/TermShell.v ===== *)
(** * The commands of the terminal: arguments, paths, dispatch

    [parse_args], [build_path] and [execute_command] of [src/terminal.c] against
    functions on texts. *)

From S2P Require Import Prelude.
From S2P Require Import CString.
From S2P Require Import Ports.
From S2P Require Import Keyboard.
From S2P Require Import Vga.
From S2P Require Import VgaFormat.
From S2P Require Import Fs.
From S2P Require Import FsPath.
From S2P Require Import FsOps.
From S2P Require Import Terminal.

(** ** Specifications *)

Fixpoint take_word (s : list Z) : list Z :=
  match s with
  | [] => []
  | c :: s' => if c =? 32 then [] else c :: take_word s'
  end.

Fixpoint drop_word (s : list Z) : list Z :=
  match s with
  | [] => []
  | c :: s' => if c =? 32 then s else drop_word s'
  end.

Fixpoint drop_spaces (s : list Z) : list Z :=
  match s with
  | [] => []
  | c :: s' => if c =? 32 then drop_spaces s' else s
  end.

(** The first argument of a command line, and the rest behind it. *)
Definition first_arg (s : list Z) : list Z := take_word (drop_spaces (drop_word s)).
Definition rest_args (s : list Z) : list Z :=
  drop_spaces (drop_word (drop_spaces (drop_word s))).

(** The path a word stands for in directory [d]. *)
Definition path_text (d w : list Z) : list Z :=
  match w with
  | c :: _ => if c =? chr "/" then w
              else match d with
                   | _ :: _ :: _ => d ++ chars "/" ++ w
                   | _ => d ++ w
                   end
  | [] => match d with _ :: _ :: _ => d ++ chars "/" | _ => d end
  end.

(** The commands, and which one a line selects. *)
Inductive command :=
| CmdHelp | CmdClear | CmdExit | CmdFormatting | CmdColors | CmdVersion | CmdColor | CmdPwd
| CmdLs | CmdCd | CmdMkdir | CmdTouch | CmdRm | CmdUnknown.

#[global] Instance command_eq_dec : EqDecision command.
Proof. solve_decision. Defined.

Definition words : list (string * command) :=
  [("help", CmdHelp); ("clear", CmdClear); ("exit", CmdExit);
   ("test-formatting", CmdFormatting); ("test-colors", CmdColors);
   ("version", CmdVersion); ("color", CmdColor); ("pwd", CmdPwd)]%string.

Definition prefixes : list (string * command) :=
  [("ls", CmdLs); ("cd", CmdCd); ("mkdir", CmdMkdir); ("touch", CmdTouch); ("rm", CmdRm)]%string.

Fixpoint by_prefix (s : list Z) (cs : list (string * command)) : command :=
  match cs with
  | [] => CmdUnknown
  | (w, c) :: cs' => if decide (chars w `prefix_of` s) then c else by_prefix s cs'
  end.

Fixpoint by_word (s : list Z) (cs : list (string * command)) : command :=
  match cs with
  | [] => by_prefix s prefixes
  | (w, c) :: cs' => if decide (s = chars w) then c else by_word s cs'
  end.

Definition dispatch (s : list Z) : command := by_word s words.

(** ** String lemmas *)

Lemma is_str_over dest a s :
  is_str dest a → text s → (length a + length s < length dest)%nat →
  is_str (splice dest (length a) (s ++ [0])) (a ++ s).
Proof.
  intros [Ha [rest ->]] Hs Hl. unfold splice. rewrite take_app_length.
  split; [by apply text_app|]. eexists. rewrite <-!app_assoc. reflexivity.
Qed.

Lemma strcat_fits dest a src s :
  is_str dest a → is_str src s → (length a + length s < length dest)%nat →
  (length dest ≤ 512)%nat →
  strcat dest 0 src = Ok (splice dest (length a) (s ++ [0])).
Proof.
  intros Ha Hs Hl Hd. unfold strcat. change (drop (Z.to_nat 0) dest) with dest.
  rewrite (strlen_str dest a) by (done || lia). cbn [mbind outcome_bind]. rewrite Z.add_0_l.
  by apply strcpy_fits.
Qed.

Lemma strcat_overflows dest a src s :
  is_str dest a → is_str src s → (length dest ≤ length a + length s)%nat →
  (length dest ≤ 512)%nat → strcat dest 0 src = Fault OutOfBounds.
Proof.
  intros Ha Hs Hl Hd. unfold strcat. change (drop (Z.to_nat 0) dest) with dest.
  pose proof (is_str_length _ _ Ha).
  rewrite (strlen_str dest a) by (done || lia). cbn [mbind outcome_bind]. rewrite Z.add_0_l.
  by apply (strcpy_overflows src s).
Qed.

Lemma strcpy_over dest src s :
  is_str src s → (length s < length dest)%nat →
  ∃ d, strcpy dest 0 src = Ok d ∧ is_str d s ∧ length d = length dest.
Proof.
  intros Hs Hl. pose proof (strcpy_fits src s dest 0 Hs ltac:(lia)) as H.
  change (Z.of_nat 0) with 0 in H. rewrite H. eexists. split; [done|].
  split; [apply (is_str_splice dest 0 s); [apply Hs|lia]|].
  apply length_splice. rewrite length_app. simpl. lia.
Qed.

(** ** [parse_args] *)

Lemma skip_name_ok cmd s :
  is_str cmd s → ∃ c, skip_name cmd = Ok c ∧ is_str c (drop_word s).
Proof.
  revert s. induction cmd as [|x cmd IH]; intros s Hs.
  { apply is_str_length in Hs. simpl in Hs. lia. }
  pose proof Hs as [[-> [? [= -> ->]]]|(? & s' & ? & -> & [= <- <-] & Hx & _ & Hs')]%is_str_inv;
    cbn [skip_name drop_word].
  - by eexists.
  - rewrite (proj2 (Z.eqb_neq x 0) Hx). cbn [negb andb].
    destruct (x =? 32); cbn [negb]; [by eexists|by apply IH].
Qed.

Lemma skip_spaces_ok cmd s :
  is_str cmd s → ∃ c, skip_spaces cmd = Ok c ∧ is_str c (drop_spaces s).
Proof.
  revert s. induction cmd as [|x cmd IH]; intros s Hs.
  { apply is_str_length in Hs. simpl in Hs. lia. }
  pose proof Hs as [[-> [? [= -> ->]]]|(? & s' & ? & -> & [= <- <-] & Hx & _ & Hs')]%is_str_inv;
    cbn [skip_spaces drop_spaces].
  - by eexists.
  - destruct (x =? 32); [by apply IH|by eexists].
Qed.

Lemma length_take_word s : (length (take_word s) ≤ length s)%nat.
Proof. induction s as [|c s IH]; simpl; [done|]. case_bool; simpl; lia. Qed.
Lemma length_drop_word s : (length (drop_word s) ≤ length s)%nat.
Proof. induction s as [|c s IH]; simpl; [done|]. case_bool; simpl; lia. Qed.
Lemma length_drop_spaces s : (length (drop_spaces s) ≤ length s)%nat.
Proof. induction s as [|c s IH]; simpl; [done|]. case_bool; simpl; lia. Qed.

Lemma copy_word_ok cmd s arg (k : nat) :
  is_str cmd s → (k + length (take_word s) < length arg)%nat →
  ∃ c, copy_word cmd arg (Z.of_nat k) = Ok (c, splice arg k (take_word s ++ [0])) ∧
       is_str c (drop_word s).
Proof.
  revert s arg k. induction cmd as [|x cmd IH]; intros s arg k Hs Hk.
  { apply is_str_length in Hs. simpl in Hs. lia. }
  pose proof Hs as [[-> [? [= -> ->]]]|(? & s' & ? & -> & [= <- <-] & Hx & _ & Hs')]%is_str_inv;
    cbn [copy_word take_word drop_word] in *.
  - cbn [Z.eqb negb andb]. rewrite arr_set_in by (simpl in Hk; lia). cbn [mbind outcome_bind].
    eexists. split; [|done]. by rewrite Nat2Z.id, insert_splice by (simpl in Hk; lia).
  - rewrite (proj2 (Z.eqb_neq x 0) Hx). cbn [negb andb].
    destruct (x =? 32); cbn [negb length app] in *.
    + rewrite arr_set_in by lia. cbn [mbind outcome_bind]. eexists. split; [|done].
      by rewrite Nat2Z.id, insert_splice by lia.
    + rewrite arr_set_in by lia. cbn [mbind outcome_bind]. rewrite Nat2Z.id.
      replace (Z.of_nat k + 1) with (Z.of_nat (S k)) by lia.
      destruct (IH s' (<[k := x]> arg) (S k)) as (c & -> & Hc); [done|rewrite length_insert; lia|].
      exists c. split; [|done]. do 2 f_equal. apply splice_cons. rewrite length_app. simpl. lia.
Qed.

Lemma copy_rest_ok cmd s arg (k : nat) :
  is_str cmd s → (k + length s < length arg)%nat →
  copy_rest cmd arg (Z.of_nat k) = Ok (splice arg k (s ++ [0])).
Proof.
  revert s arg k. induction cmd as [|x cmd IH]; intros s arg k Hs Hk.
  { apply is_str_length in Hs. simpl in Hs. lia. }
  pose proof Hs as [[-> [? [= -> ->]]]|(? & s' & ? & -> & [= <- <-] & Hx & _ & Hs')]%is_str_inv;
    cbn [copy_rest].
  - cbn [Z.eqb negb]. rewrite arr_set_in by (simpl in Hk; lia).
    by rewrite Nat2Z.id, insert_splice by (simpl in Hk; lia).
  - rewrite (proj2 (Z.eqb_neq x 0) Hx). cbn [negb length] in *.
    rewrite arr_set_in by lia. cbn [mbind outcome_bind]. rewrite Nat2Z.id.
    replace (Z.of_nat k + 1) with (Z.of_nat (S k)) by lia.
    rewrite (IH s') by (rewrite ?length_insert; done || lia). f_equal.
    apply splice_cons. rewrite length_app. simpl. lia.
Qed.

Lemma text_take_word s : text s → text (take_word s).
Proof.
  induction s as [|c s IH]; intros Hs; [done|]. apply text_cons in Hs as [Hc Hs].
  cbn [take_word]. case_bool; [apply text_nil|]. apply text_cons. auto.
Qed.

Lemma parse_args_ok cmd s :
  is_str cmd s → (length s < 256)%nat →
  ∃ a1 a2, parse_args cmd name_buf name_buf = Ok (a1, a2) ∧
    is_str a1 (first_arg s) ∧ is_str a2 (rest_args s) ∧
    length a1 = 256%nat ∧ length a2 = 256%nat.
Proof.
  intros Hs Hl. unfold parse_args, first_arg, rest_args.
  destruct (skip_name_ok cmd s Hs) as (c1 & -> & H1). cbn [mbind outcome_bind].
  destruct (skip_spaces_ok _ _ H1) as (c2 & -> & H2). cbn [mbind outcome_bind].
  set (s2 := drop_spaces (drop_word s)) in *.
  assert (length s2 < 256)%nat as Hl2.
  { pose proof (length_drop_spaces (drop_word s)). pose proof (length_drop_word s). subst s2. lia. }
  pose proof (length_take_word s2) as Hw.
  assert (length name_buf = 256%nat) as Hn by apply length_replicate.
  destruct (copy_word_ok c2 s2 name_buf 0 H2) as (c3 & Hc3 & H3); [lia|].
  change (Z.of_nat 0) with 0 in Hc3. rewrite Hc3. cbn [mbind outcome_bind].
  destruct (skip_spaces_ok _ _ H3) as (c4 & -> & H4). cbn [mbind outcome_bind].
  set (s4 := drop_spaces (drop_word s2)) in *.
  assert (length s4 < 256)%nat as Hl4.
  { pose proof (length_drop_spaces (drop_word s2)). pose proof (length_drop_word s2). subst s4. lia. }
  pose proof (copy_rest_ok c4 s4 name_buf 0 H4 ltac:(lia)) as Hr.
  change (Z.of_nat 0) with 0 in Hr. rewrite Hr. cbn [mbind outcome_bind].
  eexists _, _. split; [done|]. split; [|split; [|split]].
  - apply (is_str_splice name_buf 0); [apply text_take_word, H2|lia].
  - apply (is_str_splice name_buf 0); [apply H4|lia].
  - rewrite length_splice; [done|]. rewrite length_app. simpl. lia.
  - rewrite length_splice; [done|]. rewrite length_app. simpl. lia.
Qed.

(** ** [build_path] *)

(** Does a directory text have a second character? *)
Lemma second_char cwd d :
  is_str cwd d → d ≠ [] →
  ∃ c1, arr_get cwd 1 = Ok c1 ∧ (c1 =? 0) = match d with _ :: _ :: _ => false | _ => true end.
Proof.
  intros Hd Hne. pose proof Hd as [[-> _]|(c & s & b & -> & -> & _ & _ & Hs)]%is_str_inv; [done|].
  apply is_str_inv in Hs as [[-> [r ->]]|(c1 & s1 & b1 & -> & -> & Hc1 & _)].
  - by exists 0.
  - exists c1. split; [done|]. by apply Z.eqb_neq.
Qed.

(** The directory with its separating slash. *)
Definition dir_text (d : list Z) : list Z :=
  match d with _ :: _ :: _ => d ++ chars "/" | _ => d end.

Lemma path_text_relative d w :
  match w with c :: _ => c ≠ chr "/" | [] => True end → path_text d w = dir_text d ++ w.
Proof.
  intros Hw. unfold path_text, dir_text. destruct w as [|c w].
  - rewrite app_nil_r. done.
  - rewrite (proj2 (Z.eqb_neq _ _) Hw). destruct d as [|? [|? ?]]; [done|done|].
    by rewrite <-app_assoc.
Qed.

Lemma build_relative cwd d rel w :
  is_str cwd d → d ≠ [] → (length d < 512)%nat → is_str rel w →
  let g := f1 ← strcpy path_buf 0 cwd;
           d1 ← arr_get cwd 1;
           f2 ← (if negb (d1 =? 0) then strcat f1 0 (lit "/") else Ok f1);
           strcat f2 0 rel in
  if decide (length (dir_text d ++ w) < 512)%nat
  then ∃ f, g = Ok f ∧ is_str f (dir_text d ++ w) ∧ length f = 512%nat
  else g = Fault OutOfBounds.
Proof.
  intros Hd Hne Hdl Hw g. unfold g.
  assert (length path_buf = 512%nat) as Hpb by apply length_replicate.
  destruct (strcpy_over path_buf cwd d Hd) as (f1 & -> & Hf1 & Hl1); [lia|].
  cbn [mbind outcome_bind]. destruct (second_char cwd d Hd Hne) as (c1 & -> & Hc1).
  cbn [mbind outcome_bind]. rewrite Hc1.
  assert (is_str (lit "/") (chars "/")) as Hsl by (by apply lit_is_str, (bool_decide_eq_true_1 _)).
  assert ((length (dir_text d) < 512)%nat → ∃ f2, (if negb (match d with _ :: _ :: _ => false | _ => true end)
      then strcat f1 0 (lit "/") else Ok f1) = Ok f2 ∧ is_str f2 (dir_text d) ∧ length f2 = 512%nat) as Hsep.
  { unfold dir_text. destruct d as [|x [|y d]]; cbn [negb]; [done| |]; intros Hfit.
    - exists f1. by rewrite Hl1.
    - rewrite length_app in Hfit.
      rewrite (strcat_fits f1 (x :: y :: d) _ (chars "/")) by (done || lia). eexists. split; [done|].
      split; [apply is_str_over; done || apply Hsl || lia|].
      rewrite length_splice; [lia|]. rewrite length_app. simpl in *. lia. }
  destruct (decide (length (dir_text d) < 512)%nat) as [Hfit|Hno].
  - destruct (Hsep Hfit) as (f2 & -> & Hf2 & Hl2). cbn [mbind outcome_bind].
    rewrite length_app. case_decide as Hlt.
    + rewrite (strcat_fits f2 (dir_text d) rel w) by (done || lia). eexists. split; [done|].
      split; [apply is_str_over; done || apply Hw || lia|].
      rewrite length_splice; [done|]. rewrite length_app. simpl. lia.
    + apply (strcat_overflows f2 (dir_text d) rel w); done || lia.
  - rewrite decide_False by (rewrite length_app; lia).
    unfold dir_text in Hno. destruct d as [|x [|y d]]; [done|simpl in Hno; lia|]. cbn [negb].
    rewrite length_app in Hno.
    by rewrite (strcat_overflows f1 (x :: y :: d) _ (chars "/")) by (done || lia).
Qed.

Lemma build_path_ok cwd d rel w :
  is_str cwd d → d ≠ [] → (length d < 512)%nat → is_str rel w → (length w < 512)%nat →
  if decide (length (path_text d w) < 512)%nat
  then ∃ f, build_path cwd rel path_buf = Ok f ∧ is_str f (path_text d w) ∧ length f = 512%nat
  else build_path cwd rel path_buf = Fault OutOfBounds.
Proof.
  intros Hd Hne Hdl Hw Hwl. pose proof (build_relative cwd d rel w Hd Hne Hdl Hw) as Hrel.
  cbv zeta in Hrel. unfold build_path.
  pose proof Hw as [[-> [r Hr]]|(c & w' & b & -> & Hr & _)]%is_str_inv; subst rel.
  - change (arr_get (0 :: r) 0) with (Ok 0). cbn [mbind outcome_bind].
    change (0 =? chr "/") with false. cbn iota. by rewrite path_text_relative.
  - change (arr_get (c :: b) 0) with (Ok c). cbn [mbind outcome_bind].
    destruct (Z.eqb_spec c (chr "/")) as [->|Hc].
    + rewrite decide_True by done. apply strcpy_over; [done|]. unfold path_buf.
      by rewrite length_replicate.
    + by rewrite (path_text_relative d (c :: w') Hc).
Qed.

(** ** Dispatch *)

Definition run_command (e : io_env) (hi : Z → Z) (fuel : nat) (c : command) (m : machine)
  : outcome flow :=
  match c with
  | CmdHelp => Returned <$> cmd_help m
  | CmdClear => Returned <$> cmd_clear m
  | CmdExit => cmd_exit e fuel m
  | CmdFormatting => Returned <$> cmd_formatting hi m
  | CmdColors => Returned <$> cmd_colors m
  | CmdVersion => Returned <$> printf (line "FoxOS v0.1") [] m
  | CmdColor => Ok (Returned (cmd_color m))
  | CmdPwd => Returned <$> printf (line "%s") [VaPtr (current_dir (tm m))] m
  | CmdLs => Returned <$> cmd_ls m
  | CmdCd => Returned <$> cmd_cd m
  | CmdMkdir => Returned <$> cmd_mkdir m
  | CmdTouch => Returned <$> cmd_touch m
  | CmdRm => Returned <$> cmd_rm m
  | CmdUnknown => Returned <$> printf (line "Unknown command: %s") [VaPtr (input_buffer (tm m))] m
  end.

(** The input line is the text [s]. *)
Record entered (t : term) (s : list Z) : Prop := {
  en_str : is_str (input_buffer t) s;
  en_pos : buffer_pos t = Z.of_nat (length s);
  en_size : length (input_buffer t) = 256%nat
}.

Lemma on_word_ok (w : string) t s {A} (a b : outcome A) :
  is_str (input_buffer t) s → text (chars w) →
  on_word w t a b = if decide (s = chars w) then a else b.
Proof.
  intros Hs Hw. unfold on_word. apply lit_is_str in Hw.
  destruct (strcmp_spec _ _ _ _ Hs Hw) as (r & Hr & _). rewrite Hr. cbn [mbind outcome_bind].
  rewrite (strcmp_eq _ _ _ _ _ Hs Hw Hr). by destruct (decide (s = chars w)) as [->|];
    [rewrite bool_decide_eq_true_2|rewrite bool_decide_eq_false_2].
Qed.

Lemma on_prefix_ok (w : string) t s n {A} (a b : outcome A) :
  is_str (input_buffer t) s → text (chars w) → n = Z.of_nat (length (chars w)) →
  on_prefix w n t a b = if decide (chars w `prefix_of` s) then a else b.
Proof.
  intros Hs Hw ->. unfold on_prefix. apply lit_is_str in Hw.
  destruct (strncmp_prefix _ _ _ _ Hs Hw) as (r & -> & Hr). cbn [mbind outcome_bind].
  destruct (Z.eqb_spec r 0); [rewrite decide_True by tauto|rewrite decide_False by tauto]; done.
Qed.

(** The NUL that [execute_command] stores is already there. *)
Lemma entered_nul t s :
  entered t s →
  arr_set (input_buffer t) (buffer_pos t) 0 = Ok (input_buffer t).
Proof.
  intros [Hs Hp Hl]. pose proof (is_str_length _ _ Hs). rewrite Hp, arr_set_in by lia.
  rewrite Nat2Z.id, list_insert_id; [done|]. by apply is_str_nul.
Qed.

Lemma by_word_run e hi fuel m s w c cs :
  run_command e hi fuel (by_word s ((w, c) :: cs)) m
  = if decide (s = chars w) then run_command e hi fuel c m
    else run_command e hi fuel (by_word s cs) m.
Proof. cbn [by_word]. by case_decide. Qed.

Lemma by_prefix_run e hi fuel m s w c cs :
  run_command e hi fuel (by_prefix s ((w, c) :: cs)) m
  = if decide (chars w `prefix_of` s) then run_command e hi fuel c m
    else run_command e hi fuel (by_prefix s cs) m.
Proof. cbn [by_prefix]. by case_decide. Qed.

Lemma text_chars (s : string) : bool_decide (text (chars s)) = true → text (chars s).
Proof. apply bool_decide_eq_true_1. Qed.

Lemma execute_command_ok e hi fuel m s :
  entered (tm m) s → s ≠ [] →
  execute_command e hi fuel m = run_command e hi fuel (dispatch s) m.
Proof.
  intros Hen Hne. pose proof Hen as [Hs Hp _]. unfold execute_command.
  rewrite (proj2 (Z.eqb_neq (buffer_pos (tm m)) 0)) by (destruct s; simpl in *; done || lia).
  rewrite (entered_nul _ s) by done. cbn [mbind outcome_bind].
  replace (set_line (input_buffer (tm m)) (buffer_pos (tm m)) (edit_pos (tm m)) (tm m)) with (tm m)
    by (by destruct (tm m)).
  replace (set_term (tm m) m) with m by (by destruct m).
  unfold dispatch, words. rewrite !by_word_run. cbn [by_word]. unfold prefixes.
  rewrite !by_prefix_run. cbn [by_prefix].
  rewrite !(on_word_ok _ (tm m) s) by (done || by apply text_chars).
  by rewrite !(on_prefix_ok _ (tm m) s) by (done || by apply text_chars).
Qed.
