(* ===== verification/TermSafe.v ===== *)
(** * The commands of the terminal: safety and effect on the file system

    Every command of [src/terminal.c] returns without an access out of bounds as
    long as the path it builds fits its buffer of 512 bytes, and writes out of
    bounds otherwise; what [mkdir], [touch], [rm] and [cd] do is stated against
    the abstract file system. *)

From S2P Require Import Prelude.
From S2P Require Import CString.
From S2P Require Import Ports.
From S2P Require Import Keyboard.
From S2P Require Import Vga.
From S2P Require Import VgaFormat.
From S2P Require Import Fs.
From S2P Require Import FsPath.
From S2P Require Import FsOps.
From S2P Require Import FsData.
From S2P Require Import FsDelete.
From S2P Require Import Terminal.
From S2P Require Import TermShell.

(** ** The invariant of the machine *)

Record machine_ok (m : machine) (d : list Z) : Prop := {
  mo_screen : vga_synced (screen m);
  mo_disk : fs_ok (disk m);
  mo_dir : is_str (current_dir (tm m)) (chr "/" :: d);
  mo_dir_size : length (current_dir (tm m)) = 512%nat
}.

Lemma dir_length m d : machine_ok m d → (length d < 511)%nat.
Proof. intros [_ _ Hd Hs]. apply is_str_length in Hd. simpl in Hd. lia. Qed.

(** The path a command line asks for fits its buffer, and the names in the
    current directory are names of files. *)
Record fits (d s : list Z) : Prop := {
  ft_short : short (components d);
  ft_path : first_arg s ≠ [] → (length (path_text (chr "/" :: d) (first_arg s)) < 512)%nat
}.

(** ** Printing *)

Lemma printf_emit fmt s args out m :
  is_str fmt s → fmt_text s args = Some out →
  printf fmt args m = (λ v, set_screen v m) <$> emit out (screen m).
Proof.
  intros Hs Ht. unfold printf. rewrite (vga_printf_emit s fmt args out) by done.
  by destruct (emit out (screen m)).
Qed.

Lemma printf_safe fmt s args m :
  is_str fmt s → is_Some (fmt_text s args) → vga_synced (screen m) →
  ∃ v, printf fmt args m = Ok (set_screen v m) ∧ vga_synced v.
Proof.
  intros Hs [out Ht] Hv. rewrite (printf_emit fmt s args out) by done.
  destruct (emit_ok out (screen m) Hv) as (w & -> & Hw). by exists w.
Qed.

Lemma line_str (s : string) :
  bool_decide (text (chars s ++ [10])) = true → is_str (line s) (chars s ++ [10]).
Proof.
  intros H%bool_decide_eq_true_1. unfold line. split; [done|]. exists []. by rewrite <-app_assoc.
Qed.

Lemma screen_ok m d v : machine_ok m d → vga_synced v → machine_ok (set_screen v m) d.
Proof. intros [] Hv. by split. Qed.

Lemma disk_ok m d st : machine_ok m d → fs_ok st → machine_ok (set_disk st m) d.
Proof. intros [] Hv. by split. Qed.

(** A fixed line without conversions. *)
Lemma say_ok (s : string) m d :
  bool_decide (text (chars s ++ [10])) = true → is_Some (fmt_text (chars s ++ [10]) []) →
  machine_ok m d →
  ∃ v, printf (line s) [] m = Ok (set_screen v m) ∧ machine_ok (set_screen v m) d.
Proof.
  intros Ht Hf Hm. destruct (printf_safe (line s) (chars s ++ [10]) [] m) as (v & Hp & Hv);
    [by apply line_str|done|apply Hm|]. exists v. split; [done|]. by apply screen_ok.
Qed.

(** ** Paths of commands *)

Lemma slash_split_lengths s : Forall (λ w, (length w ≤ length s)%nat) (slash_split s).
Proof.
  induction s as [|c s IH]; simpl; [by constructor|].
  assert (Forall (λ w : list Z, (length w ≤ S (length s))%nat) (slash_split s)) as H
    by (eapply Forall_impl; [|exact IH]; simpl; lia).
  case_bool; [constructor; [simpl; lia|done]|].
  destruct (slash_split s) as [|w ws]; [constructor; [simpl; lia|constructor]|].
  apply Forall_cons_iff in IH as [? ?], H as [? ?]. constructor; [simpl; lia|done].
Qed.

Lemma components_short s : (length s < 256)%nat → short (components s).
Proof.
  intros Hl. pose proof (slash_split_lengths s) as H. unfold short, components.
  apply Forall_lookup. intros i w [_ [j Hj]%list_elem_of_lookup_1]%list_elem_of_lookup_2%list_elem_of_filter.
  pose proof (Forall_lookup_1 _ _ _ _ H Hj). simpl in *. lia.
Qed.

(** A current directory of at most 255 characters leaves room for every line. *)
Lemma short_dir_fits m d s : entered (tm m) s → (length d < 255)%nat → fits d s.
Proof.
  intros [Hs _ Hsz] Hd. apply is_str_length in Hs. split; [apply components_short; lia|]. intros _.
  assert (length (first_arg s) ≤ length s)%nat as Hw.
  { unfold first_arg. etransitivity; [apply length_take_word|].
    etransitivity; [apply length_drop_spaces|apply length_drop_word]. }
  unfold path_text. destruct (first_arg s) as [|c w]; [|case_bool];
    destruct d; rewrite ?length_app; simpl in *; lia.
Qed.

(** Splitting at the last slash. *)
Lemma last_split s :
  chr "/" ∈ s → ∃ a b, s = a ++ chr "/" :: b ∧ chr "/" ∉ b.
Proof.
  induction s as [|c s IH]; [by intros ?%not_elem_of_nil|]. intros Hin.
  destruct (decide (chr "/" ∈ s)) as [Hs|Hs].
  - destruct (IH Hs) as (a & b & -> & Hb). by exists (c :: a), b.
  - apply elem_of_cons in Hin as [<-|?]; [|done]. by exists [], s.
Qed.

Lemma last_slash_unique (a b a' b' : list Z) :
  a ++ chr "/" :: b = a' ++ chr "/" :: b' → (chr "/") ∉ b → (chr "/") ∉ b' → a = a' ∧ b = b'.
Proof.
  revert a'. induction a as [|x a IH]; intros [|x' a'] He Hb Hb'; simpl in He.
  - by injection He as ->.
  - injection He as _ ->. destruct Hb. apply elem_of_app. right. by left.
  - injection He as _ <-. destruct Hb'. apply elem_of_app. right. by left.
  - injection He as -> He. by destruct (IH a' He Hb Hb') as [-> ->].
Qed.

Record path_ok (p a b : list Z) : Prop := {
  po_split : p = a ++ chr "/" :: b;
  po_slash : chr "/" ∉ b;
  po_parent : (length a < 512)%nat;
  po_name : (length b < 256)%nat;
  po_short : short (components p);
  po_parent_short : short (components a)
}.

Lemma components_dir_text d w :
  components (dir_text (chr "/" :: d) ++ w) = components d ++ components w.
Proof.
  unfold dir_text. destruct d as [|c d]; [done|].
  rewrite <-app_assoc. cbn [app chars]. rewrite components_slash.
  change (c :: d ++ ?x) with ((c :: d) ++ x). apply components_app.
Qed.

Lemma path_text_ok d w :
  short (components d) → (length w < 256)%nat → w ≠ [] →
  (length (path_text (chr "/" :: d) w) < 512)%nat → ∃ a b, path_ok (path_text (chr "/" :: d) w) a b.
Proof.
  intros Hd Hw Hne.
  set (p := path_text (chr "/" :: d) w). intros Hl.
  assert (short (components p) ∧
    ∃ a b, p = a ++ chr "/" :: b ∧ chr "/" ∉ b ∧ (length b < 256)%nat) as (Hs & a & b & Hp & Hb & Hbl).
  { clear Hl. unfold p. destruct w as [|c w]; [done|]. destruct (Z.eqb_spec c (chr "/")) as [->|Hc].
    - unfold path_text. rewrite Z.eqb_refl. split; [by apply components_short|].
      destruct (last_split (chr "/" :: w)) as (a & b & He & Hb); [by left|].
      exists a, b. do 2 (split; [done|]). apply (f_equal length) in He.
      rewrite length_app in He. simpl in *. lia.
    - rewrite path_text_relative by done. split.
      { rewrite components_dir_text. apply Forall_app; split; [done|]. by apply components_short. }
      destruct (decide (chr "/" ∈ c :: w)) as [Hin|Hin].
      + destruct (last_split (c :: w) Hin) as (a & b & He & Hb).
        exists (dir_text (chr "/" :: d) ++ a), b. rewrite He, <-app_assoc. do 2 (split; [done|]).
        apply (f_equal length) in He. rewrite length_app in He. simpl in *. lia.
      + exists (match d with [] => [] | _ => chr "/" :: d end), (c :: w).
        split; [|done]. destruct d; [done|]. cbn [dir_text]. by rewrite <-app_assoc. }
  exists a, b. split; try done.
  - apply (f_equal length) in Hp. rewrite length_app in Hp. simpl in Hp. lia.
  - rewrite Hp, components_app in Hs. by apply Forall_app in Hs as [? _].
Qed.

(** The argument and the path of a command. *)
Lemma command_path m d s :
  machine_ok m d → is_str (input_buffer (tm m)) s → (length s < 256)%nat →
  ∃ a1 a2, parse_args (input_buffer (tm m)) name_buf name_buf = Ok (a1, a2) ∧
    is_str a1 (first_arg s) ∧
    match first_arg s with
    | [] => arr_get a1 0 = Ok 0
    | _ => (∃ c, arr_get a1 0 = Ok c ∧ c ≠ 0) ∧
           if decide (length (path_text (chr "/" :: d) (first_arg s)) < 512)%nat
           then ∃ f, build_path (current_dir (tm m)) a1 path_buf = Ok f ∧
                     is_str f (path_text (chr "/" :: d) (first_arg s)) ∧
                     (short (components d) → ∃ a b, path_ok (path_text (chr "/" :: d) (first_arg s)) a b)
           else build_path (current_dir (tm m)) a1 path_buf = Fault OutOfBounds
    end.
Proof.
  intros Hm Hs Hl. destruct (parse_args_ok _ s Hs Hl) as (a1 & a2 & -> & H1 & _ & Hl1 & _).
  exists a1, a2. split; [done|]. split; [done|].
  pose proof (is_str_length _ _ H1) as Hwl. rewrite Hl1 in Hwl.
  destruct (first_arg s) as [|c w] eqn:Ew.
  - by apply is_str_inv in H1 as [[_ [r ->]]|(? & ? & ? & ? & _)].
  - split.
    { pose proof H1 as [[? _]|(c' & ? & ? & _ & -> & Hc & _)]%is_str_inv; [done|by exists c']. }
    pose proof (dir_length _ _ Hm) as Hdl.
    pose proof (build_path_ok (current_dir (tm m)) (chr "/" :: d) a1 (c :: w)
      (mo_dir _ _ Hm) ltac:(done) ltac:(simpl; lia) H1 ltac:(lia)) as Hb.
    case_decide as Hp; [|done]. destruct Hb as (f & Hf & Hfs & _).
    exists f. do 2 (split; [done|]). intros Hd. apply path_text_ok; done || lia.
Qed.

(** ** [touch] *)

Lemma strncpy_copy_ok fuel dest src (n i : nat) :
  (i + fuel = n)%nat → (n ≤ length dest)%nat → (n ≤ length src)%nat →
  Forall (λ c, c ≠ 0) (take n src) →
  strncpy_copy fuel dest 0 src (Z.of_nat n) (Z.of_nat i)
  = Ok (splice dest i (drop i (take n src)), Z.of_nat n).
Proof.
  revert dest i. induction fuel as [|fuel IH]; intros dest i Hi Hd Hs Hnz.
  - simpl. assert (i = n) as -> by lia. rewrite drop_ge by (rewrite length_take; lia).
    by rewrite splice_nil.
  - cbn [strncpy_copy]. rewrite (proj2 (Z.ltb_lt _ _)) by lia.
    destruct (lookup_lt_is_Some_2 src i) as [c Hc]; [lia|].
    rewrite (arr_get_lookup _ _ _ Hc). cbn [mbind outcome_bind].
    assert (take n src !! i = Some c) as Hct by (rewrite lookup_take_lt by lia; done).
    pose proof (Forall_lookup_1 _ _ _ _ Hnz Hct) as Hc0. simpl in Hc0.
    rewrite (proj2 (Z.eqb_neq c 0) Hc0), Z.add_0_l, arr_set_in by lia. cbn [mbind outcome_bind].
    rewrite Nat2Z.id. replace (Z.of_nat i + 1) with (Z.of_nat (S i)) by lia.
    rewrite IH by (rewrite ?length_insert; done || lia). do 2 f_equal.
    rewrite (drop_S _ _ _ Hct). apply splice_cons. rewrite length_drop, length_take. lia.
Qed.

Lemma strncpy_parent f a b :
  is_str f (a ++ b) → (length a < 512)%nat →
  ∃ p, strncpy path_buf 0 f (Z.of_nat (length a)) = Ok p ∧ is_str p a ∧ length p = 512%nat.
Proof.
  intros Hf Ha. pose proof (is_str_length _ _ Hf) as Hl. rewrite length_app in Hl.
  assert (length path_buf = 512%nat) as Hpb by apply length_replicate. unfold strncpy.
  rewrite Nat2Z.id.
  assert (take (length a) f = a) as Hta.
  { destruct Hf as [_ [r ->]]. rewrite <-app_assoc. apply take_app_length. }
  assert (Forall (λ c, c ≠ 0) (take (length a) f)) as Hnz.
  { rewrite Hta. destruct Hf as [[Hat _]%text_app _]. eapply Forall_impl; [|exact Hat]. by intros ? [? _]. }
  pose proof (strncpy_copy_ok (length a) path_buf f (length a) 0 eq_refl ltac:(lia) ltac:(lia) Hnz) as Hc.
  change (Z.of_nat 0) with 0 in Hc. rewrite Hc.
  cbn [mbind outcome_bind]. unfold for_range. rewrite Z.sub_diag. cbn [for_up Z.to_nat].
  eexists. split; [done|]. rewrite drop_0.
  split; [by apply (is_str_take_app a b)|].
  rewrite length_splice; [done|]. rewrite length_take. lia.
Qed.

(** The part of [touch] that looks up the parent directory. *)
Definition touch_lookup (f : list Z) (st : fs) : outcome (Z * Z) :=
  last_slash ← last_slash_loop f 0 0;
  p1 ← strncpy path_buf 0 f last_slash;
  c0 ← arr_get p1 0;
  parent_path ← (if c0 =? 0 then strcpy p1 0 (lit "/") else Ok p1);
  parent_index ← fs_parse_path parent_path st;
  Ok (last_slash, parent_index).

Lemma touch_ok f a b st :
  fs_ok st → is_str f (a ++ chr "/" :: b) → path_ok (a ++ chr "/" :: b) a b →
  touch_lookup f st
  = Ok (Z.of_nat (length a), int_of_index (resolve st (components a))) ∧
  is_str (drop (S (length a)) f) b.
Proof.
  intros Hok Hf [_ Hb Ha Hbl _ Hsh]. unfold touch_lookup. rewrite (last_slash_at f a b), Z.add_0_l by done.
  cbn [mbind outcome_bind]. destruct (strncpy_parent f a (chr "/" :: b) Hf Ha) as (p & -> & Hp & Hpl).
  cbn [mbind outcome_bind]. destruct (root_default p a Hp Hpl) as (pp & Hpp & Hstr).
  destruct (arr_get p 0) as [c0|]; [|done]. cbn [mbind outcome_bind] in Hpp |- *. rewrite Hpp.
  cbn [mbind outcome_bind]. rewrite (fs_parse_path_resolve pp (parent_text a))
    by (rewrite ?components_parent; done). rewrite components_parent. split; [done|].
  pose proof (is_str_drop _ _ (S (length a)) Hf) as Hd. rewrite length_app in Hd.
  rewrite <-(Nat.add_1_r (length a)) in Hd at 3. rewrite <-drop_drop, drop_app_length in Hd.
  apply Hd. simpl. lia.
Qed.

(** ** Commands with a path *)

(** The common start of [cd], [mkdir], [touch] and [rm]. *)
Definition on_path (m : machine) (none : outcome machine) (some : list Z → outcome machine)
  : outcome machine :=
  '(arg1, _) ← parse_args (input_buffer (tm m)) name_buf name_buf;
  a0 ← arr_get arg1 0;
  if a0 =? 0 then none
  else full_path ← build_path (current_dir (tm m)) arg1 path_buf; some full_path.

(** The end of [mkdir], [touch] and [rm]: a message for a negative result. *)
Definition report (err : string) (r : Z) (m : machine) : outcome machine :=
  if r <? 0 then printf (line err) [] m else Ok m.

Section commands.
Context (m : machine) (d s : list Z).
Context (Hm : machine_ok m d) (Hd : fits d s) (Hen : entered (tm m) s).

Let w := first_arg s.
Let p := path_text (chr "/" :: d) w.

Lemma entered_length : (length s < 256)%nat.
Proof. destruct Hen as [H _ Hl]. apply is_str_length in H. lia. Qed.

Lemma on_path_ok none some :
  match w with
  | [] => on_path m none some = none
  | _ => ∃ f a b, on_path m none some = some f ∧ is_str f p ∧ (length p < 512)%nat ∧ path_ok p a b
  end.
Proof.
  destruct (command_path m d s Hm (en_str _ _ Hen) entered_length)
    as (a1 & a2 & Hp & H1 & Hw).
  pose proof (ft_path _ _ Hd) as Hl. fold w in Hl. fold p in Hl.
  unfold on_path. rewrite Hp. cbn [mbind outcome_bind]. fold w in Hw. fold p in Hw. destruct w as [|x w'].
  - rewrite Hw. done.
  - specialize (Hl ltac:(done)). rewrite decide_True in Hw by done.
    destruct Hw as [(c & -> & Hc) (f & Hb & Hf & Hab)]. cbn [mbind outcome_bind].
    destruct (Hab (ft_short _ _ Hd)) as (a & b & Hab').
    rewrite (proj2 (Z.eqb_neq _ _) Hc), Hb. by exists f, a, b.
Qed.

(** A command that ends well: it returns a machine that satisfies the invariant
    with the terminal variables unchanged. *)
Definition ends_well (o : outcome machine) : Prop :=
  ∃ m', o = Ok m' ∧ machine_ok m' d ∧ tm m' = tm m.

Lemma say_well (err : string) m1 :
  bool_decide (text (chars err ++ [10])) = true → is_Some (fmt_text (chars err ++ [10]) []) →
  machine_ok m1 d → tm m1 = tm m → ends_well (printf (line err) [] m1).
Proof.
  intros Ht Hf Hm1 Htm. destruct (say_ok err m1 d Ht Hf Hm1) as (v & -> & Hv).
  by exists (set_screen v m1).
Qed.

Lemma report_well (err : string) r st :
  bool_decide (text (chars err ++ [10])) = true → is_Some (fmt_text (chars err ++ [10]) []) →
  fs_ok st → ends_well (report err r (set_disk st m)).
Proof.
  intros Ht Hf Hst. unfold report. case_bool.
  - apply say_well; [done|done|by apply disk_ok|done].
  - exists (set_disk st m). split; [done|]. split; [by apply disk_ok|done].
Qed.

Lemma cmd_mkdir_path :
  cmd_mkdir m = on_path m (printf (line "Error: Directory name required") [] m)
    (λ f, '(r, st) ← fs_mkdir f (disk m);
          report "Error: Cannot create directory" r (set_disk st m)).
Proof. done. Qed.

Lemma cmd_rm_path :
  cmd_rm m = on_path m (printf (line "Error: File/directory name required") [] m)
    (λ f, '(r, st) ← fs_delete_file f (disk m);
          report "Error: Cannot remove file/directory" r (set_disk st m)).
Proof. done. Qed.

(** The table after a creation stays well-formed. *)
Lemma created_ok st q b t :
  fs_ok st → text b → (length b < 256)%nat → can_create st q b = true → fs_ok (add_entry st b t q).
Proof.
  intros Hok Hb Hl Hcan. unfold can_create in Hcan.
  apply andb_true_iff in Hcan as [[Hr Hq]%andb_true_iff _]. apply Z.ltb_lt in Hr.
  apply add_entry_ok; try done. unfold is_dir in Hq.
  destruct (files st !! q) as [g|] eqn:Hg; [|done]. apply lookup_lt_Some in Hg.
  by rewrite (ok_files _ Hok) in Hg.
Qed.

Lemma path_name_text f a b : is_str f (a ++ chr "/" :: b) → text b.
Proof. by intros [[_ [_ ?]%text_cons]%text_app _]. Qed.

Lemma mkdir_well : ends_well (cmd_mkdir m).
Proof.
  rewrite cmd_mkdir_path. pose proof (mo_disk _ _ Hm) as Hok.
  pose proof (on_path_ok (printf (line "Error: Directory name required") [] m)
    (λ f, '(r, st) ← fs_mkdir f (disk m);
          report "Error: Cannot create directory" r (set_disk st m))) as H.
  destruct w as [|x w']; [rewrite H; by apply say_well|].
  destruct H as (f & a & b & -> & Hf & _ & Hab). pose proof Hab as [Hp Hb Ha Hbl _ Hsh].
  rewrite Hp in Hf. unfold fs_mkdir. rewrite (create_at_ok _ f a b) by done. cbn [mbind outcome_bind].
  case_decide; [by apply report_well|].
  destruct (resolve (disk m) (components a)) as [q|]; [|by apply report_well].
  destruct (can_create (disk m) q b) eqn:Hcan; [|by apply report_well].
  apply report_well; [done|done|]. apply created_ok; try done. by apply (path_name_text f a).
Qed.

Lemma rm_well : ends_well (cmd_rm m).
Proof.
  rewrite cmd_rm_path. pose proof (mo_disk _ _ Hm) as Hok.
  pose proof (on_path_ok (printf (line "Error: File/directory name required") [] m)
    (λ f, '(r, st) ← fs_delete_file f (disk m);
          report "Error: Cannot remove file/directory" r (set_disk st m))) as H.
  destruct w as [|x w']; [rewrite H; by apply say_well|].
  destruct H as (f & a & b & -> & Hf & _ & Hab). pose proof Hab as [_ _ _ _ Hsh _].
  pose proof (fs_delete_file_refuses f _ (disk m) Hok Hf Hsh) as Href.
  destruct (resolve (disk m) (components p)) as [idx|] eqn:Hi; [|rewrite Href by done; by apply report_well].
  destruct (decide (idx = 0%nat)) as [->|H0]; [rewrite Href by (by left); by apply report_well|].
  destruct (busy_dec (disk m) idx) as [Hb|Hb]; [rewrite Href by (by right); by apply report_well|].
  destruct (fs_delete_file_ok f p (disk m) idx) as (l & -> & Hafter); try done.
  cbn [mbind outcome_bind]. apply report_well; [done|done|].
  pose proof (ok_count _ Hok). apply resolve_lt in Hi; [|done|lia].
  apply (after_ok (disk m) idx); done || lia.
Qed.

Lemma cmd_touch_path :
  cmd_touch m = on_path m (printf (line "Error: File name required") [] m)
    (λ f, '(last_slash, parent_index) ← touch_lookup f (disk m);
          if 0 <=? parent_index then
            '(r, st) ← fs_create_file (drop (Z.to_nat (last_slash + 1)) f)
                         FILE_TYPE_FILE parent_index (disk m);
            report "Error: Cannot create file" r (set_disk st m)
          else printf (line "Error: Invalid path") [] m).
Proof.
  unfold cmd_touch, on_path, touch_lookup.
  destruct (parse_args _ _ _) as [[a1 a2]|]; [|done]. cbn [mbind outcome_bind].
  destruct (arr_get a1 0) as [a0|]; [|done]. cbn [mbind outcome_bind]. case_bool; [done|].
  destruct (build_path _ _ _) as [f|]; [|done]. cbn [mbind outcome_bind].
  destruct (last_slash_loop f 0 0) as [l|]; [|done]. cbn [mbind outcome_bind].
  destruct (strncpy _ _ _ _) as [p1|]; [|done]. cbn [mbind outcome_bind].
  destruct (arr_get p1 0) as [c0|]; [|done]. cbn [mbind outcome_bind].
  destruct (if c0 =? 0 then _ else _) as [pp|]; [|done]. cbn [mbind outcome_bind].
  by destruct (fs_parse_path pp (disk m)).
Qed.

(** [touch] at a path [a/b]. *)
Lemma touch_run f a b :
  is_str f (a ++ chr "/" :: b) → path_ok (a ++ chr "/" :: b) a b →
  ('(last_slash, parent_index) ← touch_lookup f (disk m);
   if 0 <=? parent_index then
     '(r, st) ← fs_create_file (drop (Z.to_nat (last_slash + 1)) f)
                  FILE_TYPE_FILE parent_index (disk m);
     report "Error: Cannot create file" r (set_disk st m)
   else printf (line "Error: Invalid path") [] m)
  = match resolve (disk m) (components a) with
    | None => printf (line "Error: Invalid path") [] m
    | Some q =>
        if can_create (disk m) q b
        then Ok (set_disk (add_entry (disk m) b FILE_TYPE_FILE q) m)
        else printf (line "Error: Cannot create file") [] m
    end.
Proof.
  intros Hf Hab. pose proof (mo_disk _ _ Hm) as Hok.
  destruct (touch_ok f a b (disk m) Hok Hf Hab) as [-> Hn]. cbn [mbind outcome_bind].
  destruct (resolve (disk m) (components a)) as [q|]; cbn [int_of_index]; [|done].
  rewrite (proj2 (Z.leb_le 0 (Z.of_nat q))) by lia.
  replace (Z.to_nat (Z.of_nat (length a) + 1)) with (S (length a)) by lia.
  rewrite (fs_create_file_ok _ b) by (done || apply Hab). cbn [mbind outcome_bind].
  pose proof (ok_count _ Hok). destruct (can_create (disk m) q b); unfold report; cbn [fst snd].
  - by rewrite (proj2 (Z.ltb_ge (file_count (disk m)) 0)) by lia.
  - simpl. by destruct m.
Qed.

Lemma touch_well : ends_well (cmd_touch m).
Proof.
  rewrite cmd_touch_path.
  match goal with |- ends_well (on_path m ?n ?f) => pose proof (on_path_ok n f) as H end.
  destruct w as [|x w']; [rewrite H; by apply say_well|].
  destruct H as (f & a & b & -> & Hf & _ & Hab). pose proof (po_split _ _ _ Hab) as Hp.
  rewrite Hp in Hf, Hab. cbv beta. rewrite (touch_run f a b Hf Hab).
  destruct (resolve (disk m) (components a)) as [q|]; [|by apply say_well].
  destruct (can_create (disk m) q b) eqn:Hcan; [|by apply say_well].
  eexists. split; [done|]. split; [|done]. apply disk_ok; [done|].
  apply created_ok; try done; [apply Hm|by apply (path_name_text f a)|apply Hab].
Qed.

(** ** [cd] *)

Lemma cmd_cd_path :
  cmd_cd m = on_path m
    (d' ← strcpy (current_dir (tm m)) 0 (lit "/"); Ok (set_term (set_dir d' (tm m)) m))
    (λ f, dir ← fs_get_file f (disk m);
          b ← is_directory dir (disk m);
          if (b : bool) then d' ← strcpy (current_dir (tm m)) 0 f; Ok (set_term (set_dir d' (tm m)) m)
          else printf (line "Error: Directory not found") [] m).
Proof. done. Qed.

(** The machine with another current directory. *)
Definition in_dir (d' : list Z) (m' : machine) : Prop :=
  machine_ok m' d' ∧ screen m' = screen m ∧ disk m' = disk m ∧ keys m' = keys m ∧
  ∃ buf, tm m' = set_dir buf (tm m).

Lemma enter_dir src d' :
  is_str src (chr "/" :: d') → (length d' < 511)%nat →
  ∃ m', (b ← strcpy (current_dir (tm m)) 0 src; Ok (set_term (set_dir b (tm m)) m)) = Ok m' ∧
        in_dir d' m'.
Proof.
  intros Hs Hl. pose proof Hm as [Hv Hok Hdir Hsz].
  destruct (strcpy_over (current_dir (tm m)) src (chr "/" :: d') Hs) as (b & -> & Hb & Hbl);
    [simpl; lia|].
  eexists. split; [done|]. split; [split; simpl; congruence|]. do 3 (split; [done|]). by exists b.
Qed.

(** A path of a command starts with a slash. *)
Lemma path_absolute : w ≠ [] → ∃ d', p = chr "/" :: d'.
Proof.
  intros Hw. unfold p, path_text. destruct w as [|c w']; [done|].
  destruct (Z.eqb_spec c (chr "/")) as [->|]; [by eexists|]. destruct d; by eexists.
Qed.

Lemma cd_run :
  match w with
  | [] => ∃ m', cmd_cd m = Ok m' ∧ in_dir [] m'
  | _ => ∃ d', p = chr "/" :: d' ∧ (length d' < 511)%nat ∧ short (components p) ∧
      match resolve (disk m) (components p) with
      | Some i => if is_dir (disk m) i then ∃ m', cmd_cd m = Ok m' ∧ in_dir d' m'
                  else cmd_cd m = printf (line "Error: Directory not found") [] m
      | None => cmd_cd m = printf (line "Error: Directory not found") [] m
      end
  end.
Proof.
  rewrite cmd_cd_path. pose proof path_absolute as Habs.
  match goal with |- context [on_path m ?n ?f] => pose proof (on_path_ok n f) as H end.
  destruct w as [|x w'].
  { rewrite H. apply enter_dir; [by apply lit_is_str, (bool_decide_eq_true_1 _)|simpl; lia]. }
  destruct H as (f & a & b & -> & Hf & Hl & Hab). destruct Habs as [d' Hd']; [done|].
  exists d'. split; [done|]. split; [rewrite Hd' in Hl; simpl in Hl; lia|].
  pose proof (po_short _ _ _ Hab) as Hsh. split; [done|].
  pose proof (mo_disk _ _ Hm) as Hok. rewrite (fs_get_file_ok f p) by done. cbn [mbind outcome_bind].
  destruct (resolve (disk m) (components p)) as [i|] eqn:Hi; [|done].
  destruct (resolve_entry _ _ _ Hok Hi) as (g & _ & Hg).
  cbn [fmap option_fmap option_map is_directory]. rewrite (arr_get_lookup _ _ _ Hg).
  unfold is_dir. rewrite Hg. cbn [mbind outcome_bind].
  case_bool_decide; [|done]. apply enter_dir; [by rewrite <-Hd'|rewrite Hd' in Hl; simpl in Hl; lia].
Qed.

End commands.

(** A path that does not fit is written past the end of the buffer. *)
Lemma on_path_overflows m d s none some :
  machine_ok m d → entered (tm m) s → first_arg s ≠ [] →
  (512 ≤ length (path_text (chr "/" :: d) (first_arg s)))%nat →
  on_path m none some = Fault OutOfBounds.
Proof.
  intros Hm Hen Hw Hl.
  destruct (command_path m d s Hm (en_str _ _ Hen) (entered_length m s Hen)) as (a1 & a2 & Hp & _ & Ha).
  unfold on_path. rewrite Hp. cbn [mbind outcome_bind]. destruct (first_arg s) as [|x w]; [done|].
  rewrite decide_False in Ha by lia. destruct Ha as [(c & -> & Hc) Hb]. cbn [mbind outcome_bind].
  by rewrite (proj2 (Z.eqb_neq _ _) Hc), Hb.
Qed.

(** ** [ls] *)

Lemma list_all f s st :
  fs_ok st → is_str f s → short (components s) →
  ∃ r buf, fs_list_dir f (replicate (Z.to_nat 66048) 0) 66048 st = Ok (r, buf) ∧
    match resolve st (components s) with
    | Some i => if is_dir st i then 0 ≤ r ∧ is_str buf (listing (children st i)) else r = -1
    | None => r = -1
    end.
Proof.
  intros Hok Hf Hsh.
  assert (Z.of_nat (length (replicate (Z.to_nat 66048) 0)) = 66048) as Hl
    by (rewrite length_replicate; apply Z2Nat.id; lia).
  generalize dependent (replicate (Z.to_nat 66048) 0). intros buf0 Hl.
  rewrite (fs_list_dir_ok f s buf0 66048 st Hok Hf Hsh Hl) by lia.
  destruct (resolve st (components s)) as [i|]; [|by eexists _, _].
  destruct (is_dir st i); [|by eexists _, _]. cbv zeta.
  destruct (children_ok st i Hok) as [Hc Hn]. rewrite fitting_all by (done || lia).
  eexists _, _. split; [done|]. split; [lia|]. pose proof (length_listing _ Hc).
  apply (is_str_splice buf0 0); [by apply listing_text|lia].
Qed.

(** The directory [ls] lists: the current one without an argument or with a
    dot. *)
Definition ls_path (d s : list Z) : list Z :=
  if decide (first_arg s = [] ∨ first_arg s = chars ".") then chr "/" :: d
  else path_text (chr "/" :: d) (first_arg s).

Section ls.
Context (m : machine) (d s : list Z).
Context (Hm : machine_ok m d) (Hd : short (components d)) (Hl : (length (ls_path d s) < 512)%nat).
Context (Hen : entered (tm m) s).

Lemma ls_run :
  short (components (ls_path d s)) ∧
  match resolve (disk m) (components (ls_path d s)) with
  | Some i => if is_dir (disk m) i
              then ∃ buf, is_str buf (listing (children (disk m) i)) ∧
                          cmd_ls m = printf (lit "%s") [VaPtr buf] m
              else cmd_ls m = printf (line "Error: Cannot list directory") [] m
  | None => cmd_ls m = printf (line "Error: Cannot list directory") [] m
  end.
Proof.
  pose proof (mo_disk _ _ Hm) as Hok. pose proof (entered_length m s Hen) as Hsl.
  pose proof (dir_length _ _ Hm) as Hdl.
  destruct (command_path m d s Hm (en_str _ _ Hen) Hsl) as (a1 & a2 & Hp & H1 & Hw).
  assert (∃ f, cmd_ls m = ('(count, list_buffer) ← fs_list_dir f (replicate (Z.to_nat 66048) 0) 66048 (disk m);
      if count <? 0 then printf (line "Error: Cannot list directory") [] m
      else printf (lit "%s") [VaPtr list_buffer] m) ∧
    is_str f (ls_path d s) ∧ short (components (ls_path d s))) as (f & Hls & Hf & Hsh).
  { unfold cmd_ls. rewrite Hp. cbn [mbind outcome_bind].
    destruct (strcpy_over path_buf (current_dir (tm m)) (chr "/" :: d) (mo_dir _ _ Hm))
      as (fd & Hfd & Hfds & _); [unfold path_buf; rewrite length_replicate; simpl; lia|].
    assert (short (components (chr "/" :: d))) as Hshd by (by rewrite components_slash).
    unfold ls_path in *. destruct (first_arg s) as [|x w'] eqn:Ew.
    { rewrite Hw. cbn [mbind outcome_bind Z.eqb]. rewrite Hfd, decide_True by (by left).
      cbn [mbind outcome_bind]. by exists fd. }
    destruct Hw as [(c & -> & Hc) Hb]. cbn [mbind outcome_bind].
    rewrite (proj2 (Z.eqb_neq _ _) Hc).
    assert (is_str (lit ".") (chars ".")) as Hdot by (by apply lit_is_str, (bool_decide_eq_true_1 _)).
    destruct (strcmp_spec _ _ _ _ H1 Hdot) as (r & Hr & _). rewrite Hr. cbn [mbind outcome_bind].
    rewrite (strcmp_eq _ _ _ _ _ H1 Hdot Hr). case_bool_decide as Hdt.
    - rewrite Hfd, decide_True by (by right). cbn [mbind outcome_bind]. by exists fd.
    - rewrite decide_False in Hl |- * by naive_solver. rewrite decide_True in Hb by done.
      destruct Hb as (f & -> & Hfs & Hab). destruct (Hab Hd) as (a & b & Hab'). cbn [mbind outcome_bind]. exists f.
      split; [done|]. split; [done|apply Hab']. }
  split; [done|]. rewrite Hls.
  destruct (list_all f (ls_path d s) (disk m) Hok Hf Hsh) as (r & buf & -> & Hr).
  cbn [mbind outcome_bind].
  destruct (resolve (disk m) (components (ls_path d s))) as [i|]; [|by subst r].
  destruct (is_dir (disk m) i); [|by subst r]. destruct Hr as [Hr Hbuf]. exists buf.
  split; [done|]. by rewrite (proj2 (Z.ltb_ge r 0)) by lia.
Qed.

Lemma ls_well : ends_well m d (cmd_ls m).
Proof.
  destruct ls_run as [_ H]. destruct (resolve _ _) as [i|]; [|rewrite H; by apply say_well].
  destruct (is_dir _ i); [|rewrite H; by apply say_well]. destruct H as (buf & Hb & ->).
  destruct (printf_safe (lit "%s") (chars "%s") [VaPtr buf] m) as (v & -> & Hv).
  - by apply lit_is_str, (bool_decide_eq_true_1 _).
  - apply is_str_c_str in Hb as [Hb _].
    assert (conv_text (chr "s") [VaPtr buf] = Some (listing (children (disk m) i), [])) as Hc
      by (unfold conv_text; simpl; by rewrite Hb).
    change (is_Some ('(t, r) ← conv_text (chr "s") [VaPtr buf]; app t <$> fmt_text [] r)).
    rewrite Hc. by eexists.
  - apply Hm.
  - eexists. split; [done|]. split; [by apply screen_ok|done].
Qed.

End ls.

Lemma ls_overflows m d s :
  machine_ok m d → entered (tm m) s → (512 ≤ length (ls_path d s))%nat →
  cmd_ls m = Fault OutOfBounds.
Proof.
  intros Hm Hen Hl. pose proof (dir_length _ _ Hm) as Hdl.
  destruct (command_path m d s Hm (en_str _ _ Hen) (entered_length m s Hen)) as (a1 & a2 & Hp & H1 & Ha).
  unfold ls_path in Hl.
  destruct (decide (first_arg s = [] ∨ first_arg s = chars ".")) as [Hn|Hn]; [cbn [length] in Hl; lia|].
  unfold cmd_ls. rewrite Hp. cbn [mbind outcome_bind].
  destruct (first_arg s) as [|x w] eqn:Ew; [destruct Hn; by left|]. rewrite decide_False in Ha by lia.
  destruct Ha as [(c & -> & Hc) Hb]. cbn [mbind outcome_bind]. rewrite (proj2 (Z.eqb_neq _ _) Hc).
  assert (is_str (lit ".") (chars ".")) as Hdot by (by apply lit_is_str, (bool_decide_eq_true_1 _)).
  destruct (strcmp_spec _ _ _ _ H1 Hdot) as (r & Hr & _). rewrite Hr. cbn [mbind outcome_bind].
  rewrite (strcmp_eq _ _ _ _ _ H1 Hdot Hr), bool_decide_eq_false_2 by (intros E; apply Hn; by right).
  by rewrite Hb.
Qed.
