(* ===== verification/TermClaims.v ===== *)
(** * The commands of the terminal: properties

    Safety of every command of [src/terminal.c], the effect of the commands on
    files against the abstract file system of [FsSpec], and the inputs on which
    the code leaves its arrays or misreads a command. *)

From stdpp Require Import gmap.
From S2P Require Import Prelude.
From S2P Require Import CString.
From S2P Require Import Ports.
From S2P Require Import Keyboard.
From S2P Require Import Asm.
From S2P Require Import Vga.
From S2P Require Import VgaFormat.
From S2P Require Import Fs.
From S2P Require Import FsPath.
From S2P Require Import FsOps.
From S2P Require Import FsData.
From S2P Require Import FsDelete.
From S2P Require Import FsSpec.
From S2P Require Import FsRemove.
From S2P Require Import FsRun.
From S2P Require Import FsClaims.
From S2P Require Import Terminal.
From S2P Require Import TermEdit.
From S2P Require Import TermShell.
From S2P Require Import TermSafe.

(** ** Sequences of prints *)

Section prints.
Context (m : machine) (d : list Z).

Lemma printf_well fmt s args m1 :
  is_str fmt s → is_Some (fmt_text s args) → machine_ok m1 d → tm m1 = tm m →
  ends_well m d (printf fmt args m1).
Proof.
  intros Hs Hf Hm Ht. destruct (printf_safe fmt s args m1 Hs Hf (mo_screen _ _ Hm)) as (v & -> & Hv).
  exists (set_screen v m1). split; [done|]. split; [by apply screen_ok|done].
Qed.

Lemma bind_well o (k : machine → outcome machine) :
  ends_well m d o → (∀ m1, machine_ok m1 d → tm m1 = tm m → ends_well m d (k m1)) →
  ends_well m d (m1 ← o; k m1).
Proof. intros (m1 & -> & Hm & Ht) Hk. by apply Hk. Qed.

Lemma print_lines_well ls m1 :
  Forall (λ l, ∃ s, is_str l s ∧ is_Some (fmt_text s [])) ls →
  machine_ok m1 d → tm m1 = tm m → ends_well m d (print_lines ls m1).
Proof.
  intros Hls. revert m1. induction Hls as [|l ls (s & Hs & Hf) _ IH]; intros m1 Hm Ht.
  - by exists m1.
  - cbn [print_lines]. apply bind_well; [by apply (printf_well l s)|auto].
Qed.

Lemma set_color_synced fg bg v : vga_synced v → vga_synced (vga_set_color fg bg v).
Proof. intros [[] Hc]. split; [|done]. split; try done. apply Z.mod_pos_bound. lia. Qed.

Lemma color_text_well c fmt s m1 :
  is_str fmt s → is_Some (fmt_text s []) → machine_ok m1 d → tm m1 = tm m →
  ends_well m d (color_text c fmt m1).
Proof.
  intros Hs Hf Hm Ht. unfold color_text. apply (printf_well fmt s); try done.
  apply screen_ok; [done|]. apply set_color_synced, Hm.
Qed.

End prints.

(** A literal format with or without the final newline. *)
Ltac literal_format :=
  first [ by apply line_str | by apply lit_str
        | split; [apply (bool_decide_eq_true_1 _); vm_compute; reflexivity|by exists []] ].

Lemma help_well m d : machine_ok m d → ends_well m d (cmd_help m).
Proof.
  intros Hm. unfold cmd_help. apply print_lines_well; [|done|done].
  repeat (apply Forall_cons; [eexists; split; [apply line_str; reflexivity|by eexists]|]).
  apply Forall_nil.
Qed.

Lemma colors_well m d : machine_ok m d → ends_well m d (cmd_colors m).
Proof.
  intros Hm. unfold cmd_colors. apply bind_well.
  { apply (printf_well m d _ (10 :: chars "Available colors:" ++ [10])); [literal_format|by eexists|done|done]. }
  intros m0 Hm0 Ht0.
  do 6 (apply bind_well;
    [eapply color_text_well; [apply lit_str; reflexivity|by eexists|done|done]|intros ? ? ?]).
  eapply color_text_well; [apply line_str; reflexivity|by eexists|done|done].
Qed.

Lemma formatting_well hi m d : machine_ok m d → ends_well m d (cmd_formatting hi m).
Proof.
  intros Hm. unfold cmd_formatting.
  do 7 (apply bind_well; [eapply printf_well; [apply line_str; reflexivity|by eexists|done|done]|intros ? ? ?]).
  apply bind_well.
  { eapply (printf_well m d _ (chars "  Very Large Negative: %lld" ++ [10; 10])); [literal_format|by eexists|done|done]. }
  intros m8 Hm8 Ht8.
  do 5 (apply bind_well; [eapply printf_well; [apply line_str; reflexivity|by eexists|done|done]|intros ? ? ?]).
  eapply (printf_well m d _ (chars "  Mixed: Dec=%d, Hex=%x" ++ [10; 10])); [literal_format|by eexists|done|done].
Qed.

Lemma say_str (fmt : list Z) (pre : list Z) buf t m d :
  is_str fmt (pre ++ chars "%s" ++ [10]) → Forall (λ c, c ≠ chr "%") pre → is_str buf t →
  machine_ok m d → ends_well m d (printf fmt [VaPtr buf] m).
Proof.
  intros Hf Hp Hb Hm. eapply printf_well; [exact Hf| |done|done]. clear Hf.
  induction Hp as [|c pre Hc Hp IH]; cbn [app fmt_text].
  - apply is_str_c_str in Hb as [Hb _].
    assert (conv_text (chr "s") [VaPtr buf] = Some (t, [])) as Hct
      by (unfold conv_text; simpl; by rewrite Hb).
    change (is_Some ('(t, r) ← conv_text (chr "s") [VaPtr buf]; app t <$> fmt_text [10] r)).
    rewrite Hct. by eexists.
  - rewrite (proj2 (Z.eqb_neq _ _) Hc). cbn [negb]. destruct IH as [o ->]. by eexists.
Qed.

Lemma clear_well m d : machine_ok m d → ends_well m d (cmd_clear m).
Proof.
  intros Hm. unfold cmd_clear. pose proof (mo_screen _ _ Hm) as [Hwf _].
  rewrite vga_clear_ok by apply Hwf. cbn [mbind outcome_bind]. eexists. split; [done|].
  split; [|done]. apply screen_ok; [done|]. apply set_cursor_synced.
  - destruct Hwf. split; cbn [set_buffer vga_buffer]; try done.
    apply Forall_replicate, vga_entry_range.
  - unfold VGA_WIDTH. lia.
  - unfold VGA_HEIGHT. lia.
Qed.

(** What a command other than [exit] leaves. *)
Definition stays_ok (m : machine) (d : list Z) (c : command) (o : outcome flow) : Prop :=
  ∃ m' d', o = Ok (Returned m') ∧ machine_ok m' d' ∧ short (components d') ∧
           (c = CmdCd ∨ d' = d).

Lemma well_stays m d c o :
  short (components d) → ends_well m d o → stays_ok m d c (Returned <$> o).
Proof.
  intros Hd (m' & -> & Hm & _). exists m', d. do 3 (split; [done|]). by right.
Qed.

Lemma cd_stays m d s :
  machine_ok m d → fits d s → entered (tm m) s →
  stays_ok m d CmdCd (Returned <$> cmd_cd m).
Proof.
  intros Hm Hd Hen. pose proof (cd_run m d s Hm Hd Hen) as H.
  assert (∀ o, o = printf (line "Error: Directory not found") [] m →
    stays_ok m d CmdCd (Returned <$> o)) as Herr.
  { intros o ->. apply well_stays; [apply Hd|]. by apply say_well. }
  destruct (first_arg s) as [|x w].
  { destruct H as (m' & -> & Hin & _). exists m', []. do 2 (split; [done|]).
    split; [constructor|by left]. }
  destruct H as (d' & Hp & Hl & Hsh & H). rewrite Hp, components_slash in Hsh.
  destruct (resolve _ _) as [i|]; [|by apply Herr].
  destruct (is_dir _ i); [|by apply Herr]. destruct H as (m' & -> & Hin & _).
  exists m', d'. do 3 (split; [done|]). by left.
Qed.

(** The command line [s] in directory [d] asks for a path that is longer than the
    buffer it is put together in. *)
Definition overflows (d s : list Z) : bool :=
  match dispatch s with
  | CmdLs => bool_decide (512 ≤ length (ls_path d s))%nat
  | CmdCd | CmdMkdir | CmdTouch | CmdRm =>
      bool_decide (first_arg s ≠ [] ∧ (512 ≤ length (path_text (chr "/" :: d) (first_arg s)))%nat)
  | _ => false
  end.

Lemma has_arg s : first_arg s ≠ [] → s ≠ [].
Proof. by intros H ->. Qed.

Lemma path_overflows e hi fuel m d s :
  machine_ok m d → entered (tm m) s →
  dispatch s ∈ [CmdMkdir; CmdTouch; CmdRm; CmdCd] → first_arg s ≠ [] →
  (512 ≤ length (path_text (chr "/" :: d) (first_arg s)))%nat →
  execute_command e hi fuel m = Fault OutOfBounds.
Proof.
  intros Hm Hen Hc Hw Hl. rewrite (execute_command_ok e hi fuel m s Hen (has_arg s Hw)).
  repeat (apply elem_of_cons in Hc as [->|Hc]); [..|by apply not_elem_of_nil in Hc];
    cbn [run_command]; rewrite ?cmd_mkdir_path, ?cmd_touch_path, ?cmd_rm_path, ?cmd_cd_path,
      (on_path_overflows m d s) by done; done.
Qed.

Lemma overflow_faults e hi fuel m d s :
  machine_ok m d → entered (tm m) s → overflows d s = true →
  execute_command e hi fuel m = Fault OutOfBounds.
Proof.
  intros Hm Hen. unfold overflows. destruct (dispatch s) eqn:Ed; try done.
  { intros Hl%bool_decide_eq_true_1. assert (s ≠ []) as Hs by (by intros ->).
    rewrite (execute_command_ok e hi fuel m s Hen Hs), Ed. cbn [run_command].
    by rewrite (ls_overflows m d s). }
  all: intros [Hw Hl]%bool_decide_eq_true_1; apply (path_overflows e hi fuel m d s); try done;
    rewrite Ed; set_solver.
Qed.

Lemma overflows_fits d s :
  short (components d) → overflows d s = false →
  dispatch s ∈ [CmdMkdir; CmdTouch; CmdRm; CmdCd] → fits d s.
Proof.
  intros Hd Ho Hc. split; [done|]. intros Hw.
  destruct (decide (length (path_text (chr "/" :: d) (first_arg s)) < 512)%nat) as [?|Hl]; [done|].
  exfalso. assert (overflows d s = true); [|congruence]. unfold overflows.
  repeat (apply elem_of_cons in Hc as [->|Hc]); [..|by apply not_elem_of_nil in Hc];
    (apply bool_decide_eq_true_2; split; [done|lia]).
Qed.

(** C3: Memory safety of the shell, exactly.  Take a well-formed screen and file
    table, a current directory of any length that fits its buffer and whose
    names are shorter than 256 characters (as those of every directory that [cd]
    can enter), and any command line the editor can hold (up to 255 characters,
    any command but [exit], including unknown ones).  If the path that [ls],
    [cd], [mkdir], [touch] or [rm] puts together has 512 characters or more, the
    command writes out of bounds.  In all other cases it returns without an
    access out of bounds; the screen and the table are well-formed afterwards,
    the current directory is again an absolute path of short names that fits its
    buffer, and only [cd] changes it. *)
Theorem execute_command_safe e hi fuel m d s :
  machine_ok m d → short (components d) → entered (tm m) s → dispatch s ≠ CmdExit →
  if overflows d s then execute_command e hi fuel m = Fault OutOfBounds
  else stays_ok m d (dispatch s) (execute_command e hi fuel m).
Proof.
  intros Hm Hd Hen Hne. destruct (overflows d s) eqn:Ho; [by apply (overflow_faults e hi fuel m d s)|].
  destruct (decide (s = [])) as [->|Hs].
  { unfold execute_command. rewrite (en_pos _ _ Hen). exists m, d. do 3 (split; [done|]). by right. }
  rewrite (execute_command_ok e hi fuel m s Hen Hs). pose proof (overflows_fits d s Hd Ho) as Hfit.
  destruct (decide (dispatch s = CmdCd)) as [Ec|Ec].
  { rewrite Ec. apply (cd_stays m d s); [done|apply Hfit; rewrite Ec; set_solver|done]. }
  unfold overflows in Ho.
  destruct (dispatch s) eqn:Ed; try done; cbn [run_command];
    try (apply well_stays; [done|]).
  - by apply help_well.
  - by apply clear_well.
  - by apply formatting_well.
  - by apply colors_well.
  - by apply say_well.
  - exists (cmd_color m), d. split; [done|]. split; [|split; [done|by right]].
    destruct Hm. split; try done. by apply set_color_synced.
  - apply (say_str _ [] _ (chr "/" :: d)); [by apply (line_str "%s")|constructor|apply Hm|done].
  - apply bool_decide_eq_false_1 in Ho. apply (ls_well m d s); done || lia.
  - apply (mkdir_well m d s); [done|apply Hfit; set_solver|done].
  - apply (touch_well m d s); [done|apply Hfit; set_solver|done].
  - apply (rm_well m d s); [done|apply Hfit; set_solver|done].
  - apply (say_str _ (chars "Unknown command: ") _ s); [by apply (line_str "Unknown command: %s")| |apply Hen|done].
    apply (bool_decide_eq_true_1 _). vm_compute. reflexivity.
Qed.

(** A machine at the prompt with the line [s] entered. *)
Definition with_line (s : list Z) (st : fs) (cwd : list Z) : machine :=
  Machine (Term (s ++ replicate (256 - length s) 0) (Z.of_nat (length s)) 7 (Z.of_nat (length s))
             (cwd ++ replicate (512 - length cwd) 0) VGA_COLOR_LIGHT_GREEN)
    (vga_set_cursor 0 3 (Vga (replicate 2000 0x720) 0 3 7 [])) st kbd0.

Lemma with_line_ok s st d :
  fs_ok st → text (chr "/" :: d) → (length d < 511)%nat → machine_ok (with_line s st (chr "/" :: d)) d.
Proof.
  intros Hok Ht Hl. split; unfold with_line; cbn [screen disk tm current_dir].
  - apply set_cursor_synced; [|unfold VGA_WIDTH; lia|unfold VGA_HEIGHT; lia].
    split; cbn [vga_buffer vga_color cursor_x cursor_y];
      [done| |lia|unfold VGA_WIDTH; lia|unfold VGA_HEIGHT; lia].
    apply Forall_replicate. lia.
  - done.
  - split; [done|]. exists (replicate (512 - length (chr "/" :: d) - 1) 0). f_equal.
    destruct (512 - length (chr "/" :: d))%nat as [|n] eqn:E; [simpl in E; lia|].
    simpl replicate. by rewrite Nat.sub_0_r.
  - rewrite length_app, length_replicate. simpl. lia.
Qed.

Lemma with_line_entered s st cwd :
  text s → (length s ≤ 255)%nat → entered (tm (with_line s st cwd)) s.
Proof.
  intros Ht Hl. split; unfold with_line; cbn [tm input_buffer buffer_pos]; [|done|].
  - split; [done|]. exists (replicate (256 - length s - 1) 0). f_equal.
    destruct (256 - length s)%nat as [|n] eqn:E; [lia|]. simpl replicate. by rewrite Nat.sub_0_r.
  - rewrite length_app, length_replicate. lia.
Qed.

Lemma boot_ok : fs_ok fs_boot.
Proof. apply fs_boot_refines. Qed.

Lemma execute_command_safe_witness :
  stays_ok (with_line (chars "touch a b") fs_boot (chars "/")) [] CmdTouch
    (execute_command (devices (λ _ _, 0)) (λ _, 0) 1 (with_line (chars "touch a b") fs_boot (chars "/"))).
Proof.
  apply (execute_command_safe _ _ _ _ [] (chars "touch a b")).
  - apply with_line_ok; [apply boot_ok|compute_decide|simpl; lia].
  - constructor.
  - apply with_line_entered; [compute_decide|simpl; lia].
  - compute_decide.
Defined.

(** ** The commands that change the file system *)

(** The operation of the file system a command line asks for, given its path
    [p], which is [a] and the name [b] behind its last slash. *)
Definition shell_cmd (c : command) (p a b : list Z) : option fs_cmd :=
  match c with
  | CmdMkdir => Some (Mkdir a b)
  | CmdTouch => if decide (b = []) then None else Some (Touch a b)
  | CmdRm => Some (Remove p)
  | _ => None
  end.

(** One error message, a line of its own, has been printed. *)
Definition error_shown (v w : vga) : Prop :=
  ∃ msg, List.last msg 0 = 10 ∧ emit (chars "Error: " ++ msg) v = Ok w.

(** The command ran with result [r]: the disk is [st]; the screen is as before,
    or shows one more error message. *)
Definition reported (m : machine) (r : Z) (st : fs) (o : outcome machine) : Prop :=
  ∃ m', o = Ok m' ∧ disk m' = st ∧ tm m' = tm m ∧ keys m' = keys m ∧
    if r <? 0 then error_shown (screen m) (screen m') else screen m' = screen m.

Lemma say_reported (err : string) msg m st :
  bool_decide (text (chars err ++ [10])) = true → fmt_text (chars err ++ [10]) [] = Some (chars "Error: " ++ msg) →
  List.last msg 0 = 10 → vga_synced (screen m) → reported m (-1) st (printf (line err) [] (set_disk st m)).
Proof.
  intros Ht Hf Hl Hv. rewrite (printf_emit _ _ _ _ _ (line_str _ Ht) Hf). simpl screen.
  destruct (emit_ok (chars "Error: " ++ msg) (screen m) Hv) as (v & Hv' & _).
  exists (set_screen v (set_disk st m)). rewrite Hv'. do 4 (split; [done|]). by exists msg.
Qed.

Lemma report_reported (err : string) msg r m st :
  bool_decide (text (chars err ++ [10])) = true → fmt_text (chars err ++ [10]) [] = Some (chars "Error: " ++ msg) →
  List.last msg 0 = 10 → vga_synced (screen m) → reported m r st (report err r (set_disk st m)).
Proof.
  intros Ht Hf Hl Hv. unfold report. destruct (r <? 0) eqn:E.
  - destruct (say_reported err msg m st Ht Hf Hl Hv) as (m' & H1 & H2 & H3 & H4 & H5).
    exists m'. do 4 (split; [done|]). by rewrite E.
  - exists (set_disk st m). do 4 (split; [done|]). by rewrite E.
Qed.

(** A creation and a deletion depend on the text of the path only. *)
Lemma create_at_text t a b f st :
  fs_ok st → is_str f (a ++ chr "/" :: b) → path_ok (a ++ chr "/" :: b) a b →
  create_at t (a ++ chr "/" :: b ++ [0]) st = create_at t f st.
Proof.
  intros Hok Hf [_ Hb Ha Hbl _ Hsh]. rewrite !(create_at_ok t _ a b); try done.
  rewrite app_comm_cons, app_assoc. apply is_str_term, Hf.
Qed.

Lemma delete_text p f st :
  fs_ok st → is_str f p → short (components p) → fs_delete_file (p ++ [0]) st = fs_delete_file f st.
Proof.
  intros Hok Hf Hsh. unfold fs_delete_file.
  rewrite !(fs_parse_path_resolve _ p); try done. apply is_str_term, Hf.
Qed.

Section shell.
Context (m : machine) (d s : list Z) (M : afs).
Context (Hm : machine_ok m d) (Hd : fits d s) (Hen : entered (tm m) s).
Context (Href : refines (disk m) M) (Hw : first_arg s ≠ []).

Let p := path_text (chr "/" :: d) (first_arg s).

(** [o] does to the disk what the operation [c] does to the table and to the
    tree. *)
Definition does (c : fs_cmd) (o : outcome machine) : Prop :=
  ∃ st, run_cmd c (disk m) = Ok ((a_cmd c M).1, st) ∧
        reported m (a_cmd c M).1 st o ∧ refines st (a_cmd c M).2.

Lemma on_path_some none some :
  ∃ f a b, on_path m none some = some f ∧ is_str f p ∧ path_ok p a b.
Proof.
  pose proof (on_path_ok m d s Hm Hd Hen none some) as H. fold p in H.
  destruct (first_arg s) as [|x w]; [done|]. destruct H as (f & a & b & H1 & H2 & _ & H3).
  by exists f, a, b.
Qed.

Lemma mkdir_does : ∃ a b, path_ok p a b ∧ does (Mkdir a b) (cmd_mkdir m).
Proof.
  rewrite cmd_mkdir_path. match goal with |- context [on_path m ?n ?f] =>
    destruct (on_path_some n f) as (f' & a & b & -> & Hf & Hab) end.
  exists a, b. split; [done|]. pose proof Hab as [Hp Hb Ha Hbl _ Hsh]. rewrite Hp in Hf.
  destruct (make_simulates FILE_TYPE_DIR a b f' (disk m) M) as (st & Hc & Hr); try done.
  exists st. split; [|split; [|exact Hr]].
  { simpl. rewrite <-Hc. apply (create_at_text _ a b); [apply Hm|done|by rewrite <-Hp]. }
  unfold fs_mkdir. rewrite Hc. cbn [mbind outcome_bind].
  eapply report_reported; [reflexivity|reflexivity|reflexivity|apply Hm].
Qed.

Lemma touch_reported f a b r st :
  is_str f (a ++ chr "/" :: b) → path_ok (a ++ chr "/" :: b) a b → b ≠ [] →
  create_at FILE_TYPE_FILE f (disk m) = Ok (r, st) →
  reported m r st
    match resolve (disk m) (components a) with
    | None => printf (line "Error: Invalid path") [] m
    | Some q =>
        if can_create (disk m) q b
        then Ok (set_disk (add_entry (disk m) b FILE_TYPE_FILE q) m)
        else printf (line "Error: Cannot create file") [] m
    end.
Proof.
  intros Hf [_ Hb Ha Hbl _ Hsh] Hne. pose proof (mo_disk _ _ Hm) as Hok.
  rewrite (create_at_ok _ f a b), decide_False by done.
  assert (∀ (err : string) msg, bool_decide (text (chars err ++ [10])) = true →
    fmt_text (chars err ++ [10]) [] = Some (chars "Error: " ++ msg) → List.last msg 0 = 10 →
    reported m (-1) (disk m) (printf (line err) [] m)) as Hsay.
  { intros err msg Ht Hfm Hlm.
    pose proof (say_reported err msg m (disk m) Ht Hfm Hlm (mo_screen _ _ Hm)) as H.
    by destruct m. }
  destruct (resolve (disk m) (components a)) as [q|]; [destruct (can_create (disk m) q b)|];
    intros [= <- <-]; [|eapply Hsay; reflexivity..].
  exists (set_disk (add_entry (disk m) b FILE_TYPE_FILE q) m). do 4 (split; [done|]).
  pose proof (ok_count _ Hok). by rewrite (proj2 (Z.ltb_ge (file_count (disk m)) 0)) by lia.
Qed.

Lemma touch_does : ∃ a b, path_ok p a b ∧ (b ≠ [] → does (Touch a b) (cmd_touch m)).
Proof.
  rewrite cmd_touch_path. match goal with |- context [on_path m ?n ?f] =>
    destruct (on_path_some n f) as (f' & a & b & -> & Hf & Hab) end.
  exists a, b. split; [done|]. intros Hne. pose proof Hab as [Hp Hb Ha Hbl _ Hsh].
  rewrite Hp in Hf, Hab. cbv beta. rewrite (touch_run m d s Hm Hen f' a b Hf Hab).
  destruct (make_simulates FILE_TYPE_FILE a b f' (disk m) M) as (st & Hc & Hr); try done.
  exists st. split; [|split; [|exact Hr]; by apply (touch_reported f')].
  simpl. rewrite <-Hc. apply (create_at_text _ a b); [apply Hm|done|done].
Qed.

Lemma rm_does :
  match resolve (disk m) (components p) with Some idx => near (disk m) idx | None => True end →
  does (Remove p) (cmd_rm m).
Proof.
  intros Hnear. rewrite cmd_rm_path. match goal with |- context [on_path m ?n ?f] =>
    destruct (on_path_some n f) as (f' & a & b & -> & Hf & Hab) end.
  pose proof Hab as [_ _ _ _ Hsh _].
  destruct (remove_simulates f' p (disk m) M) as (st & Hc & Hr); try done.
  exists st. split; [|split; [|exact Hr]].
  { simpl run_cmd. rewrite <-Hc. apply (delete_text p); [apply Hm|done|done]. }
  rewrite Hc. cbn [mbind outcome_bind].
  eapply report_reported; [reflexivity|reflexivity|reflexivity|apply Hm].
Qed.

End shell.

Lemma reported_run m r st o :
  reported m r st o →
  ∃ m', (Returned <$> o) = Ok (Returned m') ∧ disk m' = st ∧ tm m' = tm m ∧ keys m' = keys m ∧
    if r <? 0 then error_shown (screen m) (screen m') else screen m' = screen m.
Proof. intros (m' & -> & H). by exists m'. Qed.

(** C4: The shell implements the abstract file system.  A command line [mkdir w],
    [touch w] or [rm w] is executed as the abstract creation of a directory, the
    abstract creation of a file or the abstract deletion at the path that [w]
    stands for in the current directory: the table afterwards represents the
    abstract result, the terminal variables are unchanged, and the screen is
    unchanged on success and shows one error message otherwise.  The argument is
    not empty and its path fits the buffer of 512 bytes; [touch] with a path that
    ends in a slash and [rm] of an entry more than two slots before a directory
    with entries are excluded. *)
Theorem shell_refines e hi fuel m d s M :
  machine_ok m d → fits d s → entered (tm m) s → refines (disk m) M →
  first_arg s ≠ [] →
  let p := path_text (chr "/" :: d) (first_arg s) in
  (dispatch s = CmdRm →
   match resolve (disk m) (components p) with Some idx => near (disk m) idx | None => True end) →
  ∃ a b, p = a ++ chr "/" :: b ∧ (chr "/") ∉ b ∧
    ∀ c, shell_cmd (dispatch s) p a b = Some c →
    ∃ m', execute_command e hi fuel m = Ok (Returned m') ∧
      refines (disk m') (a_cmd c M).2 ∧ tm m' = tm m ∧
      if (a_cmd c M).1 <? 0 then error_shown (screen m) (screen m') else screen m' = screen m.
Proof.
  intros Hm Hd Hen Href Hw p Hrm. rewrite (execute_command_ok e hi fuel m s Hen (has_arg s Hw)).
  assert (∀ c o, does m M c o → ∃ m', (Returned <$> o) = Ok (Returned m') ∧
    refines (disk m') (a_cmd c M).2 ∧ tm m' = tm m ∧
    if (a_cmd c M).1 <? 0 then error_shown (screen m) (screen m') else screen m' = screen m) as Hdoes.
  { intros c o (st & _ & Hr & Hst). destruct (reported_run _ _ _ _ Hr) as (m' & Ho & <- & Ht & _ & Hs).
    by exists m'. }
  destruct (mkdir_does m d s M Hm Hd Hen Href Hw) as (a & b & Hab & Hmk).
  destruct (decide (dispatch s = CmdTouch)) as [Et|Et].
  { destruct (touch_does m d s M Hm Hd Hen Href Hw) as (a' & b' & Hab' & Ht).
    exists a', b'. split; [apply Hab'|]. split; [apply Hab'|]. rewrite Et. cbn [shell_cmd run_command].
    intros c Hc. case_decide; [done|]. injection Hc as <-. by apply Hdoes, Ht. }
  exists a, b. split; [apply Hab|]. split; [apply Hab|]. intros c.
  destruct (dispatch s) eqn:E; try done; intros [= <-]; apply Hdoes; [done|].
  apply (rm_does m d s M); try done. by apply Hrm.
Qed.

Lemma shell_refines_witness :
  ∃ m', execute_command (devices (λ _ _, 0)) (λ _, 0) 1 (with_line (chars "mkdir e") (after_cmds sample) (chars "/d"))
        = Ok (Returned m') ∧
        refines (disk m') (a_cmd (Mkdir (chars "/d") (chars "e")) (a_cmds sample a_init).2).2.
Proof.
  destruct (shell_refines (devices (λ _ _, 0)) (λ _, 0) 1
    (with_line (chars "mkdir e") (after_cmds sample) (chars "/d")) (chars "d") (chars "mkdir e")
    (a_cmds sample a_init).2) as (a & b & Hp & Hb & H).
  - apply with_line_ok; [apply sample_refines|compute_decide|simpl; lia].
  - apply (short_dir_fits (with_line (chars "mkdir e") fs_boot (chars "/"))); [apply with_line_entered; [compute_decide|simpl; lia]|simpl; lia].
  - apply with_line_entered; [compute_decide|simpl; lia].
  - apply sample_refines.
  - compute_decide.
  - intros E. exfalso. vm_compute in E. discriminate E.
  - assert (a = chars "/d" ∧ b = chars "e") as [-> ->].
    { change (chars "/d" ++ chr "/" :: chars "e" = a ++ chr "/" :: b) in Hp.
      by apply last_slash_unique in Hp as [-> ->]; [|compute_decide|]. }
    destruct (H (Mkdir (chars "/d") (chars "e")) eq_refl) as (m' & He & Hr & _).
    exists m'. split; [exact He|exact Hr].
Defined.

(** ** [cd], [ls], [exit] *)

(** C25: [cd] without an argument goes to the root; with an argument it makes the
    path the argument stands for the current directory if that path is a
    directory, and otherwise prints an error and keeps the current directory.
    The file system is not changed.  The path must fit its buffer. *)
Theorem shell_cd e hi fuel m d s :
  machine_ok m d → fits d s → entered (tm m) s → dispatch s = CmdCd →
  let p := path_text (chr "/" :: d) (first_arg s) in
  let goes d' := ∃ m', execute_command e hi fuel m = Ok (Returned m') ∧ disk m' = disk m ∧
    screen m' = screen m ∧ is_str (current_dir (tm m')) d' in
  match first_arg s, resolve (disk m) (components p) with
  | [], _ => goes (chars "/")
  | _, Some i =>
      if is_dir (disk m) i then goes p
      else execute_command e hi fuel m = Returned <$> printf (line "Error: Directory not found") [] m
  | _, None =>
      execute_command e hi fuel m = Returned <$> printf (line "Error: Directory not found") [] m
  end.
Proof.
  intros Hm Hd Hen Hcd p goes. assert (s ≠ []) as Hs by (intros ->; vm_compute in Hcd; discriminate Hcd).
  unfold goes. rewrite (execute_command_ok e hi fuel m s Hen Hs), Hcd. cbn [run_command].
  pose proof (cd_run m d s Hm Hd Hen) as H. fold p in H.
  destruct (first_arg s) as [|x w].
  - destruct H as (m' & -> & Hok & Hsc & Hdk & _). exists m'. do 3 (split; [done|]). apply Hok.
  - destruct H as (d' & Hp & _ & _ & H).
    destruct (resolve (disk m) (components p)) as [i|]; [|by rewrite H].
    destruct (is_dir (disk m) i); [|by rewrite H].
    destruct H as (m' & -> & Hok & Hsc & Hdk & _). exists m'. do 3 (split; [done|]).
    rewrite Hp. apply Hok.
Qed.

Lemma shell_cd_witness :
  ∃ m', execute_command (devices (λ _ _, 0)) (λ _, 0) 1 (with_line (chars "cd d") (after_cmds sample) (chars "/"))
        = Ok (Returned m') ∧ is_str (current_dir (tm m')) (chars "/d").
Proof.
  pose proof (shell_cd (devices (λ _ _, 0)) (λ _, 0) 1
    (with_line (chars "cd d") (after_cmds sample) (chars "/")) [] (chars "cd d")
    ltac:(apply with_line_ok; [apply sample_refines|compute_decide|simpl; lia])
    ltac:(apply (short_dir_fits (with_line (chars "cd d") fs_boot (chars "/"))); [apply with_line_entered; [compute_decide|simpl; lia]|simpl; lia])
    ltac:(apply with_line_entered; [compute_decide|simpl; lia]) ltac:(vm_compute; reflexivity)) as H.
  cbv zeta in H. change (first_arg (chars "cd d")) with (chars "d") in H.
  assert (resolve (disk (with_line (chars "cd d") (after_cmds sample) (chars "/")))
            (components (path_text [chr "/"] (chars "d"))) = Some 1%nat) as Hr by (vm_compute; reflexivity).
  assert (is_dir (disk (with_line (chars "cd d") (after_cmds sample) (chars "/"))) 1 = true) as Hi
    by (vm_compute; reflexivity).
  rewrite Hr, Hi in H. destruct H as (m' & He & _ & _ & Hs). exists m'. split; [exact He|exact Hs].
Defined.

(** C26: [ls] prints the lines of all entries of the directory its argument
    stands for (the current directory without an argument or with a dot), and
    an error if it is not a directory; nothing but the screen changes.  The path
    must fit its buffer. *)
Theorem shell_ls e hi fuel m d s :
  machine_ok m d → short (components d) → (length (ls_path d s) < 512)%nat →
  entered (tm m) s → dispatch s = CmdLs →
  execute_command e hi fuel m = (λ v, Returned (set_screen v m)) <$>
    emit (match resolve (disk m) (components (ls_path d s)) with
          | Some i => if is_dir (disk m) i then listing (children (disk m) i)
                      else chars "Error: Cannot list directory" ++ [10]
          | None => chars "Error: Cannot list directory" ++ [10]
          end) (screen m).
Proof.
  intros Hm Hd Hl Hen Hls. assert (s ≠ []) as Hs by (intros ->; vm_compute in Hls; discriminate Hls).
  rewrite (execute_command_ok e hi fuel m s Hen Hs), Hls. cbn [run_command].
  destruct (ls_run m d s Hm Hd Hl Hen) as [_ H].
  assert (∀ o out fmt str args, o = printf fmt args m → is_str fmt str → fmt_text str args = Some out →
    Returned <$> o = (λ v, Returned (set_screen v m)) <$> emit out (screen m)) as Hpr.
  { intros o out fmt str args -> Hf Ht. rewrite (printf_emit fmt str args out) by done.
    by destruct (emit out (screen m)). }
  assert (cmd_ls m = printf (line "Error: Cannot list directory") [] m →
    Returned <$> cmd_ls m = (λ v, Returned (set_screen v m)) <$>
      emit (chars "Error: Cannot list directory" ++ [10]) (screen m)) as Herr.
  { intros Ho. eapply Hpr; [exact Ho|by apply line_str|done]. }
  destruct (resolve _ _) as [i|]; [|by apply Herr].
  destruct (is_dir (disk m) i); [|by apply Herr].
  destruct H as (buf & Hb & Ho). eapply Hpr; [exact Ho|by apply (lit_str "%s")|].
  apply is_str_c_str in Hb as [Hb _].
  change (fmt_text (chars "%s") [VaPtr buf])
    with ('(t, r) ← conv_text (chr "s") [VaPtr buf]; app t <$> fmt_text [] r).
  assert (conv_text (chr "s") [VaPtr buf] = Some (listing (children (disk m) i), [])) as ->
    by (unfold conv_text; simpl; by rewrite Hb).
  simpl. by rewrite app_nil_r.
Qed.

Lemma shell_ls_witness :
  execute_command (devices (λ _ _, 0)) (λ _, 0) 1 (with_line (chars "ls") (after_cmds sample) (chars "/"))
  = (λ v, Returned (set_screen v (with_line (chars "ls") (after_cmds sample) (chars "/")))) <$>
    emit (chars "d/" ++ [10]) (screen (with_line (chars "ls") (after_cmds sample) (chars "/"))).
Proof.
  rewrite (shell_ls (devices (λ _ _, 0)) (λ _, 0) 1
    (with_line (chars "ls") (after_cmds sample) (chars "/")) [] (chars "ls")
    ltac:(apply with_line_ok; [apply sample_refines|compute_decide|simpl; lia])
    ltac:(constructor) ltac:(vm_compute; lia)
    ltac:(apply with_line_entered; [compute_decide|simpl; lia]) ltac:(vm_compute; reflexivity)).
  f_equal.
Defined.

(** C27: [exit] prints its message and then never comes back, whatever the
    hardware does: after any number of steps of the processor, control has not
    left the block of assembly.  The block first polls the status register of
    the keyboard controller; while bit 1 is set it does nothing else.  When poll
    number [n] is the first to see the bit clear, the accesses that follow are
    exactly the word 0x2000 written to the power management port 0x604, the
    interrupt 0x15 with 0x5301 in [ax] and 0x1004 in [bx], and, if that comes
    back, the interrupt 0x15 with 0x5307, 1 and 3 in [ax], [bx] and [cx]; then the
    machine is stopped, with the file system as it was. *)
Theorem shell_exit e hi fuel m d s :
  machine_ok m d → entered (tm m) s → dispatch s = CmdExit →
  ∃ v, emit (chars "Exiting FoxOS..." ++ [10]) (screen m) = Ok v ∧
    (∀ k c, asm_steps e k exit_asm (enter_asm e (ports v)) ≠ Leaves c) ∧
    (∀ n, Z.land (status_at e n (ports v)) 2 = 0 →
       (∀ j, (j < n)%nat → Z.land (status_at e j (ports v)) 2 ≠ 0) → (n < fuel)%nat →
       execute_command e hi fuel m
       = Ok (Stopped (set_screen (set_ports (exit_log e n (ports v)) v) m))) ∧
    ((∀ n, Z.land (status_at e n (ports v)) 2 ≠ 0) →
       execute_command e hi fuel m = Fault OutOfFuel).
Proof.
  intros Hm Hen Hex. assert (s ≠ []) as Hs by (intros ->; vm_compute in Hex; discriminate Hex).
  rewrite (execute_command_ok e hi fuel m s Hen Hs), Hex. cbn [run_command]. unfold cmd_exit.
  destruct (emit_ok (chars "Exiting FoxOS..." ++ [10]) (screen m) (mo_screen _ _ Hm)) as (v & Hv & _).
  exists v. split; [done|].
  rewrite (printf_emit _ (chars "Exiting FoxOS..." ++ [10]) [] (chars "Exiting FoxOS..." ++ [10])), Hv
    by (done || by apply line_str). cbn [fmap outcome_fmap mbind outcome_bind].
  cbn [screen set_screen]. split; [|split].
  - intros k c. apply exit_never_leaves. unfold enter_asm.
    destruct (registers e (ports v)) as [[[? ?] ?] ?]. simpl. lia.
  - intros n Hn Hj Hf. destruct (exit_runs e n fuel (ports v) Hj Hn Hf) as (c & -> & Hio).
    cbn [mbind outcome_bind]. by rewrite Hio.
  - intros Hb. by rewrite exit_waits.
Qed.

(** A controller that is busy for two polls after the message, and a BIOS that
    comes back from its interrupts. *)
Definition busy_twice (start : nat) : io_env :=
  Env (λ h _, if (length h <? start + 2)%nat then 2 else 0) (λ _, true) (λ _, (0, 0, 0, 0)).

Lemma length_poll e j h : length (poll e j h) = (j + length h)%nat.
Proof.
  revert h. induction j as [|j IH]; intros h; [done|]. cbn [poll]. rewrite IH. simpl. lia.
Qed.

Lemma busy_twice_status j h : status_at (busy_twice (length h)) j h = if (j <? 2)%nat then 2 else 0.
Proof.
  unfold status_at, inb. cbn [fst busy_twice answer]. rewrite length_poll.
  destruct (Nat.ltb_spec (j + length h) (length h + 2)), (Nat.ltb_spec j 2); done || lia.
Qed.

Lemma busy_twice_log h :
  exit_log (busy_twice (length h)) 2 h
  = [IoInt 0x15 0x5307 1 3; IoInt 0x15 0x5301 0x1004 0; IoOut W16 0x604 0x2000;
     IoIn W8 0x64 0; IoIn W8 0x64 2; IoIn W8 0x64 2] ++ h.
Proof.
  set (e := busy_twice (length h)). unfold exit_log. cbn [registers comes_back e busy_twice].
  assert (poll e 3 h = [IoIn W8 0x64 (status_at e 2 h); IoIn W8 0x64 (status_at e 1 h);
    IoIn W8 0x64 (status_at e 0 h)] ++ h) as -> by reflexivity.
  unfold e. by rewrite !busy_twice_status.
Qed.

Lemma shell_exit_witness :
  let m := with_line (chars "exit") fs_boot (chars "/") in
  ∃ v, emit (chars "Exiting FoxOS..." ++ [10]) (screen m) = Ok v ∧
    execute_command (busy_twice (length (ports v))) (λ _, 0) 3 m
    = Ok (Stopped (set_screen (set_ports
        ([IoInt 0x15 0x5307 1 3; IoInt 0x15 0x5301 0x1004 0; IoOut W16 0x604 0x2000;
          IoIn W8 0x64 0; IoIn W8 0x64 2; IoIn W8 0x64 2] ++ ports v) v) m)).
Proof.
  intros m. assert (machine_ok m []) as Hm
    by (apply with_line_ok; [apply boot_ok|compute_decide|simpl; lia]).
  assert (entered (tm m) (chars "exit")) as Hen by (apply with_line_entered; [compute_decide|simpl; lia]).
  destruct (emit_ok (chars "Exiting FoxOS..." ++ [10]) (screen m) (mo_screen _ _ Hm)) as (v & Hv & _).
  exists v. split; [exact Hv|]. set (e := busy_twice (length (ports v))).
  destruct (shell_exit e (λ _, 0) 3 m [] (chars "exit") Hm Hen ltac:(vm_compute; reflexivity))
    as (v' & Hv' & _ & He & _).
  assert (v' = v) as -> by congruence. rewrite (He 2%nat); [| |intros j Hj|lia].
  - do 4 f_equal. apply busy_twice_log.
  - unfold e. by rewrite busy_twice_status.
  - unfold e. rewrite busy_twice_status. by rewrite (proj2 (Nat.ltb_lt j 2) Hj).
Defined.

(** ** Arguments and paths *)

(** C28: [build_path] makes an absolute word the path itself and puts a relative
    word behind the current directory and a slash; the result fits the 512-byte
    buffer exactly when it has at most 511 characters, and a longer one is
    written past the end of the buffer. *)
Theorem build_path_correct cwd d rel w :
  is_str cwd d → d ≠ [] → (length d < 512)%nat → is_str rel w → (length w < 512)%nat →
  if decide (length (path_text d w) < 512)%nat
  then ∃ f, build_path cwd rel path_buf = Ok f ∧ is_str f (path_text d w)
  else build_path cwd rel path_buf = Fault OutOfBounds.
Proof.
  intros Hd Hne Hdl Hw Hwl. pose proof (build_path_ok cwd d rel w Hd Hne Hdl Hw Hwl) as H.
  case_decide; [|done]. destruct H as (f & H1 & H2 & _). by exists f.
Qed.

Lemma build_path_correct_witness :
  (∃ f, build_path (lit "/d") (lit "x") path_buf = Ok f ∧ is_str f (chars "/d/x")) ∧
  build_path (chr "/" :: replicate 300 (chr "a") ++ [0]) (replicate 250 (chr "b") ++ [0]) path_buf
  = Fault OutOfBounds.
Proof.
  split.
  - apply (build_path_correct (lit "/d") (chars "/d") (lit "x") (chars "x"));
      [by apply lit_str|done|simpl; lia|by apply lit_str|simpl; lia].
  - apply (build_path_correct (chr "/" :: replicate 300 (chr "a") ++ [0]) (chr "/" :: replicate 300 (chr "a"))
      (replicate 250 (chr "b") ++ [0]) (replicate 250 (chr "b")));
      [split; [compute_decide|by exists []]|done|simpl; lia
      |split; [compute_decide|by exists []]|simpl; lia].
Defined.



(** C36: Commands with an argument are recognised by their first letters only:
    every line that starts with [ls], [cd] or [rm] runs that command, so that
    [rmdir x] deletes the file [x] and [cd..] goes to the root. *)
Theorem shell_prefix_dispatch e hi fuel m rest :
  (entered (tm m) (chars "ls" ++ rest) → execute_command e hi fuel m = Returned <$> cmd_ls m) ∧
  (entered (tm m) (chars "cd" ++ rest) → execute_command e hi fuel m = Returned <$> cmd_cd m) ∧
  (entered (tm m) (chars "rm" ++ rest) → execute_command e hi fuel m = Returned <$> cmd_rm m).
Proof.
  split; [|split]; intros Hen; rewrite (execute_command_ok _ _ _ _ _ Hen) by done; done.
Qed.

Lemma shell_prefix_dispatch_witness :
  execute_command (devices (λ _ _, 0)) (λ _, 0) 1 (with_line (chars "rmdir x") fs_boot (chars "/"))
  = Returned <$> cmd_rm (with_line (chars "rmdir x") fs_boot (chars "/")).
Proof.
  apply (proj2 (proj2 (shell_prefix_dispatch (devices (λ _ _, 0)) (λ _, 0) 1
    (with_line (chars "rmdir x") fs_boot (chars "/")) (chars "dir x")))).
  apply (with_line_entered (chars "rmdir x")); [compute_decide|simpl; lia].
Defined.

(** *** An entry without a name *)

Lemma walk_good_lt st ws i :
  fs_ok st → walk_from st 0 ws = Ok (Some i) → (i < Z.to_nat (file_count st))%nat.
Proof.
  intros Hok Hw. pose proof (ok_count _ Hok). apply (resolve_lt st 0 ws i Hok); [lia|].
  clear H. revert Hw. generalize 0%nat. induction ws as [|w ws IH]; intros cur; simpl; [congruence|].
  case_decide; [done|]. destruct (lookup_child st cur w) as [j|]; [apply IH|congruence].
Qed.

(** Names of paths are not empty: no path sees the entry. *)
Section nameless.
Context (st : fs) (Hok : fs_ok st) (q : nat) (t : file_type) (Hcan : can_create st q [] = true).

Let st' := add_entry st [] t q.

Lemma nameless_room : file_count st < MAX_FILES ∧ (q < 256)%nat ∧ is_dir st q = true.
Proof.
  unfold can_create in Hcan. apply andb_true_iff in Hcan as [[Hr Hq]%andb_true_iff _].
  apply Z.ltb_lt in Hr. split; [done|]. split; [|done]. unfold is_dir in Hq.
  destruct (files st !! q) as [g|] eqn:Hg; [|done]. apply lookup_lt_Some in Hg.
  by rewrite (ok_files _ Hok) in Hg.
Qed.

Lemma nameless_ok : fs_ok st'.
Proof. apply created_ok; [done|constructor|simpl; lia|done]. Qed.

Lemma nameless_entry : ∃ g, live st' = live st ++ [g] ∧ name_of g = [] ∧ ftype g = t ∧
  parent_index g = Z.of_nat q.
Proof.
  destruct nameless_room as (Hr & Hq & _).
  destruct (live_add_entry st Hok [] t q ltac:(constructor) ltac:(simpl; lia) Hr Hq)
    as (g & ? & _ & ? & ? & ? & _). by exists g.
Qed.

Lemma nameless_lookup cur w : w ≠ [] → lookup_child st' cur w = lookup_child st cur w.
Proof.
  destruct nameless_room as (Hr & Hq & _). intros Hw. unfold st'.
  rewrite (lookup_child_add st Hok [] t q ltac:(constructor) ltac:(simpl; lia) Hr) by done.
  destruct (lookup_child st cur w); [done|]. by rewrite decide_False by (by intros [_ ->]).
Qed.

Lemma nameless_walk cur ws : good ws → walk_from st' cur ws = walk_from st cur ws.
Proof.
  intros Hg. revert cur. induction Hg as [|w ws Hw _ IH]; intros cur; [done|]. cbn [walk_from].
  case_decide; [done|]. rewrite nameless_lookup by done. destruct (lookup_child st cur w); [apply IH|done].
Qed.

Lemma nameless_resolve cur ws : good ws → resolve_from st' cur ws = resolve_from st cur ws.
Proof.
  intros Hg. revert cur. induction Hg as [|w ws Hw _ IH]; intros cur; [done|]. cbn [resolve_from].
  rewrite nameless_lookup by done. destruct (lookup_child st cur w); [apply IH|done].
Qed.

Lemma nameless_parse path s : is_str path s → fs_parse_path path st' = fs_parse_path path st.
Proof.
  intros Hs. rewrite !(fs_parse_path_ok path s) by (done || apply nameless_ok).
  by rewrite nameless_walk by apply good_components.
Qed.

Lemma nameless_unseen path s : is_str path s → fs_parse_path path st ≠ Ok (file_count st).
Proof.
  intros Hs. rewrite (fs_parse_path_ok path s) by done. pose proof (ok_count _ Hok).
  destruct (walk_from st 0 (components s)) as [[i|]|] eqn:E; [| |done].
  - apply walk_good_lt in E; [|done]. intros [= He]. lia.
  - intros [= He]. lia.
Qed.

Lemma nameless_busy : (q < Z.to_nat (file_count st))%nat → busy st' q.
Proof.
  intros Hlt. destruct nameless_room as (_ & _ & Hd), nameless_entry as (g & Hl & _ & _ & Hg).
  unfold is_dir in Hd. destruct (files st !! q) as [f|] eqn:Hf; [|done].
  apply bool_decide_eq_true_1 in Hd.
  assert (live st !! q = Some f) as Hlq by (by apply live_lookup).
  exists f, (length (live st)), g. rewrite Hl, list_lookup_middle by done.
  split; [|done]. apply (lookup_app_l_Some _ [g]) in Hlq. rewrite <-Hl in Hlq. by apply live_lookup in Hlq as [? _].
Qed.

End nameless.

Lemma trailing_slash d w' w a b :
  w' = w ++ [chr "/"] → path_text (chr "/" :: d) w' = a ++ chr "/" :: b → (chr "/") ∉ b → b = [].
Proof.
  intros -> Hp Hb. assert (∃ x, path_text (chr "/" :: d) (w ++ [chr "/"]) = x ++ chr "/" :: []) as [x Hx].
  { destruct w as [|c w]; [by exists []|]. cbn [app]. destruct (Z.eqb_spec c (chr "/")) as [->|Hc].
    - by exists (chr "/" :: w).
    - rewrite path_text_relative by done. exists (dir_text (chr "/" :: d) ++ c :: w).
      by rewrite <-app_assoc. }
  rewrite Hx in Hp. apply last_slash_unique in Hp as [_ <-]; [done| |done]. apply not_elem_of_nil.
Qed.


