(* ===== verification/TermPrints.v ===== *)
(** * The commands of the terminal: what they leave alone

    Printing does not read scan codes, and every command of [src/terminal.c]
    except [exit] ends with the cursor at the start of a row.  The commands that
    only print ([help], [clear], [version], [color], [pwd], [ls],
    [test-formatting], [test-colors] and unknown ones) change nothing but the
    screen and the colour. *)

From S2P Require Import Prelude.
From S2P Require Import CString.
From S2P Require Import Ports.
From S2P Require Import Keyboard.
From S2P Require Import Vga.
From S2P Require Import VgaFormat.
From S2P Require Import Fs.
From S2P Require Import FsPath.
From S2P Require Import FsOps.
From S2P Require Import FsData.
From S2P Require Import FsClaims.
From S2P Require Import Terminal.
From S2P Require Import TermEdit.
From S2P Require Import TermShell.
From S2P Require Import TermSafe.
From S2P Require Import TermClaims.

(** ** Reads of the data port *)

(** The number of scan codes read so far. *)
Fixpoint data_reads (h : io_log) : nat :=
  match h with
  | [] => 0
  | IoIn W8 p _ :: h' => if p =? 0x60 then S (data_reads h') else data_reads h'
  | _ :: h' => data_reads h'
  end.

(** ** The screen does not read the keyboard *)

Definition reads (v : vga) : nat := data_reads (ports v).

Lemma put_cell_reads i e v w : put_cell i e v = Ok w → reads w = reads v.
Proof. unfold put_cell. intros H. by inv_ok. Qed.

Lemma for_range_reads lo hi (body : Z → vga → outcome vga) v w :
  (∀ i u u', body i u = Ok u' → reads u' = reads u) →
  for_range lo hi body v = Ok w → reads w = reads v.
Proof.
  intros Hb. unfold for_range. generalize (Z.to_nat (hi - lo)) as n. intros n.
  revert lo v. induction n as [|n IH]; intros lo v H; cbn [for_up] in H; inv_ok; [done|].
  rewrite (IH _ _ H). by eapply Hb.
Qed.

Lemma scroll_reads v w : vga_scroll v = Ok w → reads w = reads v.
Proof.
  unfold vga_scroll. intros H. inv_ok.
  transitivity (reads x); (eapply for_range_reads; [|eassumption]); cbv beta.
  - intros i u u'. apply put_cell_reads.
  - intros i u u' Hu. eapply for_range_reads; [|exact Hu]. cbv beta. intros j t t' Ht. inv_ok.
    by eapply put_cell_reads.
Qed.

Lemma wrap_reads v w : putchar_wrap v = Ok w → reads w = reads v.
Proof.
  unfold putchar_wrap. intros H. inv_ok. change (reads x = reads v).
  match goal with H : _ = Ok x |- _ => revert H end.
  destruct (VGA_WIDTH <=? cursor_x v); case_bool; intros H; inv_ok; try done;
    match goal with H : vga_scroll _ = Ok _ |- _ => apply scroll_reads in H; exact H end.
Qed.

Lemma putchar_reads c v w : vga_putchar c v = Ok w → reads w = reads v.
Proof.
  unfold vga_putchar, putchar_erase. repeat case_bool; intros H;
    try (by apply wrap_reads in H); inv_ok.
  - match goal with H : put_cell _ _ _ = Ok _ |- _ => by apply put_cell_reads in H end.
  - match goal with H : put_cell _ _ _ = Ok _ |- _ => by apply put_cell_reads in H end.
  - match goal with H : put_cell _ _ _ = Ok _ |- _ => apply put_cell_reads in H as <- end.
    by apply wrap_reads in H.
Qed.

Lemma emit_reads cs v w : emit cs v = Ok w → reads w = reads v.
Proof.
  revert v. induction cs as [|c cs IH]; intros v H; cbn [emit] in H; inv_ok; [done|].
  rewrite (IH _ H). by eapply putchar_reads.
Qed.

Lemma redraw_reads t v w : redraw_input_line t v = Ok w → reads w = reads v ∧ ∃ x y u, w = vga_set_cursor x y u.
Proof.
  unfold redraw_input_line, vga_get_cursor. intros H. inv_ok. split; [|by eexists _, _, _].
  change (reads x0 = reads v).
  transitivity (reads x); (etransitivity; [eapply for_range_reads; [|eassumption]|]); cbv beta; try done.
  - intros i u u' Hu. inv_ok. by eapply putchar_reads.
  - intros i u u'. apply putchar_reads.
Qed.

(** A key other than Enter reads no scan code and leaves the hardware cursor in
    step. *)
Lemma key_reads e hi fuel c m m' :
  c ≠ 10 → terminal_key e hi fuel c m = Ok (Returned m') →
  reads (screen m') = reads (screen m) ∧
  (screen m' = screen m ∨ ∃ x y u, screen m' = vga_set_cursor x y u).
Proof.
  intros Hc. unfold terminal_key, redraw. rewrite (proj2 (Z.eqb_neq c 10) Hc).
  assert (∀ t, reads (update_cursor_position t (screen m)) = reads (screen m) ∧
    ∃ x y u, update_cursor_position t (screen m) = vga_set_cursor x y u) as Hcur.
  { intros t. split; [done|]. by eexists _, _, _. }
  repeat case_bool; intros Hk; repeat (apply bind_Ok_inv in Hk as (? & ? & Hk)); simplify_eq;
    cbn [screen set_screen]; auto;
    try match goal with H : redraw_input_line _ _ = Ok _ |- _ => apply redraw_reads in H as [? ?]; auto end;
    destruct (Hcur (set_line (input_buffer (tm m)) (buffer_pos (tm m)) (edit_pos (tm m) - 1) (tm m)));
    destruct (Hcur (set_line (input_buffer (tm m)) (buffer_pos (tm m)) (edit_pos (tm m) + 1) (tm m))); auto.
Qed.

Lemma prompt_emit v : vga_printf TERMINAL_PROMPT [] v = emit (chars "FoxOS> ") v.
Proof.
  apply (vga_printf_emit (chars "FoxOS> ")); [|done]. by apply lit_is_str, (bool_decide_eq_true_1 _).
Qed.

Lemma prompt_reads v w : vga_printf TERMINAL_PROMPT [] v = Ok w → reads w = reads v.
Proof. rewrite prompt_emit. apply emit_reads. Qed.

(** ** Printing lines *)

Lemma newline_ok v :
  vga_wf v → ∃ w, vga_putchar 10 v = Ok w ∧ vga_synced w ∧ cursor_x w = 0.
Proof.
  intros Hwf. destruct (vga_putchar_ok 10 v Hwf) as (w & Hw & Hs). exists w. do 2 (split; [done|]).
  change (vga_putchar 10 v) with (putchar_wrap (set_xy 0 (cursor_y v + 1) v)) in Hw.
  rewrite putchar_wrap_ok in Hw by apply Hwf. injection Hw as <-. unfold wrapped. simpl.
  by case_bool.
Qed.

(** An error message ends at the start of a row. *)
Lemma error_ends v w :
  vga_synced v → error_shown v w → vga_synced w ∧ cursor_x w = 0 ∧ reads w = reads v.
Proof.
  intros Hv (msg & Hl & He). pose proof (emit_reads _ _ _ He) as Hr.
  assert (msg ≠ []) as Hne by (by intros ->).
  rewrite (app_removelast_last 0 Hne), Hl, app_assoc, emit_app in He.
  destruct (emit_ok (chars "Error: " ++ removelast msg) v Hv) as (u & Hu & [Hwf _]).
  rewrite Hu in He. cbn [mbind outcome_bind emit] in He.
  destruct (newline_ok u Hwf) as (w' & Hw & Hs & Hx). rewrite Hw in He. by injection He as <-.
Qed.

(** The prompt at the start of a row. *)
Lemma prompt_ok v :
  vga_synced v → cursor_x v = 0 →
  ∃ w, vga_printf TERMINAL_PROMPT [] v = Ok w ∧ vga_synced w ∧ cursor_x w = 7 ∧ reads w = reads v.
Proof.
  intros Hv Hx. rewrite prompt_emit. pose proof (proj1 Hv) as Hwf. pose proof (wf_y _ Hwf) as Hy.
  unfold VGA_HEIGHT in Hy.
  destruct (emit_text (chars "FoxOS> ") v Hwf) as (w & Hw & Hwfw & _ & _ & Hp).
  { apply (bool_decide_eq_true_1 _). vm_compute. reflexivity. }
  { unfold cursor_pos, VGA_WIDTH. rewrite Hx. simpl. lia. }
  destruct (emit_ok (chars "FoxOS> ") v Hv) as (w' & Hw' & Hs). assert (w' = w) as -> by congruence.
  exists w. do 2 (split; [done|]). split; [|by apply emit_reads in Hw].
  destruct (cursor_of_pos w Hwfw) as [-> _]. rewrite Hp. unfold cursor_pos, VGA_WIDTH.
  rewrite Hx. change (Z.of_nat (length (chars "FoxOS> "))) with 7.
  rewrite Z.add_0_r, Z.add_comm, Z_mod_plus_full. done.
Qed.

(** ** Commands that only print *)

(** [o] prints: it changes only the screen, which stays well-formed, reads no scan
    code, and leaves the cursor at the start of a row if [nl] is set. *)
Definition prints (m : machine) (nl : bool) (o : outcome machine) : Prop :=
  ∃ v, o = Ok (set_screen v m) ∧ vga_synced v ∧ reads v = reads (screen m) ∧
       (nl = true → cursor_x v = 0).

Lemma emit_ends out v w :
  vga_synced v → emit (out ++ [10]) v = Ok w → cursor_x w = 0.
Proof.
  intros Hv. rewrite emit_app. destruct (emit_ok out v Hv) as (u & -> & [Hwf _]).
  cbn [mbind outcome_bind emit]. destruct (newline_ok u Hwf) as (w' & -> & _ & Hx).
  cbn [mbind outcome_bind]. by intros [= <-].
Qed.

(** Texts that end with a newline. *)
Inductive ends_line : list Z → Prop :=
| ends_here : ends_line [10]
| ends_cons c l : ends_line l → ends_line (c :: l)
| ends_app a l : ends_line l → ends_line (a ++ l).

Lemma ends_line_inv l : ends_line l → ∃ a, l = a ++ [10].
Proof.
  induction 1 as [|c l _ [a ->]|b l _ [a ->]]; [by exists []|by exists (c :: a)|].
  exists (b ++ a). by rewrite app_assoc.
Qed.

Lemma emit_prints out nl m :
  vga_synced (screen m) → (nl = true → ends_line out) →
  prints m nl ((λ v, set_screen v m) <$> emit out (screen m)).
Proof.
  intros Hv Hnl. destruct (emit_ok out (screen m) Hv) as (v & Hv' & Hs). exists v.
  rewrite Hv'. do 2 (split; [done|]). split; [by eapply emit_reads|].
  intros E. destruct (ends_line_inv _ (Hnl E)) as [a ->]. by eapply emit_ends, Hv'.
Qed.

Lemma printf_prints fmt s args out nl m :
  is_str fmt s → fmt_text s args = Some out → vga_synced (screen m) →
  (nl = true → ends_line out) → prints m nl (printf fmt args m).
Proof. intros Hf Ht Hv Hnl. rewrite (printf_emit fmt s args out) by done. by apply emit_prints. Qed.

Lemma prints_bind m b nl o (k : machine → outcome machine) :
  prints m b o →
  (∀ v, vga_synced v → prints (set_screen v m) nl (k (set_screen v m))) →
  prints m nl (m1 ← o; k m1).
Proof.
  intros (v & -> & Hv & Hr & _) Hk. cbn [mbind outcome_bind].
  destruct (Hk v Hv) as (w & -> & Hw & Hrw & Hx). exists w. split; [done|]. split; [done|].
  split; [|done]. cbn [screen set_screen] in Hrw. congruence.
Qed.

Lemma print_lines_prints ls l m :
  Forall (λ l, ∃ s out, is_str l s ∧ fmt_text s [] = Some out ∧ ends_line out) (ls ++ [l]) →
  vga_synced (screen m) → prints m true (print_lines (ls ++ [l]) m).
Proof.
  revert m. induction ls as [|l' ls IH]; intros m Hls Hv; cbn [app print_lines] in *.
  - apply Forall_cons_iff in Hls as [(s & out & Hs & Ho & He) _].
    destruct (printf_prints l s [] out true m Hs Ho Hv) as (v & -> & H); [done|].
    cbn [mbind outcome_bind]. by exists v.
  - apply Forall_cons_iff in Hls as [(s & out & Hs & Ho & He) Hls].
    eapply prints_bind; [by apply (printf_prints l' s [] out true)|]. intros v Hv'. by apply IH.
Qed.

(** A text that was computed from a format. *)
Ltac solve_ends :=
  repeat first [apply ends_here | apply ends_cons | apply ends_app].

Lemma help_prints m : vga_synced (screen m) → prints m true (cmd_help m).
Proof.
  intros Hv. unfold cmd_help.
  match goal with |- prints _ _ (print_lines ?ls _) =>
    replace ls with (removelast ls ++ [List.last ls []]) by reflexivity end.
  apply print_lines_prints; [|done]. cbn [removelast List.last app].
  repeat (apply Forall_cons; [eexists _, _; split; [apply line_str; reflexivity|
    split; [reflexivity|solve_ends]]|]).
  apply Forall_nil.
Qed.

(** One line of a command. *)
Ltac print_line := eapply printf_prints;
  [apply line_str; reflexivity|reflexivity|done|intros _; solve_ends].

Lemma formatting_prints hi m : vga_synced (screen m) → prints m true (cmd_formatting hi m).
Proof.
  intros Hv. unfold cmd_formatting.
  do 7 (eapply (prints_bind _ true); [print_line|intros ? ?]).
  eapply prints_bind.
  { eapply (printf_prints _ (chars "  Very Large Negative: %lld" ++ [10; 10]) _ _ true);
      [literal_format|reflexivity|done|intros _; solve_ends]. }
  intros ? ?. do 5 (eapply (prints_bind _ true); [print_line|intros ? ?]).
  eapply (printf_prints _ (chars "  Mixed: Dec=%d, Hex=%x" ++ [10; 10]));
    [literal_format|reflexivity|done|intros _; solve_ends].
Qed.

Lemma color_text_prints c fmt s nl m :
  is_str fmt s → fmt_text s [] = Some s → vga_synced (screen m) → (nl = true → ends_line s) →
  prints m nl (color_text c fmt m).
Proof.
  intros Hf Ht Hv Hnl. unfold color_text.
  destruct (printf_prints fmt s [] s nl (set_screen (vga_set_color c VGA_COLOR_BLACK (screen m)) m))
    as (v & -> & H); [done|done|by apply set_color_synced|done|]. by exists v.
Qed.

Lemma colors_prints m : vga_synced (screen m) → prints m true (cmd_colors m).
Proof.
  intros Hv. unfold cmd_colors. eapply prints_bind.
  { eapply (printf_prints _ (10 :: chars "Available colors:" ++ [10]) _ _ true);
      [literal_format|reflexivity|done|intros _; solve_ends]. }
  intros ? ?.
  do 6 (eapply (prints_bind _ false); [eapply color_text_prints; [apply lit_str; reflexivity|reflexivity|done|done]|intros ? ?]).
  eapply color_text_prints; [apply line_str; reflexivity|reflexivity|done|intros _; solve_ends].
Qed.

Lemma clear_prints m : vga_wf (screen m) → prints m true (cmd_clear m).
Proof.
  intros Hwf. unfold cmd_clear. rewrite vga_clear_ok by apply Hwf. cbn [mbind outcome_bind].
  eexists. split; [done|]. split; [|done]. apply set_cursor_synced.
  - destruct Hwf. split; cbn [set_buffer vga_buffer]; try done.
    apply Forall_replicate, vga_entry_range.
  - unfold VGA_WIDTH. lia.
  - unfold VGA_HEIGHT. lia.
Qed.

(** A line with one string in it. *)
Lemma str_prints (fmt pre : list Z) buf t m :
  is_str fmt (pre ++ chars "%s" ++ [10]) → Forall (λ c, c ≠ chr "%") pre → is_str buf t →
  vga_synced (screen m) → prints m true (printf fmt [VaPtr buf] m).
Proof.
  intros Hf Hp [Hb _]%is_str_c_str Hv.
  apply (printf_prints fmt _ _ (pre ++ t ++ [10]) true m Hf); [|done|intros _; by do 2 apply ends_app; constructor].
  clear Hf. induction Hp as [|c pre Hc Hp IH]; cbn [app fmt_text].
  - assert (conv_text (chr "s") [VaPtr buf] = Some (t, [])) as Hct
      by (unfold conv_text; simpl; by rewrite Hb).
    change (('(t, r) ← conv_text (chr "s") [VaPtr buf]; app t <$> fmt_text [10] r) = Some (t ++ [10])).
    by rewrite Hct.
  - rewrite (proj2 (Z.eqb_neq _ _) Hc). cbn [negb]. by rewrite IH.
Qed.

(** A listing is empty or ends with a newline. *)
Lemma listing_ends es : listing es = [] ∨ ends_line (listing es).
Proof.
  unfold listing. induction es as [|f es IH]; [by left|]. right. cbn [map concat].
  assert (ends_line (entry_line f)) as Hf by (unfold entry_line; do 2 apply ends_app; constructor).
  destruct IH as [->|IH]; [by rewrite app_nil_r|by apply ends_app].
Qed.

(** ** The commands that change nothing but the screen *)

Record quiet (m m2 : machine) : Prop := {
  qu_disk : disk m2 = disk m;
  qu_keys : keys m2 = keys m;
  qu_input : input_buffer (tm m2) = input_buffer (tm m);
  qu_prompt : prompt_length (tm m2) = prompt_length (tm m);
  qu_dir : current_dir (tm m2) = current_dir (tm m);
  qu_screen : vga_synced (screen m2);
  qu_reads : reads (screen m2) = reads (screen m);
  qu_x : cursor_x (screen m2) = 0
}.

Lemma prints_quiet m o :
  prints m true o → ∃ m2, (Returned <$> o) = Ok (Returned m2) ∧ quiet m m2.
Proof. intros (v & -> & Hv & Hr & Hx). exists (set_screen v m). split; [done|]. by split; auto. Qed.

Lemma quiet_refl m : vga_synced (screen m) → cursor_x (screen m) = 0 → quiet m m.
Proof. by split. Qed.

(** A line that does not change the file system or the directory: its command
    only prints, or it is [mkdir], [touch] or [rm] without an argument. *)
Definition only_prints (s : list Z) : bool :=
  match dispatch s with
  | CmdExit | CmdCd => false
  | CmdMkdir | CmdTouch | CmdRm => bool_decide (first_arg s = [])
  | _ => true
  end.

Section quiet.
Context (m : machine) (d s : list Z).
Context (Hm : machine_ok m d) (Hd : short (components d)) (Hen : entered (tm m) s).
Context (Hx : cursor_x (screen m) = 0).

Lemma say_prints (msg : string) :
  bool_decide (text (chars msg ++ [10])) = true → fmt_text (chars msg ++ [10]) [] = Some (chars msg ++ [10]) →
  prints m true (printf (line msg) [] m).
Proof.
  intros Ht Hf. eapply printf_prints; [by apply line_str|exact Hf|apply Hm|].
  intros _. apply ends_app. constructor.
Qed.

Lemma ls_prints : overflows d s = false → dispatch s = CmdLs → prints m true (cmd_ls m).
Proof.
  intros Ho Hc. unfold overflows in Ho. rewrite Hc in Ho. apply bool_decide_eq_false_1 in Ho.
  destruct (ls_run m d s Hm Hd ltac:(lia) Hen) as [_ H].
  destruct (resolve _ _) as [i|]; [|rewrite H; by apply say_prints].
  destruct (is_dir _ i); [|rewrite H; by apply say_prints]. destruct H as (buf & [Hb _]%is_str_c_str & ->).
  assert (fmt_text (chars "%s") [VaPtr buf] = Some (listing (children (disk m) i))) as Ht.
  { change (('(t, r) ← conv_text (chr "s") [VaPtr buf]; app t <$> fmt_text [] r)
      = Some (listing (children (disk m) i))).
    unfold conv_text. simpl. rewrite Hb. simpl. by rewrite app_nil_r. }
  destruct (listing_ends (children (disk m) i)) as [E|He].
  - rewrite (printf_emit _ (chars "%s") _ _ _ ltac:(by apply lit_str) Ht), E. simpl.
    exists (screen m). split; [done|]. split; [apply Hm|done].
  - eapply printf_prints; [by apply lit_str|exact Ht|apply Hm|done].
Qed.

Lemma no_argument none some : first_arg s = [] → on_path m none some = none.
Proof.
  intros Hw. assert (fits d s) as Hf by (split; [done|by rewrite Hw]).
  pose proof (on_path_ok m d s Hm Hf Hen none some) as H. by rewrite Hw in H.
Qed.

Lemma quiet_command e hi fuel :
  overflows d s = false → only_prints s = true →
  ∃ m2, run_command e hi fuel (dispatch s) m = Ok (Returned m2) ∧ quiet m m2.
Proof.
  intros Ho Hp. pose proof (mo_screen _ _ Hm) as Hv. pose proof ls_prints as Hls.
  unfold only_prints in Hp. destruct (dispatch s) eqn:Ed; try done; cbn [run_command];
    try (apply bool_decide_eq_true_1 in Hp); try apply prints_quiet.
  - by apply help_prints.
  - apply clear_prints, Hv.
  - by apply formatting_prints.
  - by apply colors_prints.
  - by apply say_prints.
  - eexists. split; [done|]. split; try done. by apply set_color_synced.
  - apply (str_prints _ [] _ (chr "/" :: d)); [by apply (line_str "%s")|constructor|apply Hm|done].
  - by apply Hls.
  - rewrite cmd_mkdir_path, no_argument by done. by apply say_prints.
  - rewrite cmd_touch_path, no_argument by done. by apply say_prints.
  - rewrite cmd_rm_path, no_argument by done. by apply say_prints.
  - apply (str_prints _ (chars "Unknown command: ") _ s);
      [by apply (line_str "Unknown command: %s")|compute_decide|apply Hen|done].
Qed.

End quiet.
