(* ===== verification/Kernel.v ===== *)
(** * The kernel ([src/kernel.c])

    [_start] initialises the screen, the file system and the keyboard, prints
    the banner, starts the terminal and calls [terminal_run] for ever.  The
    endless loop is [kernel_loop], which runs a given number of turns and stops
    early when a command does not return. *)

From stdpp Require Import gmap.
From S2P Require Import Prelude.
From S2P Require Import CString.
From S2P Require Import Ports.
From S2P Require Import Keyboard.
From S2P Require Import Vga.
From S2P Require Import VgaFormat.
From S2P Require Import Fs.
From S2P Require Import FsPath.
From S2P Require Import FsOps.
From S2P Require Import FsSpec.
From S2P Require Import FsRun.
From S2P Require Import Terminal.
From S2P Require Import TermEdit.
From S2P Require Import TermShell.
From S2P Require Import TermSafe.

(** ** Definitions *)

Definition kernel_magic := 0x4B45524E454C4F53.

Definition puts (s : list Z) (m : machine) : outcome machine :=
  v ← vga_puts s (screen m); Ok (set_screen v m).

(** [_start] up to its loop. *)
Definition kernel_start (e : io_env) (fuel : nat) (m : machine) : outcome machine :=
  v0 ← vga_init (screen m);
  m1 ← puts (lit "FoxOS starting... ") (set_screen v0 m);
  m2 ← puts (line "OK") m1;
  m3 ← puts (lit "Initializing filesystem... ") m2;
  d ← fs_init (disk m3);
  m4 ← puts (line "OK") (set_disk d m3);
  m5 ← puts (lit "Initializing keyboard... ") m4;
  h ← keyboard_init e fuel (ports (screen m5));
  m6 ← puts (line "OK") (set_screen (set_ports h (screen m5)) m5);
  m7 ← puts (10 :: line "Welcome to FoxOS!") m6;
  m8 ← puts (chars "Type 'help' for list of commands." ++ [10; 10; 0]) m7;
  terminal_init e fuel m8.

Fixpoint kernel_loop (e : io_env) (hi : Z → Z) (fuel turns : nat) (m : machine) : outcome flow :=
  match turns with
  | O => Ok (Returned m)
  | S turns' =>
      r ← terminal_run e hi fuel m;
      match r with
      | Returned m1 => kernel_loop e hi fuel turns' m1
      | Stopped m1 => Ok (Stopped m1)
      end
  end.

(** ** Lemmas *)

(** [keyboard_init] ends when the output buffer of the controller is empty after
    some rounds. *)
Lemma keyboard_init_ready e n fuel h :
  (∀ j, (j < n)%nat → Z.land (fst (inb e 0x64 (drain e j h))) 1 ≠ 0) →
  Z.land (fst (inb e 0x64 (drain e n h))) 1 = 0 → (n < fuel)%nat →
  keyboard_init e fuel h = Ok (snd (inb e 0x64 (drain e n h))).
Proof.
  revert h fuel. induction n as [|n IH]; intros h [|fuel] Hb Hr Hf; try lia.
  - cbn [keyboard_init drain] in *. destruct (inb e 0x64 h) as [v h1]. simpl in *. by rewrite Hr.
  - cbn [keyboard_init]. pose proof (Hb 0%nat ltac:(lia)) as H0. cbn [drain] in H0, Hr |- *.
    destruct (inb e 0x64 h) as [v h1] eqn:E. simpl in H0, Hr |- *.
    rewrite (proj2 (Z.eqb_neq _ _) H0). apply IH; [|done|lia].
    intros j Hj. specialize (Hb (S j) ltac:(lia)). cbn [drain] in Hb. by rewrite E in Hb.
Qed.

(** A controller whose output buffer runs empty within the fuel. *)
Definition drains (e : io_env) (fuel : nat) : Prop :=
  ∀ h, ∃ n, (n < fuel)%nat ∧ Z.land (fst (inb e 0x64 (drain e n h))) 1 = 0.

Lemma keyboard_init_drains e fuel h : drains e fuel → ∃ h', keyboard_init e fuel h = Ok h'.
Proof.
  intros Hd. destruct (Hd h) as (n0 & Hn0 & H0).
  destruct (least_nat (λ j, Z.land (fst (inb e 0x64 (drain e j h))) 1 = 0) n0 H0) as (n & Hn & Hz & Hlt).
  eexists. apply (keyboard_init_ready e n); done || lia.
Qed.

(** *** The input line *)

Lemma clear_buffer_ok t :
  length (input_buffer t) = 256%nat → clear_buffer t = Ok (set_line (replicate 256 0) 0 0 t).
Proof.
  intros Hl. unfold clear_buffer, TERMINAL_BUFFER_SIZE.
  destruct (for_range_inv (λ i b, b = splice (input_buffer t) 0 (replicate (Z.to_nat i) 0)) 0 256
    (λ i b, arr_set b i 0) (input_buffer t)) as (b & -> & ->); [lia|symmetry; apply (splice_nil _ 0)| |].
  - intros i b Hi ->. eexists. split; [apply arr_set_in; rewrite length_splice; rewrite ?length_replicate; lia|].
    replace (Z.to_nat (i + 1)) with (S (Z.to_nat i)) by lia.
    rewrite replicate_S_end, <-splice_snoc by (rewrite length_replicate; lia).
    by rewrite length_replicate.
  - cbn [mbind outcome_bind]. by rewrite splice_all by (rewrite length_replicate, Hl; done).
Qed.

Lemma cleared_edits t :
  prompt_length t = 7 → edits (set_line (replicate 256 0) 0 0 t) ([], []).
Proof. intros Hp. split; simpl; (done || lia || constructor). Qed.

(** *** Printing does not depend on the ports *)

(** Two screens that differ in their port logs only. *)
Definition same_picture (v w : vga) : Prop := ∃ h, w = set_ports h v.

Lemma same_picture_refl v : same_picture v v.
Proof. exists (ports v). by destruct v. Qed.

Lemma same_picture_ports h v : same_picture v (set_ports h v).
Proof. by exists h. Qed.

Lemma same_picture_trans u v w : same_picture u v → same_picture v w → same_picture u w.
Proof. intros [h ->] [h' ->]. by exists h'. Qed.

Lemma wrapped_picture v w : same_picture v w → same_picture (wrapped v) (wrapped w).
Proof.
  intros [h ->]. unfold wrapped. simpl. repeat case_match; eexists; reflexivity.
Qed.

Lemma putchar_picture c v w :
  vga_wf v → same_picture v w →
  ∃ v' w', vga_putchar c v = Ok v' ∧ vga_putchar c w = Ok w' ∧ vga_wf v' ∧ same_picture v' w'.
Proof.
  intros Hwf [h ->]. destruct (vga_putchar_ok c v Hwf) as (v' & Hv & [Hwf' _]). exists v'.
  enough (∃ w', vga_putchar c (set_ports h v) = Ok w' ∧ same_picture v' w') as (w' & ? & ?)
    by (by exists w').
  pose proof Hwf as [Hlen _ _ Hx Hy]. revert Hv. unfold vga_putchar. cbn [set_ports cursor_x cursor_y vga_color].
  assert (∀ x y, putchar_wrap (set_xy x y v) = Ok v' →
    ∃ w', putchar_wrap (set_xy x y (set_ports h v)) = Ok w' ∧ same_picture v' w') as Hwrap.
  { intros x y. rewrite !putchar_wrap_ok by done. intros [= <-]. eexists. split; [done|].
    apply wrapped_picture. by exists h. }
  assert (∀ x y, 0 ≤ x < VGA_WIDTH → 0 ≤ y < VGA_HEIGHT → putchar_erase x y v = Ok v' →
    ∃ w', putchar_erase x y (set_ports h v) = Ok w' ∧ same_picture v' w') as Herase.
  { intros x y Hx' Hy'. unfold putchar_erase. rewrite !put_cell_ok by done. intros [= <-].
    eexists. split; [done|]. by eexists. }
  unfold VGA_WIDTH, VGA_HEIGHT in *.
  do 3 (case_bool; [apply Hwrap|]). case_bool.
  { do 2 (case_bool; [apply Herase; lia|]). intros Hv.
    apply (Hwrap (cursor_x v) (cursor_y v)). by destruct v. }
  rewrite !put_cell_ok by done. cbn [mbind outcome_bind].
  rewrite !putchar_wrap_ok by (simpl; by rewrite length_insert). intros [= <-].
  eexists. split; [done|]. apply wrapped_picture. by exists h.
Qed.

Lemma emit_picture cs v w :
  vga_wf v → same_picture v w →
  ∃ v' w', emit cs v = Ok v' ∧ emit cs w = Ok w' ∧ vga_wf v' ∧ same_picture v' w'.
Proof.
  revert v w. induction cs as [|c cs IH]; intros v w Hwf Hs; [by exists v, w|].
  destruct (putchar_picture c v w Hwf Hs) as (v1 & w1 & H1 & H2 & Hwf1 & Hs1).
  cbn [emit]. rewrite H1, H2. by apply IH.
Qed.

(** ** The boot *)

(** A machine before the boot: the page of the screen, the table and the input
    buffer have their sizes and any contents, the other variables any values; only
    the current directory has the value of its static initialiser. *)
Record raw_machine (m : machine) : Prop := {
  raw_page : length (vga_buffer (screen m)) = 2000%nat;
  raw_table : fs_raw (disk m);
  raw_input : length (input_buffer (tm m)) = 256%nat;
  raw_dir : current_dir (tm m) = chars "/" ++ replicate 511 0
}.

(** The variables as the program image initialises them, with any screen, make such
    a machine. *)
Lemma image_raw v k :
  length (vga_buffer v) = 2000%nat → raw_machine (Machine term_bss v fs_bss k).
Proof. intros Hv. by split; [|apply fs_bss_raw|..]. Qed.

(** The text on the screen at the first prompt. *)
Definition boot_text : list Z :=
  chars "FoxOS starting... OK" ++ [10] ++ chars "Initializing filesystem... OK" ++ [10] ++
  chars "Initializing keyboard... OK" ++ [10] ++ [10] ++ chars "Welcome to FoxOS!" ++ [10] ++
  chars "Type 'help' for list of commands." ++ [10; 10] ++ chars "FoxOS> ".

(** An empty screen. *)
Definition empty_screen : vga := Vga (replicate 2000 (vga_entry 32 7)) 0 0 7 [].

Lemma empty_screen_wf : vga_wf empty_screen.
Proof.
  split; unfold empty_screen; cbn [vga_buffer vga_color cursor_x cursor_y];
    [done| |lia|unfold VGA_WIDTH; lia|unfold VGA_HEIGHT; lia].
  apply Forall_replicate, vga_entry_range.
Qed.

(** The screen has shown the text [t] since it was cleared. *)
Definition shown (t : list Z) (v : vga) : Prop :=
  ∃ u, emit t empty_screen = Ok u ∧ vga_wf u ∧ same_picture u v.

Lemma shown_synced t v : shown t v → vga_wf v.
Proof. intros (u & _ & Hwf & [h ->]). destruct Hwf. by split. Qed.

Lemma shown_emit t s v : shown t v → ∃ w, emit s v = Ok w ∧ shown (t ++ s) w.
Proof.
  intros (u & Hu & Hwf & Hs). destruct (emit_picture s u v Hwf Hs) as (u' & w & H1 & H2 & Hwf' & Hs').
  exists w. split; [done|]. exists u'. split; [|done]. rewrite emit_app, Hu. done.
Qed.

Lemma puts_shown t fmt s m :
  is_str fmt s → shown t (screen m) →
  ∃ v, puts fmt m = Ok (set_screen v m) ∧ shown (t ++ s) v.
Proof.
  intros Hf Ht. destruct (shown_emit t s (screen m) Ht) as (v & Hv & Hs). exists v.
  unfold puts. rewrite vga_puts_write, (vga_write_emit fmt s) by done. by rewrite Hv.
Qed.

Lemma printf_shown t fmt s m :
  is_str fmt s → fmt_text s [] = Some s → shown t (screen m) →
  ∃ v, printf fmt [] m = Ok (set_screen v m) ∧ shown (t ++ s) v ∧ (s ≠ [] → vga_synced v).
Proof.
  intros Hf Ht Hs. destruct (shown_emit t s (screen m) Hs) as (v & Hv & Hsv). exists v.
  rewrite (printf_emit fmt s [] s) by done. rewrite Hv. split; [done|]. split; [done|].
  intros Hne. destruct s as [|c s]; [done|]. cbn [emit] in Hv.
  destruct (vga_putchar_ok c (screen m) (shown_synced _ _ Hs)) as (w & Hw & Hsw).
  rewrite Hw in Hv. cbn [mbind outcome_bind] in Hv.
  destruct (emit_ok s w Hsw) as (w' & Hw' & Hsw'). congruence.
Qed.

Lemma ok_raw st : fs_ok st → fs_raw st.
Proof.
  intros [Hl He _]. split; [done|]. eapply Forall_impl; [|exact He]. by intros f [].
Qed.

Lemma init_shown m :
  length (vga_buffer (screen m)) = 2000%nat →
  ∃ v, vga_init (screen m) = Ok v ∧ shown [] v.
Proof.
  intros Hl. unfold vga_init. rewrite vga_clear_ok by done. eexists. split; [done|].
  exists empty_screen. split; [done|]. split; [apply empty_screen_wf|]. by eexists.
Qed.

(** The screen at the first prompt. *)
Lemma boot_screen v :
  shown boot_text v →
  shows v ([], []) 7 ∧ drawn v ([], []) 7 ∧
  take 7 (drop 560 (vga_buffer v)) = cells v (chars "FoxOS> ").
Proof.
  intros Hs. pose proof (shown_synced _ _ Hs) as Hwf. destruct Hs as (u & Hu & _ & [h ->]).
  assert (u = match emit boot_text empty_screen with Ok w => w | Fault _ => empty_screen end) as ->
    by (by rewrite Hu).
  clear Hu. split; [split; [done|vm_compute; reflexivity..]|].
  split; vm_compute; reflexivity.
Qed.

Lemma terminal_init_ok e fuel m t :
  drains e fuel → fs_ok (disk m) → length (input_buffer (tm m)) = 256%nat → shown t (screen m) →
  ∃ m', terminal_init e fuel m = Ok m' ∧ shown (t ++ chars "FoxOS> ") (screen m') ∧
    vga_synced (screen m') ∧ refines (disk m') a_init ∧
    edits (tm m') ([], []) ∧ current_dir (tm m') = current_dir (tm m).
Proof.
  intros Hd Hok Ht Hs. unfold terminal_init.
  destruct (keyboard_init_drains e fuel (ports (screen m)) Hd) as (h & ->). cbn [mbind outcome_bind].
  destruct (init_refines (disk m) (ok_raw _ Hok)) as (st & -> & Href). cbn [mbind outcome_bind].
  rewrite clear_buffer_ok by done. cbn [mbind outcome_bind].
  change (Z.of_nat (length TERMINAL_PROMPT) - 1) with 7.
  match goal with |- context [printf _ _ ?m1] => set (m1' := m1) end.
  assert (shown t (screen m1')) as Hs1.
  { destruct Hs as (u & Hu & Hwf & Hp). exists u. split; [done|]. split; [done|].
    eapply same_picture_trans; [exact Hp|apply same_picture_ports]. }
  destruct (printf_shown t TERMINAL_PROMPT (chars "FoxOS> ") m1') as (v & -> & Hv & Hsync);
    [by apply lit_is_str, (bool_decide_eq_true_1 _)|done|done|].
  eexists. split; [done|]. split; [done|]. split; [by apply Hsync|]. split; [done|].
  split; [|done]. split; simpl; (done || lia || constructor).
Qed.

(** One [vga_puts] of the banner. *)
Ltac banner s :=
  match goal with
  | H : shown ?t (screen ?m) |- context [puts ?fmt ?m] =>
      let v := fresh "v" in let Hv := fresh "Hv" in
      destruct (puts_shown t fmt s m) as (v & -> & Hv);
      [first [by apply (line_str "OK") | split; [apply (bool_decide_eq_true_1 _); vm_compute; reflexivity|by exists []]]
      |exact H|];
      cbn [mbind outcome_bind]; clear H;
      match goal with |- context [set_screen v ?m1] =>
        change (shown (t ++ s) (screen (set_screen v m1))) in Hv
      end
  end.

Lemma kernel_start_ok e fuel m :
  raw_machine m → drains e fuel →
  ∃ m', kernel_start e fuel m = Ok m' ∧ shown boot_text (screen m') ∧
    edits (tm m') ([], []) ∧ shows (screen m') ([], []) 7 ∧ drawn (screen m') ([], []) 7 ∧
    refines (disk m') a_init ∧ machine_ok m' [].
Proof.
  intros [Hpage Htab Hin Hdir] Hd. unfold kernel_start.
  destruct (init_shown m Hpage) as (v0 & -> & Hv0). cbn [mbind outcome_bind].
  change (shown [] (screen (set_screen v0 m))) in Hv0.
  banner (chars "FoxOS starting... "). banner (chars "OK" ++ [10]).
  banner (chars "Initializing filesystem... ").
  match goal with |- context [fs_init ?d] => change d with (disk m) end.
  destruct (init_refines (disk m) Htab) as (st & -> & Href). cbn [mbind outcome_bind].
  match goal with H : shown ?t (screen ?m1) |- context [puts (line "OK") ?m2] =>
    change (shown t (screen m2)) in H end.
  banner (chars "OK" ++ [10]). banner (chars "Initializing keyboard... ").
  match goal with |- context [keyboard_init e fuel ?h0] =>
    destruct (keyboard_init_drains e fuel h0 Hd) as (h & ->) end. cbn [mbind outcome_bind].
  match goal with H : shown ?t ?v |- context [puts (line "OK") ?m2] =>
    assert (shown t (screen m2)) as Hk by
      (destruct H as (u & Hu & Hwf & Hp); exists u; split; [done|]; split; [done|];
       eapply same_picture_trans; [exact Hp|apply same_picture_ports]); clear H end.
  banner (chars "OK" ++ [10]). banner (10 :: chars "Welcome to FoxOS!" ++ [10]).
  banner (chars "Type 'help' for list of commands." ++ [10; 10]).
  match goal with H : shown ?t (screen ?m1) |- _ =>
    destruct (terminal_init_ok e fuel m1 t Hd (tree_ok _ (ref_tree _ _ Href)) Hin H)
      as (m' & -> & Hs & Hsync & Href' & Hed & Hcd) end.
  change (current_dir (tm m') = current_dir (tm m)) in Hcd. rewrite Hdir in Hcd.
  exists m'. split; [done|]. change (shown boot_text (screen m')) in Hs. split; [done|].
  destruct (boot_screen _ Hs) as (Hsh & Hdr & _).
  do 4 (split; [done|]). split; [done|apply Href'|rewrite Hcd|by rewrite Hcd].
  split; [apply (bool_decide_eq_true_1 _); vm_compute; reflexivity|]. by exists (replicate 510 0).
Qed.

(** ** Properties *)

(** C6: The boot.  From any contents of the screen memory, of the file table and
    of the input buffer, and any values of the cursor, the colour, the positions
    in the line and the length of the prompt (only the current directory must
    hold its initialiser [/]), [_start] reaches its loop without an access out of
    bounds, provided the output buffer of the keyboard controller runs empty
    within the fuel: the screen shows the banner and the prompt, the cursor
    stands behind the prompt on row 7, the input line is cleared, the current
    directory is the root, and the table represents the tree with only the
    root. *)
Theorem kernel_boots e fuel m :
  raw_machine m → drains e fuel →
  ∃ m', kernel_start e fuel m = Ok m' ∧ shown boot_text (screen m') ∧
    edits (tm m') ([], []) ∧ shows (screen m') ([], []) 7 ∧ drawn (screen m') ([], []) 7 ∧
    refines (disk m') a_init ∧ machine_ok m' [].
Proof. apply kernel_start_ok. Qed.

(** Memory full of ones, and the table of the program before its start. *)
Definition dirty_machine : machine :=
  Machine (Term (replicate 256 1) 99 (-5) 200 (chars "/" ++ replicate 511 0) 3)
    (Vga (replicate 2000 1) 70 (-8) 300 []) fs_bss kbd0.

Lemma kernel_boots_witness :
  ∃ m', kernel_start (devices (λ _ _, 0)) 1 dirty_machine = Ok m' ∧
    refines (disk m') a_init ∧ edits (tm m') ([], []).
Proof.
  destruct (kernel_boots (devices (λ _ _, 0)) 1 dirty_machine) as (m' & Hk & _ & He & _ & _ & Hr & _).
  - split; [reflexivity|apply fs_bss_raw|reflexivity|reflexivity].
  - intros h. exists 0%nat. split; [lia|reflexivity].
  - exists m'. split; [exact Hk|]. split; [exact Hr|exact He].
Defined.
