(* ===== verification/Session.v ===== *)
(** * Sessions: from scan codes to the file system

    The whole kernel of [src/kernel.c] at work: the loop polls the keyboard, the
    driver decodes scan codes, the terminal edits the line and executes it on
    Enter.  Every part is compared with its abstract counterpart in the other
    files; here they are put together.  A session state is the edited line, the
    current directory, the table and the abstract tree, and a key takes one
    state to the next; the loop of the kernel, run on the scan codes of the
    keys, follows it. *)

From stdpp Require Import gmap.
From S2P Require Import Prelude.
From S2P Require Import CString.
From S2P Require Import Ports.
From S2P Require Import Keyboard.
From S2P Require Import Vga.
From S2P Require Import VgaFormat.
From S2P Require Import Fs.
From S2P Require Import FsPath.
From S2P Require Import FsOps.
From S2P Require Import FsData.
From S2P Require Import FsDelete.
From S2P Require Import FsSpec.
From S2P Require Import FsRemove.
From S2P Require Import FsRun.
From S2P Require Import FsClaims.
From S2P Require Import Terminal.
From S2P Require Import TermEdit.
From S2P Require Import TermShell.
From S2P Require Import TermSafe.
From S2P Require Import TermClaims.
From S2P Require Import TermPrints.
From S2P Require Import Kernel.

(** ** The keyboard *)

(** The controller is ready for a read after fewer than [fuel] polls, whenever it
    is asked. *)
Definition ready (e : io_env) (fuel : nat) : Prop :=
  ∀ h, ∃ n, (n < fuel)%nat ∧ Z.land (status_at e n h) 2 = 0.

(** The reads of the data port number [r], [r + 1], ... give the scan codes of the
    list.  A code that the controller still holds when it is read again is in the
    list again. *)
Definition delivers (e : io_env) (r : nat) (codes : list Z) : Prop :=
  ∀ i sc h, codes !! i = Some sc → data_reads h = (r + i)%nat → fst (inb e 0x60 h) = sc.

Lemma delivers_cons e r sc codes :
  delivers e r (sc :: codes) →
  (∀ h, data_reads h = r → fst (inb e 0x60 h) = sc) ∧ delivers e (S r) codes.
Proof.
  intros H. split; [intros h Hh; by apply (H 0%nat); [|lia]|].
  intros i sc' h Hi Hh. apply (H (S i)); [done|lia].
Qed.

Lemma poll_reads e n h : data_reads (poll e n h) = data_reads h.
Proof. revert h. induction n as [|n IH]; intros h; [done|]. cbn [poll]. by rewrite IH. Qed.

Lemma wait_ready e fuel h :
  ready e fuel → ∃ n, keyboard_wait e fuel h = Ok (poll e n h).
Proof.
  intros Hr. destruct (Hr h) as (n0 & Hn0 & H0).
  destruct (least_nat (λ j, Z.land (status_at e j h) 2 = 0) n0 H0) as (n & Hn & Hz & Hlt).
  exists (S n). apply (keyboard_wait_ready e n); done || lia.
Qed.

(** The boot does not touch the state of the decoder. *)
Lemma boot_keys e fuel m m' : kernel_start e fuel m = Ok m' → keys m' = keys m.
Proof.
  assert (∀ fmt m m', puts fmt m = Ok m' → keys m' = keys m) as Hputs
    by (intros ? ? ?; unfold puts; intros H; by inv_ok).
  unfold kernel_start, terminal_init. intros H. repeat (apply bind_Ok_inv in H as (? & ? & H)).
  injection H as <-. repeat match goal with H : puts _ _ = Ok _ |- _ => apply Hputs in H end.
  cbn [keys set_screen set_disk] in *. congruence.
Qed.

(** ** Session states *)

Record session := Session {
  s_line : zipper;
  s_dir : list Z;
  s_disk : fs;
  s_tree : afs
}.

(** A path split at its last slash. *)
Fixpoint split_last (p : list Z) : list Z * list Z :=
  match p with
  | [] => ([], [])
  | c :: p' => if decide (chr "/" ∈ p') then let '(a, b) := split_last p' in (c :: a, b) else ([], p')
  end.

(** A deletion must not have a parent more than two slots behind the entry. *)
Definition allowed (c : fs_cmd) (st : fs) : Prop :=
  match c with
  | Remove s => match resolve st (components s) with Some idx => near st idx | None => True end
  | _ => True
  end.

#[global] Instance allowed_dec c st : Decision (allowed c st).
Proof. destruct c; simpl; try apply _. unfold near. destruct (resolve _ _); apply _. Defined.

(** The line [s] is executed: [cd] changes the directory, [mkdir], [touch] and
    [rm] are operations on the table and on the tree, and an empty line and every
    other command leave both alone.  [None] is a line that is not covered: a path
    that does not fit its buffer, [exit], [touch] with a path that ends in a
    slash, and a deletion that is not allowed. *)
Definition exec_line (s : list Z) (x : session) : option session :=
  let p := path_text (chr "/" :: s_dir x) (first_arg s) in
  let '(a, b) := split_last p in
  let in_dir d := Session ([], []) d (s_disk x) (s_tree x) in
  if decide (s = []) then Some (in_dir (s_dir x))
  else if overflows (s_dir x) s then None
  else if only_prints s then Some (in_dir (s_dir x))
  else if decide (dispatch s = CmdCd) then
    if decide (first_arg s = []) then Some (in_dir [])
    else if decide (s_tree x !! components p = Some NDir) then Some (in_dir (tail p))
    else Some (in_dir (s_dir x))
  else
    match shell_cmd (dispatch s) p a b with
    | None => None
    | Some c =>
        if decide (allowed c (s_disk x)) then
          match run_cmd c (s_disk x) with
          | Ok (_, st) => Some (Session ([], []) (s_dir x) st (a_cmd c (s_tree x)).2)
          | Fault _ => None
          end
        else None
    end.

(** One key: Enter executes the line, every other key edits it; the line must
    fit its row. *)
Definition key (c : Z) (x : session) : option session :=
  if decide (c = 10) then exec_line (line_of (s_line x)) x
  else
    let z := edit c (s_line x) in
    if decide (length (line_of z) ≤ 71)%nat
    then Some (Session z (s_dir x) (s_disk x) (s_tree x)) else None.

Fixpoint run_keys (cs : list Z) (x : session) : option session :=
  match cs with
  | [] => Some x
  | c :: cs' => match key c x with Some x1 => run_keys cs' x1 | None => None end
  end.

(** The machine is in the session state, waiting for a key. *)
Record represents (m : machine) (x : session) : Prop := {
  rp_edits : edits (tm m) (s_line x);
  rp_row : (length (line_of (s_line x)) ≤ 71)%nat;
  rp_shows : shows (screen m) (s_line x) (cursor_y (screen m));
  rp_ok : machine_ok m (s_dir x);
  rp_dir : short (components (s_dir x));
  rp_disk : disk m = s_disk x;
  rp_tree : refines (disk m) (s_tree x)
}.

Lemma split_last_eq a b : (chr "/") ∉ b → split_last (a ++ chr "/" :: b) = (a, b).
Proof.
  intros Hb. induction a as [|c a IH]; cbn [app split_last].
  - by rewrite decide_False.
  - rewrite decide_True by (apply elem_of_app; right; by left). by rewrite IH.
Qed.

(** ** Executing a line *)

(** The machine [m2] is left by a command that took [m] to the state [x]. *)
Record executed (m : machine) (x : session) (m2 : machine) : Prop := {
  ex_line : s_line x = ([], []);
  ex_ok : machine_ok m2 (s_dir x);
  ex_dir : short (components (s_dir x));
  ex_disk : disk m2 = s_disk x;
  ex_tree : refines (disk m2) (s_tree x);
  ex_x : cursor_x (screen m2) = 0;
  ex_keys : keys m2 = keys m;
  ex_reads : reads (screen m2) = reads (screen m);
  ex_prompt : prompt_length (tm m2) = prompt_length (tm m);
  ex_buffer : length (input_buffer (tm m2)) = 256%nat
}.

(** Directories of the tree and of the table. *)
Lemma tree_is_dir st M p :
  refines st M →
  M !! components p = Some NDir ↔ ∃ i, resolve st (components p) = Some i ∧ is_dir st i = true.
Proof.
  intros [Ht Ha _]. rewrite (Ha (components p)), decide_True by apply good_components. unfold view.
  destruct (resolve st (components p)) as [i|] eqn:Hi; cbn [mbind option_bind]; [|naive_solver].
  destruct (resolve_entry st (components p) i (tree_ok _ Ht) Hi) as (f & Hf & Hff).
  rewrite Hf. cbn [mbind option_bind].
  assert (is_dir st i = bool_decide (ftype f = FILE_TYPE_DIR)) as Hd by (unfold is_dir; by rewrite Hff).
  unfold node_of. split.
  - intros H. exists i. split; [done|]. rewrite Hd. by destruct (ftype f).
  - intros (j & [= <-] & Hj). rewrite Hd in Hj. apply bool_decide_eq_true_1 in Hj. by rewrite Hj.
Qed.

Section exec.
Context (e : io_env) (hi : Z → Z) (fuel : nat) (m : machine) (s : list Z) (x : session).
Context (Hm : machine_ok m (s_dir x)) (Hd : short (components (s_dir x))) (Hen : entered (tm m) s).
Context (Hdisk : disk m = s_disk x) (Href : refines (disk m) (s_tree x)).
Context (Hx : cursor_x (screen m) = 0).

Let p := path_text (chr "/" :: s_dir x) (first_arg s).

(** A command that reported its result. *)
Lemma reported_executed r st M o :
  reported m r st o → refines st M →
  ∃ m2, o = Ok m2 ∧ executed m (Session ([], []) (s_dir x) st M) m2.
Proof.
  intros (m2 & -> & Hst & Ht & Hk & Hs) Hr. exists m2. split; [done|].
  assert (vga_synced (screen m2) ∧ cursor_x (screen m2) = 0 ∧ reads (screen m2) = reads (screen m))
    as (Hv & Hcx & Hre).
  { destruct (r <? 0); [by apply error_ends; [apply Hm|]|]. rewrite Hs. split; [apply Hm|done]. }
  split; simpl; try done; [|by subst st|by rewrite Ht|rewrite Ht; apply Hen].
  destruct Hm as [_ _ Hdir Hsz]. split; [done| |by rewrite Ht..].
  rewrite Hst. apply Hr.
Qed.

Lemma quiet_executed m2 : quiet m m2 → executed m (Session ([], []) (s_dir x) (s_disk x) (s_tree x)) m2.
Proof.
  intros [Hdk Hk Hi Hp Hdr Hv Hr Hcx]. destruct Hm as [_ Hfs Hdir Hsz].
  split; cbn [s_line s_dir s_disk s_tree]; try done; [|by rewrite Hdk..|by rewrite Hi; apply Hen].
  split; [done|by rewrite Hdk|by rewrite Hdr..].
Qed.

Lemma cd_executed :
  ∀ x', s ≠ [] → dispatch s = CmdCd → exec_line s x = Some x' →
  ∃ m2, cmd_cd m = Ok m2 ∧ executed m x' m2.
Proof.
  intros x' Hs Hc. unfold exec_line. fold p. destruct (split_last p) as [a b].
  rewrite decide_False by done. destruct (overflows (s_dir x) s) eqn:Ho; [done|].
  assert (only_prints s = false) as -> by (unfold only_prints; by rewrite Hc).
  rewrite decide_True by done.
  assert (fits (s_dir x) s) as Hfit by (apply overflows_fits; try done; rewrite Hc; set_solver).
  assert (∀ d m2, short (components d) → in_dir m d m2 →
    executed m (Session ([], []) d (s_disk x) (s_tree x)) m2) as Hin.
  { intros d m2 Hl (Hok & Hsc & Hdk & Hk & buf & Ht). split; cbn [s_line s_dir s_disk s_tree]; try done.
    all: rewrite ?Hsc, ?Hdk, ?Ht; try done. apply Hen. }
  pose proof (cd_run m (s_dir x) s Hm Hfit Hen) as Hrun. fold p in Hrun.
  case_decide as Hw.
  { rewrite Hw in Hrun. destruct Hrun as (m2 & -> & Hi). intros [= <-]. exists m2.
    split; [done|]. apply Hin; [constructor|done]. }
  destruct (first_arg s) as [|w0 w]; [done|]. destruct Hrun as (d' & Hp & _ & Hsh & Hrun).
  pose proof (tree_is_dir (disk m) (s_tree x) p Href) as Htd.
  case_decide as Hdir.
  { intros [= <-]. apply Htd in Hdir as (i & Hi & Hdi).
    rewrite Hi, Hdi in Hrun. destruct Hrun as (m2 & -> & Hi2). exists m2. split; [done|].
    rewrite Hp in Hsh |- *. rewrite components_slash in Hsh. by apply Hin. }
  intros [= <-].
  assert (cmd_cd m = printf (line "Error: Directory not found") [] m) as ->.
  { destruct (resolve (disk m) (components p)) as [i|]; [|done].
    destruct (is_dir (disk m) i) eqn:E; [|done]. destruct Hdir. apply Htd. by exists i. }
  rewrite <-Hdisk. eapply reported_executed; [|exact Href].
  replace (printf (line "Error: Directory not found") [] m)
    with (printf (line "Error: Directory not found") [] (set_disk (disk m) m)) by (by destruct m).
  eapply say_reported; [reflexivity|reflexivity|reflexivity|apply Hm].
Qed.

Lemma op_executed c x' o :
  does m (s_tree x) c o → disk m = s_disk x →
  match run_cmd c (s_disk x) with
  | Ok (_, st) => Some (Session ([], []) (s_dir x) st (a_cmd c (s_tree x)).2)
  | Fault _ => None
  end = Some x' →
  ∃ m2, o = Ok m2 ∧ executed m x' m2.
Proof.
  intros (st & Hc & Hrep & Hr) Hdk. rewrite <-Hdk, Hc. intros [= <-]. by eapply reported_executed.
Qed.

Lemma op_line_executed x' :
  overflows (s_dir x) s = false → dispatch s ≠ CmdCd → first_arg s ≠ [] →
  (let '(a, b) := split_last p in
   match shell_cmd (dispatch s) p a b with
   | None => None
   | Some c =>
       if decide (allowed c (s_disk x)) then
         match run_cmd c (s_disk x) with
         | Ok (_, st) => Some (Session ([], []) (s_dir x) st (a_cmd c (s_tree x)).2)
         | Fault _ => None
         end
       else None
   end) = Some x' →
  ∃ m2, run_command e hi fuel (dispatch s) m = Ok (Returned m2) ∧ executed m x' m2.
Proof.
  intros Ho Hc Hw He. destruct (split_last p) as [a b] eqn:Esp.
  assert (∀ o, (∃ m2, o = Ok m2 ∧ executed m x' m2) →
    ∃ m2, (Returned <$> o) = Ok (Returned m2) ∧ executed m x' m2) as Hret.
  { intros o (m2 & -> & H). by exists m2. }
  assert (∀ a' b', path_ok p a' b' → a' = a ∧ b' = b) as Hsp.
  { intros a' b' [Hp Hb _ _ _ _]. rewrite Hp, split_last_eq in Esp by done. by injection Esp. }
  pose proof (overflows_fits (s_dir x) s Hd Ho) as Hfit.
  destruct (dispatch s) eqn:Ed; try done; cbn [shell_cmd run_command] in *;
    assert (fits (s_dir x) s) as Hf by (apply Hfit; set_solver).
  - destruct (mkdir_does m (s_dir x) s (s_tree x) Hm Hf Hen Href Hw) as (a' & b' & Hab & Hdo).
    destruct (Hsp _ _ Hab) as [-> ->]. rewrite decide_True in He by done.
    by apply Hret, (op_executed (Mkdir a b)).
  - destruct (touch_does m (s_dir x) s (s_tree x) Hm Hf Hen Href Hw) as (a' & b' & Hab & Hdo).
    destruct (Hsp _ _ Hab) as [-> ->]. case_decide as Hb; [done|]. rewrite decide_True in He by done.
    by apply Hret, (op_executed (Touch a b)); [apply Hdo|..].
  - case_decide as Hal; [|done]. apply Hret, (op_executed (Remove p)); try done.
    apply (rm_does m (s_dir x) s (s_tree x)); try done. by rewrite Hdisk.
Qed.

Lemma exec_line_ok x' :
  exec_line s x = Some x' →
  ∃ m2, execute_command e hi fuel m = Ok (Returned m2) ∧ executed m x' m2.
Proof.
  intros He. destruct (decide (s = [])) as [Es|Hs].
  { exists m. unfold exec_line in He. destruct (split_last _) as [a b]. rewrite decide_True in He by done.
    injection He as <-. split.
    - unfold execute_command. by rewrite (en_pos _ _ Hen), Es.
    - by apply quiet_executed, quiet_refl; [apply Hm|]. }
  rewrite (execute_command_ok e hi fuel m s Hen Hs).
  destruct (decide (dispatch s = CmdCd)) as [Ec|Hc].
  { rewrite Ec. destruct (cd_executed x' Hs Ec He) as (m2 & H & ?). exists m2. cbn [run_command].
    by rewrite H. }
  unfold exec_line in He. fold p in He. pose proof (op_line_executed x') as Hop.
  destruct (split_last p) as [a b].
  rewrite decide_False in He by exact Hs.
  destruct (overflows (s_dir x) s) eqn:Ho; [done|].
  destruct (only_prints s) eqn:Hp.
  { injection He as <-. destruct (quiet_command m (s_dir x) s Hm Hd Hen Hx e hi fuel Ho Hp) as (m2 & H & ?).
    exists m2. split; [done|]. by apply quiet_executed. }
  rewrite decide_False in He by exact Hc.
  apply Hop; try done. intros Hw. unfold only_prints in Hp. rewrite Hw in Hp.
  destruct (dispatch s); done.
Qed.

End exec.

(** ** Keys *)

Lemma edits_entered t z : edits t z → entered t (line_of z).
Proof.
  intros [Hb Hp _ Hf Hc _]. split; [|done|].
  - split.
    + eapply Forall_impl; [|exact Hc]. intros c Ht. unfold typeable in Ht. unfold char_ok. zify_bool. lia.
    + rewrite Hb. exists (replicate (255 - length (line_of z)) 0). f_equal.
      by replace (256 - length (line_of z))%nat with (S (255 - length (line_of z))) by lia.
  - rewrite Hb, length_app, length_replicate. lia.
Qed.

Section session_keys.
Context (e : io_env) (hi : Z → Z) (fuel : nat).

(** The key [c] takes the machine from the state [x] to [x']. *)
Lemma edit_represents c m x x' :
  represents m x → c ≠ 10 → key c x = Some x' →
  ∃ m', terminal_key e hi fuel c m = Ok (Returned m') ∧ represents m' x' ∧
        keys m' = keys m ∧ reads (screen m') = reads (screen m).
Proof.
  intros [Hed Hrow Hsh Hok Hd Hdk Htr] Hc. unfold key. rewrite decide_False by done.
  case_decide as Hl; [|done]. intros [= <-]. destruct (s_line x) as [b a] eqn:Ez.
  destruct (key_edits e hi fuel m b a _ Hed Hsh Hrow c Hc Hl) as (m' & Hk & [He' Hs' _ _ Hd' Hk' Hdir]).
  destruct (key_reads _ _ _ _ _ _ Hc Hk) as [Hr Hcur]. exists m'. split; [done|].
  split; [|done]. destruct Hok as [Hv Hfs Hdr Hsz].
  split; cbn [s_line s_dir s_disk s_tree]; try done; [|split|by rewrite Hd'|by rewrite Hd'].
  - destruct Hs' as [? ? Hy]. by split.
  - destruct Hcur as [->|(x0 & y0 & u & Hu)]; [done|]. rewrite Hu.
    pose proof (sh_wf _ _ _ Hs') as Hwf. rewrite Hu in Hwf. split; [done|].
    rewrite crtc_cursor_set. destruct Hwf as [_ _ _ Hx0 Hy0]. simpl in *. apply Z.mod_small.
    unfold VGA_WIDTH, VGA_HEIGHT in *. lia.
  - by rewrite Hd'.
  - by rewrite Hdir.
  - by rewrite Hdir.
Qed.

Lemma enter_represents m x x' :
  represents m x → key 10 x = Some x' →
  ∃ m', terminal_key e hi fuel 10 m = Ok (Returned m') ∧ represents m' x' ∧
        keys m' = keys m ∧ reads (screen m') = reads (screen m).
Proof.
  intros [Hed Hrow Hsh Hok Hd Hdk Htr] Hkey. change (key 10 x) with (exec_line (line_of (s_line x)) x) in Hkey.
  destruct (newline_ok (screen m) (sh_wf _ _ _ Hsh)) as (v & Hv & Hvs & Hvx).
  assert (terminal_key e hi fuel 10 m = (v ← vga_putchar 10 (screen m);
    r ← execute_command e hi fuel (set_screen v m);
    match r with
    | Stopped m1 => Ok (Stopped m1)
    | Returned m1 =>
        t1 ← clear_buffer (tm m1); m2 ← printf TERMINAL_PROMPT [] (set_term t1 m1); Ok (Returned m2)
    end)) as -> by reflexivity.
  rewrite Hv. cbn [mbind outcome_bind]. apply putchar_reads in Hv.
  destruct (exec_line_ok e hi fuel (set_screen v m) (line_of (s_line x)) x) with (x' := x')
    as (m2 & -> & [Hln Hok2 Hd2 Hdk2 Htr2 Hx2 Hk2 Hr2 Hp2 Hb2]); try done.
  { by apply screen_ok. } { by apply edits_entered. }
  cbn [mbind outcome_bind]. rewrite clear_buffer_ok by done. cbn [mbind outcome_bind].
  destruct (prompt_ok (screen m2) (mo_screen _ _ Hok2) Hx2) as (w & Hw & Hws & Hwx & Hwr).
  unfold printf. cbn [screen set_term]. rewrite Hw. cbn [mbind outcome_bind].
  eexists. split; [done|]. cbn [screen set_screen keys set_term] in *.
  split; [|split; [done|congruence]]. destruct Hok2 as [_ Hfs Hdr Hsz].
  split; cbn [s_line s_dir s_disk s_tree tm screen disk set_screen set_term]; try done; rewrite ?Hln.
  - apply cleared_edits. rewrite Hp2. apply Hed.
  - simpl. lia.
  - split; [apply Hws|done|done].
Qed.

Lemma key_represents c m x x' :
  represents m x → key c x = Some x' →
  ∃ m', terminal_key e hi fuel c m = Ok (Returned m') ∧ represents m' x' ∧
        keys m' = keys m ∧ reads (screen m') = reads (screen m).
Proof.
  intros Hm Hk. destruct (decide (c = 10)) as [->|Hc];
    [by apply (enter_represents m x)|by apply (edit_represents c m x)].
Qed.

End session_keys.

(** ** The loop of the kernel *)

(** Reading the ports does not change what a machine represents. *)
Lemma represents_ports h k m x :
  represents m x → crtc_cursor h = crtc_cursor (ports (screen m)) →
  represents (Machine (tm m) (set_ports h (screen m)) (disk m) k) x.
Proof.
  intros [? ? [[] ? ?] [[[] Hc] ? ? ?] ? ? ?] Hh. split; try done. split; try done. split; [done|].
  cbn [screen set_ports ports cursor_x cursor_y]. by rewrite Hh.
Qed.

Lemma poll_cursor e n h : crtc_cursor (poll e n h) = crtc_cursor h.
Proof. revert h. induction n as [|n IH]; intros h; [done|]. cbn [poll]. by rewrite IH. Qed.

Section loop.
Context (e : io_env) (hi : Z → Z) (fuel : nat).
Context (Hready : ready e fuel).

(** One turn: the next scan code is decoded and its character handled. *)
Lemma turn_run sc c k m x :
  represents m x → (∀ h, data_reads h = reads (screen m) → fst (inb e 0x60 h) = sc) →
  keyboard_decode sc (keys m) = Ok (c, k) →
  ∃ m1, terminal_run e hi fuel m = terminal_key e hi fuel c m1 ∧ represents m1 x ∧
        keys m1 = k ∧ reads (screen m1) = S (reads (screen m)).
Proof.
  intros Hm Hsc Hd. unfold terminal_run, keyboard_read, keyboard_get_scancode.
  destruct (wait_ready e fuel (ports (screen m)) Hready) as (n & ->). cbn [mbind outcome_bind].
  set (h := poll e n (ports (screen m))).
  assert (data_reads h = reads (screen m)) as Hr by apply poll_reads.
  specialize (Hsc h Hr). destruct (inb e 0x60 h) as [v h1] eqn:Hin. simpl in Hsc. subst v.
  injection Hin as Hv Hh1. cbn [mbind outcome_bind]. rewrite Hd. cbn [mbind outcome_bind].
  eexists. split; [reflexivity|]. split; [|split; [done|]].
  - apply represents_ports; [done|]. rewrite <-Hh1. apply (poll_cursor e n).
  - cbn [screen]. unfold reads. cbn [ports set_ports]. rewrite <-Hh1. cbn. f_equal. apply Hr.
Qed.

Lemma loop_represents codes m x cs k x' :
  represents m x → delivers e (reads (screen m)) codes → decode_stream codes (keys m) = Ok (cs, k) →
  run_keys cs x = Some x' →
  ∃ m', kernel_loop e hi fuel (length codes) m = Ok (Returned m') ∧ represents m' x'.
Proof.
  revert m x cs. induction codes as [|sc codes IH]; intros m x cs Hm Hdel Hdec Hrun.
  { injection Hdec as <- _. injection Hrun as <-. by exists m. }
  apply delivers_cons in Hdel as [Hsc Hdel]. cbn [decode_stream] in Hdec.
  destruct (keyboard_decode sc (keys m)) as [[c k1]|] eqn:Ed; [|done]. cbn [mbind outcome_bind] in Hdec.
  destruct (decode_stream codes k1) as [[cs1 k2]|] eqn:Es; [|done]. injection Hdec as Hcs <-.
  cbn [kernel_loop length].
  destruct (turn_run sc c k1 m x Hm Hsc Ed) as (m1 & -> & Hm1 & <- & Hr1). rewrite <-Hr1 in Hdel.
  destruct (c =? 0) eqn:E0.
  - apply Z.eqb_eq in E0 as ->. subst cs1.
    change (terminal_key e hi fuel 0 m1) with (Ok (Returned m1)).
    cbn [mbind outcome_bind]. by apply (IH m1 x cs).
  - subst cs. cbn [run_keys] in Hrun. destruct (key c x) as [x1|] eqn:Ek; [|done].
    destruct (key_represents e hi fuel c m1 x x1 Hm1 Ek) as (m2 & -> & Hm2 & Hk2 & Hr2).
    cbn [mbind outcome_bind]. apply (IH m2 x1 cs1); try done; [by rewrite Hr2|by rewrite Hk2].
Qed.

End loop.

(** ** Properties *)


(** A keyboard that delivers the scan codes of a list one after the other.  The
    controller is busy for one poll after each of them. *)
Definition typist (codes : list Z) : io_env := devices (λ h port,
  if port =? 0x60 then default 0 (codes !! data_reads h)
  else match h with IoIn W8 0x60 _ :: _ => 2 | _ => 0 end).

Lemma typist_drains codes fuel : (0 < fuel)%nat → drains (typist codes) fuel.
Proof.
  intros Hf h. exists 0%nat. split; [done|]. cbn. repeat case_match; done.
Qed.

Lemma typist_ready codes fuel : (1 < fuel)%nat → ready (typist codes) fuel.
Proof.
  intros Hf h. exists 1%nat. split; [done|]. reflexivity.
Qed.

(** The scan codes of a command line, with Enter. *)
Definition type_line (s : string) : list Z := type_text (chars s) ++ [0x1C; 0x9C].

(** Four command lines; a wrong letter in the second one is taken back with the
    backspace key. *)
Definition sample_codes : list Z :=
  type_line "mkdir d" ++ type_text (chars "cf") ++ [0x0E; 0x8E] ++ type_line "d d" ++
  type_line "ls" ++ type_line "touch x".

Definition sample_keys : list Z :=
  chars "mkdir d" ++ [10] ++ chars "cf" ++ [8] ++ chars "d d" ++ [10] ++
  chars "ls" ++ [10] ++ chars "touch x" ++ [10].

Lemma typist_delivers : delivers (typist sample_codes) 0 sample_codes.
Proof.
  intros i sc h Hi Hh.
  assert (0 ≤ sc < 256) as Hr.
  { assert (Forall (λ c, 0 ≤ c < 256) sample_codes) as Hall by compute_decide.
    exact (Forall_lookup_1 _ _ _ _ Hall Hi). }
  unfold inb, typist. cbn [devices answer fst Z.eqb]. rewrite Hh. cbn [Nat.add]. rewrite Hi.
  cbn [default]. unfold u8. by apply Z.mod_small.
Qed.

(** The table after the boot. *)
Definition booted : machine :=
  match kernel_start (typist sample_codes) 2 dirty_machine with Ok m => m | Fault _ => dirty_machine end.

(** What is left of a session: the tree's entries and the directory. *)
Definition session_summary (x : session) : list (Z * list Z * file_type) * list Z :=
  (map (λ f, (parent_index f, name_of f, ftype f)) (live (s_disk x)), s_dir x).

Lemma sample_run :
  match run_keys sample_keys (Session ([], []) [] (disk booted) a_init) with
  | Some x => bool_decide (session_summary x =
      ([(0, [], FILE_TYPE_DIR); (0, chars "d", FILE_TYPE_DIR); (1, chars "x", FILE_TYPE_FILE)], chars "d"))
  | None => false
  end = true.
Proof. vm_compute. reflexivity. Qed.

Lemma booted_reads : reads (screen booted) = 0%nat.
Proof. vm_compute. reflexivity. Qed.

