(* ===== verification/Uefi.v ===== *)
(** * The UEFI loaders ([uefi_loader.c], [foxos_uefi.c], [src/uefi_bootloader.c],
    [src/uefitest.c])

    Each loader is a sequence of calls of firmware services.  The machine state
    is the log of the calls made so far, newest first.  The firmware is not code
    of the repository: it is a parameter [fw], the status and the output value
    it gives to a call after a given log, and [peek], the 64-bit word it has in
    memory at an address.  The output value is what the output variable of the
    caller holds afterwards, also when the call fails.  The call of the kernel's
    entry point is an event of the log. *)

From S2P Require Import Prelude.

(** ** Definitions *)

Record EFI_GUID := Guid { Data1 : Z; Data2 : Z; Data3 : Z; Data4 : list Z }.

Inductive call :=
| OutputString (str : list Z)
| HandleProtocol (handle : Z) (protocol : EFI_GUID)
| LocateProtocol (protocol : EFI_GUID)
| OpenVolume (fs : Z)
| Open (root : Z) (path : list Z) (mode attributes : Z)
| SetPosition (file position : Z)
| GetPosition (file : Z)
| GetInfo (file : Z) (type : EFI_GUID) (size buffer : Z)
| AllocatePool (type size : Z)
| AllocatePages (type memory_type pages : Z)
| FreePool (buffer : Z)
| Read (file size buffer : Z)
| Close (file : Z)
| ExitBootServices (image map_key : Z)
| EnterKernel (address : Z).

Abbreviation fw_log := (list call).

Definition loaded_image_guid : EFI_GUID :=
  Guid 0x5B1B31A1 0x9562 0x11d2 [0x8E; 0x3F; 0x00; 0xA0; 0xC9; 0x69; 0x72; 0x3B].
Definition file_system_guid : EFI_GUID :=
  Guid 0x964E5B22 0x6459 0x11D2 [0x8E; 0x39; 0x00; 0xA0; 0xC9; 0x69; 0x72; 0x3B].
(** The one of [uefi_bootloader.c]. *)
Definition boot_file_system_guid : EFI_GUID :=
  Guid 0x0964e5b2 0x6459 0x11d2 [0x8E; 0x39; 0x00; 0xA0; 0xC9; 0x69; 0x72; 0x3B].
Definition file_info_guid : EFI_GUID :=
  Guid 0x09576e92 0x6d3f 0x11d2 [0x8e; 0x39; 0x00; 0xa0; 0xc9; 0x69; 0x72; 0x3b].

(** [EFI_ERROR] of [Uefi.h]: the sign of the status. *)
Definition EFI_ERROR (status : Z) : bool := s64 status <? 0.

Definition EFI_SIZE_TO_PAGES (size : Z) : Z := Z.shiftr (u64 (size + 0xFFF)) 12.

(** A UTF-16 literal that ends with a line break. *)
Definition wide (s : string) : list Z := chars s ++ [13; 10; 0].

Section loaders.
Context (fw : fw_log → call → Z * Z) (peek : fw_log → Z → Z).

(** A call of the firmware: its status, the output value, and the new log. *)
Definition invoke (c : call) (h : fw_log) : Z * Z * fw_log :=
  let '(s, o) := fw h c in (u64 s, u64 o, c :: h).

(** A call whose status and output are ignored. *)
Definition ignore (c : call) (h : fw_log) : fw_log := snd (invoke c h).

Definition output (s : string) (h : fw_log) : fw_log := ignore (OutputString (wide s)) h.

(** [uefitest.c] *)
Definition test_main (h : fw_log) : Z * fw_log := (0, output "Hello World!" h).

(** [uefi_loader.c]; [DeviceHandle] is at offset 24 of the loaded image.  The
    declaration of [errorStr] also declares a second variable [status], which
    hides the first one and is not initialised: [garbage] is its value. *)
Definition loader_main (garbage ImageHandle : Z) (h : fw_log) : Z * fw_log :=
  let h := output "Hello World!" h in
  let '(status, LoadedImage, h) := invoke (HandleProtocol ImageHandle loaded_image_guid) h in
  if EFI_ERROR status then (garbage, output "Error getting LoadedImageProtocol: " h)
  else
  let h := output "Got LoadedImageProtocol" h in
  let '(status, FileSystem, h) :=
    invoke (HandleProtocol (peek h (LoadedImage + 24)) file_system_guid) h in
  if negb (status =? 0) then (status, output "Error getting FileSystemProtocol" h)
  else
  let '(status, Root, h) := invoke (OpenVolume FileSystem) h in
  if negb (status =? 0) then (status, output "Error opening volume" h)
  else
  let '(status, KernelFile, h) :=
    invoke (Open Root (lit "\EFI\FOXOS\kernel.bin") 1 0) h in
  if negb (status =? 0) then
    (status, ignore (Close Root) (output "Error opening kernel file" h))
  else
  let h := ignore (SetPosition KernelFile 0xFFFFFFFFFFFFFFFF) h in
  let '(_, fileSize, h) := invoke (GetPosition KernelFile) h in
  let h := ignore (SetPosition KernelFile 0) h in
  let '(status, kernelBuffer, h) := invoke (AllocatePool 1 fileSize) h in
  if negb (status =? 0) then
    (status, ignore (Close Root) (ignore (Close KernelFile) (output "Memory allocation failed" h)))
  else
  let '(status, readSize, h) := invoke (Read KernelFile fileSize kernelBuffer) h in
  if negb (status =? 0) || negb (readSize =? fileSize) then
    (status, ignore (Close Root) (ignore (Close KernelFile)
               (ignore (FreePool kernelBuffer) (output "Error reading kernel file" h))))
  else
  let h := ignore (Close Root) (ignore (Close KernelFile) h) in
  (0, output "Kernel loaded successfully!" h).

(** [foxos_uefi.c]; [garbage] is the uninitialised [file_size]. *)
Definition foxos_main (garbage : Z) (h : fw_log) : Z * fw_log :=
  let h := output "Hello World!" h in
  let h := output "Starting FoxOS UEFI" h in
  let '(status, fs, h) := invoke (LocateProtocol file_system_guid) h in
  if negb (status =? 0) then (status, h)
  else
  let h := output "Loaded Simple File System Protocol" h in
  let '(status, root, h) := invoke (OpenVolume fs) h in
  if negb (status =? 0) then (status, h)
  else
  let h := output "Opened Root Volume" h in
  let '(status, kernel_file, h) := invoke (Open root (lit "/EFI/FOXOS/kernel.bin") 1 0) h in
  if negb (status =? 0) then (status, h)
  else
  let h := output "Opened Kernel File" h in
  let '(_, file_size, h) := invoke (GetInfo kernel_file file_info_guid garbage 0) h in
  let '(_, kernel_buffer, h) := invoke (AllocatePool 0 file_size) h in
  let h := ignore (Read kernel_file file_size kernel_buffer) h in
  let h := output "Read Kernel File" h in
  (0, EnterKernel kernel_buffer :: h).

(** [Print] of [uefi_bootloader.c]: at most 255 characters, widened, in a buffer
    of zeros.  The test reads [str[i]] before the bound. *)
Fixpoint print_copy (fuel : nat) (str buf : list Z) (i : Z) : outcome (list Z) :=
  match fuel with
  | O => Fault OutOfFuel
  | S fuel' =>
      c ← arr_get str i;
      if negb (c =? 0) && (i <? 255) then
        buf' ← arr_set buf i (u16 c); print_copy fuel' str buf' (i + 1)
      else Ok buf
  end.

Definition Print (str : list Z) (h : fw_log) : outcome fw_log :=
  buf ← print_copy 257 str (replicate 256 0) 0;
  Ok (ignore (OutputString buf) h).

(** A message, then the end of the loader with [status]. *)
Definition fail (s : string) (status : Z) (h : fw_log) : outcome (Z * fw_log) :=
  h1 ← Print (wide s) h; Ok (status, h1).

(** [uefi_bootloader.c]; [ParentHandle] is at offset 8 of the loaded image.
    After [KernelEntry] returned, the first word of the buffer is compared. *)
Definition boot_main (ImageHandle : Z) (h : fw_log) : outcome (Z * fw_log) :=
  h ← Print (wide "Bootloader started") h;
  let '(status, LoadedImage, h) := invoke (HandleProtocol ImageHandle loaded_image_guid) h in
  if negb (status =? 0) then fail "Error: HandleProtocol 1" status h
  else
  let '(status, FS, h) :=
    invoke (HandleProtocol (peek h (LoadedImage + 8)) boot_file_system_guid) h in
  if negb (status =? 0) then fail "Error: HandleProtocol 2" status h
  else
  let '(status, Root, h) := invoke (OpenVolume FS) h in
  if negb (status =? 0) then fail "Error: OpenVolume" status h
  else
  h ← Print (wide "Volume opened") h;
  let '(status, KernelFile, h) := invoke (Open Root (lit "EFI\FOXOS\kernel.bin") 1 0) h in
  if negb (status =? 0) then fail "Error: Open kernel.bin" status h
  else
  h ← Print (wide "Kernel file opened") h;
  let '(status, info_size, h) := invoke (GetInfo KernelFile file_info_guid 0 0) h in
  if negb (status =? 0x8000000000000005) then fail "Error: GetInfo 1" status h
  else
  let '(status, file_info, h) := invoke (AllocatePages 1 2 (EFI_SIZE_TO_PAGES info_size)) h in
  if negb (status =? 0) then fail "Error: AllocatePages 1" status h
  else
  let '(status, _, h) := invoke (GetInfo KernelFile file_info_guid info_size file_info) h in
  if negb (status =? 0) then fail "Error: GetInfo 2" status h
  else
  let file_size := u64 (peek h (file_info + 32)) in
  h ← Print (wide "Kernel size detected") h;
  let '(status, kernel_buffer, h) := invoke (AllocatePages 1 1 (EFI_SIZE_TO_PAGES file_size)) h in
  if negb (status =? 0) then fail "Error: AllocatePages 2" status h
  else
  h ← Print (wide "Memory allocated") h;
  let '(status, _, h) := invoke (Read KernelFile file_size kernel_buffer) h in
  if negb (status =? 0) then fail "Error: Read kernel" status h
  else
  h ← Print (wide "Kernel loaded") h;
  h ← Print (wide "Attempting ExitBootServices") h;
  let '(status, _, h) := invoke (ExitBootServices ImageHandle 0) h in
  if negb (status =? 0) then fail "ExitBootServices FAILED" status h
  else
  h ← Print (wide "Jumping to kernel...") h;
  let h := EnterKernel kernel_buffer :: h in
  if negb (u64 (peek h kernel_buffer) =? 0x0000FFFFB8C30000)
  then fail "Invalid kernel signature" 0x8000000000000001 h
  else Ok (0, h).

(** ** Specifications *)

(** The status of a call after a log. *)
Definition status_of (h : fw_log) (c : call) : Z := u64 (fst (fw h c)).
Definition output_of (h : fw_log) (c : call) : Z := u64 (snd (fw h c)).

Fixpoint remove_one (x : Z) (l : list Z) : list Z :=
  match l with
  | [] => []
  | y :: l' => if x =? y then l' else y :: remove_one x l'
  end.

(** The file handles open after a log: opened successfully and not closed. *)
Fixpoint open_files (h : fw_log) : list Z :=
  match h with
  | [] => []
  | c :: h' =>
      match c with
      | OpenVolume _ | Open _ _ _ _ =>
          if status_of h' c =? 0 then output_of h' c :: open_files h' else open_files h'
      | Close f => remove_one f (open_files h')
      | _ => open_files h'
      end
  end.

(** The pool buffers allocated after a log and not freed. *)
Fixpoint pool (h : fw_log) : list Z :=
  match h with
  | [] => []
  | c :: h' =>
      match c with
      | AllocatePool _ _ =>
          if status_of h' c =? 0 then output_of h' c :: pool h' else pool h'
      | FreePool b => remove_one b (pool h')
      | _ => pool h'
      end
  end.

(** ** Lemmas *)

Lemma invoke_eq c h : invoke c h = (status_of h c, output_of h c, c :: h).
Proof. unfold invoke, status_of, output_of. by destruct (fw h c). Qed.

Lemma invoke_spec c h :
  ∃ s o, invoke c h = (s, o, c :: h) ∧ status_of h c = s ∧ output_of h c = o.
Proof. rewrite invoke_eq. by eexists _, _. Qed.

Lemma ignore_eq c h : ignore c h = c :: h.
Proof. unfold ignore. by rewrite invoke_eq. Qed.

Lemma remove_one_head x l : remove_one x (x :: l) = l.
Proof. simpl. by rewrite Z.eqb_refl. Qed.

(** The next call of a loader, with the ignored calls before it: [s] is its
    status, [o] its output. *)
Ltac next_call s o :=
  rewrite ?ignore_eq;
  match goal with |- context [invoke ?c ?h] =>
    let He := fresh in let Hs := fresh "Hs" in let Ho := fresh "Ho" in
    destruct (invoke_spec c h) as (s & o & He & Hs & Ho); rewrite He; clear He
  end; cbv beta iota zeta; rewrite ?ignore_eq.

(** The status [s] is 0 by the hypothesis [H]; the output [o] is known by [H]. *)
Ltac succeeds H s :=
  match goal with K : status_of _ _ = s |- _ => rewrite H in K; subst s end; cbn [negb Z.eqb].
Ltac delivers H o :=
  match goal with K : output_of _ _ = o |- _ => rewrite H in K; subst o end.

(** The resources at the end of a log whose statuses and outputs are known. *)
Ltac balance :=
  repeat (cbn [open_files pool];
    repeat match goal with
    | H : status_of ?h ?c = _ |- context [status_of ?h ?c] => rewrite H
    | H : output_of ?h ?c = _ |- context [output_of ?h ?c] => rewrite H
    | H : (?s =? 0) = _ |- context [?s =? 0] => rewrite H
    end; rewrite ?remove_one_head); done.

Ltac released := cbn [negb orb]; rewrite ?ignore_eq; cbv beta iota zeta; split; [balance|left; balance].

(** ** [uefi_loader.c] *)

(** C29: The loader of [uefi_loader.c] releases what it acquires, whatever the
    firmware answers: when it returns, every file handle it opened has been
    closed, and either no pool buffer is left or only the kernel buffer is; in
    the second case the read of the kernel delivered the whole file and the
    loader returns 0. *)
Theorem loader_balanced garbage image :
  let '(status, h) := loader_main garbage image [] in
  open_files h = [] ∧
  (pool h = [] ∨
   ∃ b n f h', pool h = [b] ∧ status = 0 ∧ Read f n b :: h' `suffix_of` h ∧
     status_of h' (Read f n b) = 0 ∧ output_of h' (Read f n b) = n).
Proof.
  unfold loader_main, output. next_call s1 image1. destruct (EFI_ERROR s1); [released|].
  next_call s2 fs. destruct (s2 =? 0) eqn:E2; [|released]. cbn [negb].
  next_call s3 root. destruct (s3 =? 0) eqn:E3; [|released]. cbn [negb].
  next_call s4 file. destruct (s4 =? 0) eqn:E4; [|released]. cbn [negb].
  next_call s5 len. next_call s6 buf. destruct (s6 =? 0) eqn:E6; [|released]. cbn [negb].
  next_call s7 n. destruct (s7 =? 0) eqn:E7; [|released].
  destruct (Z.eqb_spec n len) as [->|Hn]; [|released].
  cbn [negb orb]. rewrite ?ignore_eq. cbv beta iota zeta. split; [balance|right].
  eexists buf, len, file, _. split; [balance|]. split; [done|].
  split; [exists [OutputString (wide "Kernel loaded successfully!"); Close root; Close file]; reflexivity|].
  split; [|done]. apply Z.eqb_eq in E7. by subst.
Qed.

(** On a failure of the first call the loader returns the hidden, uninitialised
    [status], not the status of the call. *)
Lemma loader_hides_status garbage image :
  (∀ h, EFI_ERROR (status_of h (HandleProtocol image loaded_image_guid)) = true) →
  fst (loader_main garbage image []) = garbage.
Proof.
  intros H. unfold loader_main, output. next_call s1 image1. subst s1. by rewrite H.
Qed.

(** What happens in a run of the loader up to the read, as hypotheses on the
    firmware: every call succeeds, the file has [n] bytes and the read delivers
    [k] of them. *)
Definition reads (k n : Z) : Prop :=
  (∀ h c, status_of h c = 0) ∧ (∀ h f, output_of h (GetPosition f) = n) ∧
  (∀ h f m b, output_of h (Read f m b) = k).

(** C39: A short read is reported on the screen but not to the caller: when every
    firmware call succeeds and [Read] delivers fewer bytes than the file has,
    the loader prints an error and frees the buffer, but returns 0, the status
    of a successful load. *)
Theorem loader_short_read garbage image k n :
  reads k n → k < n →
  ∃ h, loader_main garbage image [] = (0, h) ∧ pool h = [] ∧
       OutputString (wide "Error reading kernel file") ∈ h ∧
       OutputString (wide "Kernel loaded successfully!") ∉ h.
Proof.
  intros (Hst & Hpos & Hread) Hkn. unfold loader_main, output.
  next_call s1 image1. succeeds Hst s1. change (EFI_ERROR 0) with false. cbn iota.
  next_call s2 fs. succeeds Hst s2. next_call s3 root. succeeds Hst s3.
  next_call s4 file. succeeds Hst s4. next_call s5 len. delivers Hpos len.
  next_call s6 buf. succeeds Hst s6. next_call s7 r. succeeds Hst s7. delivers Hread r.
  rewrite (proj2 (Z.eqb_neq k n)) by lia. cbn [negb Z.eqb orb]. eexists. split; [done|].
  split; [cbn [pool]; rewrite Hst; cbn [Z.eqb]; balance|]. split.
  - do 3 (apply elem_of_cons; right). by left.
  - repeat (apply not_elem_of_cons; split; [discriminate|]). apply not_elem_of_nil.
Qed.

(** ** [foxos_uefi.c] *)

(** C40: [foxos_uefi.c] starts the kernel without looking at the status of the
    calls that load it: once the kernel file is open, the kernel is entered at
    whatever address the buffer variable holds, also when the size could not be
    determined, no memory could be allocated and nothing could be read. *)
Theorem foxos_enters_unchecked garbage :
  (∀ h, status_of h (LocateProtocol file_system_guid) = 0) →
  (∀ h f, status_of h (OpenVolume f) = 0) →
  (∀ h r p m a, status_of h (Open r p m a) = 0) →
  ∃ buf len file h, foxos_main garbage [] =
    (0, EnterKernel buf :: OutputString (wide "Read Kernel File") :: Read file len buf
        :: AllocatePool 0 len :: GetInfo file file_info_guid garbage 0 :: h) ∧
    len = output_of h (GetInfo file file_info_guid garbage 0) ∧
    buf = output_of (GetInfo file file_info_guid garbage 0 :: h) (AllocatePool 0 len).
Proof.
  intros H1 H2 H3. unfold foxos_main, output.
  next_call s1 fs. succeeds H1 s1. next_call s2 root. succeeds H2 s2.
  next_call s3 file. succeeds H3 s3.
  next_call s4 len. next_call s5 buf. rewrite ?ignore_eq.
  eexists buf, len, file, _. split; [done|]. by subst.
Qed.

(** ** [uefi_bootloader.c] *)

Lemma print_copy_ok (t rest buf : list Z) (i : nat) fuel str :
  str = t ++ 0 :: rest → (i ≤ length t)%nat → (length t ≤ 255)%nat →
  Forall (λ c, 0 < c < 65536) t → length buf = 256%nat → (length t - i < fuel)%nat →
  print_copy fuel str buf (Z.of_nat i) = Ok (splice buf i (drop i t)).
Proof.
  intros -> Hi Ht Hc. revert i buf Hi. induction fuel as [|fuel IH]; intros i buf Hi Hb Hf; [lia|].
  cbn [print_copy]. destruct (decide (i = length t)) as [->|Hne].
  - rewrite (arr_get_lookup _ _ 0) by (by apply list_lookup_middle). cbn [mbind outcome_bind Z.eqb negb andb].
    by rewrite drop_ge, splice_nil by lia.
  - destruct (lookup_lt_is_Some_2 t i) as [c Hci]; [lia|].
    rewrite (arr_get_lookup _ _ c) by (by apply lookup_app_l_Some). cbn [mbind outcome_bind].
    pose proof (Forall_lookup_1 _ _ _ _ Hc Hci) as Hcr. simpl in Hcr.
    rewrite (proj2 (Z.eqb_neq c 0)), (proj2 (Z.ltb_lt (Z.of_nat i) 255)) by lia. cbn [negb andb].
    rewrite arr_set_in by lia. cbn [mbind outcome_bind]. rewrite Nat2Z.id.
    replace (Z.of_nat i + 1) with (Z.of_nat (S i)) by lia.
    rewrite IH by (rewrite ?length_insert; lia). f_equal. unfold u16. rewrite Z.mod_small by lia.
    rewrite (drop_S t c i Hci). apply splice_cons. rewrite length_drop. lia.
Qed.

Lemma Print_ok (s : string) h :
  bool_decide (Forall (λ c, 0 < c < 65536) (chars s ++ [13; 10])) = true →
  (length (chars s) ≤ 253)%nat →
  Print (wide s) h
  = Ok (OutputString (chars s ++ [13; 10] ++ replicate (254 - length (chars s)) 0) :: h).
Proof.
  intros Hc%bool_decide_eq_true_1 Hl. unfold Print.
  pose proof (print_copy_ok (chars s ++ [13; 10]) [] (replicate 256 0) 0 257 (wide s)) as Hp.
  change (Z.of_nat 0) with 0 in Hp. rewrite Hp; [..|apply length_replicate|];
    [|unfold wide; by rewrite <-app_assoc|lia|rewrite length_app; simpl; lia|done
     |rewrite length_app; simpl; lia].
  cbn [mbind outcome_bind]. rewrite ignore_eq, drop_0. unfold splice. simpl take. cbn [app].
  rewrite drop_replicate. replace (256 - (0 + length (chars s ++ [13%Z; 10%Z])))%nat
    with (254 - length (chars s))%nat by (rewrite length_app; simpl; lia).
  by rewrite <-app_assoc.
Qed.

(** The message of [Print] as the firmware gets it. *)
Definition message (s : string) : call :=
  OutputString (chars s ++ [13; 10] ++ replicate (254 - length (chars s)) 0).

(** The kernel is not entered in a log. *)
Definition stays_out (h : fw_log) : Prop := ∀ a, EnterKernel a ∉ h.

Lemma stays_out_cons c h : (∀ a, c ≠ EnterKernel a) → stays_out h → stays_out (c :: h).
Proof. intros Hc Hh a. apply not_elem_of_cons. split; [congruence|apply Hh]. Qed.

Lemma fail_ok (s : string) status h :
  bool_decide (Forall (λ c, 0 < c < 65536) (chars s ++ [13; 10])) = true →
  (length (chars s) ≤ 253)%nat → fail s status h = Ok (status, message s :: h).
Proof. intros Hc Hl. unfold fail. by rewrite Print_ok. Qed.

(** The word the boot loader takes for the signature of a kernel. *)
Definition signature : Z := 0x0000FFFFB8C30000.

(** A run that does not enter the kernel: the last call, [c], was answered with
    the status that is returned, and a message was printed; the status is an
    error, unless [c] is the first [GetInfo]. *)
Definition gave_up (status : Z) (h : fw_log) : Prop :=
  ∃ c msg h', h = message msg :: c :: h' ∧ stays_out h ∧ status = status_of h' c ∧
    (status ≠ 0 ∨ ∃ file, c = GetInfo file file_info_guid 0 0).

(** A run that enters the kernel, in the buffer that [AllocatePages] gave for it:
    after [ExitBootServices] succeeded and one more message.  The word at the
    start of the buffer, read after the kernel has returned, decides the
    result. *)
Definition entered_kernel (image status : Z) (h : fw_log) : Prop :=
  ∃ a pages h0 h1 h2,
    h = h2 ++ EnterKernel a :: message "Jumping to kernel..." :: ExitBootServices image 0 :: h1 ∧
    stays_out h1 ∧ status_of h1 (ExitBootServices image 0) = 0 ∧
    AllocatePages 1 1 pages :: h0 `suffix_of` h1 ∧
    status_of h0 (AllocatePages 1 1 pages) = 0 ∧ a = output_of h0 (AllocatePages 1 1 pages) ∧
    if u64 (peek (EnterKernel a :: message "Jumping to kernel..." :: ExitBootServices image 0 :: h1) a)
       =? signature
    then h2 = [] ∧ status = 0
    else h2 = [message "Invalid kernel signature"] ∧ status = 0x8000000000000001.

Definition boot_result (image : Z) (o : outcome (Z * fw_log)) : Prop :=
  ∃ status h, o = Ok (status, h) ∧ (gave_up status h ∨ entered_kernel image status h).

Lemma fail_result image (s : string) status c h :
  bool_decide (Forall (λ c, 0 < c < 65536) (chars s ++ [13; 10])) = true →
  (length (chars s) ≤ 253)%nat → stays_out (c :: h) → status_of h c = status →
  (status ≠ 0 ∨ ∃ file, c = GetInfo file file_info_guid 0 0) →
  boot_result image (fail s status (c :: h)).
Proof.
  intros Hc Hl Hh Hst Hs. rewrite fail_ok by done. eexists _, _. split; [done|]. left.
  eexists c, s, h. split; [done|]. split; [by apply stays_out_cons|]. by split.
Qed.

(** One message of the boot loader, and one call with its error exit. *)
Ltac print_step := rewrite Print_ok by (done || (simpl; lia)); cbn [mbind outcome_bind].
Ltac no_entry := repeat (apply stays_out_cons; [done|]); intros ?; apply not_elem_of_nil.
Ltac boot_call s o :=
  next_call s o;
  destruct (Z.eqb_spec s 0) as [?|?]; cbn [negb];
  [subst s|apply fail_result; [done|simpl; lia|no_entry|assumption|auto]].

(** C30: The boot loader of [uefi_bootloader.c], whatever the firmware answers: it
    always ends, and never overruns the buffer of its messages.  Either it does
    not enter the kernel: then it printed a message and returns the status of the
    last call, which is not 0 (but may be 0 if it is that of the first [GetInfo],
    for which every status but [EFI_BUFFER_TOO_SMALL] counts as a failure).  Or it
    enters the kernel once, at the address of the pages allocated for it, after
    [ExitBootServices] succeeded.  In every run of the second kind a message goes
    to the console service after the boot services have been left, and only after
    the kernel has returned is the first word of the buffer compared with the
    signature: if it is the signature the loader returns 0, else it prints a
    message and returns the code 0x8000000000000001. *)
Theorem boot_main_result image : boot_result image (boot_main image []).
Proof.
  unfold boot_main. print_step.
  boot_call st1 li. boot_call st2 vol. boot_call st3 root. print_step. boot_call st4 file. print_step.
  next_call st5 isz. destruct (Z.eqb_spec st5 0x8000000000000005) as [->|H5]; cbn [negb].
  2:{ apply fail_result; [done|simpl; lia|no_entry|assumption|right; by eexists]. }
  boot_call st6 fi. boot_call st7 u7. print_step. next_call st8 buf.
  destruct (Z.eqb_spec st8 0) as [->|?]; cbn [negb];
    [|apply fail_result; [done|simpl; lia|no_entry|assumption|auto]].
  match goal with H : status_of ?h (AllocatePages 1 1 ?n) = 0 |- _ => set (h0 := h) in *; set (pages := n) in * end.
  print_step. boot_call st9 u9. do 2 print_step. boot_call st10 u10. print_step.
  match goal with |- context [EnterKernel buf :: _ :: _ :: ?h] => set (h1 := h) in * end.
  assert (stays_out h1) as Hout by no_entry.
  assert (AllocatePages 1 1 pages :: h0 `suffix_of` h1) as Hsuf
    by (eexists [_; _; _; _]; reflexivity).
  fold signature. case_bool; [rewrite fail_ok by (done || (simpl; lia))|]; eexists _, _; (split; [done|]); right.
  - exists buf, pages, h0, h1, [message "Invalid kernel signature"]. do 6 (split; [done|]).
    rewrite (proj2 (Z.eqb_neq _ _)); done.
  - exists buf, pages, h0, h1, []. do 6 (split; [done|]).
    rewrite (proj2 (Z.eqb_eq _ _)); done.
Qed.

End loaders.

(** ** Witnesses *)

(** A firmware whose calls all succeed, with a file of five bytes of which a read
    delivers three. *)
Definition short_fw (h : fw_log) (c : call) : Z * Z :=
  match c with GetPosition _ => (0, 5) | Read _ _ _ => (0, 3) | _ => (0, 1) end.

Lemma loader_short_read_witness :
  ∃ h, loader_main short_fw (λ _ _, 0) 7 1 [] = (0, h) ∧ pool short_fw h = [] ∧
       OutputString (wide "Error reading kernel file") ∈ h ∧
       OutputString (wide "Kernel loaded successfully!") ∉ h.
Proof.
  apply (loader_short_read short_fw (λ _ _, 0) 7 1 3 5); [|lia].
  split; [intros h []; reflexivity|]. split; intros; reflexivity.
Defined.

(** A firmware that opens the file and then fails every call. *)
Definition failing_fw (h : fw_log) (c : call) : Z * Z :=
  match c with
  | LocateProtocol _ | OpenVolume _ | Open _ _ _ _ => (0, 1)
  | _ => (0x800000000000000E, 0xBAD)
  end.

Lemma foxos_enters_unchecked_witness :
  ∃ buf len file h, foxos_main failing_fw 9 [] =
    (0, EnterKernel buf :: OutputString (wide "Read Kernel File") :: Read file len buf
        :: AllocatePool 0 len :: GetInfo file file_info_guid 9 0 :: h) ∧
    len = output_of failing_fw h (GetInfo file file_info_guid 9 0) ∧
    buf = output_of failing_fw (GetInfo file file_info_guid 9 0 :: h) (AllocatePool 0 len).
Proof. apply (foxos_enters_unchecked failing_fw 9); intros; reflexivity. Defined.
